(** * Personal Investment Tracker: aggregation, simulation, refresh and
    asset management

    A shallow embedding of [src/app.py] (the Flask application) and of the
    tables and constraints declared in [src/init_db.py].

    Modelling conventions.
    - In the exact model Python numbers (SQLite REAL columns,
      [float(...)] results) are exact rationals [Q]; equality of computed
      numbers is [Qeq] ([==]).  It has no rounding, no infinity and no
      [nan]: what is proved in it holds of the code as far as its
      arithmetic is exact and its numbers are finite.
    - The code whose outcome changes on [inf] or [nan] (the percentage of
      an asset, the two rankings, the snapshot step) is embedded a second
      time over [Float.t]: finite floats, the two infinities and [nan],
      with the comparisons of IEEE 754 and arithmetic that rounds.
    - An integer bound to a statement must fit SQLite's 64-bit INTEGER:
      [sqlite3] raises [OverflowError] otherwise ([select_by_id], in the
      two simulations and in [edit_asset]).
    - A nullable column or a Python value that may be [None] is an [option].
    - Python's [/] raises [ZeroDivisionError] on a zero divisor: [py_div]
      returns in the [result] error monad, and every function that divides
      lives in that monad.
    - The [dict] objects of [all_assets_detailed] are shared by several
      lists and mutated after being ranked, so they live in a [heap] and the
      lists hold references into it.
    - The SQLite store is a record of row lists; every query is a list
      function.  In the asset and user routes a statement that a [UNIQUE]
      constraint refuses makes [query_db] return [None]
      ([execute_on_assets], [execute_on_users]); other failures of the
      store and the settings table are not modelled.  The id that
      [AUTOINCREMENT] gives an inserted row is an argument of the handler
      that inserts.
    - A form string is classified by what the handler does with it
      ([form_field]): falsy, rejected by [int]/[float], or parsed. *)

From Stdlib Require Import List String ZArith QArith Bool Lia Lqa.
From Stdlib Require Import Permutation Sorted.
Import ListNotations.
Open Scope Q_scope.

Set Implicit Arguments.

(** ** Python runtime *)

Inductive exn : Type :=
| ZeroDivisionError
| ValueError
| OverflowError.

Inductive result (A : Type) : Type :=
| Ok (a : A)
| Raise (e : exn).

Arguments Ok {A} a.
Arguments Raise {A} e.

Definition bind {A B : Type} (c : result A) (k : A -> result B) : result B :=
  match c with
  | Ok a => k a
  | Raise e => Raise e
  end.

Notation "x <- c ;; k" := (bind c (fun x => k))
  (at level 61, c at next level, right associativity).
Notation "' pat <- c ;; k" := (bind c (fun x => match x with pat => k end))
  (at level 61, pat pattern, c at next level, right associativity).

(** [a / b] on Python floats. *)
Definition py_div (a b : Q) : result Q :=
  if Qeq_bool b 0 then Raise ZeroDivisionError else Ok (a / b).

(** [a > b] and [a <= b] on numbers. *)
Definition py_gt (a b : Q) : bool := negb (Qle_bool a b).
Definition py_le (a b : Q) : bool := Qle_bool a b.
Definition py_lt (a b : Q) : bool := negb (Qle_bool b a).

(** [x or 0.0] where [x] is a number or [None]. *)
Definition or_zero (x : option Q) : Q :=
  match x with
  | Some q => if Qeq_bool q 0 then 0 else q
  | None => 0
  end.

(** [x or 0.0] where [x] is a number. *)
Definition num_or_zero (x : Q) : Q := if Qeq_bool x 0 then 0 else x.

(** [(num / den) * 100 if den > 0 else 0.0] and its statement form
    [if den > 0: ... else: ... = 0.0]. *)
Definition percent_if_positive (num den : Q) : result Q :=
  if py_gt den 0 then (r <- py_div num den ;; Ok (r * 100)) else Ok 0.

(** The sum of a list, which the accumulators of the loops are compared
    with. *)
Fixpoint Qsum (l : list Q) : Q :=
  match l with
  | [] => 0
  | x :: l' => x + Qsum l'
  end.

(** ** Stable sorting

    [sorted(l, key=..., reverse=True)] is specified by Python to be stable;
    it is modelled by a stable insertion sort.  [before x y] says that [x]
    may stay in front of [y]. *)

Section StableSort.
Variable A : Type.
Variable before : A -> A -> bool.

Fixpoint insert_sorted (x : A) (l : list A) : list A :=
  match l with
  | [] => [x]
  | y :: l' => if before x y then x :: l else y :: insert_sorted x l'
  end.

Definition stable_sort (l : list A) : list A :=
  fold_right insert_sorted [] l.

End StableSort.

(** [sorted(l, key=key, reverse=True)]. *)
Definition sorted_reverse {A : Type} (key : A -> Q) (l : list A) : list A :=
  stable_sort (fun x y => Qle_bool (key y) (key x)) l.

(** [ORDER BY name] on a text column. *)
Definition order_by {A : Type} (name : A -> string) (l : list A) : list A :=
  stable_sort (fun x y => String.leb (name x) (name y)) l.

(** ** Persistent store (schema of [init_db.py]) *)

Module User.
Record row : Type := { user_id : Z; name : string }.
End User.

Module Platform.
Record row : Type := { platform_id : Z; name : string }.
End Platform.

Module Account.
Record row : Type := {
  account_id : Z;
  user_id : Z;
  platform_id : Z;
  account_type : string;
  account_name : string;
  cash_balance : option Q
}.
End Account.

Module Asset.
Record row : Type := {
  asset_id : Z;
  account_id : Z;
  ticker_symbol : string;
  name : option string;
  quantity : option Q;
  average_cost : option Q;
  total_invested : option Q;
  current_price : option Q;
  price_yesterday : option Q;
  fifty_two_week_high : option Q;
  fifty_two_week_low : option Q
}.
End Asset.

(** A [portfolio_history] row: [(snapshot_date, total_portfolio_value)]. *)
Definition snapshot : Type := (string * Q)%type.

Record database : Type := {
  users : list User.row;
  platforms : list Platform.row;
  accounts : list Account.row;
  assets : list Asset.row;
  portfolio_history : list snapshot
}.

(** ** Market data gateway (the [yfinance] package)

    A value found in the provider's [info] dictionary. *)
Inductive pyval : Type :=
| PyNone
| PyNum (q : Q)
| PyStr (s : string).

(** The keys of [ticker.info] the application reads; [None] is an absent
    key, [Some PyNone] a key bound to [None]. *)
Module Info.
Record t : Type := {
  currentPrice : option pyval;
  regularMarketPreviousClose : option pyval;
  bid : option pyval;
  ask : option pyval;
  previousClose : option pyval;
  fiftyTwoWeekHigh : option pyval;
  fiftyTwoWeekLow : option pyval;
  shortName : option string;
  longName : option string
}.
End Info.

(** What the provider answers for a ticker.  [None] is a raised exception.
    [ticker] gives [ticker.info] and the closes of [ticker.history("5d")];
    [history_1y] gives the rows of the one-year daily history. *)
Record yfinance : Type := {
  ticker : string -> option (Info.t * list Q);
  history_1y : string -> option (list (string * Q))
}.

(** [d.get(k)] and [d.get(k, default)]. *)
Definition get (v : option pyval) : pyval :=
  match v with
  | Some x => x
  | None => PyNone
  end.

Definition get_default (v : option pyval) (default : pyval) : pyval :=
  match v with
  | Some x => x
  | None => default
  end.

(** [a or b] on names. *)
Definition truthy_name (s : option string) : bool :=
  match s with
  | Some s => negb (String.eqb s EmptyString)
  | None => false
  end.

Definition name_or (a b : option string) : option string :=
  if truthy_name a then a else b.

(** The coercion loop of [fetch_market_data]: a value that is neither
    [None] nor a number becomes [None]. *)
Definition numeric_or_none (v : pyval) : option Q :=
  match v with
  | PyNum q => Some q
  | PyNone => None
  | PyStr _ => None
  end.

Module MarketData.
Record t : Type := {
  current_price : option Q;
  price_yesterday : option Q;
  fifty_two_week_high : option Q;
  fifty_two_week_low : option Q;
  name : option string
}.
End MarketData.

(** [hist['Close'].iloc[-1]] and [.iloc[-2]]. *)
Definition iloc_last (hist : list Q) : option Q :=
  match hist with
  | [] => None
  | c :: _ => Some (last hist c)
  end.

Definition iloc_second_last (hist : list Q) : option Q :=
  match rev hist with
  | _ :: c :: _ => Some c
  | _ => None
  end.

(** The [data] dictionary before the coercion loop. *)
Module RawData.
Record t : Type := {
  current_price : pyval;
  price_yesterday : pyval;
  fifty_two_week_high : pyval;
  fifty_two_week_low : pyval;
  name : option string
}.
End RawData.

Definition quote_data (info : Info.t) (hist : list Q) : RawData.t :=
  let current_price_hist := iloc_last hist in
  let price_yesterday_hist := iloc_second_last hist in
  let current_price :=
    match current_price_hist with
    | Some q => PyNum q
    | None =>
        get_default (Info.currentPrice info)
          (get_default (Info.regularMarketPreviousClose info)
             (get_default (Info.bid info) (get (Info.ask info))))
    end in
  let price_yesterday :=
    match price_yesterday_hist with
    | Some q => PyNum q
    | None =>
        get_default (Info.previousClose info)
          (get (Info.regularMarketPreviousClose info))
    end in
  {| RawData.current_price := current_price;
     RawData.price_yesterday := price_yesterday;
     RawData.fifty_two_week_high := get (Info.fiftyTwoWeekHigh info);
     RawData.fifty_two_week_low := get (Info.fiftyTwoWeekLow info);
     RawData.name := name_or (Info.shortName info) (Info.longName info) |}.

(** The loop over the four numeric keys. *)
Definition coerce_numeric (data : RawData.t) : MarketData.t :=
  {| MarketData.current_price := numeric_or_none (RawData.current_price data);
     MarketData.price_yesterday :=
       numeric_or_none (RawData.price_yesterday data);
     MarketData.fifty_two_week_high :=
       numeric_or_none (RawData.fifty_two_week_high data);
     MarketData.fifty_two_week_low :=
       numeric_or_none (RawData.fifty_two_week_low data);
     MarketData.name := RawData.name data |}.

(** A line printed on the console by the gateway helpers. *)
Inductive printed : Type :=
| NotANumber (key ticker_symbol : string) (value : pyval)
| FetchError (ticker_symbol : string).

(** The warnings the coercion loop prints, one per non-numeric value. *)
Definition coercion_warnings (ticker_symbol : string) (data : RawData.t)
  : list printed :=
  flat_map (fun kv : string * pyval =>
              match snd kv with
              | PyStr _ => [NotANumber (fst kv) ticker_symbol (snd kv)]
              | _ => []
              end)
    [ ("current_price"%string, RawData.current_price data);
      ("price_yesterday"%string, RawData.price_yesterday data);
      ("fifty_two_week_high"%string, RawData.fifty_two_week_high data);
      ("fifty_two_week_low"%string, RawData.fifty_two_week_low data) ].

Definition fetch_market_data (yf : yfinance) (ticker_symbol : string)
  : option MarketData.t * list printed :=
  match ticker yf ticker_symbol with
  | None => (None, [FetchError ticker_symbol])
  | Some (info, hist) =>
      let data := quote_data info hist in
      (Some (coerce_numeric data), coercion_warnings ticker_symbol data)
  end.

Definition fetch_yearly_historical_data (yf : yfinance)
  (ticker_symbol : string) : list (string * Q) :=
  match history_1y yf ticker_symbol with
  | None => []
  | Some hist => hist
  end.

(** ** Aggregation engine: per-asset derivation

    The block of [index] (lines 211-231) that is repeated word for word in
    [manage_account_assets] (lines 990-1010), in the exact model.  What the
    block gives on [inf] is in [derive_float]. *)

Module Derived.
Record t : Type := {
  total_invested : Q;
  quantity : Q;
  current_value : Q;
  profit_loss_dollars : Q;
  profit_loss_percent : Q;
  day_change_percent : Q;
  percent_to_52_week_high : option Q
}.
End Derived.

Definition derive (total_invested quantity current_price price_yesterday
                   fifty_two_week_high : option Q) : result Derived.t :=
  let total_invested := or_zero total_invested in
  let quantity := or_zero quantity in
  let current_value :=
    match current_price with
    | Some p => quantity * p
    | None => 0
    end in
  let profit_loss_dollars := current_value - total_invested in
  profit_loss_percent <-
    percent_if_positive profit_loss_dollars total_invested ;;
  day_change_percent <-
    match current_price, price_yesterday with
    | Some p, Some y =>
        if py_gt y 0 then r <- py_div (p - y) y ;; Ok (r * 100) else Ok 0
    | _, _ => Ok 0
    end ;;
  percent_to_52_week_high <-
    match current_price, fifty_two_week_high with
    | Some p, Some h =>
        if py_gt h 0
        then r <- py_div (p - h) h ;; Ok (Some (r * 100))
        else Ok None
    | _, _ => Ok None
    end ;;
  Ok {| Derived.total_invested := total_invested;
        Derived.quantity := quantity;
        Derived.current_value := current_value;
        Derived.profit_loss_dollars := profit_loss_dollars;
        Derived.profit_loss_percent := profit_loss_percent;
        Derived.day_change_percent := day_change_percent;
        Derived.percent_to_52_week_high := percent_to_52_week_high |}.

Definition derive_asset (a : Asset.row) : result Derived.t :=
  derive (Asset.total_invested a) (Asset.quantity a) (Asset.current_price a)
         (Asset.price_yesterday a) (Asset.fifty_two_week_high a).

(** A row of [assets_query_for_dashboard]: the asset with its account,
    user and platform. *)
Module Joined.
Record row : Type := {
  asset : Asset.row;
  account : Account.row;
  user : User.row;
  platform : Platform.row
}.
End Joined.

(** An [asset_detail] dictionary. *)
Module AssetDetail.
Record t : Type := {
  row : Joined.row;
  derived : Derived.t;
  yearly_chart_data : option (list (string * Q))
}.
Definition account_id (d : t) : Z := Account.account_id (Joined.account (row d)).
Definition ticker_symbol (d : t) : string :=
  Asset.ticker_symbol (Joined.asset (row d)).
Definition total_invested (d : t) : Q := Derived.total_invested (derived d).
Definition current_value (d : t) : Q := Derived.current_value (derived d).
Definition profit_loss_percent (d : t) : Q :=
  Derived.profit_loss_percent (derived d).
Definition null : t :=
  {| row := {| Joined.asset :=
                 {| Asset.asset_id := 0%Z; Asset.account_id := 0%Z;
                    Asset.ticker_symbol := EmptyString; Asset.name := None;
                    Asset.quantity := None; Asset.average_cost := None;
                    Asset.total_invested := None;
                    Asset.current_price := None;
                    Asset.price_yesterday := None;
                    Asset.fifty_two_week_high := None;
                    Asset.fifty_two_week_low := None |};
               Joined.account :=
                 {| Account.account_id := 0%Z; Account.user_id := 0%Z;
                    Account.platform_id := 0%Z;
                    Account.account_type := EmptyString;
                    Account.account_name := EmptyString;
                    Account.cash_balance := None |};
               Joined.user := {| User.user_id := 0%Z;
                                 User.name := EmptyString |};
               Joined.platform := {| Platform.platform_id := 0%Z;
                                     Platform.name := EmptyString |} |};
     derived := {| Derived.total_invested := 0; Derived.quantity := 0;
                   Derived.current_value := 0;
                   Derived.profit_loss_dollars := 0;
                   Derived.profit_loss_percent := 0;
                   Derived.day_change_percent := 0;
                   Derived.percent_to_52_week_high := None |};
     yearly_chart_data := None |}.
End AssetDetail.

(** ** The heap of [asset_detail] objects

    A reference is the position of the object in [all_assets_detailed];
    [deref] of a dangling reference is [AssetDetail.null] (the code never
    builds one). *)
Definition ref : Type := nat.
Definition heap : Type := list AssetDetail.t.

Definition deref (h : heap) (r : ref) : AssetDetail.t :=
  nth r h AssetDetail.null.

Fixpoint heap_update (h : heap) (r : ref) (f : AssetDetail.t -> AssetDetail.t)
  : heap :=
  match h, r with
  | [], _ => []
  | d :: h', O => f d :: h'
  | d :: h', S r' => d :: heap_update h' r' f
  end.

(** [obj['yearly_chart_data'] = data]. *)
Definition set_yearly_chart_data (h : heap) (r : ref)
  (data : list (string * Q)) : heap :=
  heap_update h r (fun d =>
    {| AssetDetail.row := AssetDetail.row d;
       AssetDetail.derived := AssetDetail.derived d;
       AssetDetail.yearly_chart_data := Some data |}).

(** ** Queries of [index] *)

Definition assets_query_for_dashboard (db : database) : list Joined.row :=
  flat_map (fun ast =>
    flat_map (fun acc =>
      if Z.eqb (Asset.account_id ast) (Account.account_id acc) then
        flat_map (fun u =>
          if Z.eqb (Account.user_id acc) (User.user_id u) then
            flat_map (fun p =>
              if Z.eqb (Account.platform_id acc) (Platform.platform_id p)
              then [ {| Joined.asset := ast; Joined.account := acc;
                        Joined.user := u; Joined.platform := p |} ]
              else [])
              (platforms db)
          else [])
          (users db)
      else [])
      (accounts db))
    (assets db).

(** [SELECT SUM(cash_balance) FROM accounts]: NULL when no row has a
    balance. *)
Definition non_null (l : list (option Q)) : list Q :=
  flat_map (fun x => match x with Some q => [q] | None => [] end) l.

Definition sum_cash_balance (db : database) : option Q :=
  match non_null (map Account.cash_balance (accounts db)) with
  | [] => None
  | l => Some (fold_left Qplus l 0)
  end.

Definition users_by_name (db : database) : list User.row :=
  order_by User.name (users db).

Definition platform_key_dec (x y : Z * string) : {x = y} + {x <> y}.
Proof. decide equality; [apply string_dec | apply Z.eq_dec]. Defined.

(** [SELECT DISTINCT p.platform_id, p.name ... WHERE acc.user_id = ?
    ORDER BY p.name]. *)
Definition user_platforms (db : database) (user_id : Z)
  : list (Z * string) :=
  order_by snd
    (nodup platform_key_dec
       (flat_map (fun p =>
          flat_map (fun acc =>
            if Z.eqb (Platform.platform_id p) (Account.platform_id acc)
               && Z.eqb (Account.user_id acc) user_id
            then [(Platform.platform_id p, Platform.name p)]
            else [])
            (accounts db))
          (platforms db))).

Definition accounts_on_platform (db : database) (user_id platform_id : Z)
  : list Account.row :=
  order_by Account.account_name
    (filter (fun acc => Z.eqb (Account.user_id acc) user_id
                        && Z.eqb (Account.platform_id acc) platform_id)
            (accounts db)).

(** ** Aggregation engine: summaries *)

Module AccountSummary.
Record t : Type := {
  account_id : Z;
  account_name : string;
  account_type : string;
  cash_balance : Q;
  total_invested : Q;
  current_value_of_assets : Q;
  assets : list ref;
  profit_loss_amount : Q;
  profit_loss_percent : Q
}.
End AccountSummary.

(** An entry of [all_accounts_performance_data]. *)
Module AccountPerformance.
Record t : Type := {
  user_name : string;
  platform_name : string;
  account_name : string;
  display_name : string;
  total_invested : Q;
  current_value_of_assets : Q;
  total_value : Q;
  profit_loss_dollars : Q;
  profit_loss_percent : Q
}.
End AccountPerformance.

Module PlatformSummary.
Record t : Type := {
  platform_name : string;
  total_invested : Q;
  current_value_of_assets : Q;
  total_cash : Q;
  accounts : list AccountSummary.t;
  profit_loss_amount : Q;
  profit_loss_percent : Q
}.
End PlatformSummary.

Module UserSummary.
Record t : Type := {
  user_name : string;
  user_id : Z;
  total_invested : Q;
  current_value_of_assets : Q;
  total_cash : Q;
  platforms : list PlatformSummary.t;
  profit_loss_amount : Q;
  profit_loss_percent : Q
}.
End UserSummary.

(** A row of a chart data set: the header row or a [[label, value]] pair. *)
Inductive chart_row : Type :=
| Header (column1 column2 : string)
| Data (label : string) (value : Q).

Record dashboard : Type := {
  objects : heap;
  total_invested_assets : Q;
  total_invested_assets_plus_cash : Q;
  current_value_of_assets : Q;
  profit_loss_amount : Q;
  profit_loss_percent : Q;
  total_cash : Q;
  overall_portfolio_value : Q;
  best_performing_asset : option ref;
  worst_performing_asset : option ref;
  all_assets_ranked : list ref;
  portfolio_history_for_chart : list snapshot;
  account_type_allocation_data_for_chart : list chart_row;
  user_allocation_data_for_chart : list chart_row;
  individual_account_allocation_data_for_chart : list chart_row;
  all_accounts_ranked_by_performance : list AccountPerformance.t;
  breakdown_data : list UserSummary.t
}.

(** The first loop of [index]: derive each row, append it to
    [all_assets_detailed] and add to the two global accumulators (exact
    sums in this model; float sums round, and [inf] can enter them). *)
Fixpoint assets_loop (rows : list Joined.row) (st : heap * Q * Q)
  : result (heap * Q * Q) :=
  match rows with
  | [] => Ok st
  | row :: rows' =>
      let '(all_assets_detailed, invested, value) := st in
      d <- derive_asset (Joined.asset row) ;;
      let asset_detail :=
        {| AssetDetail.row := row; AssetDetail.derived := d;
           AssetDetail.yearly_chart_data := None |} in
      assets_loop rows'
        (all_assets_detailed ++ [asset_detail],
         invested + Derived.total_invested d,
         value + Derived.current_value d)
  end.

(** Ranking of the assets and the two chart fetches, which write into the
    ranked objects themselves.  The keys are rationals, which [<] orders;
    the ranking on float keys, [nan] included, is [rank_assets_float]. *)
Definition rank_assets (yf : yfinance) (h : heap)
  : heap * option ref * option ref * list ref :=
  let all_assets_detailed := seq 0 (List.length h) in
  match all_assets_detailed with
  | [] => (h, None, None, [])
  | _ =>
      let valid_assets_for_ranking :=
        filter (fun a => py_gt (AssetDetail.total_invested (deref h a)) 0)
               all_assets_detailed in
      match valid_assets_for_ranking with
      | [] => (h, None, None, [])
      | _ =>
          let sorted_assets :=
            sorted_reverse
              (fun x => AssetDetail.profit_loss_percent (deref h x))
              valid_assets_for_ranking in
          match sorted_assets with
          | [] => (h, None, None, sorted_assets)
          | best :: _ =>
              let h1 :=
                set_yearly_chart_data h best
                  (fetch_yearly_historical_data yf
                     (AssetDetail.ticker_symbol (deref h best))) in
              let worst := last sorted_assets best in
              let h2 :=
                set_yearly_chart_data h1 worst
                  (fetch_yearly_historical_data yf
                     (AssetDetail.ticker_symbol (deref h1 worst))) in
              (h2, Some best, Some worst, sorted_assets)
          end
      end
  end.

(** [INSERT INTO portfolio_history]: [snapshot_date] is the primary key, so
    the store rejects a second row for a date. *)
Definition has_snapshot (history : list snapshot) (d : string) : bool :=
  existsb (fun s => String.eqb (fst s) d) history.

Definition insert_portfolio_history (db : database) (s : snapshot)
  : database :=
  if has_snapshot (portfolio_history db) (fst s) then db
  else {| users := users db; platforms := platforms db;
          accounts := accounts db; assets := assets db;
          portfolio_history := portfolio_history db ++ [s] |}.

(** The daily snapshot step of [index].  The value is a rational, which
    the [NOT NULL] column never refuses; the step on a float value, [nan]
    included, is [record_snapshot_float]. *)
Definition record_snapshot (db : database) (today_str : string)
  (overall_portfolio_value : Q) : database :=
  let last_snapshot :=
    find (fun s => String.eqb (fst s) today_str) (portfolio_history db) in
  match last_snapshot with
  | None => insert_portfolio_history db (today_str, overall_portfolio_value)
  | Some _ => db
  end.

(** The innermost loop: the assets of one account. *)
Definition account_assets_loop (h : heap) (assets_in_account : list ref)
  : list ref * Q * Q :=
  fold_left
    (fun '(assets, invested, value) a =>
       (assets ++ [a],
        invested + AssetDetail.total_invested (deref h a),
        value + AssetDetail.current_value (deref h a)))
    assets_in_account ([], 0, 0).

Definition display_name (user_name account_name platform_name : string)
  : string :=
  (user_name ++ " - " ++ account_name ++ " (" ++ platform_name ++ ")")%string.

Definition summarize_account (h : heap) (user_row : User.row)
  (platform_row : Z * string) (account_row : Account.row)
  : result (AccountSummary.t * AccountPerformance.t) :=
  let cash_balance := or_zero (Account.cash_balance account_row) in
  let assets_in_account :=
    filter (fun a => Z.eqb (AssetDetail.account_id (deref h a))
                           (Account.account_id account_row))
           (seq 0 (List.length h)) in
  let '(assets, total_invested, current_value_of_assets) :=
    account_assets_loop h assets_in_account in
  let profit_loss_amount := current_value_of_assets - total_invested in
  profit_loss_percent <-
    percent_if_positive profit_loss_amount total_invested ;;
  Ok ({| AccountSummary.account_id := Account.account_id account_row;
         AccountSummary.account_name := Account.account_name account_row;
         AccountSummary.account_type := Account.account_type account_row;
         AccountSummary.cash_balance := cash_balance;
         AccountSummary.total_invested := total_invested;
         AccountSummary.current_value_of_assets := current_value_of_assets;
         AccountSummary.assets := assets;
         AccountSummary.profit_loss_amount := profit_loss_amount;
         AccountSummary.profit_loss_percent := profit_loss_percent |},
      {| AccountPerformance.user_name := User.name user_row;
         AccountPerformance.platform_name := snd platform_row;
         AccountPerformance.account_name := Account.account_name account_row;
         AccountPerformance.display_name :=
           display_name (User.name user_row)
             (Account.account_name account_row) (snd platform_row);
         AccountPerformance.total_invested := total_invested;
         AccountPerformance.current_value_of_assets :=
           current_value_of_assets;
         AccountPerformance.total_value :=
           current_value_of_assets + cash_balance;
         AccountPerformance.profit_loss_dollars := profit_loss_amount;
         AccountPerformance.profit_loss_percent := profit_loss_percent |}).

(** The loop over the accounts of one platform.  [st] holds the platform
    accumulators, [perf] is [all_accounts_performance_data]. *)
Fixpoint accounts_loop (h : heap) (user_row : User.row)
  (platform_row : Z * string) (rows : list Account.row)
  (st : list AccountSummary.t * Q * Q * Q)
  (perf : list AccountPerformance.t)
  : result (list AccountSummary.t * Q * Q * Q * list AccountPerformance.t) :=
  match rows with
  | [] => Ok (st, perf)
  | account_row :: rows' =>
      let '(accounts, invested, value, cash) := st in
      '(account_summary_data, performance) <-
        summarize_account h user_row platform_row account_row ;;
      accounts_loop h user_row platform_row rows'
        (accounts ++ [account_summary_data],
         invested + AccountSummary.total_invested account_summary_data,
         value + AccountSummary.current_value_of_assets account_summary_data,
         cash + AccountSummary.cash_balance account_summary_data)
        (perf ++ [performance])
  end.

Definition summarize_platform (db : database) (h : heap)
  (user_row : User.row) (platform_row : Z * string)
  (perf : list AccountPerformance.t)
  : result (PlatformSummary.t * list AccountPerformance.t) :=
  '(accounts, total_invested, current_value_of_assets, total_cash, perf') <-
    accounts_loop h user_row platform_row
      (accounts_on_platform db (User.user_id user_row) (fst platform_row))
      ([], 0, 0, 0) perf ;;
  let profit_loss_amount := current_value_of_assets - total_invested in
  profit_loss_percent <-
    percent_if_positive profit_loss_amount total_invested ;;
  Ok ({| PlatformSummary.platform_name := snd platform_row;
         PlatformSummary.total_invested := total_invested;
         PlatformSummary.current_value_of_assets := current_value_of_assets;
         PlatformSummary.total_cash := total_cash;
         PlatformSummary.accounts := accounts;
         PlatformSummary.profit_loss_amount := profit_loss_amount;
         PlatformSummary.profit_loss_percent := profit_loss_percent |},
      perf').

(** The loop over the platforms of one user. *)
Fixpoint platforms_loop (db : database) (h : heap) (user_row : User.row)
  (rows : list (Z * string))
  (st : list PlatformSummary.t * Q * Q * Q)
  (perf : list AccountPerformance.t)
  : result (list PlatformSummary.t * Q * Q * Q * list AccountPerformance.t) :=
  match rows with
  | [] => Ok (st, perf)
  | platform_row :: rows' =>
      let '(platforms, invested, value, cash) := st in
      '(platform_summary_data, perf') <-
        summarize_platform db h user_row platform_row perf ;;
      platforms_loop db h user_row rows'
        (platforms ++ [platform_summary_data],
         invested + PlatformSummary.total_invested platform_summary_data,
         value
         + PlatformSummary.current_value_of_assets platform_summary_data,
         cash + PlatformSummary.total_cash platform_summary_data)
        perf'
  end.

Definition summarize_user (db : database) (h : heap) (user_row : User.row)
  (perf : list AccountPerformance.t)
  : result (UserSummary.t * list AccountPerformance.t) :=
  '(platforms, total_invested, current_value_of_assets, total_cash, perf') <-
    platforms_loop db h user_row
      (user_platforms db (User.user_id user_row)) ([], 0, 0, 0) perf ;;
  let profit_loss_amount := current_value_of_assets - total_invested in
  profit_loss_percent <-
    percent_if_positive profit_loss_amount total_invested ;;
  Ok ({| UserSummary.user_name := User.name user_row;
         UserSummary.user_id := User.user_id user_row;
         UserSummary.total_invested := total_invested;
         UserSummary.current_value_of_assets := current_value_of_assets;
         UserSummary.total_cash := total_cash;
         UserSummary.platforms := platforms;
         UserSummary.profit_loss_amount := profit_loss_amount;
         UserSummary.profit_loss_percent := profit_loss_percent |},
      perf').

(** The outer loop, building [breakdown_data]. *)
Fixpoint users_loop (db : database) (h : heap) (rows : list User.row)
  (breakdown_data : list UserSummary.t) (perf : list AccountPerformance.t)
  : result (list UserSummary.t * list AccountPerformance.t) :=
  match rows with
  | [] => Ok (breakdown_data, perf)
  | user_row :: rows' =>
      '(user_summary_data, perf') <- summarize_user db h user_row perf ;;
      users_loop db h rows' (breakdown_data ++ [user_summary_data]) perf'
  end.

(** ** Allocation breakdowns

    [account_type_values] is a [dict], which keeps insertion order:
    [if k not in d: d[k] = 0.0] followed by [d[k] += v]. *)
Fixpoint dict_add (k : string) (v : Q) (d : list (string * Q))
  : list (string * Q) :=
  match d with
  | [] => [(k, 0 + v)]
  | (k', v') :: d' =>
      if String.eqb k k' then (k', v' + v) :: d'
      else (k', v') :: dict_add k v d'
  end.

Definition account_total_value (account_summary : AccountSummary.t) : Q :=
  num_or_zero (AccountSummary.current_value_of_assets account_summary)
  + num_or_zero (AccountSummary.cash_balance account_summary).

Definition account_type_values (breakdown_data : list UserSummary.t)
  : list (string * Q) :=
  fold_left (fun d user_summary =>
    fold_left (fun d platform_summary =>
      fold_left (fun d account_summary =>
        dict_add (AccountSummary.account_type account_summary)
                 (account_total_value account_summary) d)
        (PlatformSummary.accounts platform_summary) d)
      (UserSummary.platforms user_summary) d)
    breakdown_data [].

(** [chart if len(chart) > 1 else []]. *)
Definition chart_or_empty (chart : list chart_row) : list chart_row :=
  if (1 <? List.length chart)%nat then chart else [].

(** The [for ...: if value > 0: chart.append([label, value])] loops. *)
Definition positive_rows {A : Type} (label : A -> string) (value : A -> Q)
  (l : list A) : list chart_row :=
  flat_map (fun x => if py_gt (value x) 0 then [Data (label x) (value x)]
                     else []) l.

Definition account_type_allocation (breakdown_data : list UserSummary.t)
  : list chart_row :=
  chart_or_empty
    (Header "Account Type" "Total Value"
     :: positive_rows fst snd (account_type_values breakdown_data)).

Definition user_portfolio_value (user_summary : UserSummary.t) : Q :=
  num_or_zero (UserSummary.current_value_of_assets user_summary)
  + num_or_zero (UserSummary.total_cash user_summary).

Definition user_allocation (breakdown_data : list UserSummary.t)
  : list chart_row :=
  chart_or_empty
    (Header "User" "Total Portfolio Value"
     :: positive_rows UserSummary.user_name user_portfolio_value
          breakdown_data).

Definition individual_account_allocation
  (perf : list AccountPerformance.t) : list chart_row :=
  chart_or_empty
    (Header "Account" "Total Value"
     :: positive_rows AccountPerformance.display_name
          AccountPerformance.total_value perf).

Definition rank_accounts (perf : list AccountPerformance.t)
  : list AccountPerformance.t :=
  match perf with
  | [] => []
  | _ =>
      sorted_reverse AccountPerformance.profit_loss_percent
        (filter (fun acc => py_gt (AccountPerformance.total_invested acc) 0)
                perf)
  end.

(** ** The dashboard computation ([index], GET)

    The settings look-ups ([target_goal_value], [usd_to_cad_exchange_rate])
    are left out; nothing else reads them. *)
Definition index (yf : yfinance) (db : database) (today_str : string)
  : result (database * dashboard) :=
  '(h0, global_total_invested_assets, global_current_value_of_assets) <-
    assets_loop (assets_query_for_dashboard db) ([], 0, 0) ;;
  let '(h, best_performing_asset, worst_performing_asset, all_assets_ranked)
    := rank_assets yf h0 in
  let global_total_cash :=
    match sum_cash_balance db with
    | Some total_cash => total_cash
    | None => 0
    end in
  let total_invested_assets_plus_cash :=
    global_total_invested_assets + global_total_cash in
  let global_profit_loss_amount :=
    global_current_value_of_assets - global_total_invested_assets in
  global_profit_loss_percent <-
    percent_if_positive global_profit_loss_amount
      global_total_invested_assets ;;
  let overall_portfolio_value :=
    global_current_value_of_assets + global_total_cash in
  let db' := record_snapshot db today_str overall_portfolio_value in
  '(breakdown_data, all_accounts_performance_data) <-
    users_loop db' h (users_by_name db') [] [] ;;
  Ok (db',
      {| objects := h;
         total_invested_assets := global_total_invested_assets;
         total_invested_assets_plus_cash := total_invested_assets_plus_cash;
         current_value_of_assets := global_current_value_of_assets;
         profit_loss_amount := global_profit_loss_amount;
         profit_loss_percent := global_profit_loss_percent;
         total_cash := global_total_cash;
         overall_portfolio_value := overall_portfolio_value;
         best_performing_asset := best_performing_asset;
         worst_performing_asset := worst_performing_asset;
         all_assets_ranked := all_assets_ranked;
         portfolio_history_for_chart :=
           order_by fst (portfolio_history db');
         account_type_allocation_data_for_chart :=
           account_type_allocation breakdown_data;
         user_allocation_data_for_chart := user_allocation breakdown_data;
         individual_account_allocation_data_for_chart :=
           individual_account_allocation all_accounts_performance_data;
         all_accounts_ranked_by_performance :=
           rank_accounts all_accounts_performance_data;
         breakdown_data := breakdown_data |}).

(** ** Requests and flashed messages *)

(** A form string as the handlers see it: falsy (missing or empty),
    non-empty but rejected by [int]/[float] with [ValueError], or parsed. *)
Inductive form_field (A : Type) : Type :=
| Blank
| Malformed
| Parsed (a : A).

Arguments Blank {A}.
Arguments Malformed {A}.
Arguments Parsed {A} a.

Definition truthy {A : Type} (f : form_field A) : bool :=
  match f with
  | Blank => false
  | _ => true
  end.

(** [int(s)] and [float(s)]. *)
Definition parse {A : Type} (f : form_field A) : result A :=
  match f with
  | Parsed a => Ok a
  | _ => Raise ValueError
  end.

Inductive category : Type :=
| success
| info
| warning
| error_.

Inductive message : Type :=
| SellInputsRequired
| SellAssetNotFound
| SellPriceNegative
| SellCalculated
| SellInvalidNumber
| SellException (e : exn)
| BuyAssetIdMissing
| BuyInputRequired
| BuyAssetNotFound
| BuyPriceUnavailable (ticker_symbol : string)
| BuyAmountNotPositive
| BuySharesNotPositive
| BuyCalculated
| BuyNoInput
| BuyInvalidNumber
| BuyException (e : exn)
| RefreshAssetNotFound
| RefreshSucceeded (ticker_symbol : string)
| RefreshUnavailable (ticker_symbol : string).

Definition flash : Type := (message * category)%type.

(** The row that [SELECT ... FROM assets WHERE asset_id = ?] with
    [one=True] selects; [select_by_id] is the query with its binding of the
    id. *)
Definition find_asset (db : database) (asset_id : Z) : option Asset.row :=
  find (fun a => Z.eqb (Asset.asset_id a) asset_id) (assets db).

(** The integers SQLite stores and [sqlite3] binds: signed, 64 bits. *)
Definition sqlite_integer (n : Z) : bool :=
  ((- 2 ^ 63 <=? n) && (n <? 2 ^ 63))%Z.

(** What [query_db(query, [n], one=True)] returns when the query selects by
    the integer key [n] and [found] is the row with that key, if any.  An
    integer outside the 64-bit range cannot be bound: [sqlite3] raises
    [OverflowError], which [query_db] (it catches [sqlite3.Error]) lets
    through.  Every stored key is a 64-bit integer, so a key that selects a
    row is never refused. *)
Definition select_by_id {A : Type} (found : option A) (n : Z)
  : result (option A) :=
  match found with
  | Some row => Ok (Some row)
  | None => if sqlite_integer n then Ok None else Raise OverflowError
  end.

(** ** Simulation engine: sell *)

Module Sell.
Record results : Type := {
  asset_id : Z;
  hypothetical_sale_price : Q;
  total_proceeds : Q;
  original_cost : Q;
  profit_dollars : Q;
  profit_percent : Q
}.
End Sell.

(** The body of the [try] of the [simulate_sell] action. *)
Definition simulate_sell_body (db : database)
  (asset_id_to_simulate_str : form_field Z)
  (hypothetical_sale_price_str : form_field Q)
  : result (option Sell.results * list flash) :=
  asset_id_to_simulate <- parse asset_id_to_simulate_str ;;
  hypothetical_sale_price <- parse hypothetical_sale_price_str ;;
  asset_to_simulate <-
    select_by_id (find_asset db asset_id_to_simulate) asset_id_to_simulate ;;
  match asset_to_simulate with
  | None => Ok (None, [(SellAssetNotFound, error_)])
  | Some asset_to_simulate =>
      if py_lt hypothetical_sale_price 0
      then Ok (None, [(SellPriceNegative, warning)])
      else
        let quantity := or_zero (Asset.quantity asset_to_simulate) in
        let original_cost :=
          match Asset.total_invested asset_to_simulate with
          | Some c => c
          | None =>
              match Asset.average_cost asset_to_simulate with
              | Some average_cost => quantity * average_cost
              | None => 0
              end
          end in
        let total_proceeds := quantity * hypothetical_sale_price in
        let profit_dollars := total_proceeds - original_cost in
        profit_percent <- percent_if_positive profit_dollars original_cost ;;
        Ok (Some {| Sell.asset_id := asset_id_to_simulate;
                    Sell.hypothetical_sale_price := hypothetical_sale_price;
                    Sell.total_proceeds := total_proceeds;
                    Sell.original_cost := original_cost;
                    Sell.profit_dollars := profit_dollars;
                    Sell.profit_percent := profit_percent |},
            [(SellCalculated, info)])
  end.

(** The [simulate_sell] action of [manage_account_assets]. *)
Definition simulate_sell (db : database)
  (asset_id_to_simulate_str : form_field Z)
  (hypothetical_sale_price_str : form_field Q)
  : option Sell.results * list flash :=
  if negb (truthy asset_id_to_simulate_str)
     || negb (truthy hypothetical_sale_price_str)
  then (None, [(SellInputsRequired, error_)])
  else
    match simulate_sell_body db asset_id_to_simulate_str
            hypothetical_sale_price_str with
    | Ok r => r
    | Raise ValueError => (None, [(SellInvalidNumber, error_)])
    | Raise e => (None, [(SellException e, error_)])
    end.

(** ** Simulation engine: buy *)

Module Buy.
Record results : Type := {
  asset_id : Z;
  ticker_symbol : string;
  shares_purchased : Q;
  cost_of_purchase : Q;
  new_total_quantity : Q;
  new_total_invested : Q;
  new_average_cost : Q;
  new_current_total_value : Q;
  new_profit_loss_dollars : Q;
  new_profit_loss_percent : Q;
  current_profit_loss_dollars : Q;
  current_profit_loss_percent : Q
}.
End Buy.

(** [x or 1]. *)
Definition or_one (x : option Q) : Q :=
  match x with
  | Some q => if Qeq_bool q 0 then 1 else q
  | None => 1
  end.

(** Reading the two inputs: the shares bought, their cost, whether a valid
    input was provided, and what was flashed.  In the exact model; over
    floats, where a positive amount can buy zero shares, the action is
    [simulate_buy_existing_asset_float]. *)
Definition read_buy_inputs (current_asset_price : Q)
  (investment_amount_str shares_to_buy_str : form_field Q)
  : result (Q * Q * bool * list flash) :=
  if truthy investment_amount_str then
    investment_amount <- parse investment_amount_str ;;
    if py_le investment_amount 0
    then Ok (0, 0, false, [(BuyAmountNotPositive, warning)])
    else
      shares_purchased <- py_div investment_amount current_asset_price ;;
      Ok (shares_purchased, shares_purchased * current_asset_price, true, [])
  else if truthy shares_to_buy_str then
    shares_purchased <- parse shares_to_buy_str ;;
    if py_le shares_purchased 0
    then Ok (shares_purchased, 0, false, [(BuySharesNotPositive, warning)])
    else Ok (shares_purchased, shares_purchased * current_asset_price,
             true, [])
  else Ok (0, 0, false, []).

(** The body of the [try] of the [simulate_buy_existing_asset] action. *)
Definition simulate_buy_body (db : database)
  (asset_id_to_buy_str : form_field Z)
  (investment_amount_str shares_to_buy_str : form_field Q)
  : result (option Buy.results * list flash) :=
  asset_id_to_buy <- parse asset_id_to_buy_str ;;
  existing_asset <-
    select_by_id (find_asset db asset_id_to_buy) asset_id_to_buy ;;
  match existing_asset with
  | None => Ok (None, [(BuyAssetNotFound, error_)])
  | Some existing_asset =>
      match Asset.current_price existing_asset with
      | None =>
          Ok (None,
              [(BuyPriceUnavailable (Asset.ticker_symbol existing_asset),
                warning)])
      | Some current_asset_price =>
          '(shares_purchased, cost_of_purchase, valid_input_provided,
            flashed) <-
            read_buy_inputs current_asset_price investment_amount_str
              shares_to_buy_str ;;
          if valid_input_provided && py_gt shares_purchased 0 then
            let current_quantity := or_zero (Asset.quantity existing_asset) in
            let current_total_invested :=
              or_zero (Asset.total_invested existing_asset) in
            let new_total_quantity := current_quantity + shares_purchased in
            let new_total_invested_for_asset :=
              current_total_invested + cost_of_purchase in
            new_average_cost <-
              (if py_gt new_total_quantity 0
               then py_div new_total_invested_for_asset new_total_quantity
               else Ok 0) ;;
            let new_current_total_value :=
              new_total_quantity * current_asset_price in
            let new_profit_loss_dollars :=
              new_current_total_value - new_total_invested_for_asset in
            new_profit_loss_percent <-
              percent_if_positive new_profit_loss_dollars
                new_total_invested_for_asset ;;
            let current_asset_value :=
              or_zero (Asset.quantity existing_asset)
              * or_zero (Asset.current_price existing_asset) in
            let current_profit_loss_dollars :=
              current_asset_value
              - or_zero (Asset.total_invested existing_asset) in
            current_profit_loss_percent <-
              (if py_gt (or_zero (Asset.total_invested existing_asset)) 0
               then r <- py_div current_profit_loss_dollars
                           (or_one (Asset.total_invested existing_asset)) ;;
                    Ok (r * 100)
               else Ok 0) ;;
            Ok (Some {| Buy.asset_id := asset_id_to_buy;
                        Buy.ticker_symbol :=
                          Asset.ticker_symbol existing_asset;
                        Buy.shares_purchased := shares_purchased;
                        Buy.cost_of_purchase := cost_of_purchase;
                        Buy.new_total_quantity := new_total_quantity;
                        Buy.new_total_invested :=
                          new_total_invested_for_asset;
                        Buy.new_average_cost := new_average_cost;
                        Buy.new_current_total_value :=
                          new_current_total_value;
                        Buy.new_profit_loss_dollars :=
                          new_profit_loss_dollars;
                        Buy.new_profit_loss_percent :=
                          new_profit_loss_percent;
                        Buy.current_profit_loss_dollars :=
                          current_profit_loss_dollars;
                        Buy.current_profit_loss_percent :=
                          current_profit_loss_percent |},
                flashed ++ [(BuyCalculated, info)])
          else if negb valid_input_provided
                  && negb (truthy investment_amount_str
                           || truthy shares_to_buy_str)
          then Ok (None, flashed ++ [(BuyNoInput, error_)])
          else Ok (None, flashed)
      end
  end.

(** The [simulate_buy_existing_asset] action.  Building
    [buy_simulation_inputs] calls [int] on the asset id outside the [try],
    so a malformed id escapes the handler. *)
Definition simulate_buy_existing_asset (db : database)
  (asset_id_to_buy_str : form_field Z)
  (investment_amount_str shares_to_buy_str : form_field Q)
  : result (option Buy.results * list flash) :=
  _ <- (if truthy asset_id_to_buy_str
        then a <- parse asset_id_to_buy_str ;; Ok (Some a)
        else Ok None) ;;
  if negb (truthy asset_id_to_buy_str)
  then Ok (None, [(BuyAssetIdMissing, error_)])
  else if negb (truthy investment_amount_str)
          && negb (truthy shares_to_buy_str)
  then Ok (None, [(BuyInputRequired, error_)])
  else
    match simulate_buy_body db asset_id_to_buy_str investment_amount_str
            shares_to_buy_str with
    | Ok r => Ok r
    | Raise ValueError => Ok (None, [(BuyInvalidNumber, error_)])
    | Raise e => Ok (None, [(BuyException e, error_)])
    end.

(** ** Single-asset refresh *)

(** [UPDATE assets SET ... WHERE asset_id = ?]. *)
Definition update_asset (db : database) (asset_id : Z)
  (f : Asset.row -> Asset.row) : database :=
  {| users := users db; platforms := platforms db; accounts := accounts db;
     assets := map (fun a => if Z.eqb (Asset.asset_id a) asset_id then f a
                             else a) (assets db);
     portfolio_history := portfolio_history db |}.

Definition set_market_data (market_data : MarketData.t)
  (name_to_update : option string) (a : Asset.row) : Asset.row :=
  {| Asset.asset_id := Asset.asset_id a;
     Asset.account_id := Asset.account_id a;
     Asset.ticker_symbol := Asset.ticker_symbol a;
     Asset.name := name_to_update;
     Asset.quantity := Asset.quantity a;
     Asset.average_cost := Asset.average_cost a;
     Asset.total_invested := Asset.total_invested a;
     Asset.current_price := MarketData.current_price market_data;
     Asset.price_yesterday := MarketData.price_yesterday market_data;
     Asset.fifty_two_week_high := MarketData.fifty_two_week_high market_data;
     Asset.fifty_two_week_low := MarketData.fifty_two_week_low market_data |}.

Definition refresh_asset_data (yf : yfinance) (db : database) (asset_id : Z)
  : database * list flash * list printed :=
  match find_asset db asset_id with
  | None => (db, [(RefreshAssetNotFound, error_)], [])
  | Some asset =>
      match fetch_market_data yf (Asset.ticker_symbol asset) with
      | (Some market_data, out) =>
          let name_to_update :=
            if truthy_name (MarketData.name market_data)
            then if truthy_name (Asset.name asset) then Asset.name asset
                 else MarketData.name market_data
            else Asset.name asset in
          (update_asset db asset_id
             (set_market_data market_data name_to_update),
           [(RefreshSucceeded (Asset.ticker_symbol asset), success)],
           out)
      | (None, out) =>
          (db, [(RefreshUnavailable (Asset.ticker_symbol asset), warning)],
           out)
      end
  end.

(** ** The asset list of [manage_account_assets] *)

Fixpoint derive_all (rows : list Asset.row)
  : result (list (Asset.row * Derived.t)) :=
  match rows with
  | [] => Ok []
  | asset_row :: rows' =>
      d <- derive_asset asset_row ;;
      rest <- derive_all rows' ;;
      Ok ((asset_row, d) :: rest)
  end.

Definition assets_list_for_template (db : database) (account_id : Z)
  : result (list (Asset.row * Derived.t)) :=
  derive_all
    (order_by Asset.ticker_symbol
       (filter (fun a => Z.eqb (Asset.account_id a) account_id) (assets db))).

(** ** Example data *)

Definition no_provider : yfinance :=
  {| ticker := fun _ => None; history_1y := fun _ => None |}.

Definition mk_asset (asset_id account_id : Z) (ticker_symbol : string)
  (quantity total_invested current_price : option Q) : Asset.row :=
  {| Asset.asset_id := asset_id; Asset.account_id := account_id;
     Asset.ticker_symbol := ticker_symbol; Asset.name := None;
     Asset.quantity := quantity; Asset.average_cost := Some 0;
     Asset.total_invested := total_invested;
     Asset.current_price := current_price;
     Asset.price_yesterday := None;
     Asset.fifty_two_week_high := None;
     Asset.fifty_two_week_low := None |}.

Definition example_db : database :=
  {| users := [ {| User.user_id := 1; User.name := "bob" |};
                {| User.user_id := 2; User.name := "alice" |} ];
     platforms := [ {| Platform.platform_id := 1;
                       Platform.name := "Questrade" |} ];
     accounts :=
       [ {| Account.account_id := 1; Account.user_id := 1;
            Account.platform_id := 1; Account.account_type := "TFSA";
            Account.account_name := "bob tfsa";
            Account.cash_balance := Some 50 |};
         {| Account.account_id := 2; Account.user_id := 2;
            Account.platform_id := 1; Account.account_type := "RRSP";
            Account.account_name := "alice rrsp";
            Account.cash_balance := None |};
         {| Account.account_id := 3; Account.user_id := 2;
            Account.platform_id := 1; Account.account_type := "TFSA";
            Account.account_name := "alice tfsa";
            Account.cash_balance := Some 0 |} ];
     assets :=
       [ mk_asset 1 1 "AAA" (Some 10) (Some 1000) (Some 150);
         mk_asset 2 1 "BBB" (Some 5) (Some 500) (Some 120);
         mk_asset 3 2 "CCC" (Some 2) (Some 0) (Some 30);
         mk_asset 4 2 "DDD" (Some 4) (Some 400) None;
         mk_asset 5 3 "EEE" (Some 1) (Some 100) (Some 150) ];
     portfolio_history := [("2024-01-01"%string, 7)] |}.

(** [db] holding the asset rows [l] instead of its own. *)
Definition with_assets (db : database) (l : list Asset.row) : database :=
  {| users := users db; platforms := platforms db; accounts := accounts db;
     assets := l; portfolio_history := portfolio_history db |}.

(** A provider whose [info] has a text where the 52-week high should be,
    and a store whose asset has all four price fields set. *)
Definition text_high_provider : yfinance :=
  {| ticker := fun _ =>
       Some ({| Info.currentPrice := Some (PyNum 101);
                Info.regularMarketPreviousClose := None;
                Info.bid := None; Info.ask := None;
                Info.previousClose := Some (PyNum 100);
                Info.fiftyTwoWeekHigh := Some (PyStr "N/A");
                Info.fiftyTwoWeekLow := Some (PyNum 80);
                Info.shortName := None; Info.longName := None |},
             [100; 101]);
     history_1y := fun _ => None |}.

Definition priced_asset : Asset.row :=
  {| Asset.asset_id := 1; Asset.account_id := 1;
     Asset.ticker_symbol := "AAA"; Asset.name := None;
     Asset.quantity := Some 10; Asset.average_cost := Some 100;
     Asset.total_invested := Some 1000;
     Asset.current_price := Some 99;
     Asset.price_yesterday := Some 98;
     Asset.fifty_two_week_high := Some 200;
     Asset.fifty_two_week_low := Some 80 |}.

Definition priced_db : database := with_assets example_db [priced_asset].

(** A store whose only asset has a known price of zero. *)
Definition zero_price_db : database :=
  with_assets example_db
    [ mk_asset 1 1 "ZZZ" (Some 5) (Some 500) (Some 0) ].

(** ** Specification vocabulary *)

(** [total] is the sum of [children] whatever the order of summation. *)
Definition exact_sum (total : Q) (children : list Q) : Prop :=
  forall l, Permutation children l -> total == Qsum l.

(** The zero-guard policy of the profit/loss percentage. *)
Definition zero_guarded (total_invested profit_loss percent : Q) : Prop :=
  (total_invested <= 0 -> percent = 0)
  /\ (0 < total_invested -> percent == profit_loss / total_invested * 100).

(** At most one snapshot per calendar date. *)
Definition one_per_date (history : list snapshot) : Prop :=
  NoDup (map fst history).

(** A list ordered by descending key. *)
Definition descending {A : Type} (key : A -> Q) (l : list A) : Prop :=
  StronglySorted (fun x y => key y <= key x) l.

(** [l'] keeps, among the elements of equal key, the order they have in
    [l]. *)
Definition keeps_ties {A : Type} (key : A -> Q) (l l' : list A) : Prop :=
  forall k, filter (fun x => Qeq_bool (key x) k) l'
            = filter (fun x => Qeq_bool (key x) k) l.

(** [l[-1]], when there is one. *)
Definition last_error {A : Type} (l : list A) : option A :=
  match l with
  | [] => None
  | x :: _ => Some (last l x)
  end.

(** The account summaries of a breakdown, in rollup order. *)
Definition all_account_summaries (breakdown_data : list UserSummary.t)
  : list AccountSummary.t :=
  flat_map (fun u => flat_map PlatformSummary.accounts
                       (UserSummary.platforms u)) breakdown_data.

(** A chart data set built from [groups]: its data rows are the groups of
    positive value, and it is empty when no group is positive. *)
Definition allocation_of (groups : list (string * Q))
  (chart : list chart_row) : Prop :=
  (forall label value,
      In (Data label value) chart <-> In (label, value) groups /\ 0 < value)
  /\ ((forall g, In g groups -> snd g <= 0) -> chart = [])
  /\ (chart = [] \/ exists c1 c2 rows, chart = Header c1 c2 :: rows
                      /\ rows <> []
                      /\ forall r, In r rows -> exists l v, r = Data l v).

(** The entry of [all_accounts_performance_data] that goes with an account
    summary. *)
Definition performance_of (user_name platform_name : string)
  (s : AccountSummary.t) : AccountPerformance.t :=
  {| AccountPerformance.user_name := user_name;
     AccountPerformance.platform_name := platform_name;
     AccountPerformance.account_name := AccountSummary.account_name s;
     AccountPerformance.display_name :=
       display_name user_name (AccountSummary.account_name s) platform_name;
     AccountPerformance.total_invested := AccountSummary.total_invested s;
     AccountPerformance.current_value_of_assets :=
       AccountSummary.current_value_of_assets s;
     AccountPerformance.total_value :=
       AccountSummary.current_value_of_assets s
       + AccountSummary.cash_balance s;
     AccountPerformance.profit_loss_dollars :=
       AccountSummary.profit_loss_amount s;
     AccountPerformance.profit_loss_percent :=
       AccountSummary.profit_loss_percent s |}.

Definition platform_performance (user_name : string)
  (p : PlatformSummary.t) : list AccountPerformance.t :=
  map (performance_of user_name (PlatformSummary.platform_name p))
      (PlatformSummary.accounts p).

Definition user_performance (u : UserSummary.t)
  : list AccountPerformance.t :=
  flat_map (platform_performance (UserSummary.user_name u))
           (UserSummary.platforms u).

(** The account performance entries of a breakdown, in rollup order. *)
Definition performance_entries (breakdown_data : list UserSummary.t)
  : list AccountPerformance.t :=
  flat_map user_performance breakdown_data.

(** Two heaps holding the same rows and derived metrics. *)
Definition same_data (h h' : heap) : Prop :=
  map AssetDetail.derived h' = map AssetDetail.derived h
  /\ map AssetDetail.row h' = map AssetDetail.row h.

(** What the rollup guarantees of an account, platform and user summary. *)
Definition account_ok (h : heap) (row : Account.row) (s : AccountSummary.t)
  : Prop :=
  AccountSummary.account_id s = Account.account_id row
  /\ AccountSummary.account_name s = Account.account_name row
  /\ AccountSummary.account_type s = Account.account_type row
  /\ AccountSummary.cash_balance s = or_zero (Account.cash_balance row)
  /\ AccountSummary.assets s
     = filter (fun a => Z.eqb (AssetDetail.account_id (deref h a))
                              (Account.account_id row))
              (seq 0 (List.length h))
  /\ AccountSummary.total_invested s
     == Qsum (map (fun a => AssetDetail.total_invested (deref h a))
                  (AccountSummary.assets s))
  /\ AccountSummary.current_value_of_assets s
     == Qsum (map (fun a => AssetDetail.current_value (deref h a))
                  (AccountSummary.assets s))
  /\ AccountSummary.profit_loss_amount s
     = AccountSummary.current_value_of_assets s
       - AccountSummary.total_invested s
  /\ zero_guarded (AccountSummary.total_invested s)
       (AccountSummary.profit_loss_amount s)
       (AccountSummary.profit_loss_percent s).

Definition platform_ok (db : database) (h : heap) (user_id : Z)
  (row : Z * string) (p : PlatformSummary.t) : Prop :=
  PlatformSummary.platform_name p = snd row
  /\ Forall2 (account_ok h) (accounts_on_platform db user_id (fst row))
       (PlatformSummary.accounts p)
  /\ PlatformSummary.total_invested p
     == Qsum (map AccountSummary.total_invested (PlatformSummary.accounts p))
  /\ PlatformSummary.current_value_of_assets p
     == Qsum (map AccountSummary.current_value_of_assets
                  (PlatformSummary.accounts p))
  /\ PlatformSummary.total_cash p
     == Qsum (map AccountSummary.cash_balance (PlatformSummary.accounts p))
  /\ PlatformSummary.profit_loss_amount p
     = PlatformSummary.current_value_of_assets p
       - PlatformSummary.total_invested p
  /\ zero_guarded (PlatformSummary.total_invested p)
       (PlatformSummary.profit_loss_amount p)
       (PlatformSummary.profit_loss_percent p).

Definition user_ok (db : database) (h : heap) (row : User.row)
  (u : UserSummary.t) : Prop :=
  UserSummary.user_name u = User.name row
  /\ UserSummary.user_id u = User.user_id row
  /\ Forall2 (platform_ok db h (User.user_id row))
       (user_platforms db (User.user_id row)) (UserSummary.platforms u)
  /\ UserSummary.total_invested u
     == Qsum (map PlatformSummary.total_invested (UserSummary.platforms u))
  /\ UserSummary.current_value_of_assets u
     == Qsum (map PlatformSummary.current_value_of_assets
                  (UserSummary.platforms u))
  /\ UserSummary.total_cash u
     == Qsum (map PlatformSummary.total_cash (UserSummary.platforms u))
  /\ UserSummary.profit_loss_amount u
     = UserSummary.current_value_of_assets u - UserSummary.total_invested u
  /\ zero_guarded (UserSummary.total_invested u)
       (UserSummary.profit_loss_amount u)
       (UserSummary.profit_loss_percent u).

(** The sort key of the asset ranking and its filter. *)
Definition ranking_key (h : heap) (x : ref) : Q :=
  AssetDetail.profit_loss_percent (deref h x).

Definition qualifies (h : heap) (a : ref) : bool :=
  py_gt (AssetDetail.total_invested (deref h a)) 0.

(** The summed value of the accounts of type [k]. *)
Definition type_total (k : string) (l : list AccountSummary.t) : Q :=
  Qsum (map account_total_value
          (filter (fun s => String.eqb (AccountSummary.account_type s) k) l)).

(** What the buy simulation projects from the shares bought at [price]. *)
Definition buy_projection (a : Asset.row) (price : Q) (r : Buy.results)
  : Prop :=
  Buy.cost_of_purchase r = Buy.shares_purchased r * price
  /\ Buy.new_total_quantity r
     = or_zero (Asset.quantity a) + Buy.shares_purchased r
  /\ Buy.new_total_invested r
     = or_zero (Asset.total_invested a) + Buy.cost_of_purchase r
  /\ (0 < Buy.new_total_quantity r ->
      Buy.new_average_cost r
      == Buy.new_total_invested r / Buy.new_total_quantity r)
  /\ (Buy.new_total_quantity r <= 0 -> Buy.new_average_cost r = 0)
  /\ Buy.new_current_total_value r = Buy.new_total_quantity r * price
  /\ Buy.new_profit_loss_dollars r
     = Buy.new_current_total_value r - Buy.new_total_invested r
  /\ zero_guarded (Buy.new_total_invested r) (Buy.new_profit_loss_dollars r)
       (Buy.new_profit_loss_percent r).

(** The value a joined row contributes to the totals. *)
Definition row_value (row : Joined.row) : Q :=
  match derive_asset (Joined.asset row) with
  | Ok d => Derived.current_value d
  | Raise _ => 0
  end.

(** The store's primary keys: no two rows of a table share their id. *)
Definition primary_keys (db : database) : Prop :=
  NoDup (map User.user_id (users db))
  /\ NoDup (map Platform.platform_id (platforms db))
  /\ NoDup (map Account.account_id (accounts db)).

(** Every account row names a user row and a platform row of the store. *)
Definition accounts_resolved (db : database) : Prop :=
  forall acc, In acc (accounts db) ->
    (exists u, In u (users db) /\ User.user_id u = Account.user_id acc)
    /\ (exists p, In p (platforms db)
                  /\ Platform.platform_id p = Account.platform_id acc).

(** The account rows the rollup visits, in its order. *)
Definition covered_accounts (db : database) : list Account.row :=
  flat_map (fun u =>
    flat_map (fun p => accounts_on_platform db (User.user_id u) (fst p))
             (user_platforms db (User.user_id u)))
    (users_by_name db).

(** The sum of [f] over the asset objects of the account [id]. *)
Definition account_sum (f : AssetDetail.t -> Q) (h : heap) (id : Z) : Q :=
  Qsum (map f (filter (fun d => Z.eqb (AssetDetail.account_id d) id) h)).

(** A list in ascending order of a text column. *)
Definition ascending {A : Type} (name : A -> string) (l : list A) : Prop :=
  StronglySorted (fun a b => String.leb (name a) (name b) = true) l.

(** ** Asset management: add, edit and delete

    The messages the asset routes flash. *)
Inductive asset_message : Type :=
| AccountNotFound (account_id : Z)
| AddFieldsRequired
| AddNotPositive
| AddAlreadyExists (ticker_symbol : string)
| AddNoMarketData (ticker_symbol : string)
| AddSucceeded (ticker_symbol : string)
| AddFailed (ticker_symbol : string)
| AddInvalidNumber
| AddException (e : exn)
| EditAssetNotFound
| EditFieldsRequired
| EditInvalidNumber
| EditNotPositive
| EditTickerTaken (ticker_symbol : string)
| EditNoChanges
| EditSucceeded
| EditMarketDataCleared
| EditNoRows
| EditFailed
| DeleteAssetNotFound
| DeleteSucceeded (ticker_symbol : string)
| DeleteNoRows (ticker_symbol : string)
| DeleteFailed (ticker_symbol : string).

Definition notice : Type := (asset_message * category)%type.

(** The [UNIQUE(account_id, ticker_symbol)] constraint of the [assets]
    table: a statement whose result would break it raises
    [sqlite3.IntegrityError], which [query_db] turns into [None], leaving
    the table as it was.  The [NOT NULL] columns refuse no number of this
    model: they refuse [nan], which [float] reads from a form and the
    rationals lack. *)
Definition holding (a : Asset.row) : Z * string :=
  (Asset.account_id a, Asset.ticker_symbol a).

Definition holding_eqb (x y : Z * string) : bool :=
  Z.eqb (fst x) (fst y) && String.eqb (snd x) (snd y).

Fixpoint distinct {A : Type} (eqb : A -> A -> bool) (l : list A) : bool :=
  match l with
  | [] => true
  | x :: l' => negb (existsb (eqb x) l') && distinct eqb l'
  end.

Definition execute_on_assets (db : database) (rows : list Asset.row)
  : option database :=
  if distinct holding_eqb (map holding rows)
  then Some (with_assets db rows)
  else None.

(** The account lookup at the head of [manage_account_assets]: the account
    joined with its user and its platform. *)
Definition account_details_query (db : database) (account_id : Z)
  : option Account.row :=
  find (fun a =>
          Z.eqb (Account.account_id a) account_id
          && existsb (fun u => Z.eqb (Account.user_id a) (User.user_id u))
               (users db)
          && existsb (fun p =>
                        Z.eqb (Account.platform_id a)
                          (Platform.platform_id p))
               (platforms db))
       (accounts db).

(** [WHERE account_id = ? AND ticker_symbol = ?]. *)
Definition same_holding (account_id : Z) (ticker_symbol : string)
  (a : Asset.row) : bool :=
  Z.eqb (Asset.account_id a) account_id
  && String.eqb (Asset.ticker_symbol a) ticker_symbol.

(** The values of the [INSERT] of the [add_asset] action: the form values
    and, when the gateway answered, its prices and (if no name was typed)
    its name.  [new_id] is the [asset_id] that [AUTOINCREMENT] gives the
    inserted row. *)
Definition new_asset_row (account_id new_id : Z)
  (ticker_symbol asset_name_manual : string)
  (quantity average_cost total_invested : Q)
  (market_data : option MarketData.t) : Asset.row :=
  let fetched_name := Some asset_name_manual in
  match market_data with
  | Some market_data =>
      {| Asset.asset_id := new_id;
         Asset.account_id := account_id;
         Asset.ticker_symbol := ticker_symbol;
         Asset.name :=
           if negb (truthy_name fetched_name)
              && truthy_name (MarketData.name market_data)
           then MarketData.name market_data
           else fetched_name;
         Asset.quantity := Some quantity;
         Asset.average_cost := Some average_cost;
         Asset.total_invested := Some total_invested;
         Asset.current_price := MarketData.current_price market_data;
         Asset.price_yesterday := MarketData.price_yesterday market_data;
         Asset.fifty_two_week_high :=
           MarketData.fifty_two_week_high market_data;
         Asset.fifty_two_week_low :=
           MarketData.fifty_two_week_low market_data |}
  | None =>
      {| Asset.asset_id := new_id;
         Asset.account_id := account_id;
         Asset.ticker_symbol := ticker_symbol;
         Asset.name := fetched_name;
         Asset.quantity := Some quantity;
         Asset.average_cost := Some average_cost;
         Asset.total_invested := Some total_invested;
         Asset.current_price := None;
         Asset.price_yesterday := None;
         Asset.fifty_two_week_high := None;
         Asset.fifty_two_week_low := None |}
  end.

(** The body of the [try] of the [add_asset] action. *)
Definition add_asset_body (yf : yfinance) (db : database)
  (account_id new_id : Z) (ticker_symbol asset_name_manual : string)
  (quantity_str average_cost_str total_invested_str : form_field Q)
  : result (database * list notice * list printed) :=
  quantity <- parse quantity_str ;;
  average_cost <- parse average_cost_str ;;
  total_invested <- parse total_invested_str ;;
  if py_le quantity 0 || py_lt average_cost 0 || py_lt total_invested 0
  then Ok (db, [(AddNotPositive, warning)], [])
  else if existsb (same_holding account_id ticker_symbol) (assets db)
  then Ok (db, [(AddAlreadyExists ticker_symbol, warning)], [])
  else
    let (market_data, out) := fetch_market_data yf ticker_symbol in
    let flashed :=
      match market_data with
      | Some _ => []
      | None => [(AddNoMarketData ticker_symbol, warning)]
      end in
    match execute_on_assets db
            (assets db
             ++ [new_asset_row account_id new_id ticker_symbol
                   asset_name_manual quantity average_cost total_invested
                   market_data]) with
    | Some db' =>
        Ok (db', flashed ++ [(AddSucceeded ticker_symbol, success)], out)
    | None =>
        Ok (db, flashed ++ [(AddFailed ticker_symbol, error_)], out)
    end.

(** The [add_asset] action of [manage_account_assets].  The strings are
    the form values after [strip()] (and [upper()] for the ticker). *)
Definition add_asset (yf : yfinance) (db : database)
  (account_id new_id : Z) (ticker_symbol asset_name_manual : string)
  (quantity_str average_cost_str total_invested_str : form_field Q)
  : database * list notice * list printed :=
  match account_details_query db account_id with
  | None => (db, [(AccountNotFound account_id, error_)], [])
  | Some _ =>
      if negb (negb (String.eqb ticker_symbol EmptyString)
               && truthy quantity_str && truthy average_cost_str
               && truthy total_invested_str)
      then (db, [(AddFieldsRequired, error_)], [])
      else
        match add_asset_body yf db account_id new_id ticker_symbol
                asset_name_manual quantity_str average_cost_str
                total_invested_str with
        | Ok r => r
        | Raise ValueError => (db, [(AddInvalidNumber, error_)], [])
        | Raise e => (db, [(AddException e, error_)], [])
        end
  end.

(** The asset lookup of [edit_asset]: the asset joined with its account. *)
Definition asset_query (db : database) (asset_id : Z) : option Asset.row :=
  find (fun a =>
          Z.eqb (Asset.asset_id a) asset_id
          && existsb (fun acc =>
                        Z.eqb (Asset.account_id a) (Account.account_id acc))
               (accounts db))
       (assets db).

(** [UPDATE assets SET ticker_symbol = ?, name = ?, quantity = ?,
    average_cost = ?, total_invested = ?]. *)
Definition set_details (ticker_symbol : string) (name : option string)
  (quantity average_cost total_invested : Q) (a : Asset.row) : Asset.row :=
  {| Asset.asset_id := Asset.asset_id a;
     Asset.account_id := Asset.account_id a;
     Asset.ticker_symbol := ticker_symbol;
     Asset.name := name;
     Asset.quantity := Some quantity;
     Asset.average_cost := Some average_cost;
     Asset.total_invested := Some total_invested;
     Asset.current_price := Asset.current_price a;
     Asset.price_yesterday := Asset.price_yesterday a;
     Asset.fifty_two_week_high := Asset.fifty_two_week_high a;
     Asset.fifty_two_week_low := Asset.fifty_two_week_low a |}.

(** [UPDATE assets SET current_price = NULL, price_yesterday = NULL,
    fifty_two_week_high = NULL, fifty_two_week_low = NULL]. *)
Definition clear_market_data (a : Asset.row) : Asset.row :=
  {| Asset.asset_id := Asset.asset_id a;
     Asset.account_id := Asset.account_id a;
     Asset.ticker_symbol := Asset.ticker_symbol a;
     Asset.name := Asset.name a;
     Asset.quantity := Asset.quantity a;
     Asset.average_cost := Asset.average_cost a;
     Asset.total_invested := Asset.total_invested a;
     Asset.current_price := None;
     Asset.price_yesterday := None;
     Asset.fifty_two_week_high := None;
     Asset.fifty_two_week_low := None |}.

(** [cur.rowcount] of a statement [WHERE asset_id = ?]. *)
Definition rowcount (db : database) (asset_id : Z) : nat :=
  List.length (filter (fun a => Z.eqb (Asset.asset_id a) asset_id)
                 (assets db)).

(** [new == asset[column]] on a stored number. *)
Definition eq_stored (new : Q) (stored : option Q) : bool :=
  match stored with
  | Some q => Qeq_bool new q
  | None => false
  end.

(** [asset['name'] or '']. *)
Definition or_empty (s : option string) : string :=
  match s with
  | Some s => s
  | None => EmptyString
  end.

(** The POST branch of [edit_asset]; the strings are the form values after
    [strip()] (and [upper()] for the ticker). *)
Definition edit_asset (db : database) (asset_id : Z)
  (new_ticker_symbol new_asset_name : string)
  (new_quantity_str new_average_cost_str new_total_invested_str
     : form_field Q)
  : result (database * list notice) :=
  asset <- select_by_id (asset_query db asset_id) asset_id ;;
  match asset with
  | None => Ok (db, [(EditAssetNotFound, error_)])
  | Some asset =>
      let parent_account_id := Asset.account_id asset in
      if negb (negb (String.eqb new_ticker_symbol EmptyString)
               && truthy new_quantity_str && truthy new_average_cost_str
               && truthy new_total_invested_str)
      then Ok (db, [(EditFieldsRequired, error_)])
      else
        match (new_quantity <- parse new_quantity_str ;;
               new_average_cost <- parse new_average_cost_str ;;
               new_total_invested <- parse new_total_invested_str ;;
               Ok (new_quantity, new_average_cost, new_total_invested)) with
        | Raise ValueError => Ok (db, [(EditInvalidNumber, error_)])
        | Raise e => Raise e
        | Ok (new_quantity, new_average_cost, new_total_invested) =>
            if py_le new_quantity 0 || py_lt new_average_cost 0
               || py_lt new_total_invested 0
            then Ok (db, [(EditNotPositive, warning)])
            else
              let ticker_changed :=
                negb (String.eqb new_ticker_symbol
                        (Asset.ticker_symbol asset)) in
              if ticker_changed
                 && existsb (fun a =>
                               same_holding parent_account_id
                                 new_ticker_symbol a
                               && negb (Z.eqb (Asset.asset_id a) asset_id))
                      (assets db)
              then Ok (db, [(EditTickerTaken new_ticker_symbol, warning)])
              else if negb ticker_changed
                      && String.eqb new_asset_name
                           (or_empty (Asset.name asset))
                      && eq_stored new_quantity (Asset.quantity asset)
                      && eq_stored new_average_cost
                           (Asset.average_cost asset)
                      && eq_stored new_total_invested
                           (Asset.total_invested asset)
              then Ok (db, [(EditNoChanges, info)])
              else
                match execute_on_assets db
                        (assets
                           (update_asset db asset_id
                              (set_details new_ticker_symbol
                                 (if String.eqb new_asset_name EmptyString
                                  then Asset.name asset
                                  else Some new_asset_name)
                                 new_quantity new_average_cost
                                 new_total_invested))) with
                | Some db1 =>
                    if (0 <? rowcount db asset_id)%nat then
                      if ticker_changed
                      then Ok (update_asset db1 asset_id clear_market_data,
                               [(EditSucceeded, success);
                                (EditMarketDataCleared, info)])
                      else Ok (db1, [(EditSucceeded, success)])
                    else Ok (db1, [(EditNoRows, info)])
                | None => Ok (db, [(EditFailed, error_)])
                end
        end
  end.

(** [DELETE FROM assets WHERE asset_id = ?]. *)
Definition delete_from_assets (db : database) (asset_id : Z) : database :=
  with_assets db
    (filter (fun a => negb (Z.eqb (Asset.asset_id a) asset_id)) (assets db)).

Definition delete_asset (db : database) (asset_id : Z)
  : database * list notice :=
  match find_asset db asset_id with
  | None => (db, [(DeleteAssetNotFound, error_)])
  | Some asset_to_delete =>
      let asset_ticker := Asset.ticker_symbol asset_to_delete in
      let rows_affected := rowcount db asset_id in
      let db' := delete_from_assets db asset_id in
      if (0 <? rows_affected)%nat
      then (db', [(DeleteSucceeded asset_ticker, success)])
      else if (rows_affected =? 0)%nat
      then (db', [(DeleteNoRows asset_ticker, warning)])
      else (db', [(DeleteFailed asset_ticker, error_)])
  end.

(** ** Refresh of all assets: the loop over the distinct tickers *)

(** [UPDATE assets SET current_price = ?, price_yesterday = ?,
    fifty_two_week_high = ?, fifty_two_week_low = ?
    WHERE ticker_symbol = ?]. *)
Definition set_prices (market_data : MarketData.t) (a : Asset.row)
  : Asset.row :=
  set_market_data market_data (Asset.name a) a.

Definition update_prices_by_ticker (db : database) (ticker_symbol : string)
  (market_data : MarketData.t) : database :=
  with_assets db
    (map (fun a => if String.eqb (Asset.ticker_symbol a) ticker_symbol
                   then set_prices market_data a else a)
       (assets db)).

(** [UPDATE assets SET name = ? WHERE asset_id = ?]. *)
Definition set_name (name : option string) (a : Asset.row) : Asset.row :=
  {| Asset.asset_id := Asset.asset_id a;
     Asset.account_id := Asset.account_id a;
     Asset.ticker_symbol := Asset.ticker_symbol a;
     Asset.name := name;
     Asset.quantity := Asset.quantity a;
     Asset.average_cost := Asset.average_cost a;
     Asset.total_invested := Asset.total_invested a;
     Asset.current_price := Asset.current_price a;
     Asset.price_yesterday := Asset.price_yesterday a;
     Asset.fifty_two_week_high := Asset.fifty_two_week_high a;
     Asset.fifty_two_week_low := Asset.fifty_two_week_low a |}.

(** The items of [asset_names_map], read before the prices are written;
    [asset_id] is the primary key, so no key occurs twice. *)
Definition asset_names_map (db : database) (ticker_symbol : string)
  : list (Z * option string) :=
  map (fun a => (Asset.asset_id a, Asset.name a))
    (filter (fun a => String.eqb (Asset.ticker_symbol a) ticker_symbol)
       (assets db)).

(** The loop over [asset_names_map.items()]. *)
Definition fill_names (name_from_api : option string)
  (items : list (Z * option string)) (db : database) : database :=
  fold_left (fun db (item : Z * option string) =>
               let (asset_id, current_db_name) := item in
               if truthy_name name_from_api
                  && negb (truthy_name current_db_name)
               then update_asset db asset_id (set_name name_from_api)
               else db)
    items db.

Module RefreshAll.
Record state : Type := {
  db : database;
  updated_tickers_count : nat;
  failed_tickers : list string;
  out : list printed
}.
End RefreshAll.

(** One turn of the loop of [refresh_all_assets_data].  The price update
    breaks no constraint, so [rows_affected_price_update] is a number. *)
Definition refresh_ticker (yf : yfinance) (s : RefreshAll.state)
  (ticker_symbol : string) : RefreshAll.state :=
  match fetch_market_data yf ticker_symbol with
  | (Some market_data, printed) =>
      let items := asset_names_map (RefreshAll.db s) ticker_symbol in
      let name_from_api := MarketData.name market_data in
      let db1 :=
        update_prices_by_ticker (RefreshAll.db s) ticker_symbol
          market_data in
      {| RefreshAll.db := fill_names name_from_api items db1;
         RefreshAll.updated_tickers_count :=
           S (RefreshAll.updated_tickers_count s);
         RefreshAll.failed_tickers := RefreshAll.failed_tickers s;
         RefreshAll.out := RefreshAll.out s ++ printed |}
  | (None, printed) =>
      {| RefreshAll.db := RefreshAll.db s;
         RefreshAll.updated_tickers_count :=
           RefreshAll.updated_tickers_count s;
         RefreshAll.failed_tickers :=
           RefreshAll.failed_tickers s ++ [ticker_symbol];
         RefreshAll.out := RefreshAll.out s ++ printed |}
  end.

(** The loop, over the distinct tickers in the order the set yields
    them. *)
Definition refresh_all_loop (yf : yfinance)
  (unique_tickers_to_process : list string) (db : database)
  : RefreshAll.state :=
  fold_left (refresh_ticker yf) unique_tickers_to_process
    {| RefreshAll.db := db; RefreshAll.updated_tickers_count := 0;
       RefreshAll.failed_tickers := []; RefreshAll.out := [] |}.

(** [SELECT DISTINCT ticker_symbol FROM assets]. *)
Definition distinct_tickers (db : database) : list string :=
  nodup string_dec (map Asset.ticker_symbol (assets db)).

(** ** Vocabulary of the asset table *)

(** The constraints of the [assets] table: primary key and
    [UNIQUE(account_id, ticker_symbol)]. *)
Definition asset_constraints (db : database) : Prop :=
  NoDup (map Asset.asset_id (assets db))
  /\ NoDup (map holding (assets db)).

(** What the forms accept: a positive quantity and non-negative costs. *)
Definition accepted_holding (a : Asset.row) : Prop :=
  exists q c t,
    Asset.quantity a = Some q /\ Asset.average_cost a = Some c
    /\ Asset.total_invested a = Some t
    /\ 0 < q /\ 0 <= c /\ 0 <= t.

(** [new_id] is larger than every stored asset id, as [AUTOINCREMENT]
    ensures. *)
Definition fresh_id (db : database) (new_id : Z) : Prop :=
  forall a, In a (assets db) -> (Asset.asset_id a < new_id)%Z.

(** The row a refresh leaves in place of [a]: the gateway's prices, and its
    name when the asset has none; [a] itself when the gateway call fails. *)
Definition refreshed_row (yf : yfinance) (a : Asset.row) : Asset.row :=
  match fst (fetch_market_data yf (Asset.ticker_symbol a)) with
  | Some market_data =>
      set_market_data market_data
        (if truthy_name (MarketData.name market_data)
            && negb (truthy_name (Asset.name a))
         then MarketData.name market_data
         else Asset.name a)
        a
  | None => a
  end.

(** ** User management: add and rename

    The messages the user routes flash. *)
Inductive user_message : Type :=
| UserNameEmpty
| UserExists (name : string)
| UserAdded (name : string) (user_id : Z)
| UserAddFailed (name : string)
| UserNotFound
| UserNameTaken (name : string)
| UserNoChanges
| UserUpdated (old_name new_name : string)
| UserNotUpdated (old_name : string)
| UserUpdateFailed (old_name : string).

Definition with_users (db : database) (l : list User.row) : database :=
  {| users := l; platforms := platforms db; accounts := accounts db;
     assets := assets db; portfolio_history := portfolio_history db |}.

(** The [UNIQUE] constraint on [users.name]: a statement whose result would
    break it is refused, and [query_db] returns [None]. *)
Definition execute_on_users (db : database) (rows : list User.row)
  : option database :=
  if distinct String.eqb (map User.name rows)
  then Some (with_users db rows)
  else None.

(** [SELECT * FROM users WHERE user_id = ?] with [one=True]. *)
Definition find_user (db : database) (user_id : Z) : option User.row :=
  find (fun u => Z.eqb (User.user_id u) user_id) (users db).

(** The POST branch of [manage_users]; [name] is the form value after
    [strip()], [new_id] the [user_id] that [AUTOINCREMENT] gives the
    inserted row. *)
Definition manage_users (db : database) (new_id : Z) (name : string)
  : database * list (user_message * category) :=
  if negb (String.eqb name EmptyString) then
    if existsb (fun u => String.eqb (User.name u) name) (users db)
    then (db, [(UserExists name, warning)])
    else
      match execute_on_users db
              (users db
               ++ [ {| User.user_id := new_id; User.name := name |} ]) with
      | Some db' => (db', [(UserAdded name new_id, success)])
      | None => (db, [(UserAddFailed name, error_)])
      end
  else (db, [(UserNameEmpty, warning)]).

(** [UPDATE users SET name = ? WHERE user_id = ?]. *)
Definition rename_user (user_id : Z) (new_name : string) (u : User.row)
  : User.row :=
  if Z.eqb (User.user_id u) user_id
  then {| User.user_id := User.user_id u; User.name := new_name |}
  else u.

(** The POST branch of [edit_user]. *)
Definition edit_user (db : database) (user_id : Z) (new_name : string)
  : database * list (user_message * category) :=
  match find_user db user_id with
  | None => (db, [(UserNotFound, error_)])
  | Some user =>
      if String.eqb new_name EmptyString
      then (db, [(UserNameEmpty, warning)])
      else if existsb (fun u => String.eqb (User.name u) new_name
                                && negb (Z.eqb (User.user_id u) user_id))
                (users db)
      then (db, [(UserNameTaken new_name, warning)])
      else if String.eqb new_name (User.name user)
      then (db, [(UserNoChanges, info)])
      else
        match execute_on_users db
                (map (rename_user user_id new_name) (users db)) with
        | Some db' =>
            if (0 <? List.length
                       (filter (fun u => Z.eqb (User.user_id u) user_id)
                          (users db)))%nat
            then (db', [(UserUpdated (User.name user) new_name, success)])
            else (db', [(UserNotUpdated (User.name user), info)])
        | None => (db, [(UserUpdateFailed (User.name user), error_)])
        end
  end.

(** The constraints of the [users] table: primary key and unique name. *)
Definition user_constraints (db : database) : Prop :=
  NoDup (map User.user_id (users db)) /\ NoDup (map User.name (users db)).

(** A store the asset forms could have produced: the table constraints
    hold and every holding is an accepted one. *)
Definition store_ok (db : database) : Prop :=
  asset_constraints db /\ Forall accepted_holding (assets db).

(** One request to a route that writes the asset table, with whatever the
    gateway answers at that time. *)
Inductive asset_step (db : database) : database -> Prop :=
| step_add (yf : yfinance) (account_id new_id : Z)
    (ticker_symbol asset_name_manual : string)
    (quantity_str average_cost_str total_invested_str : form_field Q) :
    fresh_id db new_id ->
    asset_step db
      (fst (fst (add_asset yf db account_id new_id ticker_symbol
                   asset_name_manual quantity_str average_cost_str
                   total_invested_str)))
| step_edit (asset_id : Z) (new_ticker_symbol new_asset_name : string)
    (new_quantity_str new_average_cost_str new_total_invested_str
       : form_field Q) (db' : database) (fl : list notice) :
    edit_asset db asset_id new_ticker_symbol new_asset_name new_quantity_str
      new_average_cost_str new_total_invested_str = Ok (db', fl) ->
    asset_step db db'
| step_delete (asset_id : Z) :
    asset_step db (fst (delete_asset db asset_id))
| step_refresh (yf : yfinance) (asset_id : Z) :
    asset_step db (fst (fst (refresh_asset_data yf db asset_id)))
| step_refresh_all (yf : yfinance) (unique_tickers_to_process : list string) :
    NoDup unique_tickers_to_process ->
    asset_step db
      (RefreshAll.db (refresh_all_loop yf unique_tickers_to_process db)).

(** The stores reached from [db] by a sequence of such requests. *)
Inductive reachable (db : database) : database -> Prop :=
| reach_refl : reachable db db
| reach_step (db1 db2 : database) :
    reachable db db1 -> asset_step db1 db2 -> reachable db db2.

(** ** Floats that are not rationals

    [float()] also reads [inf], [-inf] and [nan]; a REAL column keeps an
    infinity, and [sqlite3] binds [nan] as NULL.  The code whose behaviour
    on such values a claim depends on is embedded once more over [Float.t]:
    the percentage of an asset, the two rankings and the snapshot step.

    A finite float is given by its value, a rational; comparisons are those
    of IEEE 754, which Python's floats follow.  An arithmetic operation on
    finite floats is the exact operation followed by rounding: [round] maps
    the exact result to the nearest float, and to an infinity when it is too
    large.  It is a parameter of the operations, and nothing below depends
    on which rounding it is. *)
Module Float.
Inductive t : Type :=
| Finite (q : Q)
| Infinity (negative : bool)
| NaN.

Definition is_nan (x : t) : bool :=
  match x with
  | NaN => true
  | _ => false
  end.

(** [a < b]: false as soon as one side is [nan]. *)
Definition lt (a b : t) : bool :=
  match a, b with
  | NaN, _ => false
  | _, NaN => false
  | Finite x, Finite y => negb (Qle_bool y x)
  | Finite _, Infinity negative => negb negative
  | Infinity negative, Finite _ => negative
  | Infinity n1, Infinity n2 => n1 && negb n2
  end.

Definition gt (a b : t) : bool := lt b a.

(** [a <= b]. *)
Definition le (a b : t) : bool :=
  match a, b with
  | NaN, _ => false
  | _, NaN => false
  | _, _ => negb (lt b a)
  end.

(** [a == b]. *)
Definition eqb (a b : t) : bool := le a b && le b a.

Definition opp (a : t) : t :=
  match a with
  | Finite q => Finite (- q)
  | Infinity negative => Infinity (negb negative)
  | NaN => NaN
  end.

Definition negative (q : Q) : bool := negb (Qle_bool 0 q).

Section Arithmetic.
Variable round : Q -> t.

Definition add (a b : t) : t :=
  match a, b with
  | NaN, _ => NaN
  | _, NaN => NaN
  | Finite x, Finite y => round (x + y)
  | Finite _, Infinity negative => Infinity negative
  | Infinity negative, Finite _ => Infinity negative
  | Infinity n1, Infinity n2 =>
      if Bool.eqb n1 n2 then Infinity n1 else NaN
  end.

Definition sub (a b : t) : t := add a (opp b).

Definition mul (a b : t) : t :=
  match a, b with
  | NaN, _ => NaN
  | _, NaN => NaN
  | Finite x, Finite y => round (x * y)
  | Finite x, Infinity n =>
      if Qeq_bool x 0 then NaN else Infinity (xorb (negative x) n)
  | Infinity n, Finite y =>
      if Qeq_bool y 0 then NaN else Infinity (xorb n (negative y))
  | Infinity n1, Infinity n2 => Infinity (xorb n1 n2)
  end.

(** [a / b]: Python raises [ZeroDivisionError] on a zero divisor, whatever
    the dividend. *)
Definition div (a b : t) : result t :=
  match b with
  | Finite y =>
      if Qeq_bool y 0 then Raise ZeroDivisionError
      else
        match a with
        | Finite x => Ok (round (x / y))
        | Infinity n => Ok (Infinity (xorb n (negative y)))
        | NaN => Ok NaN
        end
  | Infinity _ =>
      match a with
      | Finite _ => Ok (Finite 0)
      | _ => Ok NaN
      end
  | NaN => Ok NaN
  end.

End Arithmetic.

(** [x or 0.0]: [None] and zero are falsy, [inf] and [nan] are not. *)
Definition or_zero (x : option t) : t :=
  match x with
  | Some (Finite q) => if Qeq_bool q 0 then Finite 0 else Finite q
  | Some v => v
  | None => Finite 0
  end.
End Float.

(** The entries of an [asset_detail] dictionary that the ranking reads,
    lines 211-223 of [index]. *)
Module FloatDetail.
Record t : Type := {
  asset_id : Z;
  total_invested : Float.t;
  quantity : Float.t;
  current_value : Float.t;
  profit_loss_dollars : Float.t;
  profit_loss_percent : Float.t
}.
End FloatDetail.

Definition derive_float (round : Q -> Float.t) (asset_id : Z)
  (total_invested quantity current_price : option Float.t)
  : result FloatDetail.t :=
  let total_invested := Float.or_zero total_invested in
  let quantity := Float.or_zero quantity in
  let current_value :=
    match current_price with
    | Some p => Float.mul round quantity p
    | None => Float.Finite 0
    end in
  let profit_loss_dollars := Float.sub round current_value total_invested in
  profit_loss_percent <-
    (if Float.gt total_invested (Float.Finite 0)
     then r <- Float.div round profit_loss_dollars total_invested ;;
          Ok (Float.mul round r (Float.Finite 100))
     else Ok (Float.Finite 0)) ;;
  Ok {| FloatDetail.asset_id := asset_id;
        FloatDetail.total_invested := total_invested;
        FloatDetail.quantity := quantity;
        FloatDetail.current_value := current_value;
        FloatDetail.profit_loss_dollars := profit_loss_dollars;
        FloatDetail.profit_loss_percent := profit_loss_percent |}.

(** [sorted(l, key=key, reverse=True)] on float keys.  The sort compares
    with [<] only: an element stays in front of a later one unless its key
    is [<] the other's.  On keys that [<] orders (no [nan]) every stable
    sort returns this list.  With a [nan] among the keys Python promises a
    rearrangement of the input and no more: which one depends on the
    comparisons the sort happens to make.  A list in which no key is [<] a
    later key is returned as it is, by this sort and by CPython's, which
    finds it to be one run. *)
Definition sorted_reverse_float {A : Type} (key : A -> Float.t)
  (l : list A) : list A :=
  stable_sort (fun x y => negb (Float.lt (key x) (key y))) l.

(** Lines 238-254 of [index], without the two chart fetches: the best
    performer, the worst performer and the ranked list.  Every dictionary
    has a [profit_loss_percent], a float, so the filter's test
    [is not None] holds and [total_invested > 0] decides. *)
Definition rank_assets_float (all_assets_detailed : list FloatDetail.t)
  : option FloatDetail.t * option FloatDetail.t * list FloatDetail.t :=
  match all_assets_detailed with
  | [] => (None, None, [])
  | _ =>
      let valid_assets_for_ranking :=
        filter (fun a =>
                  Float.gt (FloatDetail.total_invested a) (Float.Finite 0))
          all_assets_detailed in
      match valid_assets_for_ranking with
      | [] => (None, None, [])
      | _ =>
          let sorted_assets :=
            sorted_reverse_float FloatDetail.profit_loss_percent
              valid_assets_for_ranking in
          match sorted_assets with
          | [] => (None, None, sorted_assets)
          | best :: _ =>
              (Some best, Some (last sorted_assets best), sorted_assets)
          end
      end
  end.

(** The entries of [all_accounts_performance_data] that the account ranking
    reads. *)
Module FloatPerformance.
Record t : Type := {
  display_name : string;
  total_invested : Float.t;
  profit_loss_percent : Float.t
}.
End FloatPerformance.

(** Lines 440-448 of [index]; here too every entry has a
    [profit_loss_percent]. *)
Definition rank_accounts_float (perf : list FloatPerformance.t)
  : list FloatPerformance.t :=
  match perf with
  | [] => []
  | _ =>
      sorted_reverse_float FloatPerformance.profit_loss_percent
        (filter (fun acc =>
                   Float.gt (FloatPerformance.total_invested acc)
                     (Float.Finite 0))
           perf)
  end.

(** Line 264 of [index]. *)
Definition overall_portfolio_value_float (round : Q -> Float.t)
  (global_current_value_of_assets global_total_cash : Float.t) : Float.t :=
  Float.add round global_current_value_of_assets global_total_cash.

(** The [portfolio_history] table with float values. *)
Definition float_snapshot : Type := (string * Float.t)%type.

Definition has_snapshot_float (history : list float_snapshot) (d : string)
  : bool :=
  existsb (fun s => String.eqb (fst s) d) history.

(** [INSERT INTO portfolio_history]: [snapshot_date] is the primary key and
    [total_portfolio_value] is [REAL NOT NULL].  A [nan] is bound as NULL,
    so the row is refused; [query_db] prints the error and returns [None]. *)
Definition insert_portfolio_history_float (history : list float_snapshot)
  (s : float_snapshot) : list float_snapshot :=
  if has_snapshot_float history (fst s) then history
  else if Float.is_nan (snd s) then history
  else history ++ [s].

(** The daily snapshot step, lines 266-272 of [index].  The value is a
    float, so the test [is not None] holds. *)
Definition record_snapshot_float (history : list float_snapshot)
  (today_str : string) (overall_portfolio_value : Float.t)
  : list float_snapshot :=
  let last_snapshot :=
    find (fun s => String.eqb (fst s) today_str) history in
  match last_snapshot with
  | None =>
      insert_portfolio_history_float history
        (today_str, overall_portfolio_value)
  | Some _ => history
  end.

(** A list in descending order of a float key. *)
Definition float_descending {A : Type} (key : A -> Float.t) (l : list A)
  : Prop :=
  StronglySorted (fun x y => Float.le (key y) (key x) = true) l.

(** [l'] keeps, among the elements of equal key, the order they have in
    [l]. *)
Definition float_keeps_ties {A : Type} (key : A -> Float.t) (l l' : list A)
  : Prop :=
  forall k, filter (fun x => Float.eqb (key x) k) l'
            = filter (fun x => Float.eqb (key x) k) l.

(** No key is [nan]. *)
Definition no_nan {A : Type} (key : A -> Float.t) (l : list A) : Prop :=
  Forall (fun x => Float.is_nan (key x) = false) l.

(** The dictionaries and the account entries that qualify for a ranking. *)
Definition assets_with_investment (all_assets_detailed : list FloatDetail.t)
  : list FloatDetail.t :=
  filter (fun a => Float.gt (FloatDetail.total_invested a) (Float.Finite 0))
    all_assets_detailed.

Definition accounts_with_investment (perf : list FloatPerformance.t)
  : list FloatPerformance.t :=
  filter (fun acc =>
            Float.gt (FloatPerformance.total_invested acc) (Float.Finite 0))
    perf.

(** Three asset dictionaries as lines 211-223 leave them: a holding that
    doubled, one stored with [total_invested = inf] and no price, and a
    holding that tripled. *)
Definition doubled_asset : FloatDetail.t :=
  {| FloatDetail.asset_id := 1;
     FloatDetail.total_invested := Float.Finite 100;
     FloatDetail.quantity := Float.Finite 1;
     FloatDetail.current_value := Float.Finite 200;
     FloatDetail.profit_loss_dollars := Float.Finite 100;
     FloatDetail.profit_loss_percent := Float.Finite 100 |}.

Definition infinite_cost_asset : FloatDetail.t :=
  {| FloatDetail.asset_id := 2;
     FloatDetail.total_invested := Float.Infinity false;
     FloatDetail.quantity := Float.Finite 1;
     FloatDetail.current_value := Float.Finite 0;
     FloatDetail.profit_loss_dollars := Float.Infinity true;
     FloatDetail.profit_loss_percent := Float.NaN |}.

Definition tripled_asset : FloatDetail.t :=
  {| FloatDetail.asset_id := 3;
     FloatDetail.total_invested := Float.Finite 100;
     FloatDetail.quantity := Float.Finite 1;
     FloatDetail.current_value := Float.Finite 300;
     FloatDetail.profit_loss_dollars := Float.Finite 200;
     FloatDetail.profit_loss_percent := Float.Finite 200 |}.

(** Rounding that changes no value (it writes the rational in lowest
    terms), for examples whose exact results are floats. *)
Definition round_exact (q : Q) : Float.t := Float.Finite (Qred q).

(** An integer of absolute value at most [2 ^ 53] is a float, so rounding
    returns an exact result that is such an integer unchanged. *)
Definition keeps_integers (round : Q -> Float.t) : Prop :=
  forall (q : Q) (z : Z),
    q == inject_Z z -> (Z.abs z <= 2 ^ 53)%Z ->
    round q = Float.Finite (inject_Z z).

(** ** The buy simulation over floats

    [float()] reads [inf] and [nan] from the form, and the quotient of two
    positive floats can be zero; the action is embedded once more, with
    the columns it selects. *)
Module FloatAsset.
Record row : Type := {
  asset_id : Z;
  quantity : option Float.t;
  total_invested : option Float.t;
  average_cost : option Float.t;
  current_price : option Float.t;
  ticker_symbol : string
}.
End FloatAsset.

Module FloatBuy.
Record results : Type := {
  asset_id : Z;
  ticker_symbol : string;
  shares_purchased : Float.t;
  cost_of_purchase : Float.t;
  new_total_quantity : Float.t;
  new_total_invested : Float.t;
  new_average_cost : Float.t;
  new_current_total_value : Float.t;
  new_profit_loss_dollars : Float.t;
  new_profit_loss_percent : Float.t;
  current_profit_loss_dollars : Float.t;
  current_profit_loss_percent : Float.t
}.
End FloatBuy.

(** [x or 1]. *)
Definition float_or_one (x : option Float.t) : Float.t :=
  match x with
  | Some (Float.Finite q) =>
      if Qeq_bool q 0 then Float.Finite 1 else Float.Finite q
  | Some v => v
  | None => Float.Finite 1
  end.

(** [SELECT ... FROM assets WHERE asset_id = ?] with [one=True]. *)
Definition find_asset_float (assets : list FloatAsset.row) (asset_id : Z)
  : option FloatAsset.row :=
  find (fun a => Z.eqb (FloatAsset.asset_id a) asset_id) assets.

(** [(n / d) * 100 if d > 0 else 0.0]. *)
Definition float_percent_if_positive (round : Q -> Float.t)
  (n d : Float.t) : result Float.t :=
  if Float.gt d (Float.Finite 0)
  then r <- Float.div round n d ;; Ok (Float.mul round r (Float.Finite 100))
  else Ok (Float.Finite 0).

(** Reading the two inputs: the shares bought, their cost, whether a valid
    input was provided, and what was flashed. *)
Definition read_buy_inputs_float (round : Q -> Float.t)
  (current_asset_price : Float.t)
  (investment_amount_str shares_to_buy_str : form_field Float.t)
  : result (Float.t * Float.t * bool * list flash) :=
  if truthy investment_amount_str then
    investment_amount <- parse investment_amount_str ;;
    if Float.le investment_amount (Float.Finite 0)
    then Ok (Float.Finite 0, Float.Finite 0, false,
             [(BuyAmountNotPositive, warning)])
    else
      shares_purchased <-
        Float.div round investment_amount current_asset_price ;;
      Ok (shares_purchased,
          Float.mul round shares_purchased current_asset_price, true, [])
  else if truthy shares_to_buy_str then
    shares_purchased <- parse shares_to_buy_str ;;
    if Float.le shares_purchased (Float.Finite 0)
    then Ok (shares_purchased, Float.Finite 0, false,
             [(BuySharesNotPositive, warning)])
    else Ok (shares_purchased,
             Float.mul round shares_purchased current_asset_price, true, [])
  else Ok (Float.Finite 0, Float.Finite 0, false, []).

(** The body of the [try] of the [simulate_buy_existing_asset] action. *)
Definition simulate_buy_body_float (round : Q -> Float.t)
  (assets : list FloatAsset.row) (asset_id_to_buy_str : form_field Z)
  (investment_amount_str shares_to_buy_str : form_field Float.t)
  : result (option FloatBuy.results * list flash) :=
  asset_id_to_buy <- parse asset_id_to_buy_str ;;
  existing_asset <-
    select_by_id (find_asset_float assets asset_id_to_buy) asset_id_to_buy ;;
  match existing_asset with
  | None => Ok (None, [(BuyAssetNotFound, error_)])
  | Some existing_asset =>
      match FloatAsset.current_price existing_asset with
      | None =>
          Ok (None,
              [(BuyPriceUnavailable
                  (FloatAsset.ticker_symbol existing_asset), warning)])
      | Some current_asset_price =>
          '(shares_purchased, cost_of_purchase, valid_input_provided,
            flashed) <-
            read_buy_inputs_float round current_asset_price
              investment_amount_str shares_to_buy_str ;;
          if valid_input_provided
             && Float.gt shares_purchased (Float.Finite 0) then
            let current_quantity :=
              Float.or_zero (FloatAsset.quantity existing_asset) in
            let current_total_invested :=
              Float.or_zero (FloatAsset.total_invested existing_asset) in
            let new_total_quantity :=
              Float.add round current_quantity shares_purchased in
            let new_total_invested_for_asset :=
              Float.add round current_total_invested cost_of_purchase in
            new_average_cost <-
              (if Float.gt new_total_quantity (Float.Finite 0)
               then Float.div round new_total_invested_for_asset
                      new_total_quantity
               else Ok (Float.Finite 0)) ;;
            let new_current_total_value :=
              Float.mul round new_total_quantity current_asset_price in
            let new_profit_loss_dollars :=
              Float.sub round new_current_total_value
                new_total_invested_for_asset in
            new_profit_loss_percent <-
              float_percent_if_positive round new_profit_loss_dollars
                new_total_invested_for_asset ;;
            let current_asset_value :=
              Float.mul round
                (Float.or_zero (FloatAsset.quantity existing_asset))
                (Float.or_zero (FloatAsset.current_price existing_asset)) in
            let current_profit_loss_dollars :=
              Float.sub round current_asset_value
                (Float.or_zero (FloatAsset.total_invested existing_asset)) in
            current_profit_loss_percent <-
              (if Float.gt
                    (Float.or_zero (FloatAsset.total_invested existing_asset))
                    (Float.Finite 0)
               then r <- Float.div round current_profit_loss_dollars
                           (float_or_one
                              (FloatAsset.total_invested existing_asset)) ;;
                    Ok (Float.mul round r (Float.Finite 100))
               else Ok (Float.Finite 0)) ;;
            Ok (Some {| FloatBuy.asset_id := asset_id_to_buy;
                        FloatBuy.ticker_symbol :=
                          FloatAsset.ticker_symbol existing_asset;
                        FloatBuy.shares_purchased := shares_purchased;
                        FloatBuy.cost_of_purchase := cost_of_purchase;
                        FloatBuy.new_total_quantity := new_total_quantity;
                        FloatBuy.new_total_invested :=
                          new_total_invested_for_asset;
                        FloatBuy.new_average_cost := new_average_cost;
                        FloatBuy.new_current_total_value :=
                          new_current_total_value;
                        FloatBuy.new_profit_loss_dollars :=
                          new_profit_loss_dollars;
                        FloatBuy.new_profit_loss_percent :=
                          new_profit_loss_percent;
                        FloatBuy.current_profit_loss_dollars :=
                          current_profit_loss_dollars;
                        FloatBuy.current_profit_loss_percent :=
                          current_profit_loss_percent |},
                flashed ++ [(BuyCalculated, info)])
          else if negb valid_input_provided
                  && negb (truthy investment_amount_str
                           || truthy shares_to_buy_str)
          then Ok (None, flashed ++ [(BuyNoInput, error_)])
          else Ok (None, flashed)
      end
  end.

(** The [simulate_buy_existing_asset] action.  Building
    [buy_simulation_inputs] calls [int] on the asset id outside the [try],
    so a malformed id escapes the handler. *)
Definition simulate_buy_existing_asset_float (round : Q -> Float.t)
  (assets : list FloatAsset.row) (asset_id_to_buy_str : form_field Z)
  (investment_amount_str shares_to_buy_str : form_field Float.t)
  : result (option FloatBuy.results * list flash) :=
  _ <- (if truthy asset_id_to_buy_str
        then a <- parse asset_id_to_buy_str ;; Ok (Some a)
        else Ok None) ;;
  if negb (truthy asset_id_to_buy_str)
  then Ok (None, [(BuyAssetIdMissing, error_)])
  else if negb (truthy investment_amount_str)
          && negb (truthy shares_to_buy_str)
  then Ok (None, [(BuyInputRequired, error_)])
  else
    match simulate_buy_body_float round assets asset_id_to_buy_str
            investment_amount_str shares_to_buy_str with
    | Ok r => Ok r
    | Raise ValueError => Ok (None, [(BuyInvalidNumber, error_)])
    | Raise e => Ok (None, [(BuyException e, error_)])
    end.

(** The projection the buy simulation reports for [shares_purchased]
    shares of an asset at [price], each operation a float operation. *)
Definition buy_projection_float (round : Q -> Float.t) (a : FloatAsset.row)
  (price : Float.t) (r : FloatBuy.results) : Prop :=
  FloatBuy.cost_of_purchase r
  = Float.mul round (FloatBuy.shares_purchased r) price
  /\ FloatBuy.new_total_quantity r
     = Float.add round (Float.or_zero (FloatAsset.quantity a))
         (FloatBuy.shares_purchased r)
  /\ FloatBuy.new_total_invested r
     = Float.add round (Float.or_zero (FloatAsset.total_invested a))
         (FloatBuy.cost_of_purchase r)
  /\ (Float.gt (FloatBuy.new_total_quantity r) (Float.Finite 0) = true ->
      Float.div round (FloatBuy.new_total_invested r)
        (FloatBuy.new_total_quantity r)
      = Ok (FloatBuy.new_average_cost r))
  /\ (Float.gt (FloatBuy.new_total_quantity r) (Float.Finite 0) = false ->
      FloatBuy.new_average_cost r = Float.Finite 0)
  /\ FloatBuy.new_current_total_value r
     = Float.mul round (FloatBuy.new_total_quantity r) price
  /\ FloatBuy.new_profit_loss_dollars r
     = Float.sub round (FloatBuy.new_current_total_value r)
         (FloatBuy.new_total_invested r)
  /\ float_percent_if_positive round (FloatBuy.new_profit_loss_dollars r)
       (FloatBuy.new_total_invested r)
     = Ok (FloatBuy.new_profit_loss_percent r).

(** The asset of the example: 5 shares bought for 500, now at 120; and an
    asset whose stored price is 0. *)
Definition example_assets_float : list FloatAsset.row :=
  [ {| FloatAsset.asset_id := 2;
       FloatAsset.quantity := Some (Float.Finite 5);
       FloatAsset.total_invested := Some (Float.Finite 500);
       FloatAsset.average_cost := Some (Float.Finite 100);
       FloatAsset.current_price := Some (Float.Finite 120);
       FloatAsset.ticker_symbol := "BBB" |};
    {| FloatAsset.asset_id := 1;
       FloatAsset.quantity := Some (Float.Finite 5);
       FloatAsset.total_invested := Some (Float.Finite 500);
       FloatAsset.average_cost := Some (Float.Finite 100);
       FloatAsset.current_price := Some (Float.Finite 0);
       FloatAsset.ticker_symbol := "ZZZ" |} ].

(** At most one snapshot per calendar date, with float values. *)
Definition one_per_date_float (history : list float_snapshot) : Prop :=
  NoDup (map fst history).

(** A history with one snapshot, of the day before the run. *)
Definition example_history_float : list float_snapshot :=
  [("2024-01-01"%string, Float.Finite 7)].

(** ** Python runtime: properties *)

Lemma py_gt_true (a b : Q) : py_gt a b = true <-> b < a.
Proof.
  unfold py_gt. rewrite negb_true_iff. split; intro H.
  - apply Qnot_le_lt. intro C. apply Qle_bool_iff in C. congruence.
  - destruct (Qle_bool a b) eqn:E; [|reflexivity].
    apply Qle_bool_iff in E. exfalso. apply (Qlt_not_le _ _ H E).
Qed.

Lemma py_gt_false (a b : Q) : py_gt a b = false <-> a <= b.
Proof.
  unfold py_gt. rewrite negb_false_iff. apply Qle_bool_iff.
Qed.

Lemma py_lt_false (a b : Q) : py_lt a b = false <-> b <= a.
Proof.
  unfold py_lt. rewrite negb_false_iff. apply Qle_bool_iff.
Qed.

Lemma py_lt_true (a b : Q) : py_lt a b = true <-> a < b.
Proof. unfold py_lt. apply (py_gt_true b a). Qed.

Lemma py_div_positive (a b : Q) : 0 < b -> py_div a b = Ok (a / b).
Proof.
  intro H. unfold py_div. destruct (Qeq_bool b 0) eqn:E; [|reflexivity].
  apply Qeq_bool_iff in E. rewrite E in H. exfalso. apply (Qlt_irrefl _ H).
Qed.

Lemma or_zero_some (q : Q) : or_zero (Some q) == q.
Proof.
  simpl. destruct (Qeq_bool q 0) eqn:E; [|reflexivity].
  apply Qeq_bool_iff in E. symmetry. exact E.
Qed.

Lemma num_or_zero_eq (q : Q) : num_or_zero q == q.
Proof. exact (or_zero_some q). Qed.

(** The guarded percentage never raises. *)
Lemma percent_if_positive_ok (num den : Q) :
  exists p, percent_if_positive num den = Ok p /\ zero_guarded den num p.
Proof.
  unfold percent_if_positive, zero_guarded.
  destruct (py_gt den 0) eqn:E.
  - apply py_gt_true in E. rewrite (py_div_positive _ E). simpl.
    eexists; split; [reflexivity|]. split; intro H; [|reflexivity].
    exfalso. apply (Qlt_not_le _ _ E H).
  - apply py_gt_false in E. exists 0. split; [reflexivity|].
    split; intro H; [reflexivity|].
    exfalso. apply (Qlt_not_le _ _ H E).
Qed.

(** ** Sums *)

Lemma Qsum_app (l1 l2 : list Q) : Qsum (l1 ++ l2) == Qsum l1 + Qsum l2.
Proof.
  induction l1 as [|x l1 IH]; simpl; [ring | rewrite IH; ring].
Qed.

Lemma Qsum_Permutation (l1 l2 : list Q) :
  Permutation l1 l2 -> Qsum l1 == Qsum l2.
Proof.
  induction 1; simpl.
  - reflexivity.
  - rewrite IHPermutation. reflexivity.
  - ring.
  - etransitivity; eassumption.
Qed.

Lemma exact_sum_intro (total : Q) (children : list Q) :
  total == Qsum children -> exact_sum total children.
Proof.
  intros H l P. rewrite H. apply Qsum_Permutation. exact P.
Qed.

(** ** Stable sorting: properties *)

Section StableSortFacts.
Variable A : Type.
Variable before : A -> A -> bool.

Lemma insert_sorted_perm (x : A) (l : list A) :
  Permutation (insert_sorted before x l) (x :: l).
Proof.
  induction l as [|y l IH]; simpl; [reflexivity|].
  destruct (before x y); [reflexivity|].
  rewrite IH. apply perm_swap.
Qed.

Lemma stable_sort_perm (l : list A) : Permutation (stable_sort before l) l.
Proof.
  induction l as [|x l IH]; simpl; [reflexivity|].
  rewrite insert_sorted_perm. apply perm_skip. exact IH.
Qed.

Lemma stable_sort_in (l : list A) (x : A) :
  In x (stable_sort before l) <-> In x l.
Proof.
  split; apply Permutation_in;
    [apply stable_sort_perm | symmetry; apply stable_sort_perm].
Qed.

End StableSortFacts.

Section SortedReverseFacts.
Variable A : Type.
Variable key : A -> Q.

Let before (x y : A) : bool := Qle_bool (key y) (key x).

Lemma insert_descending (x : A) (l : list A) :
  descending key l -> descending key (insert_sorted before x l).
Proof.
  unfold descending. induction 1 as [|y l S IH F]; simpl.
  - constructor; [constructor | constructor].
  - unfold before at 1. destruct (Qle_bool (key y) (key x)) eqn:E.
    + apply Qle_bool_iff in E. constructor.
      * constructor; assumption.
      * constructor; [exact E|].
        rewrite Forall_forall in *. intros z Hz.
        apply Qle_trans with (key y); [apply F, Hz | exact E].
    + constructor; [exact IH|].
      rewrite Forall_forall in *. intros z Hz.
      apply (Permutation_in _ (insert_sorted_perm before x l)) in Hz.
      destruct Hz as [<-|Hz]; [|apply F, Hz].
      apply Qlt_le_weak, Qnot_le_lt. intro C.
      apply Qle_bool_iff in C. congruence.
Qed.

Lemma sorted_reverse_descending (l : list A) :
  descending key (sorted_reverse key l).
Proof.
  unfold sorted_reverse. induction l as [|x l IH]; simpl.
  - constructor.
  - apply insert_descending. exact IH.
Qed.

Lemma insert_keeps_ties (x : A) (l : list A) (k : Q) :
  filter (fun z => Qeq_bool (key z) k) (insert_sorted before x l)
  = filter (fun z => Qeq_bool (key z) k) (x :: l).
Proof.
  induction l as [|y l IH]; [reflexivity|].
  cbn [insert_sorted]. unfold before at 1.
  destruct (Qle_bool (key y) (key x)) eqn:E; [reflexivity|].
  cbn [filter] in *. rewrite IH.
  destruct (Qeq_bool (key x) k) eqn:Ex; [|reflexivity].
  destruct (Qeq_bool (key y) k) eqn:Ey; [|reflexivity].
  apply Qeq_bool_iff in Ex, Ey. exfalso.
  assert (C : Qle_bool (key y) (key x) = true).
  { apply Qle_bool_iff. rewrite Ex, Ey. apply Qle_refl. }
  congruence.
Qed.

Lemma sorted_reverse_keeps_ties (l : list A) :
  keeps_ties key l (sorted_reverse key l).
Proof.
  unfold keeps_ties, sorted_reverse. intro k.
  induction l as [|x l IH]; [reflexivity|].
  change (stable_sort (fun x y => Qle_bool (key y) (key x)) (x :: l))
    with (insert_sorted before x
            (stable_sort (fun x y => Qle_bool (key y) (key x)) l)).
  rewrite insert_keeps_ties. cbn [filter]. rewrite IH. reflexivity.
Qed.

End SortedReverseFacts.

(** ** Per-asset derivation: properties *)

Lemma derive_ok (total_invested quantity current_price price_yesterday
                 fifty_two_week_high : option Q) :
  exists d,
    derive total_invested quantity current_price price_yesterday
           fifty_two_week_high = Ok d
    /\ Derived.total_invested d = or_zero total_invested
    /\ Derived.quantity d = or_zero quantity
    /\ Derived.current_value d
       = match current_price with
         | Some p => or_zero quantity * p
         | None => 0
         end
    /\ Derived.profit_loss_dollars d
       = Derived.current_value d - Derived.total_invested d
    /\ zero_guarded (Derived.total_invested d) (Derived.profit_loss_dollars d)
         (Derived.profit_loss_percent d)
    /\ (current_price = None \/ price_yesterday = None
        \/ (exists y, price_yesterday = Some y /\ y <= 0) ->
        Derived.day_change_percent d = 0)
    /\ (forall p y, current_price = Some p -> price_yesterday = Some y ->
        0 < y -> Derived.day_change_percent d == (p - y) / y * 100)
    /\ (current_price = None \/ fifty_two_week_high = None
        \/ (exists x, fifty_two_week_high = Some x /\ x <= 0) ->
        Derived.percent_to_52_week_high d = None)
    /\ (forall p x, current_price = Some p -> fifty_two_week_high = Some x ->
        0 < x ->
        exists r, Derived.percent_to_52_week_high d = Some r
                  /\ r == (p - x) / x * 100).
Proof.
  unfold derive.
  destruct (percent_if_positive_ok
              (match current_price with
               | Some p => or_zero quantity * p
               | None => 0
               end - or_zero total_invested) (or_zero total_invested))
    as [plp [Hplp Hguard]].
  rewrite Hplp. cbn [bind].
  assert (Hday : exists dc,
    match current_price, price_yesterday with
    | Some p, Some y =>
        if py_gt y 0 then r <- py_div (p - y) y ;; Ok (r * 100) else Ok 0
    | _, _ => Ok 0
    end = Ok dc
    /\ (current_price = None \/ price_yesterday = None
        \/ (exists y, price_yesterday = Some y /\ y <= 0) -> dc = 0)
    /\ (forall p y, current_price = Some p -> price_yesterday = Some y ->
        0 < y -> dc == (p - y) / y * 100)).
  { destruct current_price as [p|], price_yesterday as [y|];
      try (exists 0; split; [reflexivity|]; split;
           [reflexivity | intros ? ? ? ?; discriminate]).
    destruct (py_gt y 0) eqn:E.
    - apply py_gt_true in E. rewrite (py_div_positive _ E). cbn [bind].
      eexists; split; [reflexivity|]. split.
      + intros [C|[C|[y' [C1 C2]]]]; try discriminate.
        injection C1 as <-. exfalso. apply (Qlt_not_le _ _ E C2).
      + intros p' y' [= <-] [= <-] _. reflexivity.
    - apply py_gt_false in E. exists 0. split; [reflexivity|]. split.
      + reflexivity.
      + intros p' y' _ [= <-] C. exfalso. apply (Qlt_not_le _ _ C E). }
  destruct Hday as [dc [Hdc [Hdc0 Hdc1]]]. rewrite Hdc. cbn [bind].
  assert (Hhigh : exists ph,
    match current_price, fifty_two_week_high with
    | Some p, Some h =>
        if py_gt h 0 then r <- py_div (p - h) h ;; Ok (Some (r * 100))
        else Ok None
    | _, _ => Ok None
    end = Ok ph
    /\ (current_price = None \/ fifty_two_week_high = None
        \/ (exists x, fifty_two_week_high = Some x /\ x <= 0) -> ph = None)
    /\ (forall p x, current_price = Some p -> fifty_two_week_high = Some x ->
        0 < x -> exists r, ph = Some r /\ r == (p - x) / x * 100)).
  { destruct current_price as [p|], fifty_two_week_high as [x|];
      try (exists None; split; [reflexivity|]; split;
           [reflexivity | intros ? ? ? ?; discriminate]).
    destruct (py_gt x 0) eqn:E.
    - apply py_gt_true in E. rewrite (py_div_positive _ E). cbn [bind].
      eexists; split; [reflexivity|]. split.
      + intros [C|[C|[x' [C1 C2]]]]; try discriminate.
        injection C1 as <-. exfalso. apply (Qlt_not_le _ _ E C2).
      + intros p' x' [= <-] [= <-] _. eexists; split; reflexivity.
    - apply py_gt_false in E. exists None. split; [reflexivity|]. split.
      + reflexivity.
      + intros p' x' _ [= <-] C. exfalso. apply (Qlt_not_le _ _ C E). }
  destruct Hhigh as [ph [Hph [Hph0 Hph1]]]. rewrite Hph. cbn [bind].
  eexists. split; [reflexivity|]. cbn.
  repeat split; try assumption; apply Hguard.
Qed.

Lemma derive_asset_total (a : Asset.row) : exists d, derive_asset a = Ok d.
Proof.
  destruct (derive_ok (Asset.total_invested a) (Asset.quantity a)
              (Asset.current_price a) (Asset.price_yesterday a)
              (Asset.fifty_two_week_high a)) as [d [H _]].
  exists d. exact H.
Qed.

Lemma derive_asset_guard (a : Asset.row) (d : Derived.t) :
  derive_asset a = Ok d ->
  zero_guarded (Derived.total_invested d) (Derived.profit_loss_dollars d)
    (Derived.profit_loss_percent d).
Proof.
  intro H.
  destruct (derive_ok (Asset.total_invested a) (Asset.quantity a)
              (Asset.current_price a) (Asset.price_yesterday a)
              (Asset.fifty_two_week_high a)) as [d' [H' F]].
  unfold derive_asset in H. rewrite H' in H. injection H as <-.
  apply F.
Qed.

(** ** Heap: properties *)

Lemma heap_update_same_data (h : heap) (r : ref)
  (f : AssetDetail.t -> AssetDetail.t) :
  (forall d, AssetDetail.derived (f d) = AssetDetail.derived d) ->
  (forall d, AssetDetail.row (f d) = AssetDetail.row d) ->
  same_data h (heap_update h r f).
Proof.
  intros Hd Hr. unfold same_data. revert r.
  induction h as [|d h IH]; intros [|r]; cbn; try (split; reflexivity).
  - rewrite Hd, Hr. split; reflexivity.
  - destruct (IH r) as [E1 E2]. rewrite E1, E2. split; reflexivity.
Qed.

Lemma set_yearly_chart_data_same (h : heap) (r : ref)
  (data : list (string * Q)) :
  same_data h (set_yearly_chart_data h r data).
Proof. apply heap_update_same_data; reflexivity. Qed.

Lemma same_data_refl (h : heap) : same_data h h.
Proof. split; reflexivity. Qed.

Lemma same_data_trans (h1 h2 h3 : heap) :
  same_data h1 h2 -> same_data h2 h3 -> same_data h1 h3.
Proof. intros [A1 A2] [B1 B2]. split; congruence. Qed.

Lemma same_data_length (h h' : heap) :
  same_data h h' -> List.length h' = List.length h.
Proof.
  intros [E _]. rewrite <- (length_map AssetDetail.derived h'), E.
  apply length_map.
Qed.

Lemma same_data_derived (h h' : heap) (r : ref) :
  same_data h h' ->
  AssetDetail.derived (deref h' r) = AssetDetail.derived (deref h r).
Proof.
  intros [E _]. unfold deref.
  rewrite <- !(map_nth AssetDetail.derived). rewrite E. reflexivity.
Qed.

Lemma same_data_row (h h' : heap) (r : ref) :
  same_data h h' -> AssetDetail.row (deref h' r) = AssetDetail.row (deref h r).
Proof.
  intros [_ E]. unfold deref.
  rewrite <- !(map_nth AssetDetail.row). rewrite E. reflexivity.
Qed.

(** ** The first loop of [index] *)

Lemma assets_loop_ok (rows : list Joined.row) (h : heap) (a b : Q) :
  exists h' a' b',
    assets_loop rows (h, a, b) = Ok (h ++ h', a', b')
    /\ a' == a + Qsum (map AssetDetail.total_invested h')
    /\ b' == b + Qsum (map AssetDetail.current_value h')
    /\ Forall2 (fun row d =>
                  AssetDetail.row d = row
                  /\ derive_asset (Joined.asset row)
                     = Ok (AssetDetail.derived d)) rows h'.
Proof.
  revert h a b. induction rows as [|row rows IH]; intros h a b.
  - exists [], a, b. cbn. rewrite app_nil_r.
    repeat split; try ring. constructor.
  - cbn [assets_loop].
    destruct (derive_asset_total (Joined.asset row)) as [d Hd].
    rewrite Hd. cbn [bind]. cbv beta.
    destruct (IH (h ++ [ {| AssetDetail.row := row;
                            AssetDetail.derived := d;
                            AssetDetail.yearly_chart_data := None |} ])
                 (a + Derived.total_invested d)
                 (b + Derived.current_value d))
      as [h' [a' [b' [E [Ha [Hb F]]]]]].
    rewrite <- app_assoc in E. cbn [app] in E.
    eexists (_ :: h'), a', b'. split; [exact E|]. cbn [map Qsum].
    unfold AssetDetail.total_invested at 1.
    unfold AssetDetail.current_value at 1. cbn.
    split; [rewrite Ha; ring|]. split; [rewrite Hb; ring|].
    constructor; [|exact F]. split; [reflexivity | exact Hd].
Qed.

(** ** Ranking of the assets *)

Lemma rank_assets_spec (yf : yfinance) (h : heap) :
  exists h', 
    rank_assets yf h
    = (h',
       hd_error (sorted_reverse (ranking_key h)
                   (filter (qualifies h) (seq 0 (List.length h)))),
       last_error (sorted_reverse (ranking_key h)
                     (filter (qualifies h) (seq 0 (List.length h)))),
       sorted_reverse (ranking_key h)
         (filter (qualifies h) (seq 0 (List.length h))))
    /\ same_data h h'.
Proof.
  unfold rank_assets.
  destruct (seq 0 (List.length h)) as [|r0 rs] eqn:Es.
  { exists h. split; [reflexivity | apply same_data_refl]. }
  rewrite <- Es. clear Es r0 rs.
  change (fun a => py_gt (AssetDetail.total_invested (deref h a)) 0)
    with (qualifies h).
  change (fun x => AssetDetail.profit_loss_percent (deref h x))
    with (ranking_key h).
  destruct (filter (qualifies h) (seq 0 (List.length h))) as [|v0 vs] eqn:Ev.
  { exists h. split; [reflexivity | apply same_data_refl]. }
  rewrite <- Ev. clear Ev v0 vs.
  destruct (sorted_reverse (ranking_key h)
              (filter (qualifies h) (seq 0 (List.length h))))
    as [|best rest] eqn:Er.
  { exists h. split; [reflexivity | apply same_data_refl]. }
  eexists. split; [reflexivity|].
  eapply same_data_trans; apply set_yearly_chart_data_same.
Qed.

(** ** The rollup loops *)

Lemma account_assets_loop_spec (h : heap) (l acc : list ref) (a b : Q) :
  exists a' b',
    fold_left
      (fun '(assets, invested, value) r =>
         (assets ++ [r],
          invested + AssetDetail.total_invested (deref h r),
          value + AssetDetail.current_value (deref h r)))
      l (acc, a, b) = (acc ++ l, a', b')
    /\ a' == a + Qsum (map (fun r => AssetDetail.total_invested (deref h r)) l)
    /\ b' == b + Qsum (map (fun r => AssetDetail.current_value (deref h r)) l).
Proof.
  revert acc a b. induction l as [|r l IH]; intros acc a b.
  - exists a, b. cbn. rewrite app_nil_r. repeat split; ring.
  - cbn [fold_left].
    destruct (IH (acc ++ [r])
                 (a + AssetDetail.total_invested (deref h r))
                 (b + AssetDetail.current_value (deref h r)))
      as [a' [b' [E [Ha Hb]]]].
    rewrite <- app_assoc in E. cbn [app] in E.
    exists a', b'. split; [exact E|]. cbn [map Qsum].
    split; [rewrite Ha | rewrite Hb]; ring.
Qed.

Lemma summarize_account_ok (h : heap) (user_row : User.row)
  (platform_row : Z * string) (account_row : Account.row) :
  exists s,
    summarize_account h user_row platform_row account_row
    = Ok (s, performance_of (User.name user_row) (snd platform_row) s)
    /\ account_ok h account_row s.
Proof.
  unfold summarize_account, account_assets_loop.
  destruct (account_assets_loop_spec h
              (filter (fun a => Z.eqb (AssetDetail.account_id (deref h a))
                                      (Account.account_id account_row))
                      (seq 0 (List.length h))) [] 0 0)
    as [ti [cv [E [Hti Hcv]]]].
  rewrite E. cbn [app].
  destruct (percent_if_positive_ok (cv - ti) ti) as [p [Hp G]].
  rewrite Hp. cbn [bind].
  match goal with |- exists s, Ok (?x, _) = _ /\ _ => exists x end.
  split; [reflexivity|].
  unfold account_ok. cbn.
  repeat split; try reflexivity; try apply G.
  - rewrite Hti. ring.
  - rewrite Hcv. ring.
Qed.

Lemma accounts_loop_ok (h : heap) (user_row : User.row)
  (platform_row : Z * string) (rows : list Account.row)
  (accs : list AccountSummary.t) (a b c : Q)
  (perf : list AccountPerformance.t) :
  exists new a' b' c',
    accounts_loop h user_row platform_row rows (accs, a, b, c) perf
    = Ok (accs ++ new, a', b', c',
          perf ++ map (performance_of (User.name user_row)
                         (snd platform_row)) new)
    /\ Forall2 (account_ok h) rows new
    /\ a' == a + Qsum (map AccountSummary.total_invested new)
    /\ b' == b + Qsum (map AccountSummary.current_value_of_assets new)
    /\ c' == c + Qsum (map AccountSummary.cash_balance new).
Proof.
  revert accs a b c perf.
  induction rows as [|row rows IH]; intros accs a b c perf.
  - exists [], a, b, c. cbn. rewrite !app_nil_r.
    repeat split; try ring. constructor.
  - cbn [accounts_loop].
    destruct (summarize_account_ok h user_row platform_row row)
      as [s [Es Hs]].
    rewrite Es. cbn [bind]. cbv beta iota.
    destruct (IH (accs ++ [s])
                 (a + AccountSummary.total_invested s)
                 (b + AccountSummary.current_value_of_assets s)
                 (c + AccountSummary.cash_balance s)
                 (perf ++ [performance_of (User.name user_row)
                             (snd platform_row) s]))
      as [new [a' [b' [c' [E [F [Ha [Hb Hc]]]]]]]].
    rewrite <- !app_assoc in E. cbn [app] in E.
    exists (s :: new), a', b', c'. split; [exact E|].
    split; [constructor; assumption|]. cbn [map Qsum].
    repeat split; [rewrite Ha | rewrite Hb | rewrite Hc]; ring.
Qed.

Lemma summarize_platform_ok (db : database) (h : heap) (user_row : User.row)
  (platform_row : Z * string) (perf : list AccountPerformance.t) :
  exists p,
    summarize_platform db h user_row platform_row perf
    = Ok (p, perf ++ platform_performance (User.name user_row) p)
    /\ platform_ok db h (User.user_id user_row) platform_row p.
Proof.
  unfold summarize_platform.
  destruct (accounts_loop_ok h user_row platform_row
              (accounts_on_platform db (User.user_id user_row)
                 (fst platform_row)) [] 0 0 0 perf)
    as [new [a [b [c [E [F [Ha [Hb Hc]]]]]]]].
  rewrite E. cbn [bind app]. cbv beta iota.
  destruct (percent_if_positive_ok (b - a) a) as [p [Hp G]].
  rewrite Hp. cbn [bind].
  match goal with |- exists s, Ok (?x, _) = _ /\ _ => exists x end.
  split; [reflexivity|].
  unfold platform_ok. cbn.
  repeat split; try reflexivity; try apply G; try exact F.
  - rewrite Ha. ring.
  - rewrite Hb. ring.
  - rewrite Hc. ring.
Qed.

Lemma platforms_loop_ok (db : database) (h : heap) (user_row : User.row)
  (rows : list (Z * string)) (ps : list PlatformSummary.t) (a b c : Q)
  (perf : list AccountPerformance.t) :
  exists new a' b' c',
    platforms_loop db h user_row rows (ps, a, b, c) perf
    = Ok (ps ++ new, a', b', c',
          perf ++ flat_map (platform_performance (User.name user_row)) new)
    /\ Forall2 (platform_ok db h (User.user_id user_row)) rows new
    /\ a' == a + Qsum (map PlatformSummary.total_invested new)
    /\ b' == b + Qsum (map PlatformSummary.current_value_of_assets new)
    /\ c' == c + Qsum (map PlatformSummary.total_cash new).
Proof.
  revert ps a b c perf.
  induction rows as [|row rows IH]; intros ps a b c perf.
  - exists [], a, b, c. cbn. rewrite !app_nil_r.
    repeat split; try ring. constructor.
  - cbn [platforms_loop].
    destruct (summarize_platform_ok db h user_row row perf) as [p [Ep Hp]].
    rewrite Ep. cbn [bind]. cbv beta iota.
    destruct (IH (ps ++ [p])
                 (a + PlatformSummary.total_invested p)
                 (b + PlatformSummary.current_value_of_assets p)
                 (c + PlatformSummary.total_cash p)
                 (perf ++ platform_performance (User.name user_row) p))
      as [new [a' [b' [c' [E [F [Ha [Hb Hc]]]]]]]].
    rewrite <- !app_assoc in E. cbn [app] in E.
    exists (p :: new), a', b', c'. split; [exact E|].
    split; [constructor; assumption|]. cbn [map Qsum].
    repeat split; [rewrite Ha | rewrite Hb | rewrite Hc]; ring.
Qed.

Lemma summarize_user_ok (db : database) (h : heap) (user_row : User.row)
  (perf : list AccountPerformance.t) :
  exists u,
    summarize_user db h user_row perf = Ok (u, perf ++ user_performance u)
    /\ user_ok db h user_row u.
Proof.
  unfold summarize_user.
  destruct (platforms_loop_ok db h user_row
              (user_platforms db (User.user_id user_row)) [] 0 0 0 perf)
    as [new [a [b [c [E [F [Ha [Hb Hc]]]]]]]].
  rewrite E. cbn [bind app]. cbv beta iota.
  destruct (percent_if_positive_ok (b - a) a) as [p [Hp G]].
  rewrite Hp. cbn [bind].
  match goal with |- exists s, Ok (?x, _) = _ /\ _ => exists x end.
  split; [reflexivity|].
  unfold user_ok. cbn.
  repeat split; try reflexivity; try apply G; try exact F.
  - rewrite Ha. ring.
  - rewrite Hb. ring.
  - rewrite Hc. ring.
Qed.

Lemma users_loop_ok (db : database) (h : heap) (rows : list User.row)
  (bd : list UserSummary.t) (perf : list AccountPerformance.t) :
  exists new,
    users_loop db h rows bd perf
    = Ok (bd ++ new, perf ++ performance_entries new)
    /\ Forall2 (user_ok db h) rows new.
Proof.
  revert bd perf. induction rows as [|row rows IH]; intros bd perf.
  - exists []. cbn. rewrite !app_nil_r. split; [reflexivity | constructor].
  - cbn [users_loop].
    destruct (summarize_user_ok db h row perf) as [u [Eu Hu]].
    rewrite Eu. cbn [bind]. cbv beta iota.
    destruct (IH (bd ++ [u]) (perf ++ user_performance u)) as [new [E F]].
    rewrite <- !app_assoc in E. cbn [app] in E.
    exists (u :: new). split; [exact E | constructor; assumption].
Qed.

(** ** The dashboard computation, step by step

    [index] never raises; its result is the record below, whose parts are
    characterised by the loop lemmas. *)
Lemma index_run (yf : yfinance) (db : database) (today_str : string) :
  exists h0 h gti gcv gplp bd,
    index yf db today_str
    = Ok (record_snapshot db today_str
            (gcv + match sum_cash_balance db with
                   | Some c => c
                   | None => 0
                   end),
          {| objects := h;
             total_invested_assets := gti;
             total_invested_assets_plus_cash :=
               gti + match sum_cash_balance db with
                     | Some c => c
                     | None => 0
                     end;
             current_value_of_assets := gcv;
             profit_loss_amount := gcv - gti;
             profit_loss_percent := gplp;
             total_cash := match sum_cash_balance db with
                           | Some c => c
                           | None => 0
                           end;
             overall_portfolio_value :=
               gcv + match sum_cash_balance db with
                     | Some c => c
                     | None => 0
                     end;
             best_performing_asset :=
               hd_error (sorted_reverse (ranking_key h0)
                           (filter (qualifies h0) (seq 0 (List.length h0))));
             worst_performing_asset :=
               last_error (sorted_reverse (ranking_key h0)
                             (filter (qualifies h0)
                                (seq 0 (List.length h0))));
             all_assets_ranked :=
               sorted_reverse (ranking_key h0)
                 (filter (qualifies h0) (seq 0 (List.length h0)));
             portfolio_history_for_chart :=
               order_by fst
                 (portfolio_history
                    (record_snapshot db today_str
                       (gcv + match sum_cash_balance db with
                              | Some c => c
                              | None => 0
                              end)));
             account_type_allocation_data_for_chart :=
               account_type_allocation bd;
             user_allocation_data_for_chart := user_allocation bd;
             individual_account_allocation_data_for_chart :=
               individual_account_allocation (performance_entries bd);
             all_accounts_ranked_by_performance :=
               rank_accounts (performance_entries bd);
             breakdown_data := bd |})
    /\ Forall2 (fun row d =>
                  AssetDetail.row d = row
                  /\ derive_asset (Joined.asset row)
                     = Ok (AssetDetail.derived d))
         (assets_query_for_dashboard db) h0
    /\ same_data h0 h
    /\ gti == Qsum (map AssetDetail.total_invested h0)
    /\ gcv == Qsum (map AssetDetail.current_value h0)
    /\ zero_guarded gti (gcv - gti) gplp
    /\ Forall2 (user_ok
                  (record_snapshot db today_str
                     (gcv + match sum_cash_balance db with
                            | Some c => c
                            | None => 0
                            end)) h)
         (users_by_name
            (record_snapshot db today_str
               (gcv + match sum_cash_balance db with
                      | Some c => c
                      | None => 0
                      end))) bd.
Proof.
  destruct (assets_loop_ok (assets_query_for_dashboard db) [] 0 0)
    as [h0 [gti [gcv [E0 [Hti [Hcv F0]]]]]].
  cbn [app] in E0.
  destruct (rank_assets_spec yf h0) as [h [Er Hsame]].
  destruct (percent_if_positive_ok (gcv - gti) gti) as [gplp [Ep G]].
  set (cash := match sum_cash_balance db with
               | Some c => c
               | None => 0
               end).
  destruct (users_loop_ok (record_snapshot db today_str (gcv + cash)) h
              (users_by_name (record_snapshot db today_str (gcv + cash)))
              [] []) as [bd [Eu Fu]].
  cbn [app] in Eu.
  exists h0, h, gti, gcv, gplp, bd.
  split.
  - unfold index.
    match goal with
    | |- context [assets_loop ?r ?s] =>
        replace (assets_loop r s) with (@Ok (heap * Q * Q) (h0, gti, gcv))
          by (symmetry; exact E0)
    end.
    cbn [bind]. cbv beta iota.
    rewrite Er. rewrite Ep. cbn [bind]. fold cash.
    rewrite Eu. cbn [bind]. reflexivity.
  - split; [exact F0|]. split; [exact Hsame|].
    split; [rewrite Hti; ring|]. split; [rewrite Hcv; ring|].
    split; [exact G | exact Fu].
Qed.

(** ** Helper facts used by several claims *)

Lemma Forall2_Forall_r {A B : Type} (R : A -> B -> Prop) (P : B -> Prop)
  (l : list A) (l' : list B) :
  Forall2 R l l' -> (forall x y, R x y -> P y) -> Forall P l'.
Proof.
  intros F H. induction F; constructor; eauto.
Qed.

Lemma same_data_current_value (h h' : heap) :
  same_data h h' ->
  map AssetDetail.current_value h' = map AssetDetail.current_value h.
Proof.
  intros [E _]. unfold AssetDetail.current_value.
  rewrite <- !(map_map AssetDetail.derived Derived.current_value).
  rewrite E. reflexivity.
Qed.

Lemma find_none_existsb {A : Type} (f : A -> bool) (l : list A) :
  find f l = None <-> existsb f l = false.
Proof.
  induction l as [|x l IH]; cbn; [tauto|].
  destruct (f x); cbn; [split; discriminate | exact IH].
Qed.

Lemma record_snapshot_present (db : database) (d : string) (v : Q) :
  has_snapshot (portfolio_history db) d = true -> record_snapshot db d v = db.
Proof.
  intro H. unfold record_snapshot.
  destruct (find (fun s => String.eqb (fst s) d) (portfolio_history db))
    eqn:E; [reflexivity|].
  apply find_none_existsb in E. unfold has_snapshot in H. congruence.
Qed.

Lemma record_snapshot_absent (db : database) (d : string) (v : Q) :
  has_snapshot (portfolio_history db) d = false ->
  record_snapshot db d v
  = {| users := users db; platforms := platforms db;
       accounts := accounts db; assets := assets db;
       portfolio_history := portfolio_history db ++ [(d, v)] |}.
Proof.
  intro H. unfold record_snapshot.
  destruct (find (fun s => String.eqb (fst s) d) (portfolio_history db))
    eqn:E.
  - assert (C : find (fun s => String.eqb (fst s) d) (portfolio_history db)
                <> None) by congruence.
    rewrite find_none_existsb in C. unfold has_snapshot in H. congruence.
  - unfold insert_portfolio_history. cbn [fst]. rewrite H. reflexivity.
Qed.

Lemma has_snapshot_in (history : list snapshot) (d : string) :
  has_snapshot history d = true <-> In d (map fst history).
Proof.
  unfold has_snapshot. rewrite existsb_exists, in_map_iff. split.
  - intros [s [Hs E]]. apply String.eqb_eq in E. eauto.
  - intros [s [E Hs]]. exists s. split; [exact Hs|].
    apply String.eqb_eq. exact E.
Qed.

Lemma record_snapshot_has (db : database) (d : string) (v : Q) :
  has_snapshot (portfolio_history (record_snapshot db d v)) d = true.
Proof.
  destruct (has_snapshot (portfolio_history db) d) eqn:E.
  - rewrite record_snapshot_present; assumption.
  - rewrite record_snapshot_absent by assumption. cbn.
    apply has_snapshot_in. rewrite map_app. apply in_or_app.
    right. left. reflexivity.
Qed.

Lemma record_snapshot_one_per_date (db : database) (d : string) (v : Q) :
  one_per_date (portfolio_history db) ->
  one_per_date (portfolio_history (record_snapshot db d v)).
Proof.
  intro H. destruct (has_snapshot (portfolio_history db) d) eqn:E.
  - rewrite record_snapshot_present; assumption.
  - rewrite record_snapshot_absent by assumption. cbn.
    unfold one_per_date in *. rewrite map_app. cbn.
    apply Permutation_NoDup with (l := d :: map fst (portfolio_history db)).
    + apply Permutation_cons_append.
    + constructor; [|exact H]. intro C. apply has_snapshot_in in C.
      congruence.
Qed.

Lemma index_global_value (yf : yfinance) (db : database)
  (today_str : string) :
  exists db' v,
    index yf db today_str = Ok (db', v)
    /\ current_value_of_assets v
       == Qsum (map row_value (assets_query_for_dashboard db)).
Proof.
  destruct (index_run yf db today_str)
    as [h0 [h [gti [gcv [gplp [bd [E [F0 [_ [_ [Hcv _]]]]]]]]]]].
  rewrite E. eexists; eexists. split; [reflexivity|]. cbn.
  rewrite Hcv. clear -F0.
  induction F0 as [|row d rows h0 [_ Hd] F IH]; cbn [map Qsum];
    [reflexivity|].
  assert (Hrow : row_value row = AssetDetail.current_value d)
    by (unfold row_value; rewrite Hd; reflexivity).
  rewrite Hrow, IH. reflexivity.
Qed.

Lemma assets_query_permutation (db db2 : database) :
  users db2 = users db -> platforms db2 = platforms db ->
  accounts db2 = accounts db -> Permutation (assets db) (assets db2) ->
  Permutation (assets_query_for_dashboard db)
              (assets_query_for_dashboard db2).
Proof.
  intros Hu Hp Ha Hperm. unfold assets_query_for_dashboard.
  rewrite Hu, Hp, Ha. apply Permutation_flat_map. exact Hperm.
Qed.

(** ** Claims about the aggregation engine *)

(** C1.  For every store and date the dashboard computation returns, and in
    its result [current_value_of_assets] is at each level the exact sum of
    the children's values, whatever the order of summation: the global
    figure is the sum of [current_value] over all asset objects (one per
    joined input row), each user's is the sum over the user's platforms,
    each platform's the sum over its accounts, and each account's the sum
    over the account's assets, which are the objects carrying its
    [account_id].  Presenting the asset rows of the store in another order
    gives the same global figure. *)
Theorem rollup_current_value_exact (yf : yfinance) (db : database)
  (today_str : string) :
  exists db' v,
    index yf db today_str = Ok (db', v)
    /\ map AssetDetail.row (objects v) = assets_query_for_dashboard db
    /\ exact_sum (current_value_of_assets v)
         (map AssetDetail.current_value (objects v))
    /\ Forall (fun u =>
         exact_sum (UserSummary.current_value_of_assets u)
           (map PlatformSummary.current_value_of_assets
                (UserSummary.platforms u))
         /\ Forall (fun p =>
              exact_sum (PlatformSummary.current_value_of_assets p)
                (map AccountSummary.current_value_of_assets
                     (PlatformSummary.accounts p))
              /\ Forall (fun s =>
                   AccountSummary.assets s
                   = filter (fun a =>
                               Z.eqb (AssetDetail.account_id
                                        (deref (objects v) a))
                                     (AccountSummary.account_id s))
                            (seq 0 (List.length (objects v)))
                   /\ exact_sum (AccountSummary.current_value_of_assets s)
                        (map (fun a => AssetDetail.current_value
                                         (deref (objects v) a))
                             (AccountSummary.assets s)))
                (PlatformSummary.accounts p))
           (UserSummary.platforms u))
       (breakdown_data v)
    /\ (forall db2,
          users db2 = users db -> platforms db2 = platforms db ->
          accounts db2 = accounts db ->
          Permutation (assets db) (assets db2) ->
          exists db2' v2,
            index yf db2 today_str = Ok (db2', v2)
            /\ current_value_of_assets v2 == current_value_of_assets v).
Proof.
  assert (Horder : forall v db',
             index yf db today_str = Ok (db', v) ->
             forall db2,
               users db2 = users db -> platforms db2 = platforms db ->
               accounts db2 = accounts db ->
               Permutation (assets db) (assets db2) ->
               exists db2' v2,
                 index yf db2 today_str = Ok (db2', v2)
                 /\ current_value_of_assets v2
                    == current_value_of_assets v).
  { intros v db' Ev db2 Hu Hp Ha Hperm.
    destruct (index_global_value yf db today_str) as [d1 [v1 [E1 H1]]].
    destruct (index_global_value yf db2 today_str) as [d2 [v2 [E2 H2]]].
    rewrite Ev in E1. injection E1 as _ <-.
    exists d2, v2. split; [exact E2|]. rewrite H1, H2.
    apply Qsum_Permutation, Permutation_map, Permutation_sym.
    apply assets_query_permutation; assumption. }
  destruct (index_run yf db today_str)
    as [h0 [h [gti [gcv [gplp [bd [E [F0 [Hs [Hti [Hcv [G Fu]]]]]]]]]]]].
  specialize (Horder _ _ E).
  rewrite E. eexists; eexists. split; [reflexivity|]. cbn.
  cbn in Horder.
  split; [|split; [|split; [|exact Horder]]].
  - destruct Hs as [_ Hr]. rewrite Hr. clear -F0.
    induction F0 as [|row d rows h0 [Hd _] F IH]; cbn; [reflexivity|].
    rewrite Hd, IH. reflexivity.
  - apply exact_sum_intro.
    rewrite (same_data_current_value Hs). exact Hcv.
  - eapply Forall2_Forall_r; [exact Fu|].
    intros urow u (_ & _ & Fp & _ & Hu & _). cbn beta. split.
    { apply exact_sum_intro. exact Hu. }
    eapply Forall2_Forall_r; [exact Fp|].
    intros prow p (_ & Fa & _ & Hp & _). cbn beta. split.
    { apply exact_sum_intro. exact Hp. }
    eapply Forall2_Forall_r; [exact Fa|].
    intros arow s (Hid & _ & _ & _ & Has & _ & Hv & _). cbn beta. split.
    + rewrite Has, Hid. reflexivity.
    + apply exact_sum_intro. exact Hv.
Qed.

(** C2.  The dashboard computation never raises (in particular no
    [ZeroDivisionError]), and at every level it produces (each asset
    object, each account, platform and user summary, and the global
    figures) [profit_loss_percent] is [0] when [total_invested <= 0] and
    the quotient [profit_loss / total_invested * 100] when
    [total_invested > 0]. *)
Theorem profit_loss_percent_zero_guard (yf : yfinance) (db : database)
  (today_str : string) :
  exists db' v,
    index yf db today_str = Ok (db', v)
    /\ zero_guarded (total_invested_assets v) (profit_loss_amount v)
         (profit_loss_percent v)
    /\ Forall (fun d =>
         zero_guarded (AssetDetail.total_invested d)
           (Derived.profit_loss_dollars (AssetDetail.derived d))
           (AssetDetail.profit_loss_percent d))
       (objects v)
    /\ Forall (fun u =>
         zero_guarded (UserSummary.total_invested u)
           (UserSummary.profit_loss_amount u)
           (UserSummary.profit_loss_percent u)
         /\ Forall (fun p =>
              zero_guarded (PlatformSummary.total_invested p)
                (PlatformSummary.profit_loss_amount p)
                (PlatformSummary.profit_loss_percent p)
              /\ Forall (fun s =>
                   zero_guarded (AccountSummary.total_invested s)
                     (AccountSummary.profit_loss_amount s)
                     (AccountSummary.profit_loss_percent s))
                (PlatformSummary.accounts p))
           (UserSummary.platforms u))
       (breakdown_data v).
Proof.
  destruct (index_run yf db today_str)
    as [h0 [h [gti [gcv [gplp [bd [E [F0 [Hs [Hti [Hcv [G Fu]]]]]]]]]]]].
  rewrite E. eexists; eexists. split; [reflexivity|]. cbn.
  split; [exact G|]. split.
  - assert (Fd : Forall (fun d =>
                zero_guarded (Derived.total_invested d)
                  (Derived.profit_loss_dollars d)
                  (Derived.profit_loss_percent d))
              (map AssetDetail.derived h)).
    { destruct Hs as [Hd _]. rewrite Hd. clear -F0.
      induction F0 as [|row d rows h0 [_ Hd] F IH]; cbn; constructor.
      - eapply derive_asset_guard. exact Hd.
      - exact IH. }
    rewrite Forall_map in Fd. exact Fd.
  - eapply Forall2_Forall_r; [exact Fu|].
    intros urow u (_ & _ & Fp & _ & _ & _ & _ & Gu). cbn beta.
    split; [exact Gu|].
    eapply Forall2_Forall_r; [exact Fp|].
    intros prow p (_ & Fa & _ & _ & _ & _ & Gp). cbn beta.
    split; [exact Gp|].
    eapply Forall2_Forall_r; [exact Fa|].
    intros arow s (_ & _ & _ & _ & _ & _ & _ & _ & Ga). exact Ga.
Qed.

(** The snapshot step within a dashboard run, in the exact model: numbers
    are rationals, so the overall value is never [nan] and the row is never
    refused.  The run returns; when the history holds at most one
    snapshot per date, so does the history after it.  A run on a date that
    already has a snapshot leaves the store as it is; a run on a date
    without one appends one row, carrying the date and the
    [overall_portfolio_value] the run returns.  Any later run on that date
    changes nothing. *)
Lemma index_snapshot_once_per_day (yf : yfinance) (db : database)
  (today_str : string) :
  one_per_date (portfolio_history db) ->
  exists db' v,
    index yf db today_str = Ok (db', v)
    /\ one_per_date (portfolio_history db')
    /\ (has_snapshot (portfolio_history db) today_str = true -> db' = db)
    /\ (has_snapshot (portfolio_history db) today_str = false ->
        portfolio_history db'
        = portfolio_history db ++ [(today_str, overall_portfolio_value v)])
    /\ (forall yf2 db2,
          portfolio_history db2 = portfolio_history db' ->
          exists v2, index yf2 db2 today_str = Ok (db2, v2))
    /\ (exists v2, index yf db' today_str = Ok (db', v2)).
Proof.
  intro Hone.
  destruct (index_run yf db today_str)
    as [h0 [h [gti [gcv [gplp [bd [E _]]]]]]].
  rewrite E. eexists; eexists. split; [reflexivity|]. cbn.
  set (value := gcv + _).
  assert (Hlater : forall yf2 db2,
             portfolio_history db2
             = portfolio_history (record_snapshot db today_str value) ->
             exists v2, index yf2 db2 today_str = Ok (db2, v2)).
  { intros yf2 db2 Hh.
    destruct (index_run yf2 db2 today_str)
      as [k0 [k [ti2 [cv2 [plp2 [bd2 [E2 _]]]]]]].
    rewrite E2. rewrite record_snapshot_present.
    - eexists. reflexivity.
    - rewrite Hh. apply record_snapshot_has. }
  split; [apply record_snapshot_one_per_date; exact Hone|].
  split; [intro H; apply record_snapshot_present; exact H|].
  split; [intro H; rewrite record_snapshot_absent by exact H; reflexivity|].
  split; [exact Hlater | apply Hlater; reflexivity].
Qed.

(** ** Ranking: helper facts *)

Lemma stable_sort_ext {A : Type} (before before' : A -> A -> bool)
  (l : list A) :
  (forall x y, before x y = before' x y) ->
  stable_sort before l = stable_sort before' l.
Proof.
  intro H. unfold stable_sort.
  induction l as [|x l IH]; cbn [fold_right]; [reflexivity|].
  rewrite IH. generalize (fold_right (insert_sorted before') [] l).
  intro s. induction s as [|y s IHs]; cbn; [reflexivity|].
  rewrite H, IHs. reflexivity.
Qed.

Lemma sorted_reverse_ext {A : Type} (key key' : A -> Q) (l : list A) :
  (forall x, key x = key' x) ->
  sorted_reverse key l = sorted_reverse key' l.
Proof.
  intro H. apply stable_sort_ext. intros x y. rewrite !H. reflexivity.
Qed.

Lemma same_data_ranking (h h' : heap) :
  same_data h h' ->
  sorted_reverse (ranking_key h)
    (filter (qualifies h) (seq 0 (List.length h)))
  = sorted_reverse (ranking_key h')
      (filter (qualifies h') (seq 0 (List.length h'))).
Proof.
  intro Hs. rewrite (same_data_length Hs).
  rewrite (filter_ext (qualifies h') (qualifies h)).
  - apply sorted_reverse_ext. intro x. unfold ranking_key.
    unfold AssetDetail.profit_loss_percent.
    rewrite (same_data_derived x Hs). reflexivity.
  - intro x. unfold qualifies, AssetDetail.total_invested.
    rewrite (same_data_derived x Hs). reflexivity.
Qed.

Lemma rank_accounts_eq (perf : list AccountPerformance.t) :
  rank_accounts perf
  = sorted_reverse AccountPerformance.profit_loss_percent
      (filter (fun acc => py_gt (AccountPerformance.total_invested acc) 0)
              perf).
Proof. destruct perf; reflexivity. Qed.

(** The rankings within a dashboard run, in the exact model: numbers are
    rationals, so no percentage is [nan].  The ranked asset list
    holds exactly the asset objects with [total_invested > 0], each once;
    it is in descending order of [profit_loss_percent], and assets of equal
    percentage keep the order they have in the input.  The best performer
    is the first element and the worst performer the last.  The account
    ranking holds exactly the accounts with [total_invested > 0], in the
    same order. *)
Lemma index_ranking_descending_stable (yf : yfinance) (db : database)
  (today_str : string) :
  exists db' v,
    index yf db today_str = Ok (db', v)
    /\ (forall a, In a (all_assets_ranked v) <->
                  (a < List.length (objects v))%nat
                  /\ 0 < AssetDetail.total_invested (deref (objects v) a))
    /\ NoDup (all_assets_ranked v)
    /\ descending (ranking_key (objects v)) (all_assets_ranked v)
    /\ keeps_ties (ranking_key (objects v))
         (filter (qualifies (objects v))
                 (seq 0 (List.length (objects v))))
         (all_assets_ranked v)
    /\ best_performing_asset v = hd_error (all_assets_ranked v)
    /\ worst_performing_asset v = last_error (all_assets_ranked v)
    /\ (forall a, all_assets_ranked v = [a] ->
                  best_performing_asset v = Some a
                  /\ worst_performing_asset v = Some a)
    /\ Permutation (all_accounts_ranked_by_performance v)
         (filter (fun acc => py_gt (AccountPerformance.total_invested acc) 0)
                 (performance_entries (breakdown_data v)))
    /\ descending AccountPerformance.profit_loss_percent
         (all_accounts_ranked_by_performance v)
    /\ keeps_ties AccountPerformance.profit_loss_percent
         (filter (fun acc => py_gt (AccountPerformance.total_invested acc) 0)
                 (performance_entries (breakdown_data v)))
         (all_accounts_ranked_by_performance v).
Proof.
  destruct (index_run yf db today_str)
    as [h0 [h [gti [gcv [gplp [bd [E [F0 [Hs _]]]]]]]]].
  rewrite E. eexists; eexists. split; [reflexivity|]. cbn.
  rewrite (same_data_ranking Hs).
  set (valid := filter (qualifies h) (seq 0 (List.length h))).
  set (ranked := sorted_reverse (ranking_key h) valid).
  assert (Hperm : Permutation ranked valid) by apply stable_sort_perm.
  split; [|split; [|split; [|split; [|split; [|split; [|split]]]]]].
  - intro a. unfold ranked, sorted_reverse. rewrite stable_sort_in.
    unfold valid. rewrite filter_In, in_seq. unfold qualifies.
    rewrite py_gt_true. split; intros [H1 H2]; (split; [lia | exact H2]).
  - apply (Permutation_NoDup (Permutation_sym Hperm)).
    apply NoDup_filter, seq_NoDup.
  - apply sorted_reverse_descending.
  - apply sorted_reverse_keeps_ties.
  - reflexivity.
  - reflexivity.
  - intros a Ha. rewrite Ha. split; reflexivity.
  - rewrite rank_accounts_eq. split; [apply stable_sort_perm|].
    split; [apply sorted_reverse_descending
           | apply sorted_reverse_keeps_ties].
Qed.

(** ** Allocation breakdowns: helper facts *)

Lemma positive_rows_in {A : Type} (label : A -> string) (value : A -> Q)
  (l : list A) (r : chart_row) :
  In r (positive_rows label value l) <->
  exists x, In x l /\ r = Data (label x) (value x) /\ 0 < value x.
Proof.
  unfold positive_rows. rewrite in_flat_map. split.
  - intros [x [Hx Hr]]. exists x. split; [exact Hx|].
    destruct (py_gt (value x) 0) eqn:E; [|contradiction].
    apply py_gt_true in E. destruct Hr as [<-|[]]. split; [reflexivity|exact E].
  - intros [x [Hx [-> Hv]]]. exists x. split; [exact Hx|].
    apply py_gt_true in Hv. rewrite Hv. left. reflexivity.
Qed.

Lemma chart_or_empty_header (c1 c2 : string) (rows : list chart_row) :
  chart_or_empty (Header c1 c2 :: rows)
  = match rows with
    | [] => []
    | _ => Header c1 c2 :: rows
    end.
Proof. destruct rows; reflexivity. Qed.

Lemma allocation_of_chart {A : Type} (c1 c2 : string) (label : A -> string)
  (value : A -> Q) (l : list A) :
  allocation_of (map (fun x => (label x, value x)) l)
    (chart_or_empty (Header c1 c2 :: positive_rows label value l)).
Proof.
  rewrite chart_or_empty_header.
  assert (Hin : forall lab val,
             In (Data lab val) (positive_rows label value l) <->
             In (lab, val) (map (fun x => (label x, value x)) l) /\ 0 < val).
  { intros lab val. rewrite positive_rows_in, in_map_iff. split.
    - intros [x [Hx [[= -> ->] Hv]]]. split; [|exact Hv]. exists x. auto.
    - intros [[x [[= <- <-] Hx]] Hv]. exists x. auto. }
  unfold allocation_of. split; [|split].
  - intros lab val. rewrite <- Hin.
    destruct (positive_rows label value l) as [|r rows]; [reflexivity|].
    split; [intros [C|H]; [discriminate | exact H] | intro H; right; exact H].
  - intro Hall. destruct (positive_rows label value l) as [|r rows] eqn:E;
      [reflexivity|].
    exfalso. assert (Hr : In r (positive_rows label value l))
      by (rewrite E; left; reflexivity).
    apply positive_rows_in in Hr. destruct Hr as [x [Hx [_ Hv]]].
    apply (Qlt_not_le _ _ Hv).
    apply (Hall (label x, value x)). apply in_map_iff. exists x. auto.
  - destruct (positive_rows label value l) as [|r rows] eqn:E;
      [left; reflexivity|].
    right. exists c1, c2, (r :: rows). split; [reflexivity|].
    split; [discriminate|]. intros r' Hr'. rewrite <- E in Hr'.
    apply positive_rows_in in Hr'. destruct Hr' as [x [_ [-> _]]]. eauto.
Qed.

(** The dictionary of account types, read off the list of summaries. *)
Lemma account_type_values_fold (bd : list UserSummary.t) :
  account_type_values bd
  = fold_left (fun d s => dict_add (AccountSummary.account_type s)
                            (account_total_value s) d)
      (all_account_summaries bd) [].
Proof.
  unfold account_type_values, all_account_summaries.
  generalize (@nil (string * Q)).
  induction bd as [|u bd IH]; intro d; cbn [fold_left flat_map];
    [reflexivity|].
  rewrite fold_left_app, IH. f_equal. clear IH.
  revert d. induction (UserSummary.platforms u) as [|p ps IHp]; intro d;
    cbn [fold_left flat_map]; [reflexivity|].
  rewrite fold_left_app, IHp. reflexivity.
Qed.

Lemma dict_add_keys (k : string) (v : Q) (d : list (string * Q)) :
  map fst (dict_add k v d)
  = if existsb (String.eqb k) (map fst d) then map fst d
    else map fst d ++ [k].
Proof.
  induction d as [|[k' v'] d IH]; cbn; [reflexivity|].
  destruct (String.eqb k k') eqn:E; cbn; [reflexivity|].
  rewrite IH. destruct (existsb (String.eqb k) (map fst d)); reflexivity.
Qed.

Lemma dict_add_in (k : string) (v : Q) (d : list (string * Q))
  (k0 : string) (v0 : Q) :
  NoDup (map fst d) ->
  In (k0, v0) (dict_add k v d) ->
  (k0 <> k /\ In (k0, v0) d)
  \/ (k0 = k /\ ((exists w, In (k, w) d /\ v0 = w + v)
                 \/ (~ In k (map fst d) /\ v0 = 0 + v))).
Proof.
  induction d as [|[k' v'] d IH]; cbn [dict_add map fst]; intros Hnd Hin.
  - destruct Hin as [[= <- <-]|[]]. right. split; [reflexivity|].
    right. split; [intros []|reflexivity].
  - inversion Hnd as [|? ? Hk' Hnd']; subst.
    destruct (String.eqb k k') eqn:E.
    + apply String.eqb_eq in E. subst k'.
      destruct Hin as [[= <- <-]|Hin].
      * right. split; [reflexivity|]. left. exists v'.
        split; [left; reflexivity | reflexivity].
      * left. split; [|right; exact Hin].
        intros ->. apply Hk'. apply in_map_iff. exists (k, v0). auto.
    + apply String.eqb_neq in E.
      destruct Hin as [[= <- <-]|Hin].
      * left. split; [congruence | left; reflexivity].
      * destruct (IH Hnd' Hin) as [[Hne Hd]|[-> [[w [Hw ->]]|[Hnk ->]]]].
        -- left. split; [exact Hne | right; exact Hd].
        -- right. split; [reflexivity|]. left. exists w.
           split; [right; exact Hw | reflexivity].
        -- right. split; [reflexivity|]. right.
           split; [|reflexivity]. cbn. intros [C|C]; [congruence | tauto].
Qed.

Lemma type_total_snoc (k : string) (l : list AccountSummary.t)
  (s : AccountSummary.t) :
  type_total k (l ++ [s])
  == type_total k l
     + (if String.eqb (AccountSummary.account_type s) k
        then account_total_value s else 0).
Proof.
  unfold type_total. rewrite filter_app, map_app, Qsum_app. cbn [filter].
  destruct (String.eqb (AccountSummary.account_type s) k); cbn; ring.
Qed.

Lemma type_total_absent (k : string) (l : list AccountSummary.t) :
  ~ In k (map AccountSummary.account_type l) -> type_total k l == 0.
Proof.
  intro H. unfold type_total.
  replace (filter (fun s => String.eqb (AccountSummary.account_type s) k) l)
    with (@nil AccountSummary.t); [reflexivity|].
  symmetry. induction l as [|s l IH]; cbn; [reflexivity|].
  destruct (String.eqb (AccountSummary.account_type s) k) eqn:E.
  - apply String.eqb_eq in E. exfalso. apply H. left. exact E.
  - apply IH. intro C. apply H. right. exact C.
Qed.

Lemma existsb_eqb_in (k : string) (l : list string) :
  existsb (String.eqb k) l = true <-> In k l.
Proof.
  rewrite existsb_exists. split.
  - intros [x [Hx E]]. apply String.eqb_eq in E. subst. exact Hx.
  - intro H. exists k. split; [exact H | apply String.eqb_refl].
Qed.

Lemma account_types_fold_spec (l : list AccountSummary.t) :
  NoDup (map fst (fold_left (fun d s =>
                    dict_add (AccountSummary.account_type s)
                             (account_total_value s) d) l []))
  /\ (forall k,
        In k (map fst (fold_left (fun d s =>
                         dict_add (AccountSummary.account_type s)
                                  (account_total_value s) d) l []))
        <-> In k (map AccountSummary.account_type l))
  /\ (forall k v,
        In (k, v) (fold_left (fun d s =>
                     dict_add (AccountSummary.account_type s)
                              (account_total_value s) d) l [])
        -> v == type_total k l).
Proof.
  induction l as [|s l IH] using rev_ind.
  - cbn. split; [constructor|]. split; [tauto | intros k v []].
  - rewrite fold_left_app. cbn [fold_left].
    set (d := fold_left _ l []) in *.
    destruct IH as [Hnd [Hkeys Hvals]].
    assert (Hk : map fst (dict_add (AccountSummary.account_type s)
                            (account_total_value s) d)
                 = if existsb (String.eqb (AccountSummary.account_type s))
                        (map fst d)
                   then map fst d
                   else map fst d ++ [AccountSummary.account_type s])
      by apply dict_add_keys.
    split; [|split].
    + rewrite Hk.
      destruct (existsb _ (map fst d)) eqn:E; [exact Hnd|].
      apply Permutation_NoDup
        with (l := AccountSummary.account_type s :: map fst d).
      * apply Permutation_cons_append.
      * constructor; [|exact Hnd]. intro C.
        apply existsb_eqb_in in C. congruence.
    + intro k. rewrite Hk, map_app, in_app_iff. cbn [map In].
      destruct (existsb _ (map fst d)) eqn:E.
      * rewrite Hkeys. apply existsb_eqb_in in E. apply Hkeys in E.
        split; [tauto|]. intros [H|[<-|[]]]; assumption.
      * rewrite in_app_iff, Hkeys. cbn [In]. tauto.
    + intros k v Hin. rewrite type_total_snoc.
      destruct (dict_add_in _ _ _ _ _ Hnd Hin)
        as [[Hne Hd]|[-> [[w [Hw ->]]|[Hnk ->]]]].
      * assert (E : String.eqb (AccountSummary.account_type s) k = false).
        { apply String.eqb_neq. congruence. }
        rewrite E, (Hvals _ _ Hd). ring.
      * rewrite String.eqb_refl, (Hvals _ _ Hw). reflexivity.
      * rewrite String.eqb_refl, type_total_absent; [reflexivity|].
        intro C. apply Hnk, Hkeys, C.
Qed.

(** C9.  In the result of the dashboard computation each of the three
    allocation data sets (by account type, by user, by individual account)
    has as data rows exactly its groups of value [> 0], so every data row
    has a positive value and a group of value [<= 0] has none; it is the
    empty sequence when no group is positive, and otherwise a header row
    followed by at least one data row.  The groups by account type are the
    account types present, each once, with the sum of
    [current_value_of_assets + cash_balance] over the accounts of the type;
    a user's value is [current_value_of_assets + total_cash]; an account's
    value is its [total_value]. *)
Theorem allocation_charts_positive (yf : yfinance) (db : database)
  (today_str : string) :
  exists db' v,
    index yf db today_str = Ok (db', v)
    /\ allocation_of (account_type_values (breakdown_data v))
         (account_type_allocation_data_for_chart v)
    /\ NoDup (map fst (account_type_values (breakdown_data v)))
    /\ (forall k, In k (map fst (account_type_values (breakdown_data v)))
                  <-> In k (map AccountSummary.account_type
                              (all_account_summaries (breakdown_data v))))
    /\ (forall k total,
          In (k, total) (account_type_values (breakdown_data v)) ->
          total == type_total k (all_account_summaries (breakdown_data v)))
    /\ (forall s, account_total_value s
                  == AccountSummary.current_value_of_assets s
                     + AccountSummary.cash_balance s)
    /\ allocation_of
         (map (fun u => (UserSummary.user_name u, user_portfolio_value u))
              (breakdown_data v))
         (user_allocation_data_for_chart v)
    /\ (forall u, user_portfolio_value u
                  == UserSummary.current_value_of_assets u
                     + UserSummary.total_cash u)
    /\ allocation_of
         (map (fun a => (AccountPerformance.display_name a,
                         AccountPerformance.total_value a))
              (performance_entries (breakdown_data v)))
         (individual_account_allocation_data_for_chart v).
Proof.
  destruct (index_run yf db today_str)
    as [h0 [h [gti [gcv [gplp [bd [E _]]]]]]].
  rewrite E. eexists; eexists. split; [reflexivity|]. cbn.
  destruct (account_types_fold_spec (all_account_summaries bd))
    as [Hnd [Hkeys Hvals]].
  rewrite <- account_type_values_fold in Hnd, Hkeys, Hvals.
  split; [|split; [exact Hnd|split; [exact Hkeys|split; [exact Hvals|]]]].
  - pose proof (allocation_of_chart "Account Type" "Total Value" fst snd
                  (account_type_values bd)) as H.
    rewrite (map_ext (fun x : string * Q => (fst x, snd x)) (fun x => x))
      in H by (intros [k t]; reflexivity).
    rewrite map_id in H. exact H.
  - split; [|split; [|split]].
    + intro s. unfold account_total_value.
      rewrite !num_or_zero_eq. reflexivity.
    + apply allocation_of_chart.
    + intro u. unfold user_portfolio_value.
      rewrite !num_or_zero_eq. reflexivity.
    + apply allocation_of_chart.
Qed.

(** ** Per-asset derivation in its two places *)

Lemma index_objects_derived (yf : yfinance) (db : database)
  (today_str : string) :
  exists db' v,
    index yf db today_str = Ok (db', v)
    /\ forall o, In o (objects v) ->
         derive_asset (Joined.asset (AssetDetail.row o))
         = Ok (AssetDetail.derived o).
Proof.
  destruct (index_run yf db today_str)
    as [h0 [h [gti [gcv [gplp [bd [E [F0 [Hs _]]]]]]]]].
  rewrite E. eexists; eexists. split; [reflexivity|]. cbn.
  assert (H0 : forall o, In o h0 ->
             derive_asset (Joined.asset (AssetDetail.row o))
             = Ok (AssetDetail.derived o)).
  { clear -F0. induction F0 as [|row d rows h0 [Hr Hd] F IH];
      intros o [].
    - subst o. rewrite Hr. exact Hd.
    - apply IH. assumption. }
  intros o Ho. destruct (In_nth _ _ AssetDetail.null Ho) as [i [Hi <-]].
  fold (deref h i).
  rewrite (same_data_row i Hs), (same_data_derived i Hs).
  apply H0. apply nth_In. rewrite <- (same_data_length Hs). exact Hi.
Qed.

Lemma derive_all_ok (rows : list Asset.row) :
  exists l, derive_all rows = Ok l
            /\ map fst l = rows
            /\ forall a d, In (a, d) l -> derive_asset a = Ok d.
Proof.
  induction rows as [|a rows [l [E [Hm Hl]]]].
  - exists []. cbn. repeat split. intros a d [].
  - cbn [derive_all]. destruct (derive_asset_total a) as [d Hd].
    rewrite Hd, E. cbn [bind]. exists ((a, d) :: l).
    split; [reflexivity|]. split; [cbn; rewrite Hm; reflexivity|].
    intros a' d' [[= <- <-]|H]; [exact Hd | apply Hl, H].
Qed.

(** C10.  For an asset whose [current_price] or [price_yesterday] is
    unknown, or whose [price_yesterday] is [<= 0], the per-asset derivation
    returns a record whose [day_change_percent] is the number [0]; an asset
    whose price did not change gets an equal [day_change_percent], so the
    field does not tell the two apart.  In the analogous case for the
    52-week high the derivation reports [percent_to_52_week_high] as
    absent.  The derivation is the one applied to every asset object of the
    dashboard and to every asset listed by [manage_account_assets]. *)
Theorem day_change_zero_when_unknown (a : Asset.row) :
  Asset.current_price a = None \/ Asset.price_yesterday a = None
  \/ (exists y, Asset.price_yesterday a = Some y /\ y <= 0) ->
  exists d,
    derive_asset a = Ok d
    /\ Derived.day_change_percent d = 0
    /\ (forall b p, Asset.current_price b = Some p ->
          Asset.price_yesterday b = Some p -> 0 < p ->
          exists d', derive_asset b = Ok d'
                     /\ Derived.day_change_percent d'
                        == Derived.day_change_percent d)
    /\ (forall b,
          Asset.current_price b = None \/ Asset.fifty_two_week_high b = None
          \/ (exists x, Asset.fifty_two_week_high b = Some x /\ x <= 0) ->
          exists d', derive_asset b = Ok d'
                     /\ Derived.percent_to_52_week_high d' = None)
    /\ (forall yf db today_str,
          exists db' v,
            index yf db today_str = Ok (db', v)
            /\ forall o, In o (objects v) ->
                 Joined.asset (AssetDetail.row o) = a ->
                 AssetDetail.derived o = d)
    /\ (forall db account_id,
          exists l,
            assets_list_for_template db account_id = Ok l
            /\ forall d', In (a, d') l -> d' = d).
Proof.
  intro Hmiss. unfold derive_asset.
  destruct (derive_ok (Asset.total_invested a) (Asset.quantity a)
              (Asset.current_price a) (Asset.price_yesterday a)
              (Asset.fifty_two_week_high a))
    as [d [Hd (_ & _ & _ & _ & _ & Hzero & _)]].
  exists d. split; [exact Hd|]. split; [apply Hzero, Hmiss|].
  split; [|split; [|split]].
  - intros b p Hc Hy Hp.
    destruct (derive_ok (Asset.total_invested b) (Asset.quantity b)
                (Asset.current_price b) (Asset.price_yesterday b)
                (Asset.fifty_two_week_high b))
      as [d' [Hd' (_ & _ & _ & _ & _ & _ & Hchg & _)]].
    exists d'. split; [exact Hd'|].
    rewrite (Hchg p p Hc Hy Hp), (Hzero Hmiss). field.
    intro C. rewrite C in Hp. apply (Qlt_irrefl _ Hp).
  - intros b Hb.
    destruct (derive_ok (Asset.total_invested b) (Asset.quantity b)
                (Asset.current_price b) (Asset.price_yesterday b)
                (Asset.fifty_two_week_high b))
      as [d' [Hd' (_ & _ & _ & _ & _ & _ & _ & Habs & _)]].
    exists d'. split; [exact Hd' | apply Habs, Hb].
  - intros yf db today_str.
    destruct (index_objects_derived yf db today_str) as [db' [v [E Hv]]].
    exists db', v. split; [exact E|]. intros o Ho Ha.
    specialize (Hv o Ho). rewrite Ha in Hv. unfold derive_asset in Hv.
    congruence.
  - intros db account_id. unfold assets_list_for_template.
    destruct (derive_all_ok
                (order_by Asset.ticker_symbol
                   (filter (fun x => Z.eqb (Asset.account_id x) account_id)
                           (assets db)))) as [l [E [_ Hl]]].
    exists l. split; [exact E|]. intros d' Hin.
    specialize (Hl a d' Hin). unfold derive_asset in Hl. congruence.
Qed.

Lemma day_change_zero_when_unknown_witness :
  (Asset.current_price (mk_asset 4 2 "DDD" (Some 4) (Some 400) None) = None
   \/ Asset.price_yesterday (mk_asset 4 2 "DDD" (Some 4) (Some 400) None)
      = None
   \/ (exists y,
         Asset.price_yesterday (mk_asset 4 2 "DDD" (Some 4) (Some 400) None)
         = Some y /\ y <= 0))
  /\ exists d,
       derive_asset (mk_asset 4 2 "DDD" (Some 4) (Some 400) None) = Ok d
       /\ Derived.day_change_percent d = 0.
Proof.
  assert (H : Asset.current_price
                (mk_asset 4 2 "DDD" (Some 4) (Some 400) None) = None
              \/ Asset.price_yesterday
                   (mk_asset 4 2 "DDD" (Some 4) (Some 400) None) = None
              \/ (exists y,
                    Asset.price_yesterday
                      (mk_asset 4 2 "DDD" (Some 4) (Some 400) None) = Some y
                    /\ y <= 0)).
  { left. reflexivity. }
  split; [exact H|].
  destruct (day_change_zero_when_unknown
              (mk_asset 4 2 "DDD" (Some 4) (Some 400) None) H)
    as [d [H1 [H2 _]]].
  exists d. split; [exact H1 | exact H2].
Defined.

(** ** Claims about the simulation engine *)

(** The cost basis the sell simulation starts from. *)
Lemma simulate_sell_run (db : database) (asset_id : Z) (price : Q)
  (a : Asset.row) :
  find_asset db asset_id = Some a -> 0 <= price ->
  exists percent,
    simulate_sell db (Parsed asset_id) (Parsed price)
    = (Some {| Sell.asset_id := asset_id;
               Sell.hypothetical_sale_price := price;
               Sell.total_proceeds := or_zero (Asset.quantity a) * price;
               Sell.original_cost :=
                 match Asset.total_invested a with
                 | Some c => c
                 | None =>
                     match Asset.average_cost a with
                     | Some average_cost =>
                         or_zero (Asset.quantity a) * average_cost
                     | None => 0
                     end
                 end;
               Sell.profit_dollars :=
                 or_zero (Asset.quantity a) * price
                 - match Asset.total_invested a with
                   | Some c => c
                   | None =>
                       match Asset.average_cost a with
                       | Some average_cost =>
                           or_zero (Asset.quantity a) * average_cost
                       | None => 0
                       end
                   end;
               Sell.profit_percent := percent |},
       [(SellCalculated, info)])
    /\ zero_guarded
         match Asset.total_invested a with
         | Some c => c
         | None =>
             match Asset.average_cost a with
             | Some average_cost => or_zero (Asset.quantity a) * average_cost
             | None => 0
             end
         end
         (or_zero (Asset.quantity a) * price
          - match Asset.total_invested a with
            | Some c => c
            | None =>
                match Asset.average_cost a with
                | Some average_cost =>
                    or_zero (Asset.quantity a) * average_cost
                | None => 0
                end
            end)
         percent.
Proof.
  intros Hfind Hprice. unfold simulate_sell, simulate_sell_body.
  cbn [truthy negb orb parse bind]. rewrite Hfind.
  cbn [select_by_id bind]. apply py_lt_false in Hprice. rewrite Hprice.
  set (cost := match Asset.total_invested a with
               | Some c => c
               | None => _
               end).
  destruct (percent_if_positive_ok
              (or_zero (Asset.quantity a) * price - cost) cost)
    as [p [Hp G]].
  rewrite Hp. cbn [bind]. exists p. split; [reflexivity | exact G].
Qed.

(** C4, as stated, fails: for an id that SQLite cannot bind the asset does
    not exist, but the simulation does not answer with the validation
    message; the lookup raises [OverflowError] and the catch-all handler
    reports that. *)
Lemma sell_unbindable_id_not_validation_error :
  find_asset example_db (2 ^ 63) = None
  /\ simulate_sell example_db (Parsed (2 ^ 63)%Z) (Parsed 150)
     = (None, [(SellException OverflowError, error_)])
  /\ simulate_sell example_db (Parsed (2 ^ 63)%Z) (Parsed 150)
     <> (None, [(SellAssetNotFound, error_)]).
Proof.
  split; [reflexivity|]. split; [reflexivity | discriminate].
Qed.

(** C4, amended.  For an existing asset and a price [>= 0] the sell
    simulation returns [total_proceeds = quantity * price],
    [profit_dollars = total_proceeds - original_cost] and
    [profit_percent = profit_dollars / original_cost * 100], or [0] when
    [original_cost <= 0]; [original_cost] is the asset's [total_invested],
    else [quantity * average_cost], else [0].  On a parsed asset id and
    price it returns no result exactly when the asset does not exist or the
    price is negative.  It then flashes the matching validation message,
    provided the id is one SQLite can bind (a signed 64-bit integer); for an
    id outside that range the lookup raises [OverflowError] and the message
    is the catch-all one.  With quantity 10, total invested 1000 and price
    150 the result is 1500, 500 and 50. *)
Theorem simulate_sell_correct (db : database) (asset_id : Z) (price : Q) :
  (fst (simulate_sell db (Parsed asset_id) (Parsed price)) = None
   <-> find_asset db asset_id = None \/ price < 0)
  /\ (find_asset db asset_id = None -> sqlite_integer asset_id = true ->
      simulate_sell db (Parsed asset_id) (Parsed price)
      = (None, [(SellAssetNotFound, error_)]))
  /\ (find_asset db asset_id = None -> sqlite_integer asset_id = false ->
      simulate_sell db (Parsed asset_id) (Parsed price)
      = (None, [(SellException OverflowError, error_)]))
  /\ (find_asset db asset_id <> None -> price < 0 ->
      simulate_sell db (Parsed asset_id) (Parsed price)
      = (None, [(SellPriceNegative, warning)]))
  /\ (forall a, find_asset db asset_id = Some a -> 0 <= price ->
      exists r,
        simulate_sell db (Parsed asset_id) (Parsed price)
        = (Some r, [(SellCalculated, info)])
        /\ Sell.original_cost r
           = match Asset.total_invested a with
             | Some total_invested => total_invested
             | None =>
                 match Asset.average_cost a with
                 | Some average_cost =>
                     or_zero (Asset.quantity a) * average_cost
                 | None => 0
                 end
             end
        /\ Sell.total_proceeds r = or_zero (Asset.quantity a) * price
        /\ (forall quantity, Asset.quantity a = Some quantity ->
            Sell.total_proceeds r == quantity * price)
        /\ Sell.profit_dollars r
           = Sell.total_proceeds r - Sell.original_cost r
        /\ (0 < Sell.original_cost r ->
            Sell.profit_percent r
            == Sell.profit_dollars r / Sell.original_cost r * 100)
        /\ (Sell.original_cost r <= 0 -> Sell.profit_percent r = 0))
  /\ (forall a, find_asset db asset_id = Some a ->
      Asset.quantity a = Some 10 -> Asset.total_invested a = Some 1000 ->
      price = 150 ->
      exists r,
        simulate_sell db (Parsed asset_id) (Parsed price)
        = (Some r, [(SellCalculated, info)])
        /\ Sell.total_proceeds r == 1500
        /\ Sell.profit_dollars r == 500
        /\ Sell.profit_percent r == 50).
Proof.
  assert (Hnone : find_asset db asset_id = None ->
                  fst (simulate_sell db (Parsed asset_id) (Parsed price))
                  = None
                  /\ (sqlite_integer asset_id = true ->
                      simulate_sell db (Parsed asset_id) (Parsed price)
                      = (None, [(SellAssetNotFound, error_)]))
                  /\ (sqlite_integer asset_id = false ->
                      simulate_sell db (Parsed asset_id) (Parsed price)
                      = (None, [(SellException OverflowError, error_)]))).
  { intro H. unfold simulate_sell, simulate_sell_body.
    cbn [truthy negb orb parse bind]. rewrite H. cbn [select_by_id bind].
    destruct (sqlite_integer asset_id); cbn [bind fst];
      (split; [reflexivity|]); split; intro; congruence. }
  assert (Hneg : find_asset db asset_id <> None -> price < 0 ->
                 simulate_sell db (Parsed asset_id) (Parsed price)
                 = (None, [(SellPriceNegative, warning)])).
  { intros H Hp. unfold simulate_sell, simulate_sell_body.
    cbn [truthy negb orb parse bind].
    destruct (find_asset db asset_id) as [a|]; [|congruence].
    cbn [select_by_id bind].
    apply py_lt_true in Hp. rewrite Hp. reflexivity. }
  assert (Hok : forall a, find_asset db asset_id = Some a -> 0 <= price ->
      exists r,
        simulate_sell db (Parsed asset_id) (Parsed price)
        = (Some r, [(SellCalculated, info)])
        /\ Sell.original_cost r
           = match Asset.total_invested a with
             | Some total_invested => total_invested
             | None =>
                 match Asset.average_cost a with
                 | Some average_cost =>
                     or_zero (Asset.quantity a) * average_cost
                 | None => 0
                 end
             end
        /\ Sell.total_proceeds r = or_zero (Asset.quantity a) * price
        /\ (forall quantity, Asset.quantity a = Some quantity ->
            Sell.total_proceeds r == quantity * price)
        /\ Sell.profit_dollars r
           = Sell.total_proceeds r - Sell.original_cost r
        /\ (0 < Sell.original_cost r ->
            Sell.profit_percent r
            == Sell.profit_dollars r / Sell.original_cost r * 100)
        /\ (Sell.original_cost r <= 0 -> Sell.profit_percent r = 0)).
  { intros a Ha Hp.
    destruct (simulate_sell_run db asset_id Ha Hp) as [p [E [G0 G1]]].
    rewrite E. eexists. split; [reflexivity|]. cbn.
    split; [reflexivity|]. split; [reflexivity|].
    split; [intros q ->; rewrite or_zero_some; reflexivity|].
    split; [reflexivity|]. split; [exact G1 | exact G0]. }
  split; [|split; [intros H; apply (Hnone H)|
            split; [intros H; apply (Hnone H)|
            split; [exact Hneg|split; [exact Hok|]]]]].
  - split.
    + intro H. destruct (find_asset db asset_id) as [a|] eqn:Ha;
        [|left; reflexivity].
      right. apply Qnot_le_lt. intro Hp.
      destruct (Hok a eq_refl Hp) as [r [E _]]. rewrite E in H. discriminate.
    + intros [H|H].
      * apply (Hnone H).
      * destruct (find_asset db asset_id) as [a|] eqn:Ha.
        -- rewrite Hneg; [reflexivity | congruence | exact H].
        -- apply (Hnone eq_refl).
  - intros a Ha Hq Hti ->.
    assert (Hp : 0 <= 150) by (apply Qle_bool_iff; reflexivity).
    destruct (Hok a Ha Hp) as [r [E [Hc [Ht [_ [Hd [Hpos _]]]]]]].
    exists r. split; [exact E|].
    rewrite Hti in Hc. rewrite Hq in Ht.
    assert (Et : Sell.total_proceeds r == 1500) by (rewrite Ht; reflexivity).
    assert (Ed : Sell.profit_dollars r == 500)
      by (rewrite Hd, Et, Hc; reflexivity).
    split; [exact Et|]. split; [exact Ed|].
    rewrite Hpos by (rewrite Hc; reflexivity).
    rewrite Ed, Hc. reflexivity.
Qed.

Lemma simulate_sell_correct_witness :
  exists r,
    simulate_sell example_db (Parsed 1%Z) (Parsed 150)
    = (Some r, [(SellCalculated, info)])
    /\ Sell.total_proceeds r == 1500
    /\ Sell.profit_dollars r == 500
    /\ Sell.profit_percent r == 50.
Proof.
  destruct (simulate_sell_correct example_db 1 150)
    as (_ & _ & _ & _ & _ & H).
  exact (H (mk_asset 1 1 "AAA" (Some 10) (Some 1000) (Some 150))
           eq_refl eq_refl eq_refl eq_refl).
Defined.

Lemma or_one_positive (x : option Q) : 0 < or_zero x -> 0 < or_one x.
Proof.
  destruct x as [q|]; cbn.
  - destruct (Qeq_bool q 0); [intro H; exfalso; apply (Qlt_irrefl _ H)|].
    tauto.
  - intro H. exfalso. apply (Qlt_irrefl _ H).
Qed.

(** The buy simulation once the inputs are read as [shares] bought for
    [cost]. *)
Lemma simulate_buy_run (db : database) (asset_id : Z) (a : Asset.row)
  (price shares cost : Q) (amount_str shares_str : form_field Q) :
  find_asset db asset_id = Some a ->
  Asset.current_price a = Some price ->
  truthy amount_str || truthy shares_str = true ->
  read_buy_inputs price amount_str shares_str = Ok (shares, cost, true, []) ->
  0 < shares ->
  exists r,
    simulate_buy_existing_asset db (Parsed asset_id) amount_str shares_str
    = Ok (Some r, [(BuyCalculated, info)])
    /\ Buy.shares_purchased r = shares
    /\ Buy.cost_of_purchase r = cost
    /\ Buy.new_total_quantity r = or_zero (Asset.quantity a) + shares
    /\ Buy.new_total_invested r = or_zero (Asset.total_invested a) + cost
    /\ (0 < Buy.new_total_quantity r ->
        Buy.new_average_cost r
        == Buy.new_total_invested r / Buy.new_total_quantity r)
    /\ (Buy.new_total_quantity r <= 0 -> Buy.new_average_cost r = 0)
    /\ Buy.new_current_total_value r = Buy.new_total_quantity r * price
    /\ Buy.new_profit_loss_dollars r
       = Buy.new_current_total_value r - Buy.new_total_invested r
    /\ zero_guarded (Buy.new_total_invested r) (Buy.new_profit_loss_dollars r)
         (Buy.new_profit_loss_percent r).
Proof.
  intros Hfind Hprice Hgiven Hread Hpos.
  unfold simulate_buy_existing_asset.
  cbn [truthy parse bind negb].
  assert (Hg : negb (truthy amount_str) && negb (truthy shares_str) = false).
  { rewrite <- negb_orb, Hgiven. reflexivity. }
  rewrite Hg. unfold simulate_buy_body. cbn [parse bind].
  rewrite Hfind. cbn [select_by_id bind].
  rewrite Hprice, Hread. cbn [bind andb app].
  apply py_gt_true in Hpos. rewrite Hpos.
  set (ntq := or_zero (Asset.quantity a) + shares).
  set (nti := or_zero (Asset.total_invested a) + cost).
  assert (Havg : exists avg,
             (if py_gt ntq 0 then py_div nti ntq else Ok 0) = Ok avg
             /\ (0 < ntq -> avg == nti / ntq) /\ (ntq <= 0 -> avg = 0)).
  { destruct (py_gt ntq 0) eqn:E.
    - apply py_gt_true in E. rewrite (py_div_positive _ E).
      eexists. split; [reflexivity|]. split; [reflexivity|].
      intro C. exfalso. apply (Qlt_not_le _ _ E C).
    - apply py_gt_false in E. exists 0. split; [reflexivity|].
      split; [|reflexivity]. intro C. exfalso. apply (Qlt_not_le _ _ C E). }
  destruct Havg as [avg [Eavg [Havg1 Havg0]]]. rewrite Eavg. cbn [bind].
  destruct (percent_if_positive_ok (ntq * price - nti) nti) as [np [Enp Gn]].
  rewrite Enp. cbn [bind].
  assert (Hcur : exists cp,
             (if py_gt (or_zero (Asset.total_invested a)) 0
              then r <- py_div
                          (or_zero (Asset.quantity a) * or_zero (Some price)
                           - or_zero (Asset.total_invested a))
                          (or_one (Asset.total_invested a)) ;;
                   Ok (r * 100)
              else Ok 0) = Ok cp).
  { destruct (py_gt (or_zero (Asset.total_invested a)) 0) eqn:E.
    - apply py_gt_true, or_one_positive in E.
      rewrite (py_div_positive _ E). eexists. reflexivity.
    - eexists. reflexivity. }
  destruct Hcur as [cp Ecp]. rewrite Ecp. cbn [bind].
  eexists. split; [reflexivity|]. cbn.
  repeat (split; [first [reflexivity | assumption]|]). exact Gn.
Qed.

(** For an existing asset whose known price is [0] a positive investment
    amount makes the simulation divide by the price; the handler catches
    the [ZeroDivisionError] and reports an error, and no result is
    computed. *)
Lemma buy_by_amount_zero_price :
  find_asset zero_price_db 1
  = Some (mk_asset 1 1 "ZZZ" (Some 5) (Some 500) (Some 0))
  /\ simulate_buy_existing_asset zero_price_db (Parsed 1%Z) (Parsed 600)
       Blank
     = Ok (None, [(BuyException ZeroDivisionError, error_)])
  /\ ~ (exists r fl,
          simulate_buy_existing_asset zero_price_db (Parsed 1%Z)
            (Parsed 600) Blank = Ok (Some r, fl)).
Proof.
  split; [reflexivity|]. split; [reflexivity|].
  intros [r [fl H]]. vm_compute in H. discriminate.
Qed.

Lemma positive_quotient (a b : Q) : 0 < a -> 0 < a / b -> 0 < b.
Proof.
  intros Ha Hq. unfold Qdiv in Hq.
  assert (Hi : 0 < / b) by nra.
  apply Qinv_lt_0_compat in Hi. rewrite Qinv_involutive in Hi. exact Hi.
Qed.

(** The buy simulation in the exact model (numbers are rationals, the
    quotient of two positive numbers is positive).  For an existing asset
    whose [current_price] is known: when a positive investment amount is
    given and [investment_amount / current_price] is positive, the shares
    purchased are that quotient; when no investment amount is given and a
    positive number of shares is, the shares purchased are that number.  In
    both cases the cost is [shares * price], the new quantity and invested
    total add the purchase to the stored ones, the new average cost is
    their quotient ([0] when the new quantity is [<= 0]), the new value is
    [new quantity * price], and the new profit/loss amount and percentage
    follow. *)
Lemma simulate_buy_exact (db : database) (asset_id : Z) (a : Asset.row)
  (price : Q) :
  find_asset db asset_id = Some a ->
  Asset.current_price a = Some price ->
  (forall amount shares_str, 0 < amount -> 0 < amount / price ->
     exists r,
       simulate_buy_existing_asset db (Parsed asset_id) (Parsed amount)
         shares_str = Ok (Some r, [(BuyCalculated, info)])
       /\ Buy.shares_purchased r = amount / price
       /\ buy_projection a price r)
  /\ (forall shares, 0 < shares ->
     exists r,
       simulate_buy_existing_asset db (Parsed asset_id) Blank (Parsed shares)
       = Ok (Some r, [(BuyCalculated, info)])
       /\ Buy.shares_purchased r = shares
       /\ buy_projection a price r)
  /\ (Asset.quantity a = Some 5 -> Asset.total_invested a = Some 500 ->
      price = 120 ->
      exists r,
        simulate_buy_existing_asset db (Parsed asset_id) (Parsed 600) Blank
        = Ok (Some r, [(BuyCalculated, info)])
        /\ Buy.shares_purchased r == 5
        /\ Buy.new_total_quantity r == 10
        /\ Buy.new_total_invested r == 1100
        /\ Buy.new_average_cost r == 110).
Proof.
  intros Hfind Hprice.
  assert (Hamount : forall amount shares_str,
     0 < amount -> 0 < amount / price ->
     exists r,
       simulate_buy_existing_asset db (Parsed asset_id) (Parsed amount)
         shares_str = Ok (Some r, [(BuyCalculated, info)])
       /\ Buy.shares_purchased r = amount / price
       /\ buy_projection a price r).
  { intros amount shares_str Ha Hs.
    assert (Hp : 0 < price) by (apply (positive_quotient Ha Hs)).
    assert (Hread : read_buy_inputs price (Parsed amount) shares_str
                    = Ok (amount / price, amount / price * price, true, [])).
    { unfold read_buy_inputs. cbn [truthy parse bind]. unfold py_le.
      destruct (Qle_bool amount 0) eqn:E.
      - apply Qle_bool_iff in E. exfalso. apply (Qlt_not_le _ _ Ha E).
      - rewrite (py_div_positive _ Hp). reflexivity. }
    destruct (simulate_buy_run db asset_id (Parsed amount) shares_str
                Hfind Hprice eq_refl Hread Hs)
      as [r (E & H1 & H2 & H3 & H4 & H5 & H6 & H7 & H8 & H9)].
    exists r. split; [exact E|]. split; [exact H1|].
    unfold buy_projection. rewrite H2, H3, H4, H1 in *.
    repeat (split; [first [reflexivity | assumption]|]). exact H9. }
  split; [exact Hamount|]. split.
  - intros shares Hs.
    assert (Hread : read_buy_inputs price Blank (Parsed shares)
                    = Ok (shares, shares * price, true, [])).
    { unfold read_buy_inputs. cbn [truthy parse bind]. unfold py_le.
      destruct (Qle_bool shares 0) eqn:E; [|reflexivity].
      apply Qle_bool_iff in E. exfalso. apply (Qlt_not_le _ _ Hs E). }
    destruct (simulate_buy_run db asset_id Blank (Parsed shares)
                Hfind Hprice eq_refl Hread Hs)
      as [r (E & H1 & H2 & H3 & H4 & H5 & H6 & H7 & H8 & H9)].
    exists r. split; [exact E|]. split; [exact H1|].
    unfold buy_projection. rewrite H2, H3, H4, H1 in *.
    repeat (split; [first [reflexivity | assumption]|]). exact H9.
  - intros Hq Hti ->.
    destruct (Hamount 600 Blank) as [r (E & H1 & H2 & H3 & H4 & H5 & _)];
      try reflexivity.
    exists r. split; [exact E|].
    rewrite Hq in H3. rewrite Hti in H4.
    assert (E1 : Buy.shares_purchased r == 5) by (rewrite H1; reflexivity).
    assert (E2 : Buy.new_total_quantity r == 10)
      by (rewrite H3, E1; reflexivity).
    assert (E3 : Buy.new_total_invested r == 1100)
      by (rewrite H4, H2, E1; reflexivity).
    split; [exact E1|]. split; [exact E2|]. split; [exact E3|].
    rewrite H5 by (rewrite E2; reflexivity).
    rewrite E2, E3. reflexivity.
Qed.

(** C6, as stated, fails: for an existing asset without a price, a request
    that leaves both inputs empty is rejected for its missing input, before
    the asset is looked up. *)
Lemma buy_empty_inputs_before_price :
  find_asset example_db 4
  = Some (mk_asset 4 2 "DDD" (Some 4) (Some 400) None)
  /\ simulate_buy_existing_asset example_db (Parsed 4%Z) Blank Blank
     = Ok (None, [(BuyInputRequired, error_)])
  /\ simulate_buy_existing_asset example_db (Parsed 4%Z) Blank Blank
     <> Ok (None, [(BuyPriceUnavailable "DDD", warning)]).
Proof.
  split; [reflexivity|]. split; [reflexivity|]. discriminate.
Qed.

(** C6, amended.  For a buy request naming an existing asset whose
    [current_price] is null and giving at least one of the two inputs
    (non-empty), the simulation fails with the price-unavailable warning,
    whether the inputs given are well-formed, positive or neither. *)
Theorem buy_price_unavailable_first (db : database) (asset_id : Z)
  (a : Asset.row) (investment_amount_str shares_to_buy_str : form_field Q) :
  find_asset db asset_id = Some a ->
  Asset.current_price a = None ->
  truthy investment_amount_str || truthy shares_to_buy_str = true ->
  simulate_buy_existing_asset db (Parsed asset_id) investment_amount_str
    shares_to_buy_str
  = Ok (None, [(BuyPriceUnavailable (Asset.ticker_symbol a), warning)]).
Proof.
  intros Hfind Hprice Hgiven. unfold simulate_buy_existing_asset.
  cbn [truthy parse bind negb].
  rewrite <- negb_orb, Hgiven. cbn [negb].
  unfold simulate_buy_body. cbn [parse bind].
  rewrite Hfind. cbn [select_by_id bind]. rewrite Hprice. reflexivity.
Qed.

Lemma buy_price_unavailable_first_witness :
  simulate_buy_existing_asset example_db (Parsed 4%Z) Malformed (Parsed (-3))
  = Ok (None, [(BuyPriceUnavailable "DDD", warning)]).
Proof.
  exact (@buy_price_unavailable_first example_db 4
           (mk_asset 4 2 "DDD" (Some 4) (Some 400) None)
           Malformed (Parsed (-3)) eq_refl eq_refl eq_refl).
Defined.

(** What the buy simulation does outside the two cases of C5: a
    non-positive amount is rejected even when shares are given, and a
    negative price with an amount yields neither result nor message. *)
Lemma buy_nonpositive_amount_rejected (db : database) (asset_id : Z)
  (a : Asset.row) (price amount : Q) (shares_str : form_field Q) :
  find_asset db asset_id = Some a ->
  Asset.current_price a = Some price ->
  amount <= 0 ->
  simulate_buy_existing_asset db (Parsed asset_id) (Parsed amount) shares_str
  = Ok (None, [(BuyAmountNotPositive, warning)]).
Proof.
  intros Hfind Hprice Ha. unfold simulate_buy_existing_asset.
  cbn [truthy parse bind negb andb]. unfold simulate_buy_body.
  cbn [parse bind]. rewrite Hfind. cbn [select_by_id bind].
  rewrite Hprice. unfold read_buy_inputs.
  cbn [truthy parse bind]. unfold py_le.
  apply Qle_bool_iff in Ha. rewrite Ha. reflexivity.
Qed.

(** ** Claims about the refresh *)

Lemma find_asset_update (db : database) (asset_id : Z)
  (f : Asset.row -> Asset.row) :
  (forall a, Asset.asset_id (f a) = Asset.asset_id a) ->
  find_asset (update_asset db asset_id f) asset_id
  = option_map f (find_asset db asset_id).
Proof.
  intro Hid. unfold find_asset, update_asset. cbn [assets].
  induction (assets db) as [|a l IH]; cbn [map find]; [reflexivity|].
  destruct (Z.eqb (Asset.asset_id a) asset_id) eqn:E.
  - rewrite Hid, E. reflexivity.
  - rewrite E. exact IH.
Qed.

(** C8, as stated, fails: when the provider answers with a text in place of
    the 52-week high, the refresh does not keep the stored high (200) but
    overwrites it with null, and it tells the user of a success; the only
    warning is a line printed on the console. *)
Lemma refresh_overwrites_with_null :
  find_asset priced_db 1 = Some priced_asset
  /\ Asset.fifty_two_week_high priced_asset = Some 200
  /\ exists db',
       refresh_asset_data text_high_provider priced_db 1
       = (db', [(RefreshSucceeded "AAA", success)],
          [NotANumber "fifty_two_week_high" "AAA" (PyStr "N/A")])
       /\ exists a',
            find_asset db' 1 = Some a'
            /\ Asset.fifty_two_week_high a' = None
            /\ Asset.fifty_two_week_high a'
               <> Asset.fifty_two_week_high priced_asset.
Proof.
  split; [reflexivity|]. split; [reflexivity|].
  eexists. split; [reflexivity|].
  eexists. split; [reflexivity|]. split; [reflexivity | discriminate].
Qed.

(** C8, amended.  For a refresh of an existing asset: when the provider
    call fails, the store is left as it is and the unavailability is
    flashed as a warning; when the provider answers, the operation
    completes and flashes success, a warning line is printed for each
    non-numeric value, and each of the four stored price fields becomes the
    provider's value if that is a number and null otherwise, so a
    non-numeric value never reaches the store. *)
Theorem refresh_asset_data_degrades (yf : yfinance) (db : database)
  (asset_id : Z) (a : Asset.row) :
  find_asset db asset_id = Some a ->
  (ticker yf (Asset.ticker_symbol a) = None ->
   refresh_asset_data yf db asset_id
   = (db, [(RefreshUnavailable (Asset.ticker_symbol a), warning)],
      [FetchError (Asset.ticker_symbol a)]))
  /\ (forall info hist,
        ticker yf (Asset.ticker_symbol a) = Some (info, hist) ->
        exists db' a',
          refresh_asset_data yf db asset_id
          = (db', [(RefreshSucceeded (Asset.ticker_symbol a), success)],
             coercion_warnings (Asset.ticker_symbol a)
               (quote_data info hist))
          /\ find_asset db' asset_id = Some a'
          /\ Asset.current_price a'
             = numeric_or_none
                 (RawData.current_price (quote_data info hist))
          /\ Asset.price_yesterday a'
             = numeric_or_none
                 (RawData.price_yesterday (quote_data info hist))
          /\ Asset.fifty_two_week_high a'
             = numeric_or_none (get (Info.fiftyTwoWeekHigh info))
          /\ Asset.fifty_two_week_low a'
             = numeric_or_none (get (Info.fiftyTwoWeekLow info))
          /\ Asset.quantity a' = Asset.quantity a
          /\ Asset.average_cost a' = Asset.average_cost a
          /\ Asset.total_invested a' = Asset.total_invested a)
  /\ (forall v, match v with
                | PyNum q => numeric_or_none v = Some q
                | _ => numeric_or_none v = None
                end).
Proof.
  intro Hfind. split; [|split].
  - intro Hfail. unfold refresh_asset_data, fetch_market_data.
    rewrite Hfind, Hfail. reflexivity.
  - intros info hist Hans. unfold refresh_asset_data, fetch_market_data.
    rewrite Hfind, Hans.
    eexists; eexists. split; [reflexivity|]. split.
    + rewrite find_asset_update by reflexivity. rewrite Hfind. reflexivity.
    + cbn. repeat split.
  - intros [|q|s]; reflexivity.
Qed.

Lemma refresh_asset_data_degrades_witness :
  refresh_asset_data no_provider priced_db 1
  = (priced_db, [(RefreshUnavailable "AAA", warning)], [FetchError "AAA"]).
Proof.
  destruct (@refresh_asset_data_degrades no_provider priced_db 1 priced_asset
              eq_refl) as [H _].
  exact (H eq_refl).
Defined.

(** ** Worked examples on [example_db] *)

(** The ranking: assets 0 and 4 tie at 50 percent and keep their input
    order; asset 2 has nothing invested and is left out. *)
Example example_ranking :
  exists db' v,
    index no_provider example_db "2024-01-02" = Ok (db', v)
    /\ all_assets_ranked v = [0; 4; 1; 3]%nat
    /\ best_performing_asset v = Some 0%nat
    /\ worst_performing_asset v = Some 3%nat
    /\ map UserSummary.user_name (breakdown_data v) = ["alice"; "bob"]%string
    /\ current_value_of_assets v = 2310
    /\ account_type_allocation_data_for_chart v
       = [Header "Account Type" "Total Value"; Data "RRSP" 60;
          Data "TFSA" 2300]
    /\ user_allocation_data_for_chart v
       = [Header "User" "Total Portfolio Value"; Data "alice" 210;
          Data "bob" 2150]
    /\ portfolio_history db'
       = [("2024-01-01", 7); ("2024-01-02", 2360)]%string.
Proof.
  eexists; eexists. split; [vm_compute; reflexivity|].
  repeat split.
Qed.

(** A second run on the same date, after prices moved, keeps the first
    value of the day. *)
Example example_second_run :
  exists db1 v1 db2 v2,
    index no_provider example_db "2024-01-02" = Ok (db1, v1)
    /\ index no_provider
         (with_assets db1
            [mk_asset 1 1 "AAA" (Some 10) (Some 1000) (Some 175)])
         "2024-01-02" = Ok (db2, v2)
    /\ overall_portfolio_value v2 = 1800
    /\ portfolio_history db2
       = [("2024-01-01", 7); ("2024-01-02", 2360)]%string.
Proof.
  eexists; eexists; eexists; eexists.
  split; [vm_compute; reflexivity|].
  split; [vm_compute; reflexivity|].
  split; reflexivity.
Qed.

(** Buying 4 shares at 50 of a position recorded with nothing held: cost
    200, new quantity 4, new average cost 50. *)
Example example_buy_by_shares :
  exists r,
    simulate_buy_existing_asset
      (with_assets example_db [mk_asset 1 1 "NEW" (Some 0) (Some 0) (Some 50)])
      (Parsed 1%Z) Blank (Parsed 4)
    = Ok (Some r, [(BuyCalculated, info)])
    /\ Buy.cost_of_purchase r == 200
    /\ Buy.new_total_quantity r == 4
    /\ Buy.new_average_cost r == 50.
Proof.
  eexists. split; [vm_compute; reflexivity|].
  repeat split.
Qed.

(** A malformed asset id escapes the buy handler, which reads it before
    entering its [try]. *)
Example example_buy_malformed_id :
  simulate_buy_existing_asset example_db Malformed (Parsed 600) Blank
  = Raise ValueError.
Proof. reflexivity. Qed.

(** ** Further properties of the dashboard computation *)

Lemma record_snapshot_tables (db : database) (d : string) (v : Q) :
  users (record_snapshot db d v) = users db
  /\ platforms (record_snapshot db d v) = platforms db
  /\ accounts (record_snapshot db d v) = accounts db
  /\ assets (record_snapshot db d v) = assets db.
Proof.
  destruct (has_snapshot (portfolio_history db) d) eqn:E.
  - rewrite record_snapshot_present by exact E. repeat split.
  - rewrite record_snapshot_absent by exact E. repeat split.
Qed.

Lemma record_snapshot_queries (db : database) (d : string) (v : Q) :
  users_by_name (record_snapshot db d v) = users_by_name db
  /\ (forall u, user_platforms (record_snapshot db d v) u
                = user_platforms db u)
  /\ (forall u p, accounts_on_platform (record_snapshot db d v) u p
                  = accounts_on_platform db u p).
Proof.
  destruct (record_snapshot_tables db d v) as (Hu & Hp & Ha & _).
  unfold users_by_name, user_platforms, accounts_on_platform.
  rewrite Hu, Hp, Ha. repeat split.
Qed.

Lemma same_data_total_invested (h h' : heap) :
  same_data h h' ->
  map AssetDetail.total_invested h' = map AssetDetail.total_invested h.
Proof.
  intros [E _]. unfold AssetDetail.total_invested.
  rewrite <- !(map_map AssetDetail.derived Derived.total_invested).
  rewrite E. reflexivity.
Qed.


(** X1.  In the result of the dashboard computation [total_invested] is at
    each level the exact sum of the children's [total_invested], whatever
    the order of summation (the global figure over all asset objects, a
    user's over the user's platforms, a platform's over its accounts, an
    account's over its assets), and [profit_loss_amount] is at each level
    [current_value_of_assets - total_invested]. *)
Theorem rollup_total_invested_exact (yf : yfinance) (db : database)
  (today_str : string) :
  exists db' v,
    index yf db today_str = Ok (db', v)
    /\ exact_sum (total_invested_assets v)
         (map AssetDetail.total_invested (objects v))
    /\ profit_loss_amount v
       = current_value_of_assets v - total_invested_assets v
    /\ Forall (fun u =>
         exact_sum (UserSummary.total_invested u)
           (map PlatformSummary.total_invested (UserSummary.platforms u))
         /\ UserSummary.profit_loss_amount u
            = UserSummary.current_value_of_assets u
              - UserSummary.total_invested u
         /\ Forall (fun p =>
              exact_sum (PlatformSummary.total_invested p)
                (map AccountSummary.total_invested
                     (PlatformSummary.accounts p))
              /\ PlatformSummary.profit_loss_amount p
                 = PlatformSummary.current_value_of_assets p
                   - PlatformSummary.total_invested p
              /\ Forall (fun s =>
                   exact_sum (AccountSummary.total_invested s)
                     (map (fun a => AssetDetail.total_invested
                                      (deref (objects v) a))
                          (AccountSummary.assets s))
                   /\ AccountSummary.profit_loss_amount s
                      = AccountSummary.current_value_of_assets s
                        - AccountSummary.total_invested s)
                (PlatformSummary.accounts p))
           (UserSummary.platforms u))
       (breakdown_data v).
Proof.
  destruct (index_run yf db today_str)
    as [h0 [h [gti [gcv [gplp [bd [E [F0 [Hs [Hti [Hcv [G Fu]]]]]]]]]]]].
  rewrite E. eexists; eexists. split; [reflexivity|]. cbn.
  split; [|split; [reflexivity|]].
  - apply exact_sum_intro.
    rewrite (same_data_total_invested Hs). exact Hti.
  - eapply Forall2_Forall_r; [exact Fu|].
    intros urow u (_ & _ & Fp & Hu & _ & _ & Hpl & _). cbn beta.
    split; [apply exact_sum_intro; exact Hu|]. split; [exact Hpl|].
    eapply Forall2_Forall_r; [exact Fp|].
    intros prow p (_ & Fa & Hp & _ & _ & Hplp & _). cbn beta.
    split; [apply exact_sum_intro; exact Hp|]. split; [exact Hplp|].
    eapply Forall2_Forall_r; [exact Fa|].
    intros arow s (_ & _ & _ & _ & _ & Ht & _ & Hpla & _). cbn beta.
    split; [apply exact_sum_intro; exact Ht | exact Hpla].
Qed.


(** ** The breakdown against the global figures *)

Lemma map_deref_seq (h : heap) : map (deref h) (seq 0 (List.length h)) = h.
Proof.
  unfold deref.
  apply nth_ext with (d := AssetDetail.null) (d' := AssetDetail.null).
  - rewrite length_map, length_seq. reflexivity.
  - intros n Hn. rewrite length_map, length_seq in Hn.
    rewrite (nth_indep _ _ (nth 0 h AssetDetail.null))
      by (rewrite length_map, length_seq; exact Hn).
    rewrite (map_nth (fun r => nth r h AssetDetail.null)).
    rewrite seq_nth by exact Hn. reflexivity.
Qed.

Lemma refs_to_objects (h : heap) (f : AssetDetail.t -> Q)
  (g : AssetDetail.t -> bool) :
  map (fun a => f (deref h a))
      (filter (fun a => g (deref h a)) (seq 0 (List.length h)))
  = map f (filter g h).
Proof.
  replace (filter g h)
    with (filter g (map (deref h) (seq 0 (List.length h))))
    by (rewrite map_deref_seq; reflexivity).
  rewrite filter_map_swap, map_map. reflexivity.
Qed.

Lemma Forall2_flat_map {A B C D : Type} (R : C -> D -> Prop)
  (f : A -> list C) (g : B -> list D) (l : list A) (l' : list B) :
  Forall2 (fun x y => Forall2 R (f x) (g y)) l l' ->
  Forall2 R (flat_map f l) (flat_map g l').
Proof.
  induction 1 as [|x y l l' H F IH]; cbn; [constructor|].
  apply Forall2_app; assumption.
Qed.

Lemma Qsum_flat_map {A B : Type} (F : A -> Q) (G : B -> Q)
  (children : A -> list B) (l : list A) :
  Forall (fun x => F x == Qsum (map G (children x))) l ->
  Qsum (map F l) == Qsum (map G (flat_map children l)).
Proof.
  induction 1 as [|x l H F' IH]; cbn; [reflexivity|].
  rewrite map_app, Qsum_app, H, IH. reflexivity.
Qed.

Lemma Qsum_Forall2 {A B : Type} (F : A -> Q) (G : B -> Q) (l : list A)
  (l' : list B) :
  Forall2 (fun x y => F x == G y) l l' ->
  Qsum (map F l) == Qsum (map G l').
Proof.
  induction 1 as [|x y l l' H F' IH]; cbn; [reflexivity|].
  rewrite H, IH. reflexivity.
Qed.

(** Summing by account: when the ids are distinct and cover the objects,
    the sum over the objects is the sum of the per-account sums. *)
Lemma Qsum_selected (k : Z) (x : Q) (ids : list Z) :
  NoDup ids -> In k ids ->
  Qsum (map (fun id => if Z.eqb k id then x else 0) ids) == x.
Proof.
  induction 1 as [|id ids Hn Hnd IH]; intros Hin; [contradiction|].
  cbn [map Qsum]. destruct Hin as [->|Hin].
  - rewrite Z.eqb_refl.
    assert (E : Qsum (map (fun id => if Z.eqb k id then x else 0) ids) == 0).
    { clear -Hn. induction ids as [|i ids IH]; cbn; [reflexivity|].
      destruct (Z.eqb k i) eqn:E.
      - apply Z.eqb_eq in E. subst. exfalso. apply Hn. left. reflexivity.
      - rewrite IH; [ring|]. intro C. apply Hn. right. exact C. }
    rewrite E. ring.
  - destruct (Z.eqb k id) eqn:E.
    + apply Z.eqb_eq in E. subst. contradiction.
    + rewrite (IH Hin). ring.
Qed.

Lemma Qsum_map_plus {A : Type} (F G : A -> Q) (l : list A) :
  Qsum (map (fun x => F x + G x) l) == Qsum (map F l) + Qsum (map G l).
Proof.
  induction l as [|x l IH]; cbn; [ring | rewrite IH; ring].
Qed.

Lemma Qsum_by_account (f : AssetDetail.t -> Q) (h : heap) (ids : list Z) :
  NoDup ids ->
  (forall d, In d h -> In (AssetDetail.account_id d) ids) ->
  Qsum (map f h) == Qsum (map (account_sum f h) ids).
Proof.
  intros Hnd. induction h as [|d h IH]; intro Hcov.
  - unfold account_sum. cbn. clear. induction ids; cbn; [reflexivity|].
    rewrite <- IHids. ring.
  - cbn [map Qsum]. rewrite IH by (intros x Hx; apply Hcov; right; exact Hx).
    rewrite <- (@Qsum_selected (AssetDetail.account_id d) (f d) ids Hnd
                  (Hcov d (or_introl eq_refl))) at 1.
    rewrite <- Qsum_map_plus.
    apply Qsum_Forall2. clear. induction ids as [|id ids IH];
      constructor; [|exact IH].
    unfold account_sum. cbn [filter].
    destruct (Z.eqb (AssetDetail.account_id d) id); cbn; ring.
Qed.

Lemma NoDup_map_in_inj {A B : Type} (f : A -> B) (l : list A) (x y : A) :
  NoDup (map f l) -> In x l -> In y l -> f x = f y -> x = y.
Proof.
  induction l as [|a l IH]; cbn; intros Hnd Hx Hy E; [contradiction|].
  inversion Hnd as [|? ? Hn Hnd']; subst.
  destruct Hx as [->|Hx], Hy as [->|Hy]; auto.
  - exfalso. apply Hn. rewrite E. apply in_map. exact Hy.
  - exfalso. apply Hn. rewrite <- E. apply in_map. exact Hx.
Qed.

Lemma NoDup_map_sub {A B : Type} (f : A -> B) (l l0 : list A) :
  NoDup (map f l0) -> NoDup l -> incl l l0 -> NoDup (map f l).
Proof.
  intros H0 Hl Hincl. apply NoDup_map_NoDup_ForallPairs; [|exact Hl].
  intros x y Hx Hy E.
  apply (NoDup_map_in_inj f l0); auto.
Qed.

Lemma NoDup_flat_map_keyed {A B K : Type} (k : A -> K) (g : B -> K)
  (f : A -> list B) (l : list A) :
  NoDup (map k l) ->
  (forall x, In x l -> NoDup (f x)) ->
  (forall x z, In x l -> In z (f x) -> g z = k x) ->
  NoDup (flat_map f l).
Proof.
  induction l as [|x l IH]; cbn; intros Hnd Hf Hg; [constructor|].
  inversion Hnd as [|? ? Hn Hnd']; subst.
  apply NoDup_app.
  - apply Hf. left. reflexivity.
  - apply IH; auto.
  - intros z Hz Hz'. apply in_flat_map in Hz'. destruct Hz' as [y [Hy Hzy]].
    apply Hn. rewrite <- (Hg x z (or_introl eq_refl) Hz).
    rewrite (Hg y z (or_intror Hy) Hzy). apply in_map. exact Hy.
Qed.

Lemma user_platforms_in (db : database) (user_id : Z) (x : Z * string) :
  In x (user_platforms db user_id) <->
  exists p acc,
    In p (platforms db) /\ In acc (accounts db)
    /\ Platform.platform_id p = Account.platform_id acc
    /\ Account.user_id acc = user_id
    /\ x = (Platform.platform_id p, Platform.name p).
Proof.
  unfold user_platforms, order_by. rewrite stable_sort_in, nodup_In.
  rewrite in_flat_map. split.
  - intros [p [Hp Hx]]. apply in_flat_map in Hx.
    destruct Hx as [acc [Hacc Hx]].
    destruct (Z.eqb (Platform.platform_id p) (Account.platform_id acc)
              && Z.eqb (Account.user_id acc) user_id) eqn:E;
      [|contradiction].
    apply andb_true_iff in E. destruct E as [E1 E2].
    apply Z.eqb_eq in E1, E2. destruct Hx as [<-|[]].
    exists p, acc. auto.
  - intros (p & acc & Hp & Hacc & E1 & E2 & ->).
    exists p. split; [exact Hp|]. apply in_flat_map. exists acc.
    split; [exact Hacc|].
    apply Z.eqb_eq in E1, E2. rewrite E1, E2. left. reflexivity.
Qed.

Lemma user_platforms_keys (db : database) (user_id : Z) :
  NoDup (map Platform.platform_id (platforms db)) ->
  NoDup (map fst (user_platforms db user_id)).
Proof.
  intro Hpk. unfold user_platforms, order_by.
  eapply Permutation_NoDup.
  - apply Permutation_map, Permutation_sym, stable_sort_perm.
  - apply NoDup_map_NoDup_ForallPairs; [|apply NoDup_nodup].
    intros x y Hx Hy E.
    assert (Hfrom : forall z,
               In z (nodup platform_key_dec
                       (flat_map (fun p =>
                          flat_map (fun acc =>
                            if Z.eqb (Platform.platform_id p)
                                     (Account.platform_id acc)
                               && Z.eqb (Account.user_id acc) user_id
                            then [(Platform.platform_id p, Platform.name p)]
                            else []) (accounts db)) (platforms db))) ->
               exists p, In p (platforms db)
                         /\ z = (Platform.platform_id p, Platform.name p)).
    { intros z Hz.
      assert (Hz' : In z (user_platforms db user_id))
        by (unfold user_platforms, order_by; apply stable_sort_in; exact Hz).
      apply user_platforms_in in Hz'.
      destruct Hz' as (p & acc & Hp & _ & _ & _ & ->). eauto. }
    destruct (Hfrom x Hx) as [p [Hp ->]].
    destruct (Hfrom y Hy) as [q [Hq ->]]. cbn in E.
    rewrite (NoDup_map_in_inj Platform.platform_id (platforms db) p q
               Hpk Hp Hq E). reflexivity.
Qed.

Lemma accounts_on_platform_in (db : database) (user_id platform_id : Z)
  (acc : Account.row) :
  In acc (accounts_on_platform db user_id platform_id) <->
  In acc (accounts db) /\ Account.user_id acc = user_id
  /\ Account.platform_id acc = platform_id.
Proof.
  unfold accounts_on_platform, order_by.
  rewrite stable_sort_in, filter_In, andb_true_iff, !Z.eqb_eq. tauto.
Qed.

Lemma covered_accounts_in (db : database) (acc : Account.row) :
  In acc (covered_accounts db) <->
  In acc (accounts db)
  /\ (exists u, In u (users db) /\ User.user_id u = Account.user_id acc)
  /\ (exists p, In p (platforms db)
                /\ Platform.platform_id p = Account.platform_id acc).
Proof.
  unfold covered_accounts. rewrite in_flat_map. split.
  - intros [u [Hu Hacc]]. apply in_flat_map in Hacc.
    destruct Hacc as [x [Hx Hacc]].
    apply accounts_on_platform_in in Hacc. destruct Hacc as (Ha & E1 & E2).
    apply user_platforms_in in Hx.
    destruct Hx as (p & _ & Hp & _ & _ & _ & ->). cbn in E2.
    unfold users_by_name, order_by in Hu. apply stable_sort_in in Hu.
    split; [exact Ha|]. split; [exists u | exists p]; auto.
  - intros (Ha & [u [Hu E1]] & [p [Hp E2]]).
    exists u. split.
    + unfold users_by_name, order_by. apply stable_sort_in. exact Hu.
    + apply in_flat_map. exists (Platform.platform_id p, Platform.name p).
      split.
      * apply user_platforms_in. exists p, acc. auto.
      * apply accounts_on_platform_in. cbn. auto.
Qed.

Lemma covered_accounts_NoDup (db : database) :
  primary_keys db -> NoDup (covered_accounts db).
Proof.
  intros (Hu & Hp & Ha). unfold covered_accounts.
  apply NoDup_flat_map_keyed
    with (k := User.user_id) (g := Account.user_id).
  - eapply Permutation_NoDup; [|exact Hu].
    apply Permutation_map, Permutation_sym.
    unfold users_by_name, order_by. apply stable_sort_perm.
  - intros u _.
    apply NoDup_flat_map_keyed with (k := fst) (g := Account.platform_id).
    + apply user_platforms_keys. exact Hp.
    + intros x _. unfold accounts_on_platform, order_by.
      eapply Permutation_NoDup;
        [apply Permutation_sym, stable_sort_perm|].
      apply NoDup_filter. apply (NoDup_map_inv _ _ Ha).
    + intros x acc _ Hacc. apply accounts_on_platform_in in Hacc. apply Hacc.
  - intros u acc _ Hacc. apply in_flat_map in Hacc.
    destruct Hacc as [x [_ Hacc]].
    apply accounts_on_platform_in in Hacc. apply Hacc.
Qed.

Lemma covered_account_ids_NoDup (db : database) :
  primary_keys db -> NoDup (map Account.account_id (covered_accounts db)).
Proof.
  intro Hpk. apply NoDup_map_sub with (l0 := accounts db).
  - apply Hpk.
  - apply covered_accounts_NoDup. exact Hpk.
  - intros acc Hacc. apply covered_accounts_in in Hacc. apply Hacc.
Qed.

Lemma assets_query_in (db : database) (row : Joined.row) :
  In row (assets_query_for_dashboard db) ->
  In (Joined.asset row) (assets db)
  /\ In (Joined.account row) (covered_accounts db)
  /\ Asset.account_id (Joined.asset row)
     = Account.account_id (Joined.account row).
Proof.
  unfold assets_query_for_dashboard. intro H.
  apply in_flat_map in H. destruct H as [ast [Hast H]].
  apply in_flat_map in H. destruct H as [acc [Hacc H]].
  destruct (Z.eqb (Asset.account_id ast) (Account.account_id acc)) eqn:E1;
    [|contradiction].
  apply in_flat_map in H. destruct H as [u [Hu H]].
  destruct (Z.eqb (Account.user_id acc) (User.user_id u)) eqn:E2;
    [|contradiction].
  apply in_flat_map in H. destruct H as [p [Hp H]].
  destruct (Z.eqb (Account.platform_id acc) (Platform.platform_id p)) eqn:E3;
    [|contradiction].
  destruct H as [<-|[]]. cbn.
  apply Z.eqb_eq in E1, E2, E3.
  split; [exact Hast|]. split; [|exact E1].
  apply covered_accounts_in. split; [exact Hacc|].
  split; [exists u | exists p]; auto.
Qed.

Lemma breakdown_accounts (db : database) (h : heap)
  (bd : list UserSummary.t) :
  Forall2 (user_ok db h) (users_by_name db) bd ->
  Forall2 (account_ok h) (covered_accounts db) (all_account_summaries bd).
Proof.
  intro Fu. unfold covered_accounts, all_account_summaries.
  apply Forall2_flat_map.
  eapply Forall2_impl; [|exact Fu].
  intros urow u (_ & _ & Fp & _). cbn beta.
  apply Forall2_flat_map.
  eapply Forall2_impl; [|exact Fp].
  intros prow p (_ & Fa & _). exact Fa.
Qed.

Lemma breakdown_sum_accounts (FU : UserSummary.t -> Q)
  (FP : PlatformSummary.t -> Q) (FA : AccountSummary.t -> Q)
  (db : database) (h : heap) (rows : list User.row)
  (bd : list UserSummary.t) :
  (forall r u, user_ok db h r u ->
               FU u == Qsum (map FP (UserSummary.platforms u))) ->
  (forall uid r p, platform_ok db h uid r p ->
                   FP p == Qsum (map FA (PlatformSummary.accounts p))) ->
  Forall2 (user_ok db h) rows bd ->
  Qsum (map FU bd) == Qsum (map FA (all_account_summaries bd)).
Proof.
  intros HU HP Fu. unfold all_account_summaries.
  induction Fu as [|r u rows bd Hok Fu IH]; cbn [map Qsum flat_map];
    [reflexivity|].
  rewrite map_app, Qsum_app, IH, (HU r u Hok).
  apply Qplus_comp; [|reflexivity].
  apply Qsum_flat_map.
  destruct Hok as (_ & _ & Fp & _).
  eapply Forall2_Forall_r; [exact Fp|].
  intros prow p Hp. exact (HP _ _ _ Hp).
Qed.

Lemma account_sums_of_objects (f : AssetDetail.t -> Q)
  (FA : AccountSummary.t -> Q) (h : heap) (rows : list Account.row)
  (ss : list AccountSummary.t) :
  (forall s, FA s = FA s) ->
  Forall2 (fun row s =>
             FA s == Qsum (map (fun a => f (deref h a))
                               (filter (fun a =>
                                          Z.eqb (AssetDetail.account_id
                                                   (deref h a))
                                                (Account.account_id row))
                                       (seq 0 (List.length h)))))
          rows ss ->
  Qsum (map FA ss)
  == Qsum (map (account_sum f h) (map Account.account_id rows)).
Proof.
  intros _ F. rewrite map_map. symmetry. apply Qsum_Forall2.
  eapply Forall2_impl; [|exact F].
  intros row s H. cbn beta. rewrite H. unfold account_sum.
  rewrite (refs_to_objects h f
             (fun d => Z.eqb (AssetDetail.account_id d)
                             (Account.account_id row))).
  reflexivity.
Qed.

Lemma objects_covered (db : database) (h0 h : heap) :
  Forall2 (fun row d =>
             AssetDetail.row d = row
             /\ derive_asset (Joined.asset row)
                = Ok (AssetDetail.derived d))
          (assets_query_for_dashboard db) h0 ->
  same_data h0 h ->
  forall d, In d h ->
    In (AssetDetail.account_id d)
       (map Account.account_id (covered_accounts db)).
Proof.
  intros F0 [_ Hr] d Hd.
  assert (Hrow : In (AssetDetail.row d) (assets_query_for_dashboard db)).
  { assert (E : map AssetDetail.row h0 = assets_query_for_dashboard db).
    { clear -F0. induction F0 as [|row x rows h0 [Hx _] F IH]; cbn;
        [reflexivity|]. rewrite Hx, IH. reflexivity. }
    rewrite <- E, <- Hr. apply in_map. exact Hd. }
  apply assets_query_in in Hrow. destruct Hrow as (_ & Hc & _).
  unfold AssetDetail.account_id. apply in_map. exact Hc.
Qed.

Lemma breakdown_matches_global (yf : yfinance) (db : database)
  (today_str : string) :
  primary_keys db ->
  forall db1 v,
    index yf db today_str = Ok (db1, v) ->
    Qsum (map UserSummary.current_value_of_assets (breakdown_data v))
    == current_value_of_assets v
    /\ Qsum (map UserSummary.total_invested (breakdown_data v))
       == total_invested_assets v.
Proof.
  intros Hpk db1 v Ev.
  destruct (index_run yf db today_str)
    as [h0 [h [gti [gcv [gplp [bd [E [F0 [Hs [Hti [Hcv [G Fu]]]]]]]]]]]].
  rewrite E in Ev. injection Ev as <- <-. cbn.
  set (db' := record_snapshot db today_str _) in *.
  assert (Hcov : covered_accounts db' = covered_accounts db).
  { unfold covered_accounts, db'.
    destruct (record_snapshot_queries db today_str
                (gcv + match sum_cash_balance db with
                       | Some c => c
                       | None => 0
                       end)) as (Hq1 & Hq2 & Hq3).
    rewrite Hq1. apply flat_map_ext. intro u. rewrite Hq2.
    apply flat_map_ext. intro p. apply Hq3. }
  assert (Fu' : Forall2 (user_ok db' h) (users_by_name db') bd) by exact Fu.
  pose proof (breakdown_accounts Fu') as Fa. rewrite Hcov in Fa.
  pose proof (covered_account_ids_NoDup Hpk) as Hnd.
  pose proof (@objects_covered db h0 h F0 Hs) as Hobj.
  split.
  - rewrite (breakdown_sum_accounts
               UserSummary.current_value_of_assets
               PlatformSummary.current_value_of_assets
               AccountSummary.current_value_of_assets (db := db') (h := h)
               (rows := users_by_name db')); [| | |exact Fu'].
    + rewrite (account_sums_of_objects AssetDetail.current_value
                 AccountSummary.current_value_of_assets h
                 (rows := covered_accounts db)).
      * rewrite <- (Qsum_by_account AssetDetail.current_value h Hnd Hobj).
        rewrite (same_data_current_value Hs). symmetry. exact Hcv.
      * reflexivity.
      * eapply Forall2_impl; [|exact Fa].
        intros row s (_ & _ & _ & _ & Has & _ & Hv & _). cbn beta.
        rewrite Hv, Has. reflexivity.
    + intros r u Hok. apply Hok.
    + intros uid r p Hok. apply Hok.
  - rewrite (breakdown_sum_accounts
               UserSummary.total_invested PlatformSummary.total_invested
               AccountSummary.total_invested (db := db') (h := h)
               (rows := users_by_name db')); [| | |exact Fu'].
    + rewrite (account_sums_of_objects AssetDetail.total_invested
                 AccountSummary.total_invested h
                 (rows := covered_accounts db)).
      * rewrite <- (Qsum_by_account AssetDetail.total_invested h Hnd Hobj).
        rewrite (same_data_total_invested Hs). symmetry. exact Hti.
      * reflexivity.
      * eapply Forall2_impl; [|exact Fa].
        intros row s (_ & _ & _ & _ & Has & Ht & _). cbn beta.
        rewrite Ht, Has. reflexivity.
    + intros r u Hok. apply Hok.
    + intros uid r p Hok. apply Hok.
Qed.

(** X3.  When no two users, no two platforms and no two accounts share
    their id, the user summaries of the dashboard add up to the global
    figures as exact sums: the exact sum of the users'
    [current_value_of_assets] is the global [current_value_of_assets], and
    the exact sum of the users' [total_invested] is the global
    [total_invested_assets].  The global figures are summed over the joined
    asset rows, the breakdown over users, their platforms and accounts:
    both count every asset once.  (Float sums taken in two groupings can
    differ in the last digits; the statement is about the sums without
    rounding.) *)
Theorem users_sum_to_global (yf : yfinance) (db : database)
  (today_str : string) :
  primary_keys db ->
  exists db' v,
    index yf db today_str = Ok (db', v)
    /\ Qsum (map UserSummary.current_value_of_assets (breakdown_data v))
       == current_value_of_assets v
    /\ Qsum (map UserSummary.total_invested (breakdown_data v))
       == total_invested_assets v.
Proof.
  intro Hpk.
  destruct (index_run yf db today_str)
    as [h0 [h [gti [gcv [gplp [bd [E _]]]]]]].
  eexists; eexists. split; [exact E|].
  exact (@breakdown_matches_global yf db today_str Hpk _ _ E).
Qed.

Lemma users_sum_to_global_witness :
  primary_keys example_db
  /\ exists db' v,
       index no_provider example_db "2024-01-02" = Ok (db', v)
       /\ Qsum (map UserSummary.current_value_of_assets (breakdown_data v))
          == current_value_of_assets v
       /\ Qsum (map UserSummary.total_invested (breakdown_data v))
          == total_invested_assets v.
Proof.
  assert (H : primary_keys example_db).
  { unfold primary_keys. simpl.
    repeat split;
      repeat (constructor; [simpl; intuition discriminate|]); constructor. }
  split; [exact H|].
  exact (@users_sum_to_global no_provider example_db "2024-01-02" H).
Defined.




(** ** Ordered query results *)

Lemma ascii_compare_lt_trans (x y z : Ascii.ascii) :
  Ascii.compare x y = Lt -> Ascii.compare y z = Lt -> Ascii.compare x z = Lt.
Proof.
  unfold Ascii.compare. rewrite !N.compare_lt_iff. apply N.lt_trans.
Qed.

Lemma string_leb_trans (a b c : string) :
  String.leb a b = true -> String.leb b c = true -> String.leb a c = true.
Proof.
  unfold String.leb. revert b c.
  induction a as [|x a IH]; intros [|y b] [|z c]; cbn; try congruence.
  destruct (Ascii.compare x y) eqn:Exy; try congruence.
  - apply Ascii.compare_eq_iff in Exy. subst y.
    destruct (Ascii.compare x z) eqn:Exz; try congruence.
    apply IH.
  - destruct (Ascii.compare y z) eqn:Eyz; try congruence.
    + apply Ascii.compare_eq_iff in Eyz. subst z. rewrite Exy. congruence.
    + rewrite (ascii_compare_lt_trans _ _ _ Exy Eyz). congruence.
Qed.

(** A list in ascending order of a text column. *)
Section SortedFacts.
Variable A : Type.
Variable before : A -> A -> bool.
Hypothesis before_total : forall x y, before x y = false -> before y x = true.
Hypothesis before_trans :
  forall x y z, before x y = true -> before y z = true -> before x z = true.

Lemma insert_sorted_sorted (x : A) (l : list A) :
  StronglySorted (fun a b => before a b = true) l ->
  StronglySorted (fun a b => before a b = true) (insert_sorted before x l).
Proof.
  induction 1 as [|y l S IH F]; cbn.
  - constructor; constructor.
  - destruct (before x y) eqn:E.
    + constructor; [constructor; assumption|].
      constructor; [exact E|].
      rewrite Forall_forall in *. intros z Hz.
      apply before_trans with y; [exact E | apply F, Hz].
    + constructor; [exact IH|].
      rewrite Forall_forall in *. intros z Hz.
      apply (Permutation_in _ (insert_sorted_perm before x l)) in Hz.
      destruct Hz as [<-|Hz]; [apply before_total, E | apply F, Hz].
Qed.

Lemma stable_sort_sorted (l : list A) :
  StronglySorted (fun a b => before a b = true) (stable_sort before l).
Proof.
  induction l as [|x l IH]; cbn; [constructor|].
  apply insert_sorted_sorted. exact IH.
Qed.

End SortedFacts.

Lemma order_by_sorted {A : Type} (name : A -> string) (l : list A) :
  StronglySorted (fun a b => String.leb (name a) (name b) = true)
    (order_by name l).
Proof.
  unfold order_by.
  apply (@stable_sort_sorted A
           (fun x y => String.leb (name x) (name y))).
  - intros x y E. destruct (String.leb_total (name x) (name y)) as [H|H];
      [congruence | exact H].
  - intros x y z. apply string_leb_trans.
Qed.

Lemma order_by_perm {A : Type} (name : A -> string) (l : list A) :
  Permutation (order_by name l) l.
Proof. apply stable_sort_perm. Qed.

Lemma ascending_Forall2 {A B : Type} (f : A -> string) (g : B -> string)
  (l : list A) (l' : list B) :
  Forall2 (fun a b => g b = f a) l l' -> ascending f l -> ascending g l'.
Proof.
  unfold ascending. induction 1 as [|a b l l' E F IH]; intro S;
    [constructor|].
  inversion S as [|? ? S' Fa]; subst. constructor; [apply IH, S'|].
  clear -E F Fa. induction F as [|a' b' l l' E' F IH]; constructor.
  - inversion Fa; subst. rewrite E, E'. assumption.
  - apply IH. inversion Fa; assumption.
Qed.

(** X5.  The breakdown of the dashboard has one summary for every user row
    of the store, carrying the user's id and name, in ascending order of
    name, and with one platform summary for each platform on which the
    user has an account.  A user without any account gets a summary with
    no platforms, zero invested, value and cash, a percentage of [0] and a
    portfolio value that is not positive, so no row in the by-user
    allocation. *)
Theorem breakdown_lists_every_user (yf : yfinance) (db : database)
  (today_str : string) :
  exists db' v,
    index yf db today_str = Ok (db', v)
    /\ Permutation (users_by_name db) (users db)
    /\ Forall2 (fun row u =>
                  UserSummary.user_id u = User.user_id row
                  /\ UserSummary.user_name u = User.name row
                  /\ map PlatformSummary.platform_name
                         (UserSummary.platforms u)
                     = map snd (user_platforms db (User.user_id row)))
         (users_by_name db) (breakdown_data v)
    /\ ascending UserSummary.user_name (breakdown_data v)
    /\ Forall (fun u =>
         (forall acc, In acc (accounts db) ->
                      Account.user_id acc <> UserSummary.user_id u) ->
         UserSummary.platforms u = []
         /\ UserSummary.total_invested u == 0
         /\ UserSummary.current_value_of_assets u == 0
         /\ UserSummary.total_cash u == 0
         /\ UserSummary.profit_loss_percent u = 0
         /\ user_portfolio_value u == 0)
       (breakdown_data v).
Proof.
  destruct (index_run yf db today_str)
    as [h0 [h [gti [gcv [gplp [bd [E [F0 [Hs [Hti [Hcv [G Fu]]]]]]]]]]]].
  rewrite E. eexists; eexists. split; [reflexivity|]. cbn.
  destruct (record_snapshot_queries db today_str
              (gcv + match sum_cash_balance db with
                     | Some c => c
                     | None => 0
                     end)) as (Hq1 & Hq2 & Hq3).
  rewrite Hq1 in Fu.
  set (db' := record_snapshot db today_str _) in *.
  assert (Fn : Forall2 (fun row u =>
                  UserSummary.user_id u = User.user_id row
                  /\ UserSummary.user_name u = User.name row
                  /\ map PlatformSummary.platform_name
                         (UserSummary.platforms u)
                     = map snd (user_platforms db (User.user_id row)))
               (users_by_name db) bd).
  { eapply Forall2_impl; [|exact Fu].
    intros row u (Hn & Hi & Fp & _). cbn beta.
    split; [exact Hi|]. split; [exact Hn|].
    rewrite Hq2 in Fp. clear -Fp.
    induction Fp as [|x p xs ps Hp Fp IH]; cbn; [reflexivity|].
    destruct Hp as (Hname & _). rewrite Hname, IH. reflexivity. }
  split; [apply order_by_perm|]. split; [exact Fn|]. split.
  - apply (@ascending_Forall2 _ _ User.name UserSummary.user_name
             (users_by_name db) bd).
    + eapply Forall2_impl; [|exact Fn]. intros row u (_ & Hn & _). exact Hn.
    + apply order_by_sorted.
  - eapply Forall2_Forall_r; [exact Fu|].
    intros row u (_ & Hi & Fp & Ht & Hv & Hc & _ & Gu) Hnone. cbn beta.
    assert (Hp : UserSummary.platforms u = []).
    { rewrite Hq2 in Fp.
      destruct (user_platforms db (User.user_id row)) as [|x xs] eqn:Ex.
      - inversion Fp. reflexivity.
      - exfalso.
        assert (Hx : In x (user_platforms db (User.user_id row)))
          by (rewrite Ex; left; reflexivity).
        apply user_platforms_in in Hx.
        destruct Hx as (p & acc & _ & Hacc & _ & Hu & _).
        apply (Hnone acc Hacc). rewrite Hi. exact Hu. }
    rewrite Hp in Ht, Hv, Hc. cbn in Ht, Hv, Hc.
    split; [exact Hp|]. split; [exact Ht|]. split; [exact Hv|].
    split; [exact Hc|]. split.
    + apply Gu. rewrite Ht. apply Qle_refl.
    + unfold user_portfolio_value. rewrite !num_or_zero_eq, Hv, Hc.
      reflexivity.
Qed.

(** X6.  The history handed to the chart is the stored history after the
    run, in ascending order of date; it holds every snapshot the store held
    before the run. *)
Theorem portfolio_history_chart_ordered (yf : yfinance) (db : database)
  (today_str : string) :
  exists db' v,
    index yf db today_str = Ok (db', v)
    /\ Permutation (portfolio_history_for_chart v) (portfolio_history db')
    /\ ascending fst (portfolio_history_for_chart v)
    /\ (forall s, In s (portfolio_history db) ->
                  In s (portfolio_history_for_chart v)).
Proof.
  destruct (index_run yf db today_str)
    as [h0 [h [gti [gcv [gplp [bd [E _]]]]]]].
  rewrite E. eexists; eexists. split; [reflexivity|]. cbn.
  set (value := gcv + _).
  split; [apply order_by_perm|]. split; [apply order_by_sorted|].
  intros s Hs.
  apply (Permutation_in _ (Permutation_sym (order_by_perm fst _))).
  destruct (has_snapshot (portfolio_history db) today_str) eqn:Eh.
  - rewrite record_snapshot_present by exact Eh. exact Hs.
  - rewrite record_snapshot_absent by exact Eh. cbn.
    apply in_or_app. left. exact Hs.
Qed.

(** X7.  The asset list of an account page is always produced (the
    derivation never raises); it lists exactly the asset rows of the
    account, in ascending order of ticker symbol, each with the metrics the
    per-asset derivation gives for it. *)
Theorem account_assets_listed_by_ticker (db : database) (account_id : Z) :
  exists l,
    assets_list_for_template db account_id = Ok l
    /\ Permutation (map fst l)
         (filter (fun a => Z.eqb (Asset.account_id a) account_id)
                 (assets db))
    /\ ascending Asset.ticker_symbol (map fst l)
    /\ forall a d, In (a, d) l -> derive_asset a = Ok d.
Proof.
  unfold assets_list_for_template.
  destruct (derive_all_ok
              (order_by Asset.ticker_symbol
                 (filter (fun a => Z.eqb (Asset.account_id a) account_id)
                         (assets db)))) as [l [E [Hm Hl]]].
  exists l. split; [exact E|]. rewrite Hm.
  split; [apply order_by_perm|]. split; [apply order_by_sorted | exact Hl].
Qed.

(** ** Signs and floors of the per-asset percentages *)

Lemma percent_sign (p y : Q) :
  0 < y ->
  ((p - y) / y * 100 <= 0 <-> p <= y)
  /\ (0 <= (p - y) / y * 100 <-> y <= p).
Proof.
  intro Hy.
  assert (Hy' : ~ y == 0)
    by (intro C; rewrite C in Hy; apply (Qlt_irrefl _ Hy)).
  assert (E : (p - y) / y * 100 * y == (p - y) * 100) by (field; exact Hy').
  revert E. generalize ((p - y) / y * 100). intros q E.
  split; split; intro H; nra.
Qed.

(** X8.  An asset with a finite amount of money invested whose current
    price is unknown is valued at [0]: its profit/loss is minus the amount
    invested and its percentage is [-100].  That is the floor: no asset
    with a finite amount invested and a finite, non-negative quantity and
    price has a lower percentage.  (An asset stored with
    [total_invested = inf] has the percentage [nan]:
    [infinite_cost_nan_percent].) *)
Theorem unknown_price_is_total_loss (a : Asset.row) (invested : Q) :
  Asset.current_price a = None ->
  Asset.total_invested a = Some invested ->
  0 < invested ->
  exists d,
    derive_asset a = Ok d
    /\ Derived.current_value d = 0
    /\ Derived.profit_loss_dollars d == - invested
    /\ Derived.profit_loss_percent d == - (100)
    /\ (forall b ti q p,
          Asset.total_invested b = Some ti -> 0 < ti ->
          Asset.quantity b = Some q -> 0 <= q ->
          Asset.current_price b = Some p -> 0 <= p ->
          exists d', derive_asset b = Ok d'
                     /\ Derived.profit_loss_percent d
                        <= Derived.profit_loss_percent d').
Proof.
  intros Hp Hti Hpos. unfold derive_asset.
  destruct (derive_ok (Asset.total_invested a) (Asset.quantity a)
              (Asset.current_price a) (Asset.price_yesterday a)
              (Asset.fifty_two_week_high a))
    as [d [Hd (Ht & _ & Hv & Hpl & [_ Hg] & _)]].
  rewrite Hp in Hv. rewrite Hti in Ht.
  assert (Et : Derived.total_invested d == invested)
    by (rewrite Ht; apply or_zero_some).
  assert (Epl : Derived.profit_loss_dollars d == - invested)
    by (rewrite Hpl, Hv, Et; ring).
  assert (Ni : ~ invested == 0)
    by (intro C; rewrite C in Hpos; apply (Qlt_irrefl _ Hpos)).
  assert (Eplp : Derived.profit_loss_percent d == - (100)).
  { rewrite Hg by (rewrite Et; exact Hpos). rewrite Epl, Et.
    field. exact Ni. }
  exists d. split; [exact Hd|]. split; [exact Hv|].
  split; [exact Epl|]. split; [exact Eplp|].
  intros b ti q p Hbt Hbpos Hbq Hq Hbp Hpp.
  destruct (derive_ok (Asset.total_invested b) (Asset.quantity b)
              (Asset.current_price b) (Asset.price_yesterday b)
              (Asset.fifty_two_week_high b))
    as [d' [Hd' (Ht' & _ & Hv' & Hpl' & [_ Hg'] & _)]].
  exists d'. split; [exact Hd'|].
  rewrite Hbt in Ht'. rewrite Hbp, Hbq in Hv'.
  assert (Et' : Derived.total_invested d' == ti)
    by (rewrite Ht'; apply or_zero_some).
  assert (Ev' : Derived.current_value d' == q * p)
    by (rewrite Hv', or_zero_some; reflexivity).
  assert (Nt : ~ ti == 0)
    by (intro C; rewrite C in Hbpos; apply (Qlt_irrefl _ Hbpos)).
  rewrite Eplp, Hg' by (rewrite Et'; exact Hbpos).
  rewrite Hpl', Ev', Et'.
  assert (E : (q * p - ti) / ti * 100 * ti == (q * p - ti) * 100)
    by (field; exact Nt).
  revert E. generalize ((q * p - ti) / ti * 100). intros r E.
  assert (Hqp : 0 <= q * p) by (apply Qmult_le_0_compat; assumption).
  nra.
Qed.

Lemma unknown_price_is_total_loss_witness :
  exists d,
    derive_asset (mk_asset 4 2 "DDD" (Some 4) (Some 400) None) = Ok d
    /\ Derived.current_value d = 0
    /\ Derived.profit_loss_percent d == - (100).
Proof.
  destruct (@unknown_price_is_total_loss
              (mk_asset 4 2 "DDD" (Some 4) (Some 400) None) 400
              eq_refl eq_refl eq_refl) as [d (H1 & H2 & _ & H3 & _)].
  exists d. split; [exact H1|]. split; [exact H2 | exact H3].
Defined.

(** X9.  When the current price and the 52-week high are known and the high
    is positive, [percent_to_52_week_high] is defined and its sign is that
    of [current_price - fifty_two_week_high]: it is [<= 0] exactly when the
    price is at or below the high.  Likewise, when the current price and a
    positive price of yesterday are known, [day_change_percent] is [>= 0]
    exactly when the price did not fall and [<= 0] exactly when it did not
    rise. *)
Theorem percentages_follow_price (a : Asset.row) (p : Q) :
  Asset.current_price a = Some p ->
  exists d,
    derive_asset a = Ok d
    /\ (forall x, Asset.fifty_two_week_high a = Some x -> 0 < x ->
          exists r, Derived.percent_to_52_week_high d = Some r
                    /\ (r <= 0 <-> p <= x) /\ (0 <= r <-> x <= p))
    /\ (forall y, Asset.price_yesterday a = Some y -> 0 < y ->
          (Derived.day_change_percent d <= 0 <-> p <= y)
          /\ (0 <= Derived.day_change_percent d <-> y <= p)).
Proof.
  intro Hp. unfold derive_asset.
  destruct (derive_ok (Asset.total_invested a) (Asset.quantity a)
              (Asset.current_price a) (Asset.price_yesterday a)
              (Asset.fifty_two_week_high a))
    as [d [Hd (_ & _ & _ & _ & _ & _ & Hday & _ & Hhigh)]].
  exists d. split; [exact Hd|]. split.
  - intros x Hx Hpos. destruct (Hhigh p x Hp Hx Hpos) as [r [Hr Er]].
    exists r. split; [exact Hr|]. rewrite Er. apply percent_sign. exact Hpos.
  - intros y Hy Hpos. rewrite (Hday p y Hp Hy Hpos).
    apply percent_sign. exact Hpos.
Qed.

Lemma percentages_follow_price_witness :
  exists d,
    derive_asset priced_asset = Ok d
    /\ (forall x, Asset.fifty_two_week_high priced_asset = Some x -> 0 < x ->
          exists r, Derived.percent_to_52_week_high d = Some r
                    /\ (r <= 0 <-> 99 <= x) /\ (0 <= r <-> x <= 99)).
Proof.
  destruct (@percentages_follow_price priced_asset 99 eq_refl)
    as [d (H1 & H2 & _)].
  exists d. split; [exact H1 | exact H2].
Defined.

(** ** Best and worst performers *)

Lemma index_ranking_run (yf : yfinance) (db : database)
  (today_str : string) :
  exists h0 a b db' v,
    assets_loop (assets_query_for_dashboard db) ([], 0, 0) = Ok (h0, a, b)
    /\ index yf db today_str = Ok (db', v)
    /\ rank_assets yf h0
       = (objects v, best_performing_asset v, worst_performing_asset v,
          all_assets_ranked v).
Proof.
  destruct (assets_loop_ok (assets_query_for_dashboard db) [] 0 0)
    as [h0 [gti [gcv [E0 _]]]].
  cbn [app] in E0.
  destruct (rank_assets yf h0) as [[[h best] worst] ranked] eqn:Er.
  destruct (percent_if_positive_ok (gcv - gti) gti) as [gplp [Ep _]].
  set (cash := match sum_cash_balance db with
               | Some c => c
               | None => 0
               end).
  destruct (users_loop_ok (record_snapshot db today_str (gcv + cash)) h
              (users_by_name (record_snapshot db today_str (gcv + cash)))
              [] []) as [bd [Eu _]].
  cbn [app] in Eu.
  assert (Hidx : exists db' v,
             index yf db today_str = Ok (db', v)
             /\ objects v = h /\ best_performing_asset v = best
             /\ worst_performing_asset v = worst
             /\ all_assets_ranked v = ranked).
  { eexists; eexists. split.
    - unfold index.
      match goal with
      | |- context [assets_loop ?r ?s] =>
          replace (assets_loop r s) with (@Ok (heap * Q * Q) (h0, gti, gcv))
            by (symmetry; exact E0)
      end.
      cbn [bind]. cbv beta iota.
      rewrite Er. rewrite Ep. cbn [bind]. fold cash.
      rewrite Eu. cbn [bind]. reflexivity.
    - cbn. repeat split. }
  destruct Hidx as [db' [v (Ei & H1 & H2 & H3 & H4)]].
  exists h0, gti, gcv, db', v.
  split; [exact E0|]. split; [exact Ei|].
  rewrite H1, H2, H3, H4. exact Er.
Qed.

Lemma assets_loop_no_chart (rows : list Joined.row) (h h' : heap) (a b a' b' : Q) :
  assets_loop rows (h, a, b) = Ok (h', a', b') ->
  Forall (fun d => AssetDetail.yearly_chart_data d = None) h ->
  Forall (fun d => AssetDetail.yearly_chart_data d = None) h'.
Proof.
  revert h a b. induction rows as [|row rows IH]; intros h a b E F.
  - cbn in E. injection E as <- _ _. exact F.
  - cbn [assets_loop] in E.
    destruct (derive_asset (Joined.asset row)) as [d|e]; [|discriminate].
    cbn [bind] in E. apply IH in E; [exact E|].
    apply Forall_app. split; [exact F|]. constructor; [reflexivity|].
    constructor.
Qed.

Lemma deref_heap_update_same (h : heap) (r : ref)
  (f : AssetDetail.t -> AssetDetail.t) :
  (r < List.length h)%nat -> deref (heap_update h r f) r = f (deref h r).
Proof.
  unfold deref. revert r. induction h as [|d h IH]; intros [|r] Hr;
    cbn in *; try lia; [reflexivity|].
  apply IH. lia.
Qed.

Lemma deref_heap_update_other (h : heap) (r r' : ref)
  (f : AssetDetail.t -> AssetDetail.t) :
  r' <> r -> deref (heap_update h r f) r' = deref h r'.
Proof.
  unfold deref. revert r r'.
  induction h as [|d h IH]; intros [|r] [|r'] Hne; cbn;
    try reflexivity; try congruence.
  apply IH. congruence.
Qed.

Lemma heap_update_length (h : heap) (r : ref)
  (f : AssetDetail.t -> AssetDetail.t) :
  List.length (heap_update h r f) = List.length h.
Proof.
  revert r. induction h as [|d h IH]; intros [|r]; cbn; auto.
Qed.

Lemma descending_head {A : Type} (key : A -> Q) (x : A) (l : list A) :
  descending key (x :: l) -> forall a, In a (x :: l) -> key a <= key x.
Proof.
  intros S a [<-|Ha]; [apply Qle_refl|].
  inversion S as [|? ? _ F]; subst.
  rewrite Forall_forall in F. apply F, Ha.
Qed.

Lemma descending_last {A : Type} (key : A -> Q) (l : list A) (d : A) :
  descending key l -> forall a, In a l -> key (last l d) <= key a.
Proof.
  induction 1 as [|x l S IH F]; intros a Ha; [contradiction|].
  destruct l as [|y l].
  - destruct Ha as [<-|[]]. apply Qle_refl.
  - change (last (x :: y :: l) d) with (last (y :: l) d).
    destruct Ha as [<-|Ha]; [|apply IH, Ha].
    rewrite Forall_forall in F. apply F.
    clear. revert y. induction l as [|z l IH]; intro y; [left; reflexivity|].
    change (last (y :: z :: l) d) with (last (z :: l) d).
    right. apply IH.
Qed.

Lemma deref_no_chart (h : heap) (r : ref) :
  Forall (fun d => AssetDetail.yearly_chart_data d = None) h ->
  AssetDetail.yearly_chart_data (deref h r) = None.
Proof.
  intro F. unfold deref.
  destruct (nth_in_or_default r h AssetDetail.null) as [Hin | ->];
    [|reflexivity].
  rewrite Forall_forall in F. apply F, Hin.
Qed.

Lemma last_In {A : Type} (x : A) (l : list A) : In (last (x :: l) x) (x :: l).
Proof.
  revert x. induction l as [|y l IH]; intro x; [left; reflexivity|].
  change (last (x :: y :: l) x) with (last (y :: l) x).
  right. destruct l as [|z l]; [left; reflexivity|].
  change (last (y :: z :: l) x) with (last (z :: l) x).
  specialize (IH y). change (last (y :: z :: l) y) with (last (z :: l) y) in IH.
  assert (E : last (z :: l) x = last (z :: l) y).
  { clear. revert z. induction l as [|w l IH]; intro z; [reflexivity|].
    change (last (z :: w :: l) x) with (last (w :: l) x).
    change (last (z :: w :: l) y) with (last (w :: l) y). apply IH. }
  rewrite E. exact IH.
Qed.

Lemma rank_assets_charts (yf : yfinance) (h h' : heap)
  (best worst : option ref) (ranked : list ref) :
  rank_assets yf h = (h', best, worst, ranked) ->
  Forall (fun d => AssetDetail.yearly_chart_data d = None) h ->
  (forall r, best = Some r \/ worst = Some r ->
     AssetDetail.yearly_chart_data (deref h' r)
     = Some (fetch_yearly_historical_data yf
               (AssetDetail.ticker_symbol (deref h' r))))
  /\ (forall r, best <> Some r -> worst <> Some r ->
        AssetDetail.yearly_chart_data (deref h' r) = None).
Proof.
  unfold rank_assets. intros E F.
  destruct (seq 0 (List.length h)) as [|r0 rs] eqn:Es.
  { injection E as <- <- <- <-. split; [intros r [C|C]; discriminate|].
    intros r _ _. apply deref_no_chart, F. }
  rewrite <- Es in E. clear Es r0 rs.
  destruct (filter (fun a => py_gt (AssetDetail.total_invested (deref h a)) 0)
              (seq 0 (List.length h))) as [|v0 vs] eqn:Ev.
  { injection E as <- <- <- <-. split; [intros r [C|C]; discriminate|].
    intros r _ _. apply deref_no_chart, F. }
  rewrite <- Ev in E.
  set (sorted := sorted_reverse _ _) in E.
  assert (Hrange : forall r, In r sorted -> (r < List.length h)%nat).
  { intros r Hr. unfold sorted, sorted_reverse in Hr.
    apply stable_sort_in, filter_In in Hr. destruct Hr as [Hr _].
    apply in_seq in Hr. lia. }
  destruct sorted as [|b rest] eqn:Esorted.
  { injection E as <- <- <- <-. split; [intros r [C|C]; discriminate|].
    intros r _ _. apply deref_no_chart, F. }
  set (w := last (b :: rest) b) in *.
  assert (Hb : (b < List.length h)%nat) by (apply Hrange; left; reflexivity).
  assert (Hw : (w < List.length h)%nat) by (apply Hrange, last_In).
  set (h1 := set_yearly_chart_data h b _) in *.
  injection E as <- <- <- <-.
  assert (Hw1 : (w < List.length h1)%nat)
    by (unfold h1, set_yearly_chart_data; rewrite heap_update_length;
        exact Hw).
  split.
  - intros r Hr.
    assert (Hcase : r = w \/ (r = b /\ r <> w)).
    { destruct (Nat.eq_dec r w) as [-> | Hne]; [left; reflexivity|].
      right. split; [|exact Hne].
      destruct Hr as [[= ->]|[= ->]]; [reflexivity | congruence]. }
    destruct Hcase as [-> | [-> Hne]].
    + unfold set_yearly_chart_data at 1 2.
      rewrite (deref_heap_update_same _ _ Hw1). reflexivity.
    + unfold set_yearly_chart_data at 1 2.
      rewrite (deref_heap_update_other _ _ Hne).
      unfold h1, set_yearly_chart_data.
      rewrite (deref_heap_update_same _ _ Hb). reflexivity.
  - intros r Hnb Hnw.
    assert (Hrb : r <> b) by congruence.
    assert (Hrw : r <> w) by congruence.
    unfold set_yearly_chart_data at 1.
    rewrite (deref_heap_update_other _ _ Hrw).
    unfold h1, set_yearly_chart_data.
    rewrite (deref_heap_update_other _ _ Hrb).
    apply deref_no_chart, F.
Qed.

(** In the result of the dashboard computation there is a best and a worst
    performer exactly when the ranking is not empty, and both are ranked
    assets.  The best and the worst asset objects carry the one-year
    history fetched for their ticker (the empty sequence when the provider
    fails), and no other object carries one. *)
Lemma best_and_worst_carry_history (yf : yfinance) (db : database)
  (today_str : string) :
  exists db' v,
    index yf db today_str = Ok (db', v)
    /\ (forall b, best_performing_asset v = Some b ->
          In b (all_assets_ranked v))
    /\ (forall w, worst_performing_asset v = Some w ->
          In w (all_assets_ranked v))
    /\ (best_performing_asset v = None <-> all_assets_ranked v = [])
    /\ (worst_performing_asset v = None <-> all_assets_ranked v = [])
    /\ (forall r, best_performing_asset v = Some r
                  \/ worst_performing_asset v = Some r ->
          AssetDetail.yearly_chart_data (deref (objects v) r)
          = Some (fetch_yearly_historical_data yf
                    (AssetDetail.ticker_symbol (deref (objects v) r))))
    /\ (forall r, best_performing_asset v <> Some r ->
                  worst_performing_asset v <> Some r ->
          AssetDetail.yearly_chart_data (deref (objects v) r) = None)
    /\ (forall t, history_1y yf t = None ->
                  fetch_yearly_historical_data yf t = []).
Proof.
  destruct (index_ranking_run yf db today_str)
    as (h0 & a0 & b0 & db' & v & E0 & Ei & Er).
  exists db', v. split; [exact Ei|].
  assert (F : Forall (fun d => AssetDetail.yearly_chart_data d = None) h0).
  { apply (@assets_loop_no_chart _ _ _ _ _ _ _ E0). constructor. }
  destruct (@rank_assets_charts _ _ _ _ _ _ Er F) as [Hc1 Hc2].
  destruct (rank_assets_spec yf h0) as [h' [Es Hsame]].
  rewrite Er in Es. injection Es as <- Hbest Hworst Hranked.
  split; [|split; [|split; [|split; [|split; [exact Hc1|split;
    [exact Hc2|]]]]]].
  - intros b Hb. rewrite Hbest, <- Hranked in Hb.
    destruct (all_assets_ranked v) as [|x l]; [discriminate|].
    injection Hb as ->. left. reflexivity.
  - intros w Hw. rewrite Hworst, <- Hranked in Hw.
    destruct (all_assets_ranked v) as [|x l] eqn:El; [discriminate|].
    assert (Ew : w = last (x :: l) x)
      by (unfold last_error in Hw; congruence).
    rewrite Ew. apply last_In.
  - rewrite Hbest, <- Hranked.
    destruct (all_assets_ranked v); cbn; split; intro; congruence.
  - rewrite Hworst, <- Hranked.
    destruct (all_assets_ranked v); unfold last_error; split; intro;
      congruence.
  - intros t Ht. unfold fetch_yearly_historical_data. rewrite Ht.
    reflexivity.
Qed.

(** ** Further properties of the simulations *)

Lemma zero_guarded_agree (t t' n n' p p' : Q) :
  t == t' -> n == n' ->
  zero_guarded t n p -> zero_guarded t' n' p' -> p == p'.
Proof.
  intros Et En [G0 G1] [G0' G1'].
  destruct (Qlt_le_dec 0 t) as [H|H].
  - rewrite (G1 H), G1' by (rewrite <- Et; exact H).
    rewrite Et, En. reflexivity.
  - rewrite (G0 H), G0' by (rewrite <- Et; exact H). reflexivity.
Qed.

(** X11.  Simulating the sale of an asset at its stored current price gives
    back the figures the dashboard shows for it: the proceeds are its
    [current_value], the profit its [profit_loss_dollars] and the profit
    percentage its [profit_loss_percent]. *)
Theorem sell_at_current_price_matches_dashboard (db : database)
  (asset_id : Z) (a : Asset.row) (price invested : Q) :
  find_asset db asset_id = Some a ->
  Asset.current_price a = Some price -> 0 <= price ->
  Asset.total_invested a = Some invested ->
  exists r d,
    simulate_sell db (Parsed asset_id) (Parsed price)
    = (Some r, [(SellCalculated, info)])
    /\ derive_asset a = Ok d
    /\ Sell.total_proceeds r == Derived.current_value d
    /\ Sell.profit_dollars r == Derived.profit_loss_dollars d
    /\ Sell.profit_percent r == Derived.profit_loss_percent d.
Proof.
  intros Hfind Hp Hpos Hti.
  destruct (simulate_sell_run db asset_id Hfind Hpos) as [pc [E G]].
  unfold derive_asset.
  destruct (derive_ok (Asset.total_invested a) (Asset.quantity a)
              (Asset.current_price a) (Asset.price_yesterday a)
              (Asset.fifty_two_week_high a))
    as [d [Hd (Ht & _ & Hv & Hpl & Gd & _)]].
  rewrite E. eexists; exists d. split; [reflexivity|].
  split; [exact Hd|]. cbn.
  rewrite Hp in Hv. rewrite Hti in Ht, G |- *.
  assert (Et : invested == Derived.total_invested d)
    by (rewrite Ht, or_zero_some; reflexivity).
  assert (Ed : or_zero (Asset.quantity a) * price - invested
               == Derived.profit_loss_dollars d)
    by (rewrite Hpl, Hv, <- Et; reflexivity).
  split; [rewrite Hv; reflexivity|]. split; [exact Ed|].
  exact (zero_guarded_agree Et Ed G Gd).
Qed.

Lemma sell_at_current_price_matches_dashboard_witness :
  exists r d,
    simulate_sell example_db (Parsed 1%Z) (Parsed 150)
    = (Some r, [(SellCalculated, info)])
    /\ derive_asset (mk_asset 1 1 "AAA" (Some 10) (Some 1000) (Some 150))
       = Ok d
    /\ Sell.total_proceeds r == Derived.current_value d
    /\ Sell.profit_dollars r == Derived.profit_loss_dollars d
    /\ Sell.profit_percent r == Derived.profit_loss_percent d.
Proof.
  apply (@sell_at_current_price_matches_dashboard example_db 1
           (mk_asset 1 1 "AAA" (Some 10) (Some 1000) (Some 150)) 150 1000);
    reflexivity || discriminate.
Defined.

(** X12.  The sell simulation produces a result only for an asset id and a
    price that both parse, naming an existing asset, with a price that is
    not negative; the result then carries that id and price.  A missing id
    or price is answered with the required-fields error and a malformed one
    with the invalid-number error, in both cases without a result. *)
Theorem simulate_sell_only_on_valid_input (db : database)
  (asset_id_str : form_field Z) (price_str : form_field Q) :
  (forall r fl,
     simulate_sell db asset_id_str price_str = (Some r, fl) ->
     exists asset_id price,
       asset_id_str = Parsed asset_id /\ price_str = Parsed price
       /\ find_asset db asset_id <> None /\ 0 <= price
       /\ Sell.asset_id r = asset_id
       /\ Sell.hypothetical_sale_price r = price
       /\ fl = [(SellCalculated, info)])
  /\ (asset_id_str = Blank \/ price_str = Blank ->
      simulate_sell db asset_id_str price_str
      = (None, [(SellInputsRequired, error_)]))
  /\ (asset_id_str <> Blank -> price_str <> Blank ->
      asset_id_str = Malformed \/ price_str = Malformed ->
      simulate_sell db asset_id_str price_str
      = (None, [(SellInvalidNumber, error_)])).
Proof.
  split; [|split].
  - intros r fl H.
    destruct asset_id_str as [| |asset_id], price_str as [| |price];
      try (cbn in H; discriminate).
    exists asset_id, price.
    destruct (find_asset db asset_id) as [a|] eqn:Ha.
    + destruct (Qlt_le_dec price 0) as [Hn|Hp].
      * exfalso. unfold simulate_sell, simulate_sell_body in H.
        cbn [truthy negb orb parse bind] in H. rewrite Ha in H.
        cbn [select_by_id bind] in H.
        apply py_lt_true in Hn. rewrite Hn in H. discriminate.
      * destruct (simulate_sell_run db asset_id Ha Hp) as [pc [E _]].
        rewrite E in H. injection H as <- <-. cbn.
        repeat split; try assumption. discriminate.
    + exfalso. unfold simulate_sell, simulate_sell_body in H.
      cbn [truthy negb orb parse bind] in H. rewrite Ha in H.
      cbn [select_by_id bind] in H.
      destruct (sqlite_integer asset_id); discriminate.
  - intros [-> | ->]; [reflexivity|].
    destruct asset_id_str; reflexivity.
  - intros Ha Hp [-> | ->].
    + destruct price_str; try congruence; reflexivity.
    + destruct asset_id_str; try congruence; reflexivity.
Qed.

Lemma py_le_false (a b : Q) : py_le a b = false <-> b < a.
Proof.
  unfold py_le. rewrite <- (py_gt_true a b). unfold py_gt.
  destruct (Qle_bool a b); cbn; split; congruence.
Qed.

Lemma read_buy_inputs_valid (price sh cost : Q) (fl : list flash)
  (amount_str shares_str : form_field Q) :
  read_buy_inputs price amount_str shares_str = Ok (sh, cost, true, fl) ->
  fl = [] /\ cost = sh * price
  /\ ((exists amount, amount_str = Parsed amount /\ 0 < amount
                      /\ ~ price == 0 /\ sh = amount / price)
      \/ (amount_str = Blank /\ shares_str = Parsed sh /\ 0 < sh)).
Proof.
  unfold read_buy_inputs. intro H.
  destruct amount_str as [| |amount]; cbn [truthy parse bind] in H.
  - destruct shares_str as [| |s]; cbn [truthy parse bind] in H;
      try discriminate.
    destruct (py_le s 0) eqn:E; [discriminate|].
    injection H as <- <- <-. apply py_le_false in E.
    split; [reflexivity|]. split; [reflexivity|]. right. auto.
  - discriminate.
  - destruct (py_le amount 0) eqn:E; [discriminate|].
    apply py_le_false in E. unfold py_div in H.
    destruct (Qeq_bool price 0) eqn:Ep; [discriminate|].
    cbn [bind] in H. injection H as <- <- <-.
    split; [reflexivity|]. split; [reflexivity|]. left.
    exists amount. repeat split; try assumption.
    intro C. apply Qeq_bool_iff in C. congruence.
Qed.

Lemma or_one_eq (x : option Q) : 0 < or_zero x -> or_one x == or_zero x.
Proof.
  destruct x as [q|]; cbn.
  - destruct (Qeq_bool q 0); [intro H; exfalso; apply (Qlt_irrefl _ H)|].
    reflexivity.
  - intro H. exfalso. apply (Qlt_irrefl _ H).
Qed.

(** What a result of the buy simulation tells about the request. *)
Lemma simulate_buy_inv (db : database) (asset_id : Z) (a : Asset.row)
  (price : Q) (amount_str shares_str : form_field Q) (r : Buy.results)
  (fl : list flash) :
  find_asset db asset_id = Some a ->
  Asset.current_price a = Some price ->
  simulate_buy_existing_asset db (Parsed asset_id) amount_str shares_str
  = Ok (Some r, fl) ->
  fl = [(BuyCalculated, info)]
  /\ truthy amount_str || truthy shares_str = true
  /\ read_buy_inputs price amount_str shares_str
     = Ok (Buy.shares_purchased r, Buy.cost_of_purchase r, true, [])
  /\ 0 < Buy.shares_purchased r
  /\ Buy.current_profit_loss_dollars r
     = or_zero (Asset.quantity a) * or_zero (Some price)
       - or_zero (Asset.total_invested a)
  /\ zero_guarded (or_zero (Asset.total_invested a))
       (Buy.current_profit_loss_dollars r)
       (Buy.current_profit_loss_percent r).
Proof.
  intros Hfind Hprice H. unfold simulate_buy_existing_asset in H.
  cbn [truthy parse bind negb] in H.
  destruct (negb (truthy amount_str) && negb (truthy shares_str)) eqn:Eg;
    [discriminate|].
  rewrite <- negb_orb in Eg. apply negb_false_iff in Eg.
  unfold simulate_buy_body in H. cbn [parse bind] in H.
  rewrite Hfind in H. cbn [select_by_id bind] in H. rewrite Hprice in H.
  destruct (read_buy_inputs price amount_str shares_str)
    as [[[[sh cost] valid] flashed]|e] eqn:Er;
    [|cbn [bind] in H; destruct e; discriminate].
  cbn [bind] in H.
  destruct (valid && py_gt sh 0) eqn:Ev.
  2:{ destruct (negb valid && negb (truthy amount_str || truthy shares_str));
      discriminate. }
  apply andb_true_iff in Ev. destruct Ev as [-> Hsh].
  apply py_gt_true in Hsh.
  destruct (read_buy_inputs_valid _ _ _ Er) as (-> & _ & _).
  destruct (if py_gt (or_zero (Asset.quantity a) + sh) 0
            then py_div (or_zero (Asset.total_invested a) + cost)
                        (or_zero (Asset.quantity a) + sh)
            else Ok 0) as [avg|e] eqn:Eavg;
    [|cbn [bind] in H; destruct e; discriminate].
  cbn [bind] in H.
  destruct (percent_if_positive
              ((or_zero (Asset.quantity a) + sh) * price
               - (or_zero (Asset.total_invested a) + cost))
              (or_zero (Asset.total_invested a) + cost)) as [np|e] eqn:Enp;
    [|cbn [bind] in H; destruct e; discriminate].
  cbn [bind] in H.
  assert (Hcur : exists cp,
             (if py_gt (or_zero (Asset.total_invested a)) 0
              then r <- py_div
                          (or_zero (Asset.quantity a) * or_zero (Some price)
                           - or_zero (Asset.total_invested a))
                          (or_one (Asset.total_invested a)) ;;
                   Ok (r * 100)
              else Ok 0) = Ok cp
             /\ zero_guarded (or_zero (Asset.total_invested a))
                  (or_zero (Asset.quantity a) * or_zero (Some price)
                   - or_zero (Asset.total_invested a)) cp).
  { unfold zero_guarded.
    destruct (py_gt (or_zero (Asset.total_invested a)) 0) eqn:E.
    - apply py_gt_true in E.
      rewrite (py_div_positive _ (or_one_positive _ E)). cbn [bind].
      eexists. split; [reflexivity|]. split.
      + intro C. exfalso. apply (Qlt_not_le _ _ E C).
      + intros _. rewrite (or_one_eq _ E). reflexivity.
    - apply py_gt_false in E. exists 0. split; [reflexivity|].
      split; [reflexivity|]. intro C. exfalso. apply (Qlt_not_le _ _ C E). }
  destruct Hcur as [cp [Ecp Gcp]]. rewrite Ecp in H. cbn [bind app] in H.
  injection H as <- <-. cbn.
  repeat split; try assumption; apply Gcp.
Qed.

(** X13.  Whenever the buy simulation returns a result, the current
    profit/loss it reports for comparison is the one the dashboard derives
    for the asset, amount and percentage: the handler repeats the
    dashboard's derivation on the stored row. *)
Theorem buy_reports_dashboard_profit_loss (db : database) (asset_id : Z)
  (a : Asset.row) (price : Q) (amount_str shares_str : form_field Q)
  (r : Buy.results) (fl : list flash) :
  find_asset db asset_id = Some a ->
  Asset.current_price a = Some price ->
  simulate_buy_existing_asset db (Parsed asset_id) amount_str shares_str
  = Ok (Some r, fl) ->
  exists d,
    derive_asset a = Ok d
    /\ Buy.current_profit_loss_dollars r == Derived.profit_loss_dollars d
    /\ Buy.current_profit_loss_percent r == Derived.profit_loss_percent d.
Proof.
  intros Hfind Hprice H.
  destruct (@simulate_buy_inv db asset_id a price amount_str shares_str r fl
              Hfind Hprice H)
    as (_ & Hgiven & Hread & Hpos & Hcur & Gcur).
  destruct (@simulate_buy_run db asset_id a price _ _ amount_str shares_str
              Hfind Hprice Hgiven Hread Hpos)
    as [r' (E & _ & _ & Hq & Hi & _ & _ & Hv & Hn & _)].
  rewrite H in E. injection E as <-.
  destruct (@read_buy_inputs_valid _ _ _ _ _ _ Hread) as (_ & Hcost & _).
  unfold derive_asset.
  destruct (derive_ok (Asset.total_invested a) (Asset.quantity a)
              (Asset.current_price a) (Asset.price_yesterday a)
              (Asset.fifty_two_week_high a))
    as [d [Hd (Ht & _ & Hcv & Hpl & Gd & _)]].
  exists d. split; [exact Hd|]. rewrite Hprice in Hcv.
  assert (Ed : Buy.current_profit_loss_dollars r
               == Derived.profit_loss_dollars d).
  { rewrite Hcur, Hpl, Hcv, Ht, or_zero_some. reflexivity. }
  split; [exact Ed|].
  apply (zero_guarded_agree
           (t := or_zero (Asset.total_invested a))
           (t' := Derived.total_invested d)
           (n := Buy.current_profit_loss_dollars r)
           (n' := Derived.profit_loss_dollars d));
    [rewrite Ht; reflexivity | exact Ed | exact Gcur | exact Gd].
Qed.

Lemma buy_reports_dashboard_profit_loss_witness :
  exists r d,
    simulate_buy_existing_asset example_db (Parsed 2%Z) (Parsed 600) Blank
    = Ok (Some r, [(BuyCalculated, info)])
    /\ derive_asset (mk_asset 2 1 "BBB" (Some 5) (Some 500) (Some 120)) = Ok d
    /\ Buy.current_profit_loss_dollars r == Derived.profit_loss_dollars d
    /\ Buy.current_profit_loss_percent r == Derived.profit_loss_percent d.
Proof.
  eexists.
  destruct (@buy_reports_dashboard_profit_loss example_db 2
              (mk_asset 2 1 "BBB" (Some 5) (Some 500) (Some 120)) 120
              (Parsed 600) Blank _ _ eq_refl eq_refl eq_refl)
    as [d (H1 & H2 & H3)].
  exists d. split; [reflexivity|]. split; [exact H1|].
  split; [exact H2 | exact H3].
Defined.

(** X15.  The buy simulation returns a result only for a valid request: the
    asset id parses and names a stored asset whose current price is known,
    and the input that is used parses and is positive -- the investment
    amount when one is given (the price is then not zero), the number of
    shares only when no amount is given.  The result names that asset and
    the only message is the informational one. *)
Theorem simulate_buy_only_on_valid_input (db : database)
  (asset_id_str : form_field Z) (amount_str shares_str : form_field Q)
  (r : Buy.results) (fl : list flash) :
  simulate_buy_existing_asset db asset_id_str amount_str shares_str
  = Ok (Some r, fl) ->
  exists asset_id a price,
    asset_id_str = Parsed asset_id
    /\ find_asset db asset_id = Some a
    /\ Asset.current_price a = Some price
    /\ fl = [(BuyCalculated, info)]
    /\ Buy.asset_id r = asset_id
    /\ Buy.ticker_symbol r = Asset.ticker_symbol a
    /\ 0 < Buy.shares_purchased r
    /\ ((exists amount,
           amount_str = Parsed amount /\ 0 < amount /\ ~ price == 0
           /\ Buy.shares_purchased r = amount / price)
        \/ (amount_str = Blank
            /\ shares_str = Parsed (Buy.shares_purchased r))).
Proof.
  intro H.
  destruct asset_id_str as [| |asset_id]; try (cbn in H; discriminate).
  destruct (find_asset db asset_id) as [a|] eqn:Hfind.
  - destruct (Asset.current_price a) as [price|] eqn:Hprice.
    + exists asset_id, a, price.
      destruct (@simulate_buy_inv db asset_id a price amount_str shares_str
                  r fl Hfind Hprice H)
        as (Hfl & Hgiven & Hread & Hpos & _).
      destruct (@read_buy_inputs_valid _ _ _ _ _ _ Hread) as (_ & _ & Hin).
      assert (Hid : Buy.asset_id r = asset_id
                    /\ Buy.ticker_symbol r = Asset.ticker_symbol a).
      { revert H. unfold simulate_buy_existing_asset.
        cbn [truthy parse bind negb andb].
        destruct (negb (truthy amount_str) && negb (truthy shares_str));
          [discriminate|].
        unfold simulate_buy_body. cbn [parse bind].
        rewrite Hfind. cbn [select_by_id bind].
        rewrite Hprice, Hread. cbn [bind andb].
        apply py_gt_true in Hpos. rewrite Hpos.
        destruct (if py_gt _ 0 then _ else Ok 0) as [avg|e1];
          [|destruct e1; discriminate].
        cbn [bind].
        destruct (percent_if_positive _ _) as [np|e2];
          [|destruct e2; discriminate].
        cbn [bind].
        destruct (if py_gt (or_zero (Asset.total_invested a)) 0
                  then _ else Ok 0) as [cp|e3];
          [|destruct e3; discriminate].
        cbn [bind]. intro H. injection H as <- _. cbn. split; reflexivity. }
      destruct Hid as [Hid Htk].
      repeat (split; [assumption || reflexivity|]).
      destruct Hin as [(amount & -> & Ha & Hnz & Hs) | (-> & Hs & _)].
      * left. exists amount. auto.
      * right. auto.
    + exfalso. revert H. unfold simulate_buy_existing_asset.
      cbn [truthy parse bind negb andb].
      destruct (negb (truthy amount_str) && negb (truthy shares_str));
        [discriminate|].
      unfold simulate_buy_body. cbn [parse bind]. rewrite Hfind.
      cbn [select_by_id bind]. rewrite Hprice. discriminate.
  - exfalso. revert H. unfold simulate_buy_existing_asset.
    cbn [truthy parse bind negb andb].
    destruct (negb (truthy amount_str) && negb (truthy shares_str));
      [discriminate|].
    unfold simulate_buy_body. cbn [parse bind]. rewrite Hfind.
    cbn [select_by_id bind].
    destruct (sqlite_integer asset_id); discriminate.
Qed.

Lemma simulate_buy_only_on_valid_input_witness :
  exists r asset_id a price,
    simulate_buy_existing_asset example_db (Parsed 2%Z) (Parsed 600) Blank
    = Ok (Some r, [(BuyCalculated, info)])
    /\ Parsed 2%Z = Parsed asset_id
    /\ find_asset example_db asset_id = Some a
    /\ Asset.current_price a = Some price
    /\ 0 < Buy.shares_purchased r.
Proof.
  eexists.
  destruct (@simulate_buy_only_on_valid_input example_db (Parsed 2%Z)
              (Parsed 600) Blank _ _ eq_refl)
    as (asset_id & a & price & H1 & H2 & H3 & _ & _ & _ & H4 & _).
  exists asset_id, a, price.
  split; [reflexivity|]. split; [exact H1|]. split; [exact H2|].
  split; [exact H3 | exact H4].
Defined.

(** ** Asset management: properties *)

Lemma holding_eqb_eq (x y : Z * string) : holding_eqb x y = true <-> x = y.
Proof.
  destruct x as [a s], y as [b t]. unfold holding_eqb. cbn [fst snd].
  rewrite andb_true_iff, Z.eqb_eq, String.eqb_eq.
  split; [intros [-> ->]; reflexivity | intros [= -> ->]; auto].
Qed.

Lemma existsb_holding (x : Z * string) (l : list (Z * string)) :
  existsb (holding_eqb x) l = true <-> In x l.
Proof.
  rewrite existsb_exists. split.
  - intros [y [Hy E]]. apply holding_eqb_eq in E. subst. exact Hy.
  - intro H. exists x. split; [exact H | apply holding_eqb_eq; reflexivity].
Qed.

Lemma distinct_holdings (l : list (Z * string)) :
  distinct holding_eqb l = true <-> NoDup l.
Proof.
  induction l as [|x l IH]; cbn [distinct].
  - split; [constructor | reflexivity].
  - rewrite andb_true_iff, negb_true_iff, IH. split.
    + intros [Hx Hl]. constructor; [|exact Hl].
      intro C. apply existsb_holding in C. congruence.
    + intro H. inversion H as [|? ? Hx Hl]; subst. split; [|exact Hl].
      destruct (existsb (holding_eqb x) l) eqn:E; [|reflexivity].
      apply existsb_holding in E. contradiction.
Qed.

Lemma same_holding_in (account_id : Z) (ticker_symbol : string)
  (rows : list Asset.row) :
  existsb (same_holding account_id ticker_symbol) rows = true
  <-> In (account_id, ticker_symbol) (map holding rows).
Proof.
  rewrite existsb_exists, in_map_iff. split.
  - intros [a [Ha E]]. exists a. split; [|exact Ha].
    unfold same_holding in E. apply andb_true_iff in E as [E1 E2].
    apply Z.eqb_eq in E1. apply String.eqb_eq in E2.
    unfold holding. congruence.
  - intros [a [E Ha]]. exists a. split; [exact Ha|].
    unfold holding in E. injection E as <- <-. unfold same_holding.
    rewrite Z.eqb_refl, String.eqb_refl. reflexivity.
Qed.

Lemma with_assets_same (db : database) : with_assets db (assets db) = db.
Proof. destruct db. reflexivity. Qed.

Lemma find_asset_in (db : database) (asset_id : Z) (a : Asset.row) :
  find_asset db asset_id = Some a ->
  In a (assets db) /\ Asset.asset_id a = asset_id.
Proof.
  unfold find_asset. intro H. apply find_some in H as [Hin E].
  apply Z.eqb_eq in E. auto.
Qed.

Lemma find_asset_none (db : database) (asset_id : Z) :
  find_asset db asset_id = None <->
  ~ In asset_id (map Asset.asset_id (assets db)).
Proof.
  unfold find_asset. split.
  - intros H C. apply in_map_iff in C as [a [E Ha]].
    apply (find_none _ _ H) in Ha. cbn in Ha. rewrite E, Z.eqb_refl in Ha.
    discriminate.
  - intro H.
    destruct (find _ (assets db)) as [a|] eqn:E; [|reflexivity].
    exfalso. apply find_some in E as [Ha E]. apply Z.eqb_eq in E.
    apply H. apply in_map_iff. exists a. auto.
Qed.

Lemma find_asset_delete (db : database) (asset_id id' : Z) :
  find_asset (delete_from_assets db asset_id) id'
  = if Z.eqb id' asset_id then None else find_asset db id'.
Proof.
  unfold find_asset, delete_from_assets, with_assets. cbn [assets].
  induction (assets db) as [|a l IH]; cbn [filter find].
  - destruct (Z.eqb id' asset_id); reflexivity.
  - destruct (Z.eqb (Asset.asset_id a) asset_id) eqn:E; cbn [negb find].
    + rewrite IH. apply Z.eqb_eq in E.
      destruct (Z.eqb id' asset_id) eqn:E'; [reflexivity|].
      destruct (Z.eqb (Asset.asset_id a) id') eqn:E''; [|reflexivity].
      apply Z.eqb_eq in E''. apply Z.eqb_neq in E'. congruence.
    + destruct (Z.eqb (Asset.asset_id a) id') eqn:E''.
      * apply Z.eqb_eq in E''. subst id'. rewrite E. reflexivity.
      * exact IH.
Qed.

Lemma rowcount_positive (db : database) (asset_id : Z) (a : Asset.row) :
  find_asset db asset_id = Some a -> (0 <? rowcount db asset_id)%nat = true.
Proof.
  intro H. apply find_asset_in in H as [Hin E]. apply Nat.ltb_lt.
  unfold rowcount.
  assert (Hf : In a (filter (fun a => Z.eqb (Asset.asset_id a) asset_id)
                       (assets db))).
  { apply filter_In. split; [exact Hin | apply Z.eqb_eq; exact E]. }
  destruct (filter _ (assets db)); [contradiction | cbn; lia].
Qed.

Lemma delete_asset_run (db : database) (asset_id : Z) (a : Asset.row) :
  find_asset db asset_id = Some a ->
  delete_asset db asset_id
  = (delete_from_assets db asset_id,
     [(DeleteSucceeded (Asset.ticker_symbol a), success)]).
Proof.
  intro H. unfold delete_asset. rewrite H, (rowcount_positive _ _ H).
  reflexivity.
Qed.

(** X16.  Deleting a stored asset removes that asset and nothing else: the
    handler reports success, the asset is no longer found, every other asset
    is found as before, the other tables are untouched, and a second
    deletion only reports that the asset is not found.  The "already
    deleted" warning of the handler is never reached. *)
Theorem delete_asset_removes_only_that_asset (db : database) (asset_id : Z)
  (a : Asset.row) :
  find_asset db asset_id = Some a ->
  exists db',
    delete_asset db asset_id
    = (db', [(DeleteSucceeded (Asset.ticker_symbol a), success)])
    /\ find_asset db' asset_id = None
    /\ (forall id', id' <> asset_id ->
        find_asset db' id' = find_asset db id')
    /\ users db' = users db /\ platforms db' = platforms db
    /\ accounts db' = accounts db
    /\ portfolio_history db' = portfolio_history db
    /\ delete_asset db' asset_id = (db', [(DeleteAssetNotFound, error_)]).
Proof.
  intro H. exists (delete_from_assets db asset_id).
  split; [apply delete_asset_run; exact H|].
  assert (Hn : find_asset (delete_from_assets db asset_id) asset_id = None).
  { rewrite find_asset_delete, Z.eqb_refl. reflexivity. }
  split; [exact Hn|]. split.
  - intros id' Hid. rewrite find_asset_delete.
    apply Z.eqb_neq in Hid. rewrite Hid. reflexivity.
  - repeat (split; [reflexivity|]).
    unfold delete_asset. rewrite Hn. reflexivity.
Qed.

Lemma delete_asset_removes_only_that_asset_witness :
  exists db',
    delete_asset example_db 2
    = (db', [(DeleteSucceeded "BBB", success)])
    /\ find_asset db' 2 = None.
Proof.
  destruct (@delete_asset_removes_only_that_asset example_db 2
              (mk_asset 2 1 "BBB" (Some 5) (Some 500) (Some 120)) eq_refl)
    as [db' (H1 & H2 & _)].
  exists db'. split; [exact H1 | exact H2].
Defined.

Lemma accepted_numbers (q c t : Q) :
  py_le q 0 || py_lt c 0 || py_lt t 0 = false
  <-> 0 < q /\ 0 <= c /\ 0 <= t.
Proof.
  rewrite !orb_false_iff, py_le_false, !py_lt_false. tauto.
Qed.

Lemma execute_on_assets_ok (db : database) (rows : list Asset.row) :
  NoDup (map holding rows) ->
  execute_on_assets db rows = Some (with_assets db rows).
Proof.
  intro H. unfold execute_on_assets.
  apply distinct_holdings in H. rewrite H. reflexivity.
Qed.

Lemma execute_on_assets_some (db db' : database) (rows : list Asset.row) :
  execute_on_assets db rows = Some db' ->
  db' = with_assets db rows /\ NoDup (map holding rows).
Proof.
  unfold execute_on_assets.
  destruct (distinct holding_eqb (map holding rows)) eqn:E; [|discriminate].
  intros [= <-]. split; [reflexivity | apply distinct_holdings; exact E].
Qed.

Lemma new_asset_row_keys (account_id new_id : Z)
  (ticker_symbol asset_name_manual : string) (q c t : Q)
  (market_data : option MarketData.t) :
  let row := new_asset_row account_id new_id ticker_symbol
               asset_name_manual q c t market_data in
  Asset.asset_id row = new_id
  /\ holding row = (account_id, ticker_symbol)
  /\ Asset.quantity row = Some q
  /\ Asset.average_cost row = Some c
  /\ Asset.total_invested row = Some t.
Proof. destruct market_data; cbn; auto. Qed.

Lemma NoDup_snoc {A : Type} (l : list A) (x : A) :
  NoDup l -> ~ In x l -> NoDup (l ++ [x]).
Proof.
  intros Hl Hx. induction Hl as [|y l Hy Hl IH]; cbn [app].
  - constructor; [intros [] | constructor].
  - constructor.
    + intro C. apply in_app_or in C as [C|[C|[]]]; [contradiction|].
      apply Hx. left. symmetry. exact C.
    + apply IH. intro C. apply Hx. right. exact C.
Qed.


(** Every other request leaves the store as it is. *)
Lemma add_asset_inv (yf : yfinance) (db db' : database)
  (account_id new_id : Z) (ticker_symbol asset_name_manual : string)
  (quantity_str average_cost_str total_invested_str : form_field Q)
  (fl : list notice) (out : list printed) :
  add_asset yf db account_id new_id ticker_symbol asset_name_manual
    quantity_str average_cost_str total_invested_str = (db', fl, out) ->
  (db' = db /\ ~ In (AddSucceeded ticker_symbol, success) fl
   /\ (forall m cat, In (m, cat) fl ->
       (forall e, m <> AddException e)
       /\ (NoDup (map holding (assets db)) ->
           m <> AddFailed ticker_symbol)))
  \/ (exists q c t,
        quantity_str = Parsed q /\ average_cost_str = Parsed c
        /\ total_invested_str = Parsed t
        /\ account_details_query db account_id <> None
        /\ ticker_symbol <> EmptyString
        /\ 0 < q /\ 0 <= c /\ 0 <= t
        /\ ~ In (account_id, ticker_symbol) (map holding (assets db))
        /\ db' = with_assets db
                   (assets db
                    ++ [new_asset_row account_id new_id ticker_symbol
                          asset_name_manual q c t
                          (fst (fetch_market_data yf ticker_symbol))])
        /\ NoDup (map holding (assets db'))
        /\ fl = match fst (fetch_market_data yf ticker_symbol) with
                | Some _ => []
                | None => [(AddNoMarketData ticker_symbol, warning)]
                end ++ [(AddSucceeded ticker_symbol, success)]
        /\ out = snd (fetch_market_data yf ticker_symbol)).
Proof.
  unfold add_asset. intro H.
  assert (Hrej : forall m cat,
             m <> AddSucceeded ticker_symbol ->
             (forall e, m <> AddException e) ->
             m <> AddFailed ticker_symbol ->
             (db, [(m, cat)], @nil printed) = (db', fl, out) ->
             db' = db /\ ~ In (AddSucceeded ticker_symbol, success) fl
             /\ (forall m cat, In (m, cat) fl ->
                 (forall e, m <> AddException e)
                 /\ (NoDup (map holding (assets db)) ->
                     m <> AddFailed ticker_symbol))).
  { intros m cat Hm He Hf [= <- <- <-]. split; [reflexivity|]. split.
    - intros [C|[]]. congruence.
    - intros m' cat' [[= <- <-]|[]]. auto. }
  destruct (account_details_query db account_id) as [acc|] eqn:Hacc;
    [|left; eapply Hrej; [| | |exact H]; discriminate].
  destruct (String.eqb ticker_symbol EmptyString) eqn:Ht;
    [left; eapply Hrej; [| | |exact H]; discriminate|].
  destruct quantity_str as [| |q], average_cost_str as [| |c],
    total_invested_str as [| |t];
    try (left; eapply Hrej; [| | |exact H]; discriminate).
  cbn [negb truthy andb] in H. unfold add_asset_body in H.
  cbn [parse bind] in H.
  destruct (py_le q 0 || py_lt c 0 || py_lt t 0) eqn:Hn;
    [left; eapply Hrej; [| | |exact H]; discriminate|].
  destruct (existsb (same_holding account_id ticker_symbol) (assets db))
    eqn:E; [left; eapply Hrej; [| | |exact H]; discriminate|].
  assert (Hnew : ~ In (account_id, ticker_symbol) (map holding (assets db)))
    by (intro C; apply same_holding_in in C; congruence).
  destruct (fetch_market_data yf ticker_symbol) as [md o]. cbn [fst snd].
  destruct (execute_on_assets db _) as [db1|] eqn:Ex.
  - right. injection H as <- <- <-.
    apply execute_on_assets_some in Ex as [-> Hnd].
    apply accepted_numbers in Hn as (Hq & Hc & Hti).
    exists q, c, t. repeat (split; [reflexivity|]).
    split; [congruence|]. split; [apply String.eqb_neq; exact Ht|].
    repeat (split; [assumption|]).
    split; [reflexivity|]. split; [exact Hnd|].
    split; reflexivity.
  - left. injection H as <- <- <-. split; [reflexivity|].
    assert (Hin : forall m cat,
               In (m, cat)
                 (match md with
                  | Some _ => []
                  | None => [(AddNoMarketData ticker_symbol, warning)]
                  end ++ [(AddFailed ticker_symbol, error_)]) ->
               m = AddNoMarketData ticker_symbol
               \/ m = AddFailed ticker_symbol).
    { intros m cat C. apply in_app_or in C as [C|[C|[]]].
      - destruct md; [destruct C|]. destruct C as [C|[]].
        left. congruence.
      - right. congruence. }
    split.
    + intro C. apply Hin in C as [C|C]; discriminate.
    + intros m cat C. split.
      * intro e. apply Hin in C as [-> | ->]; discriminate.
      * intros Hu _. unfold execute_on_assets in Ex.
        match type of Ex with
        | (if ?b then _ else _) = None => assert (Hb : b = true)
        end; [|rewrite Hb in Ex; discriminate].
        apply distinct_holdings. rewrite map_app. cbn [map].
        destruct (new_asset_row_keys account_id new_id ticker_symbol
                    asset_name_manual q c t md) as (_ & -> & _).
        apply NoDup_snoc; assumption.
Qed.

Lemma fresh_id_not_in (db : database) (new_id : Z) :
  fresh_id db new_id -> ~ In new_id (map Asset.asset_id (assets db)).
Proof.
  intros H C. apply in_map_iff in C as [a [E Ha]].
  apply H in Ha. lia.
Qed.

Lemma find_asset_snoc (db : database) (row : Asset.row) (asset_id : Z) :
  find_asset (with_assets db (assets db ++ [row])) asset_id
  = match find_asset db asset_id with
    | Some a => Some a
    | None => if Z.eqb (Asset.asset_id row) asset_id then Some row else None
    end.
Proof.
  unfold find_asset, with_assets. cbn [assets].
  induction (assets db) as [|a l IH]; cbn [app find]; [reflexivity|].
  destruct (Z.eqb (Asset.asset_id a) asset_id); [reflexivity | exact IH].
Qed.

(** X17.  The add-asset handler changes the store only for a complete,
    well-formed request: the account exists, the ticker is not empty, the
    three numbers parse, the quantity is positive, the costs are not
    negative and the account does not hold the ticker yet.  It then appends
    exactly one asset row, which carries the new id and the values of the
    form.  Every other request returns the store it was given; the other
    tables are never touched. *)
Theorem add_asset_changes_only_on_valid_request (yf : yfinance)
  (db db' : database) (account_id new_id : Z)
  (ticker_symbol asset_name_manual : string)
  (quantity_str average_cost_str total_invested_str : form_field Q)
  (fl : list notice) (out : list printed) :
  add_asset yf db account_id new_id ticker_symbol asset_name_manual
    quantity_str average_cost_str total_invested_str = (db', fl, out) ->
  users db' = users db /\ platforms db' = platforms db
  /\ accounts db' = accounts db
  /\ portfolio_history db' = portfolio_history db
  /\ ((db' = db /\ ~ In (AddSucceeded ticker_symbol, success) fl)
      \/ (exists q c t row,
            quantity_str = Parsed q /\ average_cost_str = Parsed c
            /\ total_invested_str = Parsed t
            /\ account_details_query db account_id <> None
            /\ ticker_symbol <> EmptyString
            /\ 0 < q /\ 0 <= c /\ 0 <= t
            /\ ~ In (account_id, ticker_symbol) (map holding (assets db))
            /\ assets db' = assets db ++ [row]
            /\ Asset.asset_id row = new_id
            /\ holding row = (account_id, ticker_symbol)
            /\ Asset.quantity row = Some q
            /\ Asset.average_cost row = Some c
            /\ Asset.total_invested row = Some t
            /\ In (AddSucceeded ticker_symbol, success) fl)).
Proof.
  intro H. apply add_asset_inv in H
    as [(-> & Hn & _)
       | (q & c & t & Hq & Hc & Ht & Hacc & Htk & Pq & Pc & Pt & Hnew & ->
          & _ & -> & _)].
  - repeat (split; [reflexivity|]). left. auto.
  - repeat (split; [reflexivity|]). right.
    exists q, c, t.
    eexists. repeat (split; [eassumption|]).
    split; [reflexivity|].
    destruct (new_asset_row_keys account_id new_id ticker_symbol
                asset_name_manual q c t
                (fst (fetch_market_data yf ticker_symbol)))
      as (K1 & K2 & K3 & K4 & K5).
    repeat (split; [assumption|]).
    apply in_or_app. right. left. reflexivity.
Qed.

Lemma add_asset_changes_only_on_valid_request_witness :
  exists db' fl out,
    add_asset no_provider example_db 1 10 "CCC" "" (Parsed 1) (Parsed 2)
      (Parsed 2) = (db', fl, out)
    /\ users db' = users example_db
    /\ accounts db' = accounts example_db.
Proof.
  destruct (add_asset no_provider example_db 1 10 "CCC" "" (Parsed 1)
              (Parsed 2) (Parsed 2)) as [[db' fl] out] eqn:E.
  exists db', fl, out.
  destruct (@add_asset_changes_only_on_valid_request no_provider example_db
              db' 1 10 "CCC" "" (Parsed 1) (Parsed 2) (Parsed 2) fl out E)
    as (H1 & _ & H2 & _).
  split; [reflexivity|]. split; [exact H1 | exact H2].
Defined.

(** X18.  On a store that satisfies the constraints of the asset table
    (primary key, one row per account and ticker), with the new id larger
    than the stored ones, for an account id that SQLite can bind and form
    numbers that are finite (the rationals of this model: not [nan], which
    the [NOT NULL] columns refuse), the add-asset handler never reports a
    database failure or an exception, and the store it returns satisfies
    the constraints again: the handler's own duplicate check is enough to
    keep the [INSERT] from being refused for a duplicate. *)
Theorem add_asset_keeps_constraints (yf : yfinance) (db db' : database)
  (account_id new_id : Z) (ticker_symbol asset_name_manual : string)
  (quantity_str average_cost_str total_invested_str : form_field Q)
  (fl : list notice) (out : list printed) :
  asset_constraints db ->
  fresh_id db new_id ->
  sqlite_integer account_id = true ->
  add_asset yf db account_id new_id ticker_symbol asset_name_manual
    quantity_str average_cost_str total_invested_str = (db', fl, out) ->
  asset_constraints db'
  /\ (forall m cat, In (m, cat) fl ->
      m <> AddFailed ticker_symbol /\ forall e, m <> AddException e).
Proof.
  intros [Hid Hu] Hfresh _ H. apply add_asset_inv in H
    as [(-> & _ & Hm)
       | (q & c & t & _ & _ & _ & _ & _ & _ & _ & _ & Hnew & -> & Hnd & ->
          & _)].
  - split; [split; assumption|].
    intros m cat Hin. destruct (Hm m cat Hin) as [He Hf]. auto.
  - split.
    + split; [|exact Hnd]. cbn [with_assets assets]. rewrite map_app.
      cbn [map].
      destruct (new_asset_row_keys account_id new_id ticker_symbol
                  asset_name_manual q c t
                  (fst (fetch_market_data yf ticker_symbol))) as (-> & _).
      apply NoDup_snoc; [exact Hid | apply fresh_id_not_in; exact Hfresh].
    + intros m cat Hin. apply in_app_or in Hin as [Hin|[Hin|[]]].
      * destruct (fst (fetch_market_data yf ticker_symbol));
          [destruct Hin|]. destruct Hin as [[= <- <-]|[]].
        split; [discriminate | intro; discriminate].
      * injection Hin as <- <-.
        split; [discriminate | intro; discriminate].
Qed.

Lemma add_asset_keeps_constraints_witness :
  exists db' fl out,
    add_asset no_provider example_db 1 10 "CCC" "" (Parsed 1) (Parsed 2)
      (Parsed 2) = (db', fl, out)
    /\ asset_constraints db'.
Proof.
  destruct (add_asset no_provider example_db 1 10 "CCC" "" (Parsed 1)
              (Parsed 2) (Parsed 2)) as [[db' fl] out] eqn:E.
  exists db', fl, out. split; [reflexivity|].
  apply (@add_asset_keeps_constraints no_provider example_db db' 1 10 "CCC"
           "" (Parsed 1) (Parsed 2) (Parsed 2) fl out).
  - split; repeat constructor; cbn; intuition (try discriminate; try lia).
  - intros a Ha. cbn in Ha.
    repeat (destruct Ha as [<- | Ha]; [cbn; lia|]). destruct Ha.
  - reflexivity.
  - exact E.
Defined.



(** X20.  Adding an asset and then deleting it restores the store: after a
    successful add under a new id, the delete handler called on that id
    reports success and returns exactly the store as it was before the
    add. *)
Theorem add_then_delete_restores_store (yf : yfinance) (db db' : database)
  (account_id new_id : Z) (ticker_symbol asset_name_manual : string)
  (quantity_str average_cost_str total_invested_str : form_field Q)
  (fl : list notice) (out : list printed) :
  fresh_id db new_id ->
  add_asset yf db account_id new_id ticker_symbol asset_name_manual
    quantity_str average_cost_str total_invested_str = (db', fl, out) ->
  In (AddSucceeded ticker_symbol, success) fl ->
  delete_asset db' new_id
  = (db, [(DeleteSucceeded ticker_symbol, success)]).
Proof.
  intros Hfresh H Hs. apply add_asset_inv in H
    as [(_ & Hn & _)
       | (q & c & t & _ & _ & _ & _ & _ & _ & _ & _ & _ & -> & _)];
    [contradiction|].
  set (row := new_asset_row account_id new_id ticker_symbol
                asset_name_manual q c t
                (fst (fetch_market_data yf ticker_symbol))).
  destruct (new_asset_row_keys account_id new_id ticker_symbol
              asset_name_manual q c t
              (fst (fetch_market_data yf ticker_symbol)))
    as (Kid & Kh & _). fold row in Kid, Kh.
  assert (Hfind : find_asset (with_assets db (assets db ++ [row])) new_id
                  = Some row).
  { rewrite find_asset_snoc.
    destruct (find_asset db new_id) as [a|] eqn:E.
    - exfalso. apply find_asset_in in E as [Ha E]. apply Hfresh in Ha. lia.
    - rewrite Kid, Z.eqb_refl. reflexivity. }
  rewrite (delete_asset_run _ _ Hfind).
  injection Kh as _ ->. f_equal.
  unfold delete_from_assets. cbn [with_assets assets users platforms
    accounts portfolio_history].
  rewrite filter_app. cbn [filter]. rewrite Kid, Z.eqb_refl. cbn [negb].
  rewrite app_nil_r.
  replace (filter _ (assets db)) with (assets db);
    [destruct db; reflexivity|].
  symmetry. apply forallb_filter_id. apply forallb_forall. intros a Ha.
  apply negb_true_iff. apply Z.eqb_neq. apply Hfresh in Ha. lia.
Qed.

Lemma add_then_delete_restores_store_witness :
  exists db' fl out,
    add_asset no_provider example_db 1 10 "CCC" "" (Parsed 1) (Parsed 2)
      (Parsed 2) = (db', fl, out)
    /\ delete_asset db' 10 = (example_db, [(DeleteSucceeded "CCC", success)]).
Proof.
  eexists. eexists. eexists. split; [reflexivity|].
  apply (@add_then_delete_restores_store no_provider example_db _ 1 10 "CCC"
           "" (Parsed 1) (Parsed 2) (Parsed 2)
           [(AddNoMarketData "CCC", warning); (AddSucceeded "CCC", success)]
           [FetchError "CCC"]).
  - intros a Ha. cbn in Ha.
    repeat (destruct Ha as [<- | Ha]; [cbn; lia|]). destruct Ha.
  - reflexivity.
  - right. left. reflexivity.
Defined.

(** ** Editing an asset *)

Lemma asset_id_injective (l : list Asset.row) (a b : Asset.row) :
  NoDup (map Asset.asset_id l) -> In a l -> In b l ->
  Asset.asset_id a = Asset.asset_id b -> a = b.
Proof.
  induction l as [|x l IH]; cbn [map]; intros Hn Ha Hb E; [destruct Ha|].
  inversion Hn as [|? ? Hx Hl]; subst.
  destruct Ha as [-> | Ha], Hb as [-> | Hb].
  - reflexivity.
  - exfalso. apply Hx. rewrite E. apply in_map. exact Hb.
  - exfalso. apply Hx. rewrite <- E. apply in_map. exact Ha.
  - apply IH; assumption.
Qed.

Lemma update_asset_ids (db : database) (asset_id : Z)
  (f : Asset.row -> Asset.row) :
  (forall a, Asset.asset_id (f a) = Asset.asset_id a) ->
  map Asset.asset_id (assets (update_asset db asset_id f))
  = map Asset.asset_id (assets db).
Proof.
  intro Hf. unfold update_asset. cbn [assets]. rewrite map_map.
  apply map_ext. intro a.
  destruct (Z.eqb (Asset.asset_id a) asset_id); [apply Hf | reflexivity].
Qed.

Lemma update_asset_holdings_same (db : database) (asset_id : Z)
  (f : Asset.row -> Asset.row) :
  (forall a, In a (assets db) -> Asset.asset_id a = asset_id ->
             holding (f a) = holding a) ->
  map holding (assets (update_asset db asset_id f))
  = map holding (assets db).
Proof.
  intro Hf. unfold update_asset. cbn [assets]. rewrite map_map.
  apply map_ext_in. intros a Ha.
  destruct (Z.eqb (Asset.asset_id a) asset_id) eqn:E; [|reflexivity].
  apply Hf; [exact Ha | apply Z.eqb_eq; exact E].
Qed.

Lemma update_asset_holdings_moved (l : list Asset.row) (asset_id : Z)
  (f : Asset.row -> Asset.row) (h : Z * string) :
  NoDup (map Asset.asset_id l) ->
  NoDup (map holding l) ->
  (forall a, In a l -> Asset.asset_id a <> asset_id -> holding a <> h) ->
  (forall a, In a l -> Asset.asset_id a = asset_id -> holding (f a) = h) ->
  NoDup (map holding
           (map (fun a => if Z.eqb (Asset.asset_id a) asset_id then f a
                          else a) l)).
Proof.
  induction l as [|a l IH]; cbn [map]; intros Hid Hh Hother Hf;
    [constructor|].
  inversion Hid as [|? ? Hia Hil]; subst.
  inversion Hh as [|? ? Hha Hhl]; subst.
  assert (IH' := IH Hil Hhl
                   (fun b Hb => Hother b (or_intror Hb))
                   (fun b Hb => Hf b (or_intror Hb))).
  constructor; [|exact IH'].
  rewrite map_map. intro C. apply in_map_iff in C as [b [E Hb]].
  destruct (Z.eqb (Asset.asset_id a) asset_id) eqn:Ea.
  - apply Z.eqb_eq in Ea.
    rewrite (Hf a (or_introl eq_refl) Ea) in E.
    destruct (Z.eqb (Asset.asset_id b) asset_id) eqn:Eb.
    + apply Z.eqb_eq in Eb. apply Hia. rewrite Ea, <- Eb.
      apply in_map. exact Hb.
    + apply Z.eqb_neq in Eb. apply (Hother b (or_intror Hb) Eb E).
  - apply Z.eqb_neq in Ea.
    destruct (Z.eqb (Asset.asset_id b) asset_id) eqn:Eb.
    + apply Z.eqb_eq in Eb. rewrite (Hf b (or_intror Hb) Eb) in E.
      apply (Hother a (or_introl eq_refl) Ea). symmetry. exact E.
    + apply Hha. rewrite <- E. apply in_map. exact Hb.
Qed.

Lemma asset_query_in (db : database) (asset_id : Z) (a : Asset.row) :
  asset_query db asset_id = Some a ->
  In a (assets db) /\ Asset.asset_id a = asset_id.
Proof.
  unfold asset_query. intro H. apply find_some in H as [Hin E].
  apply andb_true_iff in E as [E _]. apply Z.eqb_eq in E. auto.
Qed.

Lemma asset_query_find (db : database) (asset_id : Z) (a : Asset.row) :
  NoDup (map Asset.asset_id (assets db)) ->
  asset_query db asset_id = Some a -> find_asset db asset_id = Some a.
Proof.
  intros Hn H. apply asset_query_in in H as [Hin E].
  destruct (find_asset db asset_id) as [b|] eqn:F.
  - apply find_asset_in in F as [Hb Eb]. f_equal.
    apply (asset_id_injective _ _ _ Hn Hb Hin). congruence.
  - exfalso. apply find_asset_none in F. apply F. rewrite <- E.
    apply in_map. exact Hin.
Qed.

Lemma no_conflict (db : database) (asset_id account_id : Z)
  (ticker_symbol : string) :
  existsb (fun a => same_holding account_id ticker_symbol a
                    && negb (Z.eqb (Asset.asset_id a) asset_id))
    (assets db) = false ->
  forall a, In a (assets db) -> Asset.asset_id a <> asset_id ->
            holding a <> (account_id, ticker_symbol).
Proof.
  intros H a Ha Hid C.
  assert (E : existsb (fun a => same_holding account_id ticker_symbol a
                                && negb (Z.eqb (Asset.asset_id a) asset_id))
                (assets db) = true); [|congruence].
  apply existsb_exists. exists a. split; [exact Ha|].
  apply andb_true_iff. split.
  - unfold holding in C. injection C as C1 C2. unfold same_holding.
    rewrite C1, C2, Z.eqb_refl, String.eqb_refl. reflexivity.
  - apply negb_true_iff. apply Z.eqb_neq. exact Hid.
Qed.

(** The table after the first [UPDATE] of [edit_asset] keeps the unique
    holdings. *)
Lemma edit_update_unique (db : database) (asset_id : Z) (asset : Asset.row)
  (new_ticker_symbol : string) (name : option string) (q c t : Q) :
  asset_constraints db ->
  asset_query db asset_id = Some asset ->
  (new_ticker_symbol <> Asset.ticker_symbol asset ->
   forall a, In a (assets db) -> Asset.asset_id a <> asset_id ->
             holding a <> (Asset.account_id asset, new_ticker_symbol)) ->
  NoDup (map holding
           (assets (update_asset db asset_id
                      (set_details new_ticker_symbol name q c t)))).
Proof.
  intros [Hid Hh] Hq Hfree.
  destruct (asset_query_in _ _ Hq) as [Hin Eid].
  destruct (string_dec new_ticker_symbol (Asset.ticker_symbol asset))
    as [E|E].
  - rewrite update_asset_holdings_same; [exact Hh|].
    intros a Ha Ea. unfold holding. cbn [set_details Asset.account_id
      Asset.ticker_symbol].
    assert (a = asset)
      by (apply (asset_id_injective _ _ _ Hid Ha Hin); congruence).
    subst a. rewrite E. reflexivity.
  - unfold update_asset. cbn [assets].
    apply (@update_asset_holdings_moved (assets db) asset_id
             (set_details new_ticker_symbol name q c t)
             (Asset.account_id asset, new_ticker_symbol));
      [exact Hid | exact Hh | exact (Hfree E) |].
    intros a Ha Ea. unfold holding. cbn [set_details Asset.account_id
      Asset.ticker_symbol].
    assert (a = asset)
      by (apply (asset_id_injective _ _ _ Hid Ha Hin); congruence).
    subst a. reflexivity.
Qed.

Lemma rowcount_positive_in (db : database) (asset_id : Z) (a : Asset.row) :
  In a (assets db) -> Asset.asset_id a = asset_id ->
  (0 <? rowcount db asset_id)%nat = true.
Proof.
  intros Hin E. apply Nat.ltb_lt. unfold rowcount.
  assert (Hf : In a (filter (fun a => Z.eqb (Asset.asset_id a) asset_id)
                       (assets db))).
  { apply filter_In. split; [exact Hin | apply Z.eqb_eq; exact E]. }
  destruct (filter _ (assets db)); [contradiction | cbn; lia].
Qed.

Ltac edit_rejected db :=
  exists db; eexists; split; [reflexivity|]; left;
  split; [reflexivity|];
  split;
  [ intros [C|[]]; discriminate
  | intros m cat [[= <- <-]|[]];
    split; [discriminate | intros _; discriminate] ].

(** An id that SQLite cannot bind escapes the handler, whose lookup is not
    inside a [try]. *)
Lemma edit_asset_unbindable (db : database) (asset_id : Z)
  (new_ticker_symbol new_asset_name : string)
  (new_quantity_str new_average_cost_str new_total_invested_str
     : form_field Q) :
  asset_query db asset_id = None -> sqlite_integer asset_id = false ->
  edit_asset db asset_id new_ticker_symbol new_asset_name new_quantity_str
    new_average_cost_str new_total_invested_str = Raise OverflowError.
Proof.
  intros Hq Hb. unfold edit_asset. rewrite Hq. cbn [select_by_id].
  rewrite Hb. reflexivity.
Qed.

Lemma edit_asset_bindable (db : database) (asset_id : Z)
  (new_ticker_symbol new_asset_name : string)
  (new_quantity_str new_average_cost_str new_total_invested_str
     : form_field Q) (r : database * list notice) :
  edit_asset db asset_id new_ticker_symbol new_asset_name new_quantity_str
    new_average_cost_str new_total_invested_str = Ok r ->
  asset_query db asset_id <> None \/ sqlite_integer asset_id = true.
Proof.
  intro H. destruct (asset_query db asset_id) as [a|] eqn:Hq;
    [left; discriminate|].
  destruct (sqlite_integer asset_id) eqn:Hb; [right; reflexivity|].
  rewrite (@edit_asset_unbindable db asset_id new_ticker_symbol
             new_asset_name new_quantity_str new_average_cost_str
             new_total_invested_str Hq Hb) in H. discriminate.
Qed.

(** The outcomes of [edit_asset] for an id that can be bound: the store is
    returned as it was, or the row is rewritten. *)
Lemma edit_asset_cases (db : database) (asset_id : Z)
  (new_ticker_symbol new_asset_name : string)
  (new_quantity_str new_average_cost_str new_total_invested_str
     : form_field Q) :
  asset_query db asset_id <> None \/ sqlite_integer asset_id = true ->
  exists db' fl,
    edit_asset db asset_id new_ticker_symbol new_asset_name
      new_quantity_str new_average_cost_str new_total_invested_str
    = Ok (db', fl)
    /\ ((db' = db /\ ~ In (EditSucceeded, success) fl
         /\ (forall m cat, In (m, cat) fl ->
             m <> EditNoRows /\ (asset_constraints db -> m <> EditFailed)))
        \/ (exists asset q c t,
              asset_query db asset_id = Some asset
              /\ new_quantity_str = Parsed q
              /\ new_average_cost_str = Parsed c
              /\ new_total_invested_str = Parsed t
              /\ new_ticker_symbol <> EmptyString
              /\ 0 < q /\ 0 <= c /\ 0 <= t
              /\ (new_ticker_symbol <> Asset.ticker_symbol asset ->
                  forall a, In a (assets db) ->
                            Asset.asset_id a <> asset_id ->
                            holding a
                            <> (Asset.account_id asset, new_ticker_symbol))
              /\ NoDup (map holding
                          (assets
                             (update_asset db asset_id
                                (set_details new_ticker_symbol
                                   (if String.eqb new_asset_name EmptyString
                                    then Asset.name asset
                                    else Some new_asset_name) q c t))))
              /\ db' = (if String.eqb new_ticker_symbol
                             (Asset.ticker_symbol asset)
                        then update_asset db asset_id
                               (set_details new_ticker_symbol
                                  (if String.eqb new_asset_name EmptyString
                                   then Asset.name asset
                                   else Some new_asset_name) q c t)
                        else update_asset
                               (update_asset db asset_id
                                  (set_details new_ticker_symbol
                                     (if String.eqb new_asset_name
                                           EmptyString
                                      then Asset.name asset
                                      else Some new_asset_name) q c t))
                               asset_id clear_market_data)
              /\ fl = (EditSucceeded, success)
                      :: (if String.eqb new_ticker_symbol
                               (Asset.ticker_symbol asset)
                          then []
                          else [(EditMarketDataCleared, info)]))).
Proof.
  intro Hb. unfold edit_asset.
  destruct (asset_query db asset_id) as [asset|] eqn:Hq;
    cbn [select_by_id bind].
  2:{ destruct Hb as [Hb|Hb]; [congruence|]. rewrite Hb. cbn [bind].
      edit_rejected db. }
  destruct (String.eqb new_ticker_symbol EmptyString) eqn:Ht;
    [edit_rejected db|].
  destruct new_quantity_str as [| |q], new_average_cost_str as [| |c],
    new_total_invested_str as [| |t];
    try (edit_rejected db).
  cbn [negb truthy andb parse bind].
  destruct (py_le q 0 || py_lt c 0 || py_lt t 0) eqn:Hn;
    [edit_rejected db|].
  apply accepted_numbers in Hn as (Pq & Pc & Pt).
  destruct (asset_query_in _ _ Hq) as [Hin Eid].
  set (name := if String.eqb new_asset_name EmptyString
               then Asset.name asset else Some new_asset_name).
  assert (Hrun : forall
             (Hfree : new_ticker_symbol <> Asset.ticker_symbol asset ->
                      forall a, In a (assets db) ->
                                Asset.asset_id a <> asset_id ->
                                holding a
                                <> (Asset.account_id asset,
                                    new_ticker_symbol)),
             exists db' fl,
               match execute_on_assets db
                       (assets (update_asset db asset_id
                                  (set_details new_ticker_symbol name
                                     q c t))) with
               | Some db1 =>
                   if (0 <? rowcount db asset_id)%nat then
                     if negb (String.eqb new_ticker_symbol
                                (Asset.ticker_symbol asset))
                     then Ok (update_asset db1 asset_id clear_market_data,
                              [(EditSucceeded, success);
                               (EditMarketDataCleared, info)])
                     else Ok (db1, [(EditSucceeded, success)])
                   else Ok (db1, [(EditNoRows, info)])
               | None => Ok (db, [(EditFailed, error_)])
               end = Ok (db', fl)
               /\ ((db' = db /\ ~ In (EditSucceeded, success) fl
                    /\ (forall m cat, In (m, cat) fl ->
                        m <> EditNoRows
                        /\ (asset_constraints db -> m <> EditFailed)))
                   \/ (exists asset0 q0 c0 t0,
                         Some asset = Some asset0
                         /\ Parsed q = Parsed q0 /\ Parsed c = Parsed c0
                         /\ Parsed t = Parsed t0
                         /\ new_ticker_symbol <> EmptyString
                         /\ 0 < q0 /\ 0 <= c0 /\ 0 <= t0
                         /\ (new_ticker_symbol <> Asset.ticker_symbol asset0
                             -> forall a, In a (assets db) ->
                                  Asset.asset_id a <> asset_id ->
                                  holding a
                                  <> (Asset.account_id asset0,
                                      new_ticker_symbol))
                         /\ NoDup (map holding
                              (assets
                                 (update_asset db asset_id
                                    (set_details new_ticker_symbol
                                       (if String.eqb new_asset_name
                                             EmptyString
                                        then Asset.name asset0
                                        else Some new_asset_name)
                                       q0 c0 t0))))
                         /\ db' = (if String.eqb new_ticker_symbol
                                        (Asset.ticker_symbol asset0)
                                   then update_asset db asset_id
                                          (set_details new_ticker_symbol
                                             (if String.eqb new_asset_name
                                                   EmptyString
                                              then Asset.name asset0
                                              else Some new_asset_name)
                                             q0 c0 t0)
                                   else update_asset
                                          (update_asset db asset_id
                                             (set_details new_ticker_symbol
                                                (if String.eqb new_asset_name
                                                      EmptyString
                                                 then Asset.name asset0
                                                 else Some new_asset_name)
                                                q0 c0 t0))
                                          asset_id clear_market_data)
                         /\ fl = (EditSucceeded, success)
                                 :: (if String.eqb new_ticker_symbol
                                          (Asset.ticker_symbol asset0)
                                     then []
                                     else [(EditMarketDataCleared, info)])))).
  { intro Hfree.
    destruct (execute_on_assets db _) as [db1|] eqn:Ex.
    - apply execute_on_assets_some in Ex as [-> Hnd].
      rewrite (rowcount_positive_in _ _ Hin Eid).
      destruct (String.eqb new_ticker_symbol (Asset.ticker_symbol asset))
        eqn:Et; cbn [negb].
      + eexists. eexists. split; [reflexivity|]. right.
        exists asset, q, c, t. repeat (split; [reflexivity|]).
        split; [apply String.eqb_neq; exact Ht|].
        rewrite Et. repeat (split; [assumption|]).
        split; reflexivity.
      + eexists. eexists. split; [reflexivity|]. right.
        exists asset, q, c, t. repeat (split; [reflexivity|]).
        split; [apply String.eqb_neq; exact Ht|].
        rewrite Et. repeat (split; [assumption|]).
        split; reflexivity.
    - exists db. eexists. split; [reflexivity|]. left.
      split; [reflexivity|]. split; [intros [C|[]]; discriminate|].
      intros m cat [[= <- <-]|[]]. split; [discriminate|].
      intros Hc _.
      rewrite (@execute_on_assets_ok db _
                 (@edit_update_unique db asset_id asset new_ticker_symbol
                    name q c t Hc Hq Hfree)) in Ex.
      discriminate. }
  destruct (String.eqb new_ticker_symbol (Asset.ticker_symbol asset))
    eqn:Et; cbn [negb andb].
  - destruct (String.eqb new_asset_name (or_empty (Asset.name asset))
              && eq_stored q (Asset.quantity asset)
              && eq_stored c (Asset.average_cost asset)
              && eq_stored t (Asset.total_invested asset));
      [edit_rejected db|].
    apply Hrun. intro C. apply String.eqb_eq in Et. contradiction.
  - destruct (existsb _ (assets db)) eqn:Ec; [edit_rejected db|].
    apply Hrun. intros _. apply no_conflict. exact Ec.
Qed.

Lemma find_asset_update_other (db : database) (asset_id id' : Z)
  (f : Asset.row -> Asset.row) :
  (forall a, Asset.asset_id (f a) = Asset.asset_id a) ->
  id' <> asset_id ->
  find_asset (update_asset db asset_id f) id' = find_asset db id'.
Proof.
  intros Hid Hne. unfold find_asset, update_asset. cbn [assets].
  induction (assets db) as [|a l IH]; cbn [map find]; [reflexivity|].
  destruct (Z.eqb (Asset.asset_id a) asset_id) eqn:E.
  - rewrite Hid. apply Z.eqb_eq in E.
    destruct (Z.eqb (Asset.asset_id a) id') eqn:E'; [|exact IH].
    apply Z.eqb_eq in E'. congruence.
  - destruct (Z.eqb (Asset.asset_id a) id'); [reflexivity | exact IH].
Qed.

(** X21.  A successful edit rewrites one row.  The asset keeps its id and
    its account and takes the ticker and the three numbers of the form; an
    empty name keeps the stored name.  If the ticker is unchanged the four
    price fields are kept; if it changed they are all cleared and the
    handler says so.  Every other asset and every other table is left as it
    was. *)
Theorem edit_asset_rewrites_one_row (db db' : database) (asset_id : Z)
  (new_ticker_symbol new_asset_name : string)
  (new_quantity_str new_average_cost_str new_total_invested_str
     : form_field Q) (fl : list notice) :
  NoDup (map Asset.asset_id (assets db)) ->
  edit_asset db asset_id new_ticker_symbol new_asset_name new_quantity_str
    new_average_cost_str new_total_invested_str = Ok (db', fl) ->
  In (EditSucceeded, success) fl ->
  exists asset row q c t,
    find_asset db asset_id = Some asset
    /\ find_asset db' asset_id = Some row
    /\ new_quantity_str = Parsed q /\ new_average_cost_str = Parsed c
    /\ new_total_invested_str = Parsed t
    /\ Asset.asset_id row = asset_id
    /\ Asset.account_id row = Asset.account_id asset
    /\ Asset.ticker_symbol row = new_ticker_symbol
    /\ Asset.quantity row = Some q
    /\ Asset.average_cost row = Some c
    /\ Asset.total_invested row = Some t
    /\ Asset.name row = (if String.eqb new_asset_name EmptyString
                         then Asset.name asset else Some new_asset_name)
    /\ (new_ticker_symbol = Asset.ticker_symbol asset ->
        Asset.current_price row = Asset.current_price asset
        /\ Asset.price_yesterday row = Asset.price_yesterday asset
        /\ Asset.fifty_two_week_high row = Asset.fifty_two_week_high asset
        /\ Asset.fifty_two_week_low row = Asset.fifty_two_week_low asset)
    /\ (new_ticker_symbol <> Asset.ticker_symbol asset ->
        Asset.current_price row = None
        /\ Asset.price_yesterday row = None
        /\ Asset.fifty_two_week_high row = None
        /\ Asset.fifty_two_week_low row = None
        /\ In (EditMarketDataCleared, info) fl)
    /\ (forall id', id' <> asset_id ->
        find_asset db' id' = find_asset db id')
    /\ users db' = users db /\ platforms db' = platforms db
    /\ accounts db' = accounts db
    /\ portfolio_history db' = portfolio_history db.
Proof.
  intros Hid H Hs.
  destruct (@edit_asset_cases db asset_id new_ticker_symbol new_asset_name
              new_quantity_str new_average_cost_str new_total_invested_str
              (@edit_asset_bindable db asset_id new_ticker_symbol
                 new_asset_name new_quantity_str new_average_cost_str
                 new_total_invested_str _ H))
    as [db1 [fl1 [E [(_ & Hn & _)
       | (asset & q & c & t & Hq & -> & -> & -> & _ & _ & _ & _ & _ & _
          & Hdb & Hfl)]]]];
    rewrite H in E; injection E as <- <-; [contradiction|].
  pose proof (@asset_query_find db asset_id asset Hid Hq) as Hfind.
  destruct (@asset_query_in db asset_id asset Hq) as [_ Eid].
  exists asset.
  destruct (String.eqb new_ticker_symbol (Asset.ticker_symbol asset))
    eqn:Et.
  - apply String.eqb_eq in Et. eexists. exists q, c, t.
    split; [exact Hfind|]. split.
    { rewrite Hdb, find_asset_update by reflexivity.
      rewrite Hfind. reflexivity. }
    cbn [set_details Asset.asset_id Asset.account_id Asset.ticker_symbol
      Asset.quantity Asset.average_cost Asset.total_invested Asset.name
      Asset.current_price Asset.price_yesterday Asset.fifty_two_week_high
      Asset.fifty_two_week_low].
    repeat (split; [reflexivity|]). split; [exact Eid|].
    repeat (split; [reflexivity|]).
    split; [intros _; repeat split|].
    split; [intro C; contradiction|].
    split; [|rewrite Hdb; repeat split].
    intros id' Hne. rewrite Hdb.
    apply find_asset_update_other; [reflexivity | exact Hne].
  - apply String.eqb_neq in Et. eexists. exists q, c, t.
    split; [exact Hfind|]. split.
    { rewrite Hdb, !find_asset_update by reflexivity.
      rewrite Hfind. reflexivity. }
    cbn [clear_market_data set_details Asset.asset_id Asset.account_id
      Asset.ticker_symbol Asset.quantity Asset.average_cost
      Asset.total_invested Asset.name Asset.current_price
      Asset.price_yesterday Asset.fifty_two_week_high
      Asset.fifty_two_week_low].
    repeat (split; [reflexivity|]). split; [exact Eid|].
    repeat (split; [reflexivity|]).
    split; [intro C; contradiction|].
    split; [intros _; repeat (split; [reflexivity|]);
            rewrite Hfl; right; left; reflexivity|].
    split; [|rewrite Hdb; repeat split].
    intros id' Hne. rewrite Hdb.
    rewrite !find_asset_update_other by (reflexivity || exact Hne).
    reflexivity.
Qed.

Lemma edit_asset_rewrites_one_row_witness :
  exists db' row,
    edit_asset example_db 2 "BZZ" "" (Parsed 6) (Parsed 100) (Parsed 600)
    = Ok (db', [(EditSucceeded, success); (EditMarketDataCleared, info)])
    /\ find_asset db' 2 = Some row
    /\ Asset.ticker_symbol row = "BZZ"%string
    /\ Asset.current_price row = None.
Proof.
  pose (r := edit_asset example_db 2 "BZZ" "" (Parsed 6) (Parsed 100)
               (Parsed 600)).
  assert (E : edit_asset example_db 2 "BZZ" "" (Parsed 6) (Parsed 100)
                (Parsed 600) = r) by reflexivity.
  vm_compute in r. subst r.
  assert (Hn : NoDup (map Asset.asset_id (assets example_db)))
    by (repeat constructor; cbn; intuition (try discriminate; try lia)).
  match type of E with
  | _ = Ok (?d, ?f) =>
      destruct (@edit_asset_rewrites_one_row example_db d 2 "BZZ" ""
                  (Parsed 6) (Parsed 100) (Parsed 600) f Hn E
                  (or_introl eq_refl))
        as (asset & row & q & c & t & Ha & Hr & _ & _ & _ & _ & _ & Ht & _
            & _ & _ & _ & _ & Hc & _)
  end.
  eexists. exists row. split; [exact E|]. split; [exact Hr|].
  split; [exact Ht|].
  apply Hc. injection Ha as <-. discriminate.
Defined.

(** X22.  On a store that satisfies the constraints of the asset table,
    for an asset id that SQLite can bind (a signed 64-bit integer) and form
    numbers that are finite (the rationals of this model: not [nan], not
    [inf]), the edit handler returns, never reports a database failure or
    "no rows affected", and the store it returns satisfies the constraints
    again: the handler's own conflict check is enough to keep the [UPDATE]
    from being refused for a duplicate.  For an id outside the 64-bit range
    the lookup raises [OverflowError], which escapes the handler. *)
Theorem edit_asset_keeps_constraints (db : database) (asset_id : Z)
  (new_ticker_symbol new_asset_name : string)
  (new_quantity_str new_average_cost_str new_total_invested_str
     : form_field Q) :
  asset_constraints db ->
  (sqlite_integer asset_id = true ->
   exists db' fl,
     edit_asset db asset_id new_ticker_symbol new_asset_name
       new_quantity_str new_average_cost_str new_total_invested_str
     = Ok (db', fl)
     /\ asset_constraints db'
     /\ (forall m cat, In (m, cat) fl ->
         m <> EditFailed /\ m <> EditNoRows))
  /\ (sqlite_integer asset_id = false -> asset_query db asset_id = None ->
      edit_asset db asset_id new_ticker_symbol new_asset_name
        new_quantity_str new_average_cost_str new_total_invested_str
      = Raise OverflowError).
Proof.
  intro Hc. split; [|intros Hb Hq; apply edit_asset_unbindable; assumption].
  intro Hb.
  destruct (@edit_asset_cases db asset_id new_ticker_symbol new_asset_name
              new_quantity_str new_average_cost_str new_total_invested_str
              (or_intror Hb))
    as [db' [fl [E [(Hsame & _ & Hm)
       | (asset & q & c & t & Hq & _ & _ & _ & _ & _ & _ & _ & _ & Hnd
          & Hdb & Hfl)]]]];
    exists db', fl; (split; [exact E|]).
  - subst db'. split; [exact Hc|]. intros m cat Hin.
    destruct (Hm m cat Hin) as [H1 H2]. auto.
  - destruct Hc as [Hid Hh]. split.
    + destruct (String.eqb new_ticker_symbol (Asset.ticker_symbol asset));
        subst db'; split.
      * rewrite update_asset_ids by reflexivity. exact Hid.
      * exact Hnd.
      * rewrite !update_asset_ids by reflexivity. exact Hid.
      * rewrite update_asset_holdings_same by reflexivity. exact Hnd.
    + intros m cat Hin. rewrite Hfl in Hin.
      destruct Hin as [[= <- <-]|Hin]; [split; discriminate|].
      destruct (String.eqb new_ticker_symbol (Asset.ticker_symbol asset));
        [destruct Hin|].
      destruct Hin as [[= <- <-]|[]]. split; discriminate.
Qed.

Lemma edit_asset_keeps_constraints_witness :
  exists db' fl,
    edit_asset example_db 2 "BZZ" "" (Parsed 6) (Parsed 100) (Parsed 600)
    = Ok (db', fl)
    /\ asset_constraints db'.
Proof.
  destruct (@edit_asset_keeps_constraints example_db 2 "BZZ" "" (Parsed 6)
              (Parsed 100) (Parsed 600)) as [H _].
  - split; repeat constructor; cbn; intuition (try discriminate; try lia).
  - destruct (H eq_refl) as [db' [fl [E [Hc _]]]].
    exists db', fl. split; [exact E | exact Hc].
Defined.

(** ** Refresh of all assets *)

Lemma fill_names_rows (name_from_api : option string)
  (items : list (Z * option string)) (db : database) :
  fill_names name_from_api items db
  = with_assets db
      (map (fun a =>
              if existsb (fun item : Z * option string =>
                            Z.eqb (fst item) (Asset.asset_id a)
                            && (truthy_name name_from_api
                                && negb (truthy_name (snd item))))
                   items
              then set_name name_from_api a else a)
         (assets db)).
Proof.
  unfold fill_names. revert db.
  induction items as [|[id0 cur] items IH]; intro db; cbn [fold_left existsb].
  - rewrite map_id. symmetry. apply with_assets_same.
  - rewrite IH. cbn [fst snd].
    destruct (truthy_name name_from_api && negb (truthy_name cur)).
    + unfold update_asset, with_assets. cbn [assets users platforms accounts
        portfolio_history]. f_equal. rewrite map_map. apply map_ext.
      intro a. rewrite (Z.eqb_sym id0).
      destruct (Z.eqb (Asset.asset_id a) id0); cbn [andb orb].
      * cbn [set_name Asset.asset_id].
        destruct (existsb _ items); reflexivity.
      * reflexivity.
    + f_equal. apply map_ext. intro a. rewrite andb_false_r. reflexivity.
Qed.

Lemma names_map_lookup (db : database) (ticker_symbol : string)
  (name_from_api : option string) (a : Asset.row) :
  NoDup (map Asset.asset_id (assets db)) ->
  In a (assets db) ->
  existsb (fun item : Z * option string =>
             Z.eqb (fst item) (Asset.asset_id a)
             && (truthy_name name_from_api
                 && negb (truthy_name (snd item))))
    (asset_names_map db ticker_symbol)
  = String.eqb (Asset.ticker_symbol a) ticker_symbol
    && (truthy_name name_from_api && negb (truthy_name (Asset.name a))).
Proof.
  intros Hn Ha.
  match goal with |- ?l = ?r => destruct r eqn:R end.
  - apply andb_true_iff in R as [R1 R2]. apply existsb_exists.
    exists (Asset.asset_id a, Asset.name a). split.
    + unfold asset_names_map. apply in_map_iff. exists a.
      split; [reflexivity|]. apply filter_In. auto.
    + cbn [fst snd]. rewrite Z.eqb_refl. exact R2.
  - destruct (existsb _ (asset_names_map db ticker_symbol)) eqn:E;
      [|reflexivity].
    apply existsb_exists in E as [[id0 cur] [Hin E]]. cbn [fst snd] in E.
    unfold asset_names_map in Hin. apply in_map_iff in Hin as [b [Eb Hb]].
    apply filter_In in Hb as [Hb Tb]. injection Eb as <- <-.
    apply andb_true_iff in E as [E1 E2]. apply Z.eqb_eq in E1.
    assert (b = a) by (apply (asset_id_injective _ _ _ Hn Hb Ha E1)).
    subst b. rewrite Tb, E2 in R. discriminate.
Qed.

(** One turn of the loop rewrites the rows of its ticker, each as a refresh
    of that asset would. *)
Lemma refresh_ticker_rows (yf : yfinance) (s : RefreshAll.state)
  (ticker_symbol : string) :
  NoDup (map Asset.asset_id (assets (RefreshAll.db s))) ->
  RefreshAll.db (refresh_ticker yf s ticker_symbol)
  = with_assets (RefreshAll.db s)
      (map (fun a => if String.eqb (Asset.ticker_symbol a) ticker_symbol
                     then refreshed_row yf a else a)
         (assets (RefreshAll.db s))).
Proof.
  intro Hn. unfold refresh_ticker.
  destruct (fetch_market_data yf ticker_symbol) as [[md|] out] eqn:F;
    cbn [RefreshAll.db].
  - rewrite fill_names_rows. unfold update_prices_by_ticker, with_assets.
    cbn [assets users platforms accounts portfolio_history]. f_equal.
    rewrite map_map. apply map_ext_in. intros a Ha.
    assert (Hl := @names_map_lookup (RefreshAll.db s) ticker_symbol
                    (MarketData.name md) a Hn Ha).
    destruct (String.eqb (Asset.ticker_symbol a) ticker_symbol) eqn:T.
    + cbn [set_prices set_market_data Asset.asset_id]. rewrite Hl.
      cbn [andb]. apply String.eqb_eq in T. unfold refreshed_row.
      rewrite T, F. cbn [fst].
      destruct (truthy_name (MarketData.name md)
                && negb (truthy_name (Asset.name a))); reflexivity.
    + rewrite Hl. reflexivity.
  - symmetry. etransitivity; [|apply with_assets_same]. f_equal.
    etransitivity; [|apply map_id]. apply map_ext. intro a.
    destruct (String.eqb (Asset.ticker_symbol a) ticker_symbol) eqn:T;
      [|reflexivity].
    apply String.eqb_eq in T. unfold refreshed_row. rewrite T, F.
    reflexivity.
Qed.

Lemma refreshed_row_keys (yf : yfinance) (a : Asset.row) :
  Asset.asset_id (refreshed_row yf a) = Asset.asset_id a
  /\ Asset.account_id (refreshed_row yf a) = Asset.account_id a
  /\ Asset.ticker_symbol (refreshed_row yf a) = Asset.ticker_symbol a
  /\ Asset.quantity (refreshed_row yf a) = Asset.quantity a
  /\ Asset.average_cost (refreshed_row yf a) = Asset.average_cost a
  /\ Asset.total_invested (refreshed_row yf a) = Asset.total_invested a.
Proof.
  unfold refreshed_row.
  destruct (fst (fetch_market_data yf (Asset.ticker_symbol a)));
    repeat split.
Qed.

Lemma refresh_fold (yf : yfinance) (l : list string)
  (s : RefreshAll.state) :
  NoDup l ->
  NoDup (map Asset.asset_id (assets (RefreshAll.db s))) ->
  let s' := fold_left (refresh_ticker yf) l s in
  RefreshAll.db s'
  = with_assets (RefreshAll.db s)
      (map (fun a => if existsb (String.eqb (Asset.ticker_symbol a)) l
                     then refreshed_row yf a else a)
         (assets (RefreshAll.db s)))
  /\ RefreshAll.updated_tickers_count s'
     = (RefreshAll.updated_tickers_count s
        + List.length
            (filter (fun t => match ticker yf t with
                              | Some _ => true
                              | None => false
                              end) l))%nat
  /\ RefreshAll.failed_tickers s'
     = RefreshAll.failed_tickers s
       ++ filter (fun t => match ticker yf t with
                           | Some _ => false
                           | None => true
                           end) l.
Proof.
  intro Hl. revert s. induction Hl as [|t l Ht Hl IH]; intros s Hn.
  - cbn [fold_left existsb filter List.length]. split; [|split].
    + rewrite map_id. symmetry. apply with_assets_same.
    + lia.
    + rewrite app_nil_r. reflexivity.
  - cbn [fold_left].
    pose proof (@refresh_ticker_rows yf s t Hn) as Hrow.
    assert (Hn' : NoDup (map Asset.asset_id
                           (assets (RefreshAll.db (refresh_ticker yf s t))))).
    { rewrite Hrow. cbn [with_assets assets]. rewrite map_map.
      erewrite map_ext; [exact Hn|]. intro a. cbn beta.
      destruct (String.eqb (Asset.ticker_symbol a) t); [|reflexivity].
      apply refreshed_row_keys. }
    destruct (IH (refresh_ticker yf s t) Hn') as (Hdb & Hup & Hfail).
    split; [|split].
    + rewrite Hdb, Hrow. unfold with_assets.
      cbn [assets users platforms accounts portfolio_history]. f_equal.
      rewrite map_map. apply map_ext. intro a. cbn [existsb].
      destruct (String.eqb (Asset.ticker_symbol a) t) eqn:T; cbn [orb].
      * destruct (refreshed_row_keys yf a) as (_ & _ & -> & _).
        apply String.eqb_eq in T.
        destruct (existsb (String.eqb (Asset.ticker_symbol a)) l) eqn:E;
          [|reflexivity].
        exfalso. apply existsb_exists in E as [t' [Hin E]].
        apply String.eqb_eq in E. apply Ht. congruence.
      * reflexivity.
    + rewrite Hup. unfold refresh_ticker, fetch_market_data. cbn [filter].
      destruct (ticker yf t) as [[i h]|];
        cbn [RefreshAll.updated_tickers_count List.length]; lia.
    + rewrite Hfail. unfold refresh_ticker, fetch_market_data. cbn [filter].
      destruct (ticker yf t) as [[i h]|]; cbn [RefreshAll.failed_tickers].
      * reflexivity.
      * rewrite <- app_assoc. reflexivity.
Qed.

Lemma find_asset_map (db : database) (g : Asset.row -> Asset.row)
  (asset_id : Z) :
  (forall a, Asset.asset_id (g a) = Asset.asset_id a) ->
  find_asset (with_assets db (map g (assets db))) asset_id
  = option_map g (find_asset db asset_id).
Proof.
  intro Hg. unfold find_asset, with_assets. cbn [assets].
  induction (assets db) as [|a l IH]; cbn [map find]; [reflexivity|].
  rewrite Hg. destruct (Z.eqb (Asset.asset_id a) asset_id);
    [reflexivity | exact IH].
Qed.

Lemma find_asset_of_in (db : database) (a : Asset.row) :
  NoDup (map Asset.asset_id (assets db)) -> In a (assets db) ->
  find_asset db (Asset.asset_id a) = Some a.
Proof.
  intros Hn Ha.
  destruct (find_asset db (Asset.asset_id a)) as [b|] eqn:E.
  - apply find_asset_in in E as [Hb E]. f_equal.
    apply (asset_id_injective _ _ _ Hn Hb Ha E).
  - exfalso. apply find_asset_none in E. apply E. apply in_map. exact Ha.
Qed.

Lemma refresh_all_rows (yf : yfinance) (db : database) (l : list string)
  (asset_id : Z) :
  NoDup (map Asset.asset_id (assets db)) -> NoDup l ->
  find_asset (RefreshAll.db (refresh_all_loop yf l db)) asset_id
  = option_map
      (fun a => if existsb (String.eqb (Asset.ticker_symbol a)) l
                then refreshed_row yf a else a)
      (find_asset db asset_id).
Proof.
  intros Hn Hl. unfold refresh_all_loop.
  destruct (@refresh_fold yf l
              {| RefreshAll.db := db; RefreshAll.updated_tickers_count := 0;
                 RefreshAll.failed_tickers := []; RefreshAll.out := [] |}
              Hl Hn) as (-> & _).
  cbn [RefreshAll.db]. apply find_asset_map. intro a.
  destruct (existsb _ l); [apply refreshed_row_keys | reflexivity].
Qed.

Lemma refresh_asset_data_row (yf : yfinance) (db : database) (asset_id : Z) :
  find_asset (fst (fst (refresh_asset_data yf db asset_id))) asset_id
  = option_map (refreshed_row yf) (find_asset db asset_id).
Proof.
  unfold refresh_asset_data.
  destruct (find_asset db asset_id) as [a|] eqn:E; cbn [fst];
    [|rewrite E; reflexivity].
  cbn [option_map]. unfold refreshed_row.
  destruct (fetch_market_data yf (Asset.ticker_symbol a)) as [[md|] out];
    cbn [fst].
  - rewrite find_asset_update by reflexivity. rewrite E. cbn [option_map].
    destruct (truthy_name (MarketData.name md)),
      (truthy_name (Asset.name a)); reflexivity.
  - rewrite E. reflexivity.
Qed.

Lemma distinct_tickers_cover (db : database) (l : list string) :
  Permutation l (distinct_tickers db) ->
  NoDup l
  /\ forall a, In a (assets db) ->
       existsb (String.eqb (Asset.ticker_symbol a)) l = true.
Proof.
  intro P. split.
  - apply (Permutation_NoDup (Permutation_sym P)). apply NoDup_nodup.
  - intros a Ha. apply existsb_exists. exists (Asset.ticker_symbol a).
    split; [|apply String.eqb_refl].
    apply (Permutation_in _ (Permutation_sym P)).
    apply nodup_In. apply in_map. exact Ha.
Qed.

(** X23.  The loop of the refresh of all assets does not depend on the
    order in which the set of tickers is walked: for two orders of the same
    tickers the resulting store is the same, the number of updated tickers
    is the same, and the failed tickers are the same up to order. *)
Theorem refresh_all_order_independent (yf : yfinance) (db : database)
  (l l' : list string) :
  NoDup (map Asset.asset_id (assets db)) ->
  NoDup l -> Permutation l l' ->
  RefreshAll.db (refresh_all_loop yf l db)
  = RefreshAll.db (refresh_all_loop yf l' db)
  /\ RefreshAll.updated_tickers_count (refresh_all_loop yf l db)
     = RefreshAll.updated_tickers_count (refresh_all_loop yf l' db)
  /\ Permutation (RefreshAll.failed_tickers (refresh_all_loop yf l db))
       (RefreshAll.failed_tickers (refresh_all_loop yf l' db)).
Proof.
  intros Hn Hl P.
  assert (Hl' : NoDup l') by (apply (Permutation_NoDup P Hl)).
  unfold refresh_all_loop.
  destruct (@refresh_fold yf l
              {| RefreshAll.db := db; RefreshAll.updated_tickers_count := 0;
                 RefreshAll.failed_tickers := []; RefreshAll.out := [] |}
              Hl Hn) as (-> & -> & ->).
  destruct (@refresh_fold yf l'
              {| RefreshAll.db := db; RefreshAll.updated_tickers_count := 0;
                 RefreshAll.failed_tickers := []; RefreshAll.out := [] |}
              Hl' Hn) as (-> & -> & ->).
  cbn [RefreshAll.db RefreshAll.updated_tickers_count
    RefreshAll.failed_tickers app]. split; [|split].
  - f_equal. apply map_ext. intro a.
    assert (E : existsb (String.eqb (Asset.ticker_symbol a)) l
                = existsb (String.eqb (Asset.ticker_symbol a)) l').
    { destruct (existsb _ l') eqn:E'.
      - apply existsb_exists in E' as [t [Hin E']].
        apply existsb_exists. exists t. split; [|exact E'].
        apply (Permutation_in _ (Permutation_sym P) Hin).
      - destruct (existsb _ l) eqn:E; [|reflexivity].
        apply existsb_exists in E as [t [Hin E]].
        assert (C : existsb (String.eqb (Asset.ticker_symbol a)) l' = true)
          by (apply existsb_exists; exists t; split;
              [apply (Permutation_in _ P Hin) | exact E]).
        congruence. }
    rewrite E. reflexivity.
  - f_equal. apply Permutation_length.
    clear Hl Hl'. induction P; cbn [filter].
    + constructor.
    + destruct (ticker yf x); [constructor|]; exact IHP.
    + destruct (ticker yf x), (ticker yf y);
        try apply Permutation_refl. apply perm_swap.
    + eapply perm_trans; eassumption.
  - clear Hl Hl'. induction P; cbn [filter].
    + constructor.
    + destruct (ticker yf x); [|constructor]; exact IHP.
    + destruct (ticker yf x), (ticker yf y);
        try apply Permutation_refl. apply perm_swap.
    + eapply perm_trans; eassumption.
Qed.

Lemma refresh_all_order_independent_witness :
  RefreshAll.db
    (refresh_all_loop text_high_provider ["AAA"; "BBB"]%string example_db)
  = RefreshAll.db
      (refresh_all_loop text_high_provider ["BBB"; "AAA"]%string example_db).
Proof.
  apply (@refresh_all_order_independent text_high_provider example_db
           ["AAA"; "BBB"]%string ["BBB"; "AAA"]%string).
  - repeat constructor; cbn; intuition (try discriminate; try lia).
  - repeat constructor; cbn; intuition discriminate.
  - apply perm_swap.
Defined.

(** X24.  The refresh of all assets treats each asset as its own refresh
    would: when the loop walks the distinct tickers of the store, every
    asset id is found afterwards with the row that the single-asset refresh
    of that id leaves (prices, name and all), although the loop writes by
    ticker and the single refresh by id. *)
Theorem refresh_all_agrees_with_single_refresh (yf : yfinance)
  (db : database) (l : list string) (asset_id : Z) :
  NoDup (map Asset.asset_id (assets db)) ->
  Permutation l (distinct_tickers db) ->
  find_asset (RefreshAll.db (refresh_all_loop yf l db)) asset_id
  = find_asset (fst (fst (refresh_asset_data yf db asset_id))) asset_id.
Proof.
  intros Hn P. destruct (distinct_tickers_cover db P) as [Hl Hc].
  rewrite refresh_all_rows by assumption.
  rewrite refresh_asset_data_row.
  destruct (find_asset db asset_id) as [a|] eqn:E; [|reflexivity].
  apply find_asset_in in E as [Ha _]. cbn [option_map].
  rewrite (Hc a Ha). reflexivity.
Qed.

Lemma refresh_all_agrees_with_single_refresh_witness :
  find_asset
    (RefreshAll.db
       (refresh_all_loop text_high_provider (distinct_tickers example_db)
          example_db)) 2
  = find_asset (fst (fst (refresh_asset_data text_high_provider example_db 2)))
      2.
Proof.
  apply (@refresh_all_agrees_with_single_refresh text_high_provider
           example_db (distinct_tickers example_db) 2).
  - repeat constructor; cbn; intuition (try discriminate; try lia).
  - apply Permutation_refl.
Defined.

(** X25.  The loop accounts for every ticker and never touches a holding:
    each ticker is counted as updated or listed as failed, the failed ones
    being exactly those whose gateway call failed; an asset of a failed
    ticker keeps its row; and every asset keeps its id, account, ticker,
    quantity, average cost and total invested. *)
Theorem refresh_all_accounts_for_every_ticker (yf : yfinance)
  (db : database) (l : list string) :
  NoDup (map Asset.asset_id (assets db)) ->
  NoDup l ->
  (RefreshAll.updated_tickers_count (refresh_all_loop yf l db)
   + List.length (RefreshAll.failed_tickers (refresh_all_loop yf l db))
   = List.length l)%nat
  /\ (forall t, In t (RefreshAll.failed_tickers (refresh_all_loop yf l db))
                <-> In t l /\ ticker yf t = None)
  /\ (forall a, In a (assets db) ->
        ticker yf (Asset.ticker_symbol a) = None ->
        find_asset (RefreshAll.db (refresh_all_loop yf l db))
          (Asset.asset_id a) = Some a)
  /\ (forall a, In a (assets db) ->
        exists a',
          find_asset (RefreshAll.db (refresh_all_loop yf l db))
            (Asset.asset_id a) = Some a'
          /\ Asset.account_id a' = Asset.account_id a
          /\ Asset.ticker_symbol a' = Asset.ticker_symbol a
          /\ Asset.quantity a' = Asset.quantity a
          /\ Asset.average_cost a' = Asset.average_cost a
          /\ Asset.total_invested a' = Asset.total_invested a).
Proof.
  intros Hn Hl. split; [|split; [|split]].
  - unfold refresh_all_loop.
    destruct (@refresh_fold yf l
                {| RefreshAll.db := db;
                   RefreshAll.updated_tickers_count := 0;
                   RefreshAll.failed_tickers := []; RefreshAll.out := [] |}
                Hl Hn) as (_ & -> & ->).
    cbn [RefreshAll.updated_tickers_count RefreshAll.failed_tickers app
      Nat.add]. clear Hl.
    induction l as [|t l IH]; cbn [filter List.length]; [reflexivity|].
    destruct (ticker yf t); cbn [List.length]; lia.
  - intro t. unfold refresh_all_loop.
    destruct (@refresh_fold yf l
                {| RefreshAll.db := db;
                   RefreshAll.updated_tickers_count := 0;
                   RefreshAll.failed_tickers := []; RefreshAll.out := [] |}
                Hl Hn) as (_ & _ & ->).
    cbn [RefreshAll.failed_tickers app]. rewrite filter_In.
    destruct (ticker yf t); split; intros [H1 H2];
      (split; [exact H1|]); (reflexivity || discriminate).
  - intros a Ha Hfail. rewrite refresh_all_rows by assumption.
    rewrite (find_asset_of_in db a Hn Ha). cbn [option_map].
    destruct (existsb _ l); [|reflexivity].
    unfold refreshed_row, fetch_market_data. rewrite Hfail. reflexivity.
  - intros a Ha. rewrite refresh_all_rows by assumption.
    rewrite (find_asset_of_in db a Hn Ha). cbn [option_map].
    eexists. split; [reflexivity|].
    destruct (existsb _ l); [|repeat split].
    destruct (refreshed_row_keys yf a) as (_ & K2 & K3 & K4 & K5 & K6).
    repeat split; assumption.
Qed.

Lemma refresh_all_accounts_for_every_ticker_witness :
  (RefreshAll.updated_tickers_count
     (refresh_all_loop no_provider ["AAA"; "BBB"]%string example_db)
   + List.length
       (RefreshAll.failed_tickers
          (refresh_all_loop no_provider ["AAA"; "BBB"]%string example_db))
   = 2)%nat.
Proof.
  apply (@refresh_all_accounts_for_every_ticker no_provider example_db
           ["AAA"; "BBB"]%string).
  - repeat constructor; cbn; intuition (try discriminate; try lia).
  - repeat constructor; cbn; intuition discriminate.
Defined.

(** ** The gateway's price sources *)

Lemma iloc_last_snoc (h : list Q) (c : Q) : iloc_last (h ++ [c]) = Some c.
Proof.
  unfold iloc_last. destruct (h ++ [c]) as [|x l] eqn:E.
  - destruct h; discriminate.
  - rewrite <- E. rewrite last_last. reflexivity.
Qed.

Lemma iloc_second_last_snoc (h : list Q) (y c : Q) :
  iloc_second_last (h ++ [y; c]) = Some y.
Proof.
  unfold iloc_second_last. rewrite rev_app_distr. reflexivity.
Qed.

(** X26.  Where the gateway takes its prices from.  When the five-day
    history has at least two closes, the current price and yesterday's price
    are its last two closes, whatever the info dictionary says, and no
    warning is printed for them.  When the history is empty, the fallback
    chain of the current price stops at the first key that is present: a
    [currentPrice] key bound to [None] leaves the price unavailable even if
    a bid or an ask is known. *)
Theorem fetch_market_data_price_sources (yf : yfinance)
  (ticker_symbol : string) (info : Info.t) (hist : list Q) :
  ticker yf ticker_symbol = Some (info, hist) ->
  exists market_data out,
    fetch_market_data yf ticker_symbol = (Some market_data, out)
    /\ (forall h y c, hist = h ++ [y; c] ->
        MarketData.current_price market_data = Some c
        /\ MarketData.price_yesterday market_data = Some y
        /\ (forall v, ~ In (NotANumber "current_price" ticker_symbol v) out)
        /\ (forall v,
              ~ In (NotANumber "price_yesterday" ticker_symbol v) out))
    /\ (hist = [] -> forall v, Info.currentPrice info = Some v ->
        MarketData.current_price market_data = numeric_or_none v)
    /\ (hist = [] -> Info.currentPrice info = Some PyNone ->
        MarketData.current_price market_data = None).
Proof.
  intro H. unfold fetch_market_data. rewrite H.
  eexists. eexists. split; [reflexivity|]. split; [|split].
  - intros h y c ->. unfold quote_data, coerce_numeric, coercion_warnings.
    replace (h ++ [y; c]) with ((h ++ [y]) ++ [c])
      by (rewrite <- app_assoc; reflexivity).
    rewrite iloc_last_snoc.
    replace ((h ++ [y]) ++ [c]) with (h ++ [y; c])
      by (rewrite <- app_assoc; reflexivity).
    rewrite iloc_second_last_snoc.
    cbn [MarketData.current_price MarketData.price_yesterday
      RawData.current_price RawData.price_yesterday
      RawData.fifty_two_week_high RawData.fifty_two_week_low
      numeric_or_none flat_map snd fst app].
    split; [reflexivity|]. split; [reflexivity|].
    split; intros v C;
      destruct (get (Info.fiftyTwoWeekHigh info)),
        (get (Info.fiftyTwoWeekLow info));
      cbn in C; intuition discriminate.
  - intros -> v Hv. unfold quote_data, coerce_numeric.
    cbn [iloc_last MarketData.current_price RawData.current_price].
    rewrite Hv. reflexivity.
  - intros -> Hv. unfold quote_data, coerce_numeric.
    cbn [iloc_last MarketData.current_price RawData.current_price].
    rewrite Hv. reflexivity.
Qed.

Lemma fetch_market_data_price_sources_witness :
  exists market_data out,
    fetch_market_data text_high_provider "AAA" = (Some market_data, out)
    /\ MarketData.current_price market_data = Some 101
    /\ MarketData.price_yesterday market_data = Some 100.
Proof.
  destruct (@fetch_market_data_price_sources text_high_provider "AAA" _ _
              eq_refl) as [md [out (H1 & H2 & _)]].
  exists md, out. split; [exact H1|].
  destruct (H2 [] 100 101 eq_refl) as (H3 & H4 & _).
  split; [exact H3 | exact H4].
Defined.

(** ** User management: properties *)

Lemma distinct_names (l : list string) :
  distinct String.eqb l = true <-> NoDup l.
Proof.
  induction l as [|x l IH]; cbn [distinct].
  - split; [constructor | reflexivity].
  - rewrite andb_true_iff, negb_true_iff, IH. split.
    + intros [Hx Hl]. constructor; [|exact Hl].
      intro C.
      assert (E : existsb (String.eqb x) l = true); [|congruence].
      apply existsb_exists. exists x. split; [exact C|].
      apply String.eqb_refl.
    + intro H. inversion H as [|? ? Hx Hl]; subst. split; [|exact Hl].
      destruct (existsb (String.eqb x) l) eqn:E; [|reflexivity].
      apply existsb_exists in E as [y [Hy E]]. apply String.eqb_eq in E.
      subst y. contradiction.
Qed.

Lemma rename_user_ids (l : list User.row) (user_id : Z) (new_name : string) :
  map User.user_id (map (rename_user user_id new_name) l)
  = map User.user_id l.
Proof.
  rewrite map_map. apply map_ext. intro u. unfold rename_user.
  destruct (Z.eqb (User.user_id u) user_id); reflexivity.
Qed.

Lemma rename_user_unique (l : list User.row) (user_id : Z)
  (new_name : string) :
  NoDup (map User.user_id l) ->
  NoDup (map User.name l) ->
  (forall u, In u l -> User.user_id u <> user_id ->
             User.name u <> new_name) ->
  NoDup (map User.name (map (rename_user user_id new_name) l)).
Proof.
  induction l as [|a l IH]; cbn [map]; intros Hid Hh Hother; [constructor|].
  inversion Hid as [|? ? Hia Hil]; subst.
  inversion Hh as [|? ? Hha Hhl]; subst.
  assert (IH' := IH Hil Hhl (fun b Hb => Hother b (or_intror Hb))).
  constructor; [|exact IH'].
  rewrite map_map. intro C. apply in_map_iff in C as [b [E Hb]].
  unfold rename_user in E |- *.
  destruct (Z.eqb (User.user_id a) user_id) eqn:Ea;
    destruct (Z.eqb (User.user_id b) user_id) eqn:Eb;
    cbn [User.name] in E.
  - apply Z.eqb_eq in Ea, Eb. apply Hia. rewrite Ea, <- Eb.
    apply in_map. exact Hb.
  - apply Z.eqb_neq in Eb. apply (Hother b (or_intror Hb) Eb E).
  - apply Z.eqb_neq in Ea.
    apply (Hother a (or_introl eq_refl) Ea). symmetry. exact E.
  - apply Hha. rewrite <- E. apply in_map. exact Hb.
Qed.

Lemma execute_on_users_ok (db : database) (rows : list User.row) :
  NoDup (map User.name rows) ->
  execute_on_users db rows = Some (with_users db rows).
Proof.
  intro H. unfold execute_on_users. apply distinct_names in H.
  rewrite H. reflexivity.
Qed.

Lemma name_not_stored (db : database) (name : string) :
  existsb (fun u => String.eqb (User.name u) name) (users db) = false ->
  ~ In name (map User.name (users db)).
Proof.
  intros H C. apply in_map_iff in C as [u [E Hu]].
  assert (T : existsb (fun u => String.eqb (User.name u) name) (users db)
              = true); [|congruence].
  apply existsb_exists. exists u. split; [exact Hu|].
  apply String.eqb_eq. exact E.
Qed.

(** X27.  Adding a user keeps the user table well formed.  On a store whose
    users have distinct ids and distinct names, with the new id larger than
    the stored ones, the handler adds at most one row, never reports a
    database failure, and returns a store whose users again have distinct
    ids and names; a row is added exactly when the name is not empty and not
    taken.  The other tables are untouched. *)
Theorem manage_users_keeps_names_unique (db db' : database) (new_id : Z)
  (name : string) (fl : list (user_message * category)) :
  user_constraints db ->
  (forall u, In u (users db) -> (User.user_id u < new_id)%Z) ->
  manage_users db new_id name = (db', fl) ->
  user_constraints db'
  /\ (forall m cat, In (m, cat) fl -> m <> UserAddFailed name)
  /\ ((name = EmptyString \/ In name (map User.name (users db))) ->
      db' = db)
  /\ (name <> EmptyString -> ~ In name (map User.name (users db)) ->
      users db' = users db
                  ++ [ {| User.user_id := new_id; User.name := name |} ]
      /\ fl = [(UserAdded name new_id, success)])
  /\ platforms db' = platforms db /\ accounts db' = accounts db
  /\ assets db' = assets db
  /\ portfolio_history db' = portfolio_history db.
Proof.
  intros [Hid Hnm] Hfresh H. unfold manage_users in H.
  destruct (String.eqb name EmptyString) eqn:En; cbn [negb] in H.
  - injection H as <- <-. apply String.eqb_eq in En.
    split; [split; assumption|].
    split; [intros m cat [[= <- <-]|[]]; discriminate|].
    split; [reflexivity|]. split; [intro C; contradiction|].
    repeat split.
  - apply String.eqb_neq in En.
    destruct (existsb (fun u => String.eqb (User.name u) name) (users db))
      eqn:Ex.
    + injection H as <- <-. split; [split; assumption|].
      split; [intros m cat [[= <- <-]|[]]; discriminate|].
      split; [reflexivity|]. split; [|repeat split].
      intros _ C. exfalso. apply C.
      apply existsb_exists in Ex as [u [Hu E]]. apply String.eqb_eq in E.
      apply in_map_iff. exists u. auto.
    + apply name_not_stored in Ex.
      assert (Hnd : NoDup (map User.name
                             (users db
                              ++ [ {| User.user_id := new_id;
                                      User.name := name |} ]))).
      { rewrite map_app. apply NoDup_snoc; assumption. }
      rewrite (@execute_on_users_ok db _ Hnd) in H. injection H as <- <-.
      split.
      { split; [|exact Hnd]. cbn [with_users users]. rewrite map_app.
        apply NoDup_snoc; [exact Hid|]. cbn [map User.user_id].
        intro C. apply in_map_iff in C as [u [E Hu]].
        apply Hfresh in Hu. lia. }
      split; [intros m cat [[= <- <-]|[]]; discriminate|].
      split; [intros [C|C]; contradiction|].
      split; [intros _ _; split; reflexivity|]. repeat split.
Qed.

Lemma manage_users_keeps_names_unique_witness :
  exists db' fl,
    manage_users example_db 3 "carol" = (db', fl)
    /\ user_constraints db'.
Proof.
  destruct (manage_users example_db 3 "carol") as [db' fl] eqn:E.
  exists db', fl. split; [reflexivity|].
  apply (@manage_users_keeps_names_unique example_db db' 3 "carol" fl).
  - split; repeat constructor; cbn; intuition (try discriminate; try lia).
  - intros u Hu. cbn in Hu.
    repeat (destruct Hu as [<- | Hu]; [cbn; lia|]). destruct Hu.
  - exact E.
Defined.

Lemma find_user_in (db : database) (user_id : Z) (u : User.row) :
  find_user db user_id = Some u ->
  In u (users db) /\ User.user_id u = user_id.
Proof.
  unfold find_user. intro H. apply find_some in H as [Hin E].
  apply Z.eqb_eq in E. auto.
Qed.

Lemma find_user_rename (l : list User.row) (user_id : Z) (new_name : string)
  (id' : Z) :
  find (fun u => Z.eqb (User.user_id u) id')
    (map (rename_user user_id new_name) l)
  = option_map (rename_user user_id new_name)
      (find (fun u => Z.eqb (User.user_id u) id') l).
Proof.
  induction l as [|a l IH]; cbn [map find]; [reflexivity|].
  assert (E : User.user_id (rename_user user_id new_name a)
              = User.user_id a).
  { unfold rename_user. destruct (Z.eqb (User.user_id a) user_id);
      reflexivity. }
  rewrite E. destruct (Z.eqb (User.user_id a) id');
    [reflexivity | exact IH].
Qed.

(** X28.  Renaming a user changes one name and nothing else.  On a store
    whose users have distinct ids and names the edit handler never reports a
    database failure or "not updated"; the store it returns has the same
    user ids in the same order and again distinct names, so every account
    that named a stored user still does; and when the handler reports the
    update, the user is found under the new name while every other user is
    found as before. *)
Theorem edit_user_renames_one_user (db db' : database) (user_id : Z)
  (new_name : string) (fl : list (user_message * category)) :
  user_constraints db ->
  edit_user db user_id new_name = (db', fl) ->
  user_constraints db'
  /\ map User.user_id (users db') = map User.user_id (users db)
  /\ (accounts_resolved db -> accounts_resolved db')
  /\ (forall m cat, In (m, cat) fl ->
      forall old, m <> UserUpdateFailed old /\ m <> UserNotUpdated old)
  /\ (forall old, In (UserUpdated old new_name, success) fl ->
      find_user db user_id
      = Some {| User.user_id := user_id; User.name := old |}
      /\ find_user db' user_id
         = Some {| User.user_id := user_id; User.name := new_name |}
      /\ forall id', id' <> user_id -> find_user db' id' = find_user db id')
  /\ ((forall old, ~ In (UserUpdated old new_name, success) fl) -> db' = db)
  /\ platforms db' = platforms db /\ accounts db' = accounts db
  /\ assets db' = assets db
  /\ portfolio_history db' = portfolio_history db.
Proof.
  intros [Hid Hnm] H. unfold edit_user in H.
  assert (Hsame : forall m cat,
             (forall old, m <> UserUpdateFailed old
                          /\ m <> UserNotUpdated old) ->
             (forall old, m <> UserUpdated old new_name) ->
             (db, [(m, cat)]) = (db', fl) ->
             user_constraints db'
             /\ map User.user_id (users db') = map User.user_id (users db)
             /\ (accounts_resolved db -> accounts_resolved db')
             /\ (forall m cat, In (m, cat) fl ->
                 forall old, m <> UserUpdateFailed old
                             /\ m <> UserNotUpdated old)
             /\ (forall old, In (UserUpdated old new_name, success) fl ->
                 find_user db user_id
                 = Some {| User.user_id := user_id; User.name := old |}
                 /\ find_user db' user_id
                    = Some {| User.user_id := user_id;
                              User.name := new_name |}
                 /\ forall id', id' <> user_id ->
                      find_user db' id' = find_user db id')
             /\ ((forall old, ~ In (UserUpdated old new_name, success) fl)
                 -> db' = db)
             /\ platforms db' = platforms db /\ accounts db' = accounts db
             /\ assets db' = assets db
             /\ portfolio_history db' = portfolio_history db).
  { intros m cat Hm Hu [= <- <-]. split; [split; assumption|].
    split; [reflexivity|]. split; [auto|].
    split; [intros m' cat' [[= <- <-]|[]]; exact Hm|].
    split; [intros old [[= C _]|[]]; exfalso; apply (Hu old); auto|].
    repeat split. }
  destruct (find_user db user_id) as [user|] eqn:Hf;
    [|eapply Hsame; [| |exact H]; intros; try split; discriminate].
  destruct (String.eqb new_name EmptyString);
    [eapply Hsame; [| |exact H]; intros; try split; discriminate|].
  destruct (existsb _ (users db)) eqn:Ex;
    [eapply Hsame; [| |exact H]; intros; try split; discriminate|].
  destruct (String.eqb new_name (User.name user)) eqn:En;
    [eapply Hsame; [| |exact H]; intros; try split; discriminate|].
  destruct (@find_user_in db user_id user Hf) as [Hin Eu].
  assert (Hnd : NoDup (map User.name
                         (map (rename_user user_id new_name) (users db)))).
  { apply rename_user_unique; [exact Hid | exact Hnm |].
    intros u Hu Hne C.
    assert (T : existsb (fun u => String.eqb (User.name u) new_name
                                  && negb (Z.eqb (User.user_id u) user_id))
                  (users db) = true); [|congruence].
    apply existsb_exists. exists u. split; [exact Hu|].
    apply andb_true_iff. split; [apply String.eqb_eq; exact C|].
    apply negb_true_iff. apply Z.eqb_neq. exact Hne. }
  rewrite (@execute_on_users_ok db _ Hnd) in H.
  assert (Hrc : (0 <? List.length
                        (filter (fun u => Z.eqb (User.user_id u) user_id)
                           (users db)))%nat = true).
  { apply Nat.ltb_lt.
    assert (Hi : In user (filter (fun u => Z.eqb (User.user_id u) user_id)
                            (users db)))
      by (apply filter_In; split; [exact Hin | apply Z.eqb_eq; exact Eu]).
    destruct (filter _ (users db)); [contradiction | cbn; lia]. }
  rewrite Hrc in H. injection H as <- <-. unfold user_constraints.
  cbn [with_users users platforms accounts assets portfolio_history].
  split; [split; [rewrite rename_user_ids; exact Hid | exact Hnd]|].
  split; [apply rename_user_ids|].
  split.
  { intros Hr acc Hacc. destruct (Hr acc Hacc) as [[u [Hu E]] Hp].
    split; [|exact Hp].
    exists (rename_user user_id new_name u). split.
    - cbn [with_users users]. apply in_map. exact Hu.
    - rewrite <- E. unfold rename_user.
      destruct (Z.eqb (User.user_id u) user_id); reflexivity. }
  split; [intros m cat [[= <- <-]|[]] old; split; discriminate|].
  split.
  { intros old [[= <-]|[]]. split.
    - destruct user as [i n]. cbn in Eu |- *. subst i. reflexivity.
    - split.
      + unfold find_user. cbn [with_users users].
        rewrite find_user_rename. fold (find_user db user_id). rewrite Hf.
        cbn [option_map]. unfold rename_user. rewrite Eu, Z.eqb_refl.
        reflexivity.
      + intros id' Hne. unfold find_user. cbn [with_users users].
        rewrite find_user_rename.
        destruct (find (fun u => Z.eqb (User.user_id u) id') (users db))
          as [u|] eqn:F; [|reflexivity].
        apply find_some in F as [_ F]. apply Z.eqb_eq in F.
        cbn [option_map]. unfold rename_user.
        assert (E : Z.eqb (User.user_id u) user_id = false)
          by (apply Z.eqb_neq; congruence).
        rewrite E. reflexivity. }
  split; [|repeat split].
  intro C. exfalso. apply (C (User.name user)). left. reflexivity.
Qed.

Lemma edit_user_renames_one_user_witness :
  exists db' fl,
    edit_user example_db 1 "robert" = (db', fl)
    /\ user_constraints db'
    /\ map User.user_id (users db') = map User.user_id (users example_db).
Proof.
  destruct (edit_user example_db 1 "robert") as [db' fl] eqn:E.
  exists db', fl. split; [reflexivity|].
  destruct (@edit_user_renames_one_user example_db db' 1 "robert" fl)
    as (H1 & H2 & _).
  - split; repeat constructor; cbn; intuition (try discriminate; try lia).
  - exact E.
  - split; [exact H1 | exact H2].
Defined.

(** ** The asset table under any sequence of requests *)

Lemma accepted_holding_same (a b : Asset.row) :
  Asset.quantity b = Asset.quantity a ->
  Asset.average_cost b = Asset.average_cost a ->
  Asset.total_invested b = Asset.total_invested a ->
  accepted_holding a -> accepted_holding b.
Proof.
  intros E1 E2 E3 (q & c & t & H1 & H2 & H3 & H).
  exists q, c, t. rewrite E1, E2, E3. auto.
Qed.

Lemma store_ok_map (db : database) (g : Asset.row -> Asset.row) :
  (forall a, In a (assets db) ->
     Asset.asset_id (g a) = Asset.asset_id a
     /\ holding (g a) = holding a
     /\ (accepted_holding a -> accepted_holding (g a))) ->
  store_ok db -> store_ok (with_assets db (map g (assets db))).
Proof.
  intros Hg [[Hid Hh] Hacc]. unfold store_ok, asset_constraints.
  cbn [with_assets assets]. rewrite !map_map.
  split; [split|].
  - erewrite map_ext_in; [exact Hid|]. intros a Ha. apply (Hg a Ha).
  - erewrite map_ext_in; [exact Hh|]. intros a Ha. apply (Hg a Ha).
  - apply Forall_forall. intros b Hb. apply in_map_iff in Hb as [a [<- Ha]].
    apply (Hg a Ha). apply (proj1 (Forall_forall _ _) Hacc a Ha).
Qed.

Lemma update_asset_as_map (db : database) (asset_id : Z)
  (f : Asset.row -> Asset.row) :
  update_asset db asset_id f
  = with_assets db
      (map (fun a => if Z.eqb (Asset.asset_id a) asset_id then f a else a)
         (assets db)).
Proof. reflexivity. Qed.

Lemma NoDup_map_filter {A B : Type} (k : A -> B) (p : A -> bool)
  (l : list A) :
  NoDup (map k l) -> NoDup (map k (filter p l)).
Proof.
  induction l as [|a l IH]; cbn [map filter]; intro H; [constructor|].
  inversion H as [|? ? Ha Hl]; subst.
  destruct (p a); [|apply IH; exact Hl].
  cbn [map]. constructor; [|apply IH; exact Hl].
  intro C. apply Ha. apply in_map_iff in C as [b [E Hb]].
  apply filter_In in Hb as [Hb _]. apply in_map_iff. exists b. auto.
Qed.

Lemma add_asset_store_ok (yf : yfinance) (db : database)
  (account_id new_id : Z) (ticker_symbol asset_name_manual : string)
  (quantity_str average_cost_str total_invested_str : form_field Q) :
  fresh_id db new_id -> store_ok db ->
  store_ok (fst (fst (add_asset yf db account_id new_id ticker_symbol
                        asset_name_manual quantity_str average_cost_str
                        total_invested_str))).
Proof.
  intros Hfresh [[Hid Hh] Hacc].
  destruct (add_asset yf db account_id new_id ticker_symbol
              asset_name_manual quantity_str average_cost_str
              total_invested_str) as [[db' fl] out] eqn:E.
  cbn [fst]. apply add_asset_inv in E
    as [(-> & _)
       | (q & c & t & _ & _ & _ & _ & _ & Pq & Pc & Pt & _ & -> & Hnd & _)].
  - split; [split|]; assumption.
  - destruct (new_asset_row_keys account_id new_id ticker_symbol
                asset_name_manual q c t
                (fst (fetch_market_data yf ticker_symbol)))
      as (K1 & _ & K3 & K4 & K5).
    split; [split; [|exact Hnd]|].
    + cbn [with_assets assets]. rewrite map_app. cbn [map]. rewrite K1.
      apply NoDup_snoc; [exact Hid | apply fresh_id_not_in; exact Hfresh].
    + cbn [with_assets assets]. apply Forall_app. split; [exact Hacc|].
      constructor; [|constructor]. exists q, c, t.
      repeat (split; [assumption|]). assumption.
Qed.

Lemma edit_asset_store_ok (db db' : database) (asset_id : Z)
  (new_ticker_symbol new_asset_name : string)
  (new_quantity_str new_average_cost_str new_total_invested_str
     : form_field Q) (fl : list notice) :
  edit_asset db asset_id new_ticker_symbol new_asset_name new_quantity_str
    new_average_cost_str new_total_invested_str = Ok (db', fl) ->
  store_ok db -> store_ok db'.
Proof.
  intros H [[Hid Hh] Hacc].
  destruct (@edit_asset_cases db asset_id new_ticker_symbol new_asset_name
              new_quantity_str new_average_cost_str new_total_invested_str
              (@edit_asset_bindable db asset_id new_ticker_symbol
                 new_asset_name new_quantity_str new_average_cost_str
                 new_total_invested_str _ H))
    as [db1 [fl1 [E [(Hsame & _)
       | (asset & q & c & t & Hq & _ & _ & _ & _ & Pq & Pc & Pt & _ & Hnd
          & Hdb & _)]]]];
    rewrite H in E; injection E as <- <-.
  - subst db'. split; [split|]; assumption.
  - assert (Hacc1 : Forall accepted_holding
                      (assets
                         (update_asset db asset_id
                            (set_details new_ticker_symbol
                               (if String.eqb new_asset_name EmptyString
                                then Asset.name asset
                                else Some new_asset_name) q c t)))).
    { unfold update_asset. cbn [assets]. apply Forall_forall. intros b Hb.
      apply in_map_iff in Hb as [a [<- Ha]].
      destruct (Z.eqb (Asset.asset_id a) asset_id).
      - exists q, c, t. cbn.
        repeat (split; [assumption || reflexivity|]). assumption.
      - apply (proj1 (Forall_forall _ _) Hacc a Ha). }
    assert (Hid1 : NoDup (map Asset.asset_id
                            (assets
                               (update_asset db asset_id
                                  (set_details new_ticker_symbol
                                     (if String.eqb new_asset_name
                                           EmptyString
                                      then Asset.name asset
                                      else Some new_asset_name) q c t)))))
      by (rewrite update_asset_ids by reflexivity; exact Hid).
    destruct (String.eqb new_ticker_symbol (Asset.ticker_symbol asset));
      subst db'.
    + split; [split|]; assumption.
    + rewrite update_asset_as_map. apply store_ok_map.
      * intros a _.
        destruct (Z.eqb (Asset.asset_id a) asset_id);
          [|split; [|split]; auto].
        split; [reflexivity|]. split; [reflexivity|].
        apply accepted_holding_same; reflexivity.
      * split; [split|]; assumption.
Qed.

Lemma delete_asset_store_ok (db : database) (asset_id : Z) :
  store_ok db -> store_ok (fst (delete_asset db asset_id)).
Proof.
  intros [[Hid Hh] Hacc]. unfold delete_asset.
  assert (Hd : store_ok (delete_from_assets db asset_id)).
  { unfold delete_from_assets, store_ok, asset_constraints.
    cbn [with_assets assets]. split; [split|].
    - apply NoDup_map_filter. exact Hid.
    - apply NoDup_map_filter. exact Hh.
    - apply Forall_forall. intros a Ha. apply filter_In in Ha as [Ha _].
      apply (proj1 (Forall_forall _ _) Hacc a Ha). }
  destruct (find_asset db asset_id); [|split; [split|]; assumption].
  destruct (0 <? rowcount db asset_id)%nat; [exact Hd|].
  destruct (rowcount db asset_id =? 0)%nat; exact Hd.
Qed.

Lemma refresh_asset_data_store_ok (yf : yfinance) (db : database)
  (asset_id : Z) :
  store_ok db -> store_ok (fst (fst (refresh_asset_data yf db asset_id))).
Proof.
  intro Hok. unfold refresh_asset_data.
  destruct (find_asset db asset_id) as [asset|]; [|exact Hok].
  destruct (fetch_market_data yf (Asset.ticker_symbol asset))
    as [[md|] out]; [|exact Hok].
  cbn [fst]. rewrite update_asset_as_map. apply store_ok_map; [|exact Hok].
  intros a _. destruct (Z.eqb (Asset.asset_id a) asset_id);
    [|split; [|split]; auto].
  split; [reflexivity|]. split; [reflexivity|].
  apply accepted_holding_same; reflexivity.
Qed.

Lemma refresh_all_store_ok (yf : yfinance) (db : database)
  (l : list string) :
  NoDup l -> store_ok db ->
  store_ok (RefreshAll.db (refresh_all_loop yf l db)).
Proof.
  intros Hl Hok. unfold refresh_all_loop.
  destruct (@refresh_fold yf l
              {| RefreshAll.db := db; RefreshAll.updated_tickers_count := 0;
                 RefreshAll.failed_tickers := []; RefreshAll.out := [] |}
              Hl (proj1 (proj1 Hok))) as (-> & _).
  cbn [RefreshAll.db]. apply store_ok_map; [|exact Hok].
  intros a _. destruct (existsb _ l); [|split; [|split]; auto].
  destruct (refreshed_row_keys yf a) as (K1 & K2 & K3 & K4 & K5 & K6).
  split; [exact K1|]. split; [unfold holding; congruence|].
  apply accepted_holding_same; assumption.
Qed.

(** X29.  The asset table stays well formed under any sequence of requests.
    Starting from a store whose assets have distinct ids, at most one row
    per account and ticker, a positive quantity and non-negative costs,
    every store reached by adding, editing, deleting and refreshing assets
    (one at a time or all at once, whatever the gateway answers) has the
    same properties, and its users, platforms and accounts are those of the
    start. *)
Theorem asset_table_stays_well_formed (db db' : database) :
  store_ok db -> reachable db db' ->
  store_ok db'
  /\ users db' = users db /\ platforms db' = platforms db
  /\ accounts db' = accounts db.
Proof.
  intros Hok R. induction R as [|db1 db2 R IH S].
  - repeat split; try reflexivity; apply Hok.
  - destruct IH as (Hok1 & Hu & Hp & Ha).
    destruct S as [yf account_id new_id ticker_symbol asset_name_manual
                     qs cs ts Hfresh
                  | asset_id nt nn qs cs ts db2 fl E
                  | asset_id
                  | yf asset_id
                  | yf l Hl].
    + split; [apply add_asset_store_ok; assumption|].
      destruct (add_asset yf db1 account_id new_id ticker_symbol
                  asset_name_manual qs cs ts) as [[d f] o] eqn:E.
      cbn [fst]. apply add_asset_inv in E
        as [(-> & _) | (q & c & t & _ & _ & _ & _ & _ & _ & _ & _ & _ & ->
                        & _)]; auto.
    + split; [apply (@edit_asset_store_ok db1 db2 asset_id nt nn qs cs ts fl
                       E Hok1)|].
      destruct (@edit_asset_cases db1 asset_id nt nn qs cs ts
                  (@edit_asset_bindable db1 asset_id nt nn qs cs ts _ E))
        as [d [f [E' [(Hs & _)
           | (asset & q & c & t & _ & _ & _ & _ & _ & _ & _ & _ & _ & _
              & Hdb & _)]]]];
        rewrite E in E'; injection E' as <- <-.
      * subst db2. auto.
      * destruct (String.eqb nt (Asset.ticker_symbol asset)); subst db2;
          auto.
    + split; [apply delete_asset_store_ok; exact Hok1|].
      unfold delete_asset. destruct (find_asset db1 asset_id); [|auto].
      destruct (0 <? rowcount db1 asset_id)%nat; [auto|].
      destruct (rowcount db1 asset_id =? 0)%nat; auto.
    + split; [apply refresh_asset_data_store_ok; exact Hok1|].
      unfold refresh_asset_data. destruct (find_asset db1 asset_id); [|auto].
      destruct (fetch_market_data yf _) as [[md|] out]; auto.
    + split; [apply refresh_all_store_ok; assumption|].
      unfold refresh_all_loop.
      destruct (@refresh_fold yf l
                  {| RefreshAll.db := db1;
                     RefreshAll.updated_tickers_count := 0;
                     RefreshAll.failed_tickers := [];
                     RefreshAll.out := [] |}
                  Hl (proj1 (proj1 Hok1))) as (-> & _).
      auto.
Qed.

Lemma asset_table_stays_well_formed_witness :
  store_ok (fst (delete_asset example_db 2)).
Proof.
  apply (@asset_table_stays_well_formed example_db
           (fst (delete_asset example_db 2))).
  - split; [split|].
    + repeat constructor; cbn; intuition (try discriminate; try lia).
    + repeat constructor; cbn; intuition discriminate.
    + repeat constructor;
        (eexists; eexists; eexists;
         repeat (split; [reflexivity|]);
         unfold Qlt, Qle; cbn; lia).
  - apply reach_step with (db1 := example_db);
      [apply reach_refl | apply step_delete].
Defined.

(** ** Floats that are not rationals: properties *)

Module FloatFacts.

Lemma le_nan_l (a b : Float.t) : Float.le a b = true -> Float.is_nan a = false.
Proof. destruct a, b; cbn; congruence. Qed.

Lemma le_nan_r (a b : Float.t) : Float.le a b = true -> Float.is_nan b = false.
Proof. destruct a, b; cbn; congruence. Qed.

Lemma lt_nan_l (a b : Float.t) : Float.lt a b = true -> Float.is_nan a = false.
Proof. destruct a, b; cbn; congruence. Qed.

Lemma lt_nan_r (a b : Float.t) : Float.lt a b = true -> Float.is_nan b = false.
Proof. destruct a, b; cbn; congruence. Qed.

(** On numbers, [a <= b] is the negation of [b < a]. *)
Lemma le_not_lt (a b : Float.t) :
  Float.is_nan a = false -> Float.is_nan b = false ->
  Float.le a b = negb (Float.lt b a).
Proof. destruct a, b; cbn; congruence. Qed.

Lemma le_trans (a b c : Float.t) :
  Float.le a b = true -> Float.le b c = true -> Float.le a c = true.
Proof.
  destruct a as [x|[|]|], b as [y|[|]|], c as [z|[|]|]; cbn;
    try discriminate; try reflexivity; try congruence.
  rewrite !negb_involutive. intros H1 H2.
  apply Qle_bool_iff in H1, H2. apply Qle_bool_iff.
  apply (Qle_trans _ _ _ H1 H2).
Qed.

Lemma lt_asym (a b : Float.t) : Float.lt a b = true -> Float.lt b a = false.
Proof.
  destruct a as [x|[|]|], b as [y|[|]|]; cbn;
    try discriminate; try reflexivity.
  intro H. apply negb_true_iff in H. apply negb_false_iff.
  apply Qle_bool_iff. apply Qlt_le_weak. apply Qnot_le_lt.
  intro C. apply Qle_bool_iff in C. congruence.
Qed.

Lemma lt_not_eqb (a b k : Float.t) :
  Float.lt a b = true -> Float.eqb a k = true -> Float.eqb b k = true ->
  False.
Proof.
  unfold Float.eqb. intros Hlt Ha Hb.
  apply andb_true_iff in Ha as [Hak Hka].
  apply andb_true_iff in Hb as [Hbk Hkb].
  assert (Hba : Float.le b a = true) by (apply (le_trans _ _ _ Hbk Hka)).
  rewrite le_not_lt in Hba
    by (first [apply (lt_nan_r _ _ Hlt) | apply (lt_nan_l _ _ Hlt)]).
  rewrite Hlt in Hba. discriminate.
Qed.

End FloatFacts.

(** A stable insertion sort is sorted as soon as [before] is total and
    transitive on the elements that satisfy [P], and they all do. *)
Section SortedOn.
Variable A : Type.
Variable before : A -> A -> bool.
Variable P : A -> Prop.
Hypothesis before_total :
  forall x y, P x -> P y -> before x y = false -> before y x = true.
Hypothesis before_trans :
  forall x y z, P x -> P y -> P z ->
    before x y = true -> before y z = true -> before x z = true.

Lemma insert_sorted_on (x : A) (l : list A) :
  P x -> Forall P l ->
  StronglySorted (fun a b => before a b = true) l ->
  StronglySorted (fun a b => before a b = true) (insert_sorted before x l).
Proof.
  intros Px Pl S. induction S as [|y l S IH F]; cbn.
  - constructor; constructor.
  - inversion Pl as [|? ? Py Pl']; subst.
    destruct (before x y) eqn:E.
    + constructor; [constructor; assumption|].
      constructor; [exact E|].
      rewrite Forall_forall in F, Pl'. apply Forall_forall. intros z Hz.
      apply (before_trans Px Py (Pl' z Hz) E (F z Hz)).
    + constructor; [apply IH; exact Pl'|].
      apply Forall_forall. intros z Hz.
      apply (Permutation_in _ (insert_sorted_perm before x l)) in Hz.
      destruct Hz as [<- | Hz].
      * apply (before_total Px Py E).
      * rewrite Forall_forall in F. apply (F z Hz).
Qed.

Lemma stable_sort_sorted_on (l : list A) :
  Forall P l ->
  StronglySorted (fun a b => before a b = true) (stable_sort before l).
Proof.
  induction l as [|x l IH]; cbn; intro H; [constructor|].
  inversion H as [|? ? Px Pl]; subst.
  apply insert_sorted_on; [exact Px | | apply IH; exact Pl].
  apply Forall_forall. intros z Hz. apply stable_sort_in in Hz.
  rewrite Forall_forall in Pl. apply (Pl z Hz).
Qed.

End SortedOn.

Section SortedReverseFloatFacts.
Variable A : Type.
Variable key : A -> Float.t.

Lemma sorted_reverse_float_perm (l : list A) :
  Permutation (sorted_reverse_float key l) l.
Proof. apply stable_sort_perm. Qed.

(** Without a [nan] among the keys the sorted list is descending. *)
Lemma sorted_reverse_float_descending (l : list A) :
  no_nan key l -> float_descending key (sorted_reverse_float key l).
Proof.
  intro Hn. unfold float_descending, sorted_reverse_float.
  assert (S : StronglySorted
                (fun a b => negb (Float.lt (key a) (key b)) = true)
                (stable_sort
                   (fun x y => negb (Float.lt (key x) (key y))) l)).
  { apply (@stable_sort_sorted_on A
             (fun x y => negb (Float.lt (key x) (key y)))
             (fun x => Float.is_nan (key x) = false)).
    - intros x y _ _ H. apply negb_false_iff in H.
      rewrite (FloatFacts.lt_asym _ _ H). reflexivity.
    - intros x y z Px Py Pz H1 H2.
      rewrite <- (FloatFacts.le_not_lt _ _ Py Px) in H1.
      rewrite <- (FloatFacts.le_not_lt _ _ Pz Py) in H2.
      rewrite <- (FloatFacts.le_not_lt _ _ Pz Px).
      apply (FloatFacts.le_trans _ _ _ H2 H1).
    - exact Hn. }
  assert (Hin : Forall (fun x => Float.is_nan (key x) = false)
                  (stable_sort
                     (fun x y => negb (Float.lt (key x) (key y))) l)).
  { apply Forall_forall. intros z Hz. apply stable_sort_in in Hz.
    unfold no_nan in Hn. rewrite Forall_forall in Hn. apply (Hn z Hz). }
  revert Hin. induction S as [|x s S IH F]; intro Hin; [constructor|].
  inversion Hin as [|? ? Px Ps]; subst.
  constructor; [apply IH; exact Ps|].
  rewrite Forall_forall in F, Ps. apply Forall_forall. intros z Hz.
  rewrite (FloatFacts.le_not_lt _ _ (Ps z Hz) Px). apply (F z Hz).
Qed.

Lemma insert_float_keeps_ties (x : A) (l : list A) (k : Float.t) :
  filter (fun z => Float.eqb (key z) k)
    (insert_sorted (fun x y => negb (Float.lt (key x) (key y))) x l)
  = filter (fun z => Float.eqb (key z) k) (x :: l).
Proof.
  induction l as [|y l IH]; [reflexivity|].
  cbn [insert_sorted].
  destruct (Float.lt (key x) (key y)) eqn:E; cbn [negb]; [|reflexivity].
  cbn [filter] in *. rewrite IH.
  destruct (Float.eqb (key x) k) eqn:Ex; [|reflexivity].
  destruct (Float.eqb (key y) k) eqn:Ey; [|reflexivity].
  exfalso. apply (FloatFacts.lt_not_eqb _ _ _ E Ex Ey).
Qed.

Lemma sorted_reverse_float_keeps_ties (l : list A) :
  float_keeps_ties key l (sorted_reverse_float key l).
Proof.
  unfold float_keeps_ties, sorted_reverse_float. intro k.
  induction l as [|x l IH]; [reflexivity|].
  cbn [stable_sort fold_right].
  rewrite insert_float_keeps_ties. cbn [filter].
  unfold stable_sort in IH. rewrite IH. reflexivity.
Qed.

End SortedReverseFloatFacts.

(** ** The percentage of an asset stored with an infinite cost *)

(** Whatever the quantity, the price and the rounding, an asset stored with
    [total_invested = inf] passes the guard [total_invested > 0] and gets
    [nan] as its percentage: the profit/loss is [-inf] or [nan], and
    dividing either by [inf] gives [nan]. *)
Lemma infinite_cost_nan_percent (round : Q -> Float.t) (asset_id : Z)
  (quantity current_price : option Float.t) :
  exists d,
    derive_float round asset_id (Some (Float.Infinity false)) quantity
      current_price = Ok d
    /\ Float.gt (FloatDetail.total_invested d) (Float.Finite 0) = true
    /\ FloatDetail.profit_loss_percent d = Float.NaN.
Proof.
  unfold derive_float. cbn [Float.or_zero].
  set (cv := match current_price with
             | Some p => Float.mul round (Float.or_zero quantity) p
             | None => Float.Finite 0
             end).
  assert (H : Float.gt (Float.Infinity false) (Float.Finite 0) = true)
    by reflexivity.
  rewrite H.
  assert (E : Float.div round (Float.sub round cv (Float.Infinity false))
                (Float.Infinity false) = Ok Float.NaN).
  { destruct cv as [x|[|]|]; reflexivity. }
  rewrite E. cbn [bind Float.mul]. eexists. split; [reflexivity|].
  split; reflexivity.
Qed.

Lemma infinite_cost_asset_derived (round : Q -> Float.t) :
  derive_float round 2 (Some (Float.Infinity false)) (Some (Float.Finite 1))
    None = Ok infinite_cost_asset.
Proof. reflexivity. Qed.

(** A list with a [nan] key and another element is not descending,
    however it is arranged. *)
Lemma float_descending_no_nan {A : Type} (key : A -> Float.t) (l : list A) :
  float_descending key l -> (2 <= List.length l)%nat -> no_nan key l.
Proof.
  unfold float_descending, no_nan. intros S.
  induction S as [|x l S IH F]; intro Hlen; [constructor|].
  destruct l as [|y l]; [cbn in Hlen; lia|].
  assert (Hl : Forall (fun z => Float.is_nan (key z) = false) (y :: l)).
  { rewrite Forall_forall in F. apply Forall_forall. intros z Hz.
    apply (FloatFacts.le_nan_l _ _ (F z Hz)). }
  constructor; [|exact Hl].
  rewrite Forall_forall in F.
  apply (FloatFacts.le_nan_r _ _ (F y (or_introl eq_refl))).
Qed.

Lemma rank_assets_float_eq (all_assets_detailed : list FloatDetail.t) :
  rank_assets_float all_assets_detailed
  = (hd_error (sorted_reverse_float FloatDetail.profit_loss_percent
                 (assets_with_investment all_assets_detailed)),
     last_error (sorted_reverse_float FloatDetail.profit_loss_percent
                   (assets_with_investment all_assets_detailed)),
     sorted_reverse_float FloatDetail.profit_loss_percent
       (assets_with_investment all_assets_detailed)).
Proof.
  unfold rank_assets_float, assets_with_investment.
  destruct all_assets_detailed as [|a l]; [reflexivity|].
  set (valid := filter _ (a :: l)).
  destruct valid as [|b valid'] eqn:Ev; [reflexivity|].
  destruct (sorted_reverse_float FloatDetail.profit_loss_percent
              (b :: valid')) as [|best rest]; reflexivity.
Qed.

Lemma rank_accounts_float_eq (perf : list FloatPerformance.t) :
  rank_accounts_float perf
  = sorted_reverse_float FloatPerformance.profit_loss_percent
      (accounts_with_investment perf).
Proof. destruct perf; reflexivity. Qed.

Lemma float_descending_extremes {A : Type} (key : A -> Float.t)
  (l : list A) :
  float_descending key l -> no_nan key l ->
  forall b w a, hd_error l = Some b -> last_error l = Some w -> In a l ->
    Float.le (key a) (key b) = true /\ Float.le (key w) (key a) = true.
Proof.
  unfold float_descending, no_nan. intros S N b w a Hb Hw Ha.
  assert (Hrefl : forall z, In z l -> Float.le (key z) (key z) = true).
  { rewrite Forall_forall in N. intros z Hz. specialize (N z Hz).
    destruct (key z) as [q|[|]|]; cbn in *; try discriminate;
      try reflexivity.
    rewrite negb_involutive. apply Qle_bool_iff. apply Qle_refl. }
  split.
  - destruct l as [|x l]; [destruct Ha|]. injection Hb as <-.
    inversion S as [|? ? _ F]; subst. destruct Ha as [<-|Ha].
    + apply Hrefl. left. reflexivity.
    + rewrite Forall_forall in F. apply (F a Ha).
  - clear Hb b. revert Hrefl. clear N.
    induction S as [|x l S IH F]; intros Hrefl; [destruct Ha|].
    unfold last_error in Hw. injection Hw as Hw.
    destruct l as [|y l].
    + cbn in Hw. subst w. destruct Ha as [<-|[]].
      apply Hrefl. left. reflexivity.
    + assert (Hw' : last_error (y :: l) = Some w).
      { unfold last_error. f_equal. rewrite <- Hw. cbn [last].
        destruct l as [|z l]; [reflexivity|].
        clear. revert z. induction l as [|u l IHl]; intro z;
          [reflexivity|].
        cbn [last] in *. apply IHl. }
      destruct Ha as [<-|Ha].
      * rewrite Forall_forall in F. apply F.
        unfold last_error in Hw'. injection Hw' as <-.
        clear. generalize y at 2. induction l as [|u l IHl] in y |- *;
          intro d; [left; reflexivity|].
        right. cbn [last]. apply IHl.
      * apply IH; [exact Hw' | exact Ha |].
        intros z Hz. apply Hrefl. right. exact Hz.
Qed.

(** ** Ranking with float keys *)

(** C7: a counterexample.  An asset stored with [total_invested = inf] has
    [total_invested > 0] and the percentage [nan], so it is ranked.  Between
    a holding at 100% and one at 200% it stays where it is, since no
    comparison with [nan] holds: the ranked list is the input list, the
    "best" performer is the holding at 100% and the "worst" the one at 200%.
    No arrangement of the three is in descending order. *)
Lemma ranking_not_descending_with_nan :
  rank_assets_float [doubled_asset; infinite_cost_asset; tripled_asset]
  = (Some doubled_asset, Some tripled_asset,
     [doubled_asset; infinite_cost_asset; tripled_asset])
  /\ Float.lt (FloatDetail.profit_loss_percent doubled_asset)
       (FloatDetail.profit_loss_percent tripled_asset) = true
  /\ ~ float_descending FloatDetail.profit_loss_percent
         [doubled_asset; infinite_cost_asset; tripled_asset]
  /\ (forall l,
        Permutation l [doubled_asset; infinite_cost_asset; tripled_asset] ->
        ~ float_descending FloatDetail.profit_loss_percent l).
Proof.
  assert (H : forall l,
            Permutation l
              [doubled_asset; infinite_cost_asset; tripled_asset] ->
            ~ float_descending FloatDetail.profit_loss_percent l).
  { intros l P S.
    assert (Hlen : (2 <= List.length l)%nat)
      by (rewrite (Permutation_length P); cbn; lia).
    pose proof (float_descending_no_nan S Hlen) as N.
    unfold no_nan in N. rewrite Forall_forall in N.
    assert (Hin : In infinite_cost_asset l).
    { apply (Permutation_in _ (Permutation_sym P)). right. left.
      reflexivity. }
    specialize (N _ Hin). discriminate. }
  split; [reflexivity|]. split; [reflexivity|].
  split; [apply H; apply Permutation_refl | exact H].
Qed.

(** C7, amended.  The ranked asset list holds exactly the asset
    dictionaries with [total_invested > 0] (each has a
    [profit_loss_percent]), each as often as the input does.  The best
    performer is its first element and the worst performer its last; when
    exactly one asset qualifies it is both.  Provided none of the ranked
    percentages is [nan], the list is in descending order of
    [profit_loss_percent] and assets of equal percentage keep the order they
    have in the input.  The account ranking holds exactly the accounts with
    [total_invested > 0] and is, under the same proviso, in the same
    descending, tie-keeping order. *)
Theorem ranking_descending_unless_nan
  (all_assets_detailed : list FloatDetail.t)
  (all_accounts_performance_data : list FloatPerformance.t) :
  exists best worst ranked,
    rank_assets_float all_assets_detailed = (best, worst, ranked)
    /\ Permutation ranked (assets_with_investment all_assets_detailed)
    /\ (forall a, In a ranked <->
                  In a all_assets_detailed
                  /\ Float.gt (FloatDetail.total_invested a)
                       (Float.Finite 0) = true)
    /\ best = hd_error ranked
    /\ worst = last_error ranked
    /\ (forall a, assets_with_investment all_assets_detailed = [a] ->
                  ranked = [a] /\ best = Some a /\ worst = Some a)
    /\ (no_nan FloatDetail.profit_loss_percent
          (assets_with_investment all_assets_detailed) ->
        float_descending FloatDetail.profit_loss_percent ranked
        /\ float_keeps_ties FloatDetail.profit_loss_percent
             (assets_with_investment all_assets_detailed) ranked)
    /\ Permutation (rank_accounts_float all_accounts_performance_data)
         (accounts_with_investment all_accounts_performance_data)
    /\ (no_nan FloatPerformance.profit_loss_percent
          (accounts_with_investment all_accounts_performance_data) ->
        float_descending FloatPerformance.profit_loss_percent
          (rank_accounts_float all_accounts_performance_data)
        /\ float_keeps_ties FloatPerformance.profit_loss_percent
             (accounts_with_investment all_accounts_performance_data)
             (rank_accounts_float all_accounts_performance_data)).
Proof.
  rewrite rank_assets_float_eq, rank_accounts_float_eq.
  eexists; eexists; eexists. split; [reflexivity|].
  split; [apply sorted_reverse_float_perm|].
  split.
  { intro a. unfold sorted_reverse_float. rewrite stable_sort_in.
    unfold assets_with_investment. apply filter_In. }
  split; [reflexivity|]. split; [reflexivity|].
  split.
  { intros a Ha. rewrite Ha. repeat split; reflexivity. }
  split.
  { intro N. split; [apply sorted_reverse_float_descending; exact N
                    | apply sorted_reverse_float_keeps_ties]. }
  split; [apply sorted_reverse_float_perm|].
  intro N. split; [apply sorted_reverse_float_descending; exact N
                  | apply sorted_reverse_float_keeps_ties].
Qed.

(** Without the asset of infinite cost the ranking of the example is the
    tripled holding before the doubled one. *)
Lemma ranking_descending_unless_nan_witness :
  no_nan FloatDetail.profit_loss_percent
    (assets_with_investment [doubled_asset; tripled_asset])
  /\ exists best worst ranked,
       rank_assets_float [doubled_asset; tripled_asset]
       = (best, worst, ranked)
       /\ ranked = [tripled_asset; doubled_asset]
       /\ float_descending FloatDetail.profit_loss_percent ranked.
Proof.
  assert (N : no_nan FloatDetail.profit_loss_percent
                (assets_with_investment [doubled_asset; tripled_asset]))
    by (repeat constructor).
  split; [exact N|].
  destruct (ranking_descending_unless_nan [doubled_asset; tripled_asset] [])
    as (best & worst & ranked & E & _ & _ & _ & _ & _ & H & _).
  exists best, worst, ranked. split; [exact E|].
  split; [|apply (H N)].
  vm_compute in E. injection E as _ _ <-. reflexivity.
Defined.

(** X10.  Provided none of the ranked percentages is [nan]: the best and the
    worst performer exist exactly when the ranking is not empty; they are
    ranked assets, no ranked asset has a percentage above the best
    performer's and none has one below the worst performer's. *)
Theorem best_and_worst_extremes (all_assets_detailed : list FloatDetail.t) :
  no_nan FloatDetail.profit_loss_percent
    (assets_with_investment all_assets_detailed) ->
  exists best worst ranked,
    rank_assets_float all_assets_detailed = (best, worst, ranked)
    /\ (ranked = [] -> best = None /\ worst = None)
    /\ (ranked <> [] ->
        exists b w,
          best = Some b /\ worst = Some w /\ In b ranked /\ In w ranked
          /\ forall a, In a ranked ->
               Float.le (FloatDetail.profit_loss_percent a)
                 (FloatDetail.profit_loss_percent b) = true
               /\ Float.le (FloatDetail.profit_loss_percent w)
                    (FloatDetail.profit_loss_percent a) = true).
Proof.
  intro N. rewrite rank_assets_float_eq.
  set (ranked := sorted_reverse_float FloatDetail.profit_loss_percent
                   (assets_with_investment all_assets_detailed)).
  assert (S : float_descending FloatDetail.profit_loss_percent ranked)
    by (apply sorted_reverse_float_descending; exact N).
  assert (N' : no_nan FloatDetail.profit_loss_percent ranked).
  { unfold no_nan in *. rewrite Forall_forall in *. intros z Hz.
    apply N. unfold ranked, sorted_reverse_float in Hz.
    apply stable_sort_in in Hz. exact Hz. }
  exists (hd_error ranked), (last_error ranked), ranked.
  split; [reflexivity|]. split.
  - intros ->. split; reflexivity.
  - intro Hne. destruct ranked as [|x l] eqn:E; [contradiction|].
    exists x, (last (x :: l) x).
    split; [reflexivity|]. split; [reflexivity|].
    split; [left; reflexivity|]. split.
    + clear. generalize x at 1 3. induction l as [|u l IHl] in x |- *;
        intro d; [left; reflexivity|].
      right. cbn [last]. apply IHl.
    + intros a Ha.
      apply (float_descending_extremes S N' (b := x)
               (w := last (x :: l) x) a); [reflexivity | reflexivity
                                           | exact Ha].
Qed.

Lemma best_and_worst_extremes_witness :
  exists best worst ranked,
    rank_assets_float [doubled_asset; tripled_asset] = (best, worst, ranked)
    /\ best = Some tripled_asset /\ worst = Some doubled_asset.
Proof.
  assert (N : no_nan FloatDetail.profit_loss_percent
                (assets_with_investment [doubled_asset; tripled_asset]))
    by (repeat constructor).
  destruct (best_and_worst_extremes [doubled_asset; tripled_asset] N)
    as (best & worst & ranked & E & _).
  exists best, worst, ranked. split; [exact E|].
  vm_compute in E. injection E as <- <- _. split; reflexivity.
Defined.

(** ** The daily snapshot with a float value *)

Lemma record_snapshot_float_cases (history : list float_snapshot)
  (d : string) (v : Float.t) :
  record_snapshot_float history d v
  = if has_snapshot_float history d then history
    else if Float.is_nan v then history
    else history ++ [(d, v)].
Proof.
  unfold record_snapshot_float, insert_portfolio_history_float.
  cbn [fst snd].
  destruct (find (fun s => String.eqb (fst s) d) history) as [s|] eqn:E.
  - destruct (has_snapshot_float history d) eqn:H; [reflexivity|].
    apply find_none_existsb in H. unfold float_snapshot in *. congruence.
  - reflexivity.
Qed.

Lemma has_snapshot_float_in (history : list float_snapshot) (d : string) :
  has_snapshot_float history d = true <-> In d (map fst history).
Proof.
  unfold has_snapshot_float. rewrite existsb_exists, in_map_iff.
  split; intros [s [H1 H2]]; exists s.
  - apply String.eqb_eq in H2. auto.
  - split; [exact H2|]. apply String.eqb_eq. exact H1.
Qed.

Lemma has_snapshot_float_app (history : list float_snapshot)
  (s : float_snapshot) :
  has_snapshot_float (history ++ [s]) (fst s) = true.
Proof.
  apply has_snapshot_float_in. rewrite map_app. apply in_or_app. right.
  left. reflexivity.
Qed.

(** The overall value of a portfolio with an asset worth [inf] and a cash
    balance of [-inf] is [nan], whatever the rounding. *)
Lemma overall_value_can_be_nan (round : Q -> Float.t) :
  overall_portfolio_value_float round (Float.Infinity false)
    (Float.Infinity true) = Float.NaN.
Proof. reflexivity. Qed.

(** C3: a counterexample.  With one asset whose quantity is [inf] and a
    cash balance of [-inf] the overall value of the portfolio is
    [inf + -inf], that is [nan].  The date of the run has no snapshot, the
    run computes this value, and the [INSERT] is refused because
    [total_portfolio_value] is [NOT NULL]: the history after the run is the
    history before it, with no row for the date. *)
Lemma snapshot_refused_for_nan :
  has_snapshot_float example_history_float "2024-01-02" = false
  /\ overall_portfolio_value_float round_exact (Float.Infinity false)
       (Float.Infinity true) = Float.NaN
  /\ record_snapshot_float example_history_float "2024-01-02"
       (overall_portfolio_value_float round_exact (Float.Infinity false)
          (Float.Infinity true))
     = example_history_float
  /\ has_snapshot_float
       (record_snapshot_float example_history_float "2024-01-02"
          (overall_portfolio_value_float round_exact (Float.Infinity false)
             (Float.Infinity true)))
       "2024-01-02" = false.
Proof. repeat split; reflexivity. Qed.

(** C3, amended.  When the history holds at most one snapshot per date, so
    does the history after the snapshot step of a dashboard run.  If the
    date of the run already has a snapshot the step inserts nothing and the
    history, with the value recorded for the date, is unchanged.  If it has
    none and the just-computed [overall_portfolio_value] is not [nan], the
    step appends exactly one row, carrying the date and that value; if the
    value is [nan] the row is refused and the history is unchanged.  A
    second run on the date, computing the same value, changes nothing; once
    the date has its snapshot no later run on the date changes anything,
    whatever value it computes. *)
Theorem snapshot_once_per_day_unless_nan (history : list float_snapshot)
  (today_str : string) (overall_portfolio_value : Float.t) :
  one_per_date_float history ->
  one_per_date_float
    (record_snapshot_float history today_str overall_portfolio_value)
  /\ (has_snapshot_float history today_str = true ->
      record_snapshot_float history today_str overall_portfolio_value
      = history)
  /\ (has_snapshot_float history today_str = false ->
      Float.is_nan overall_portfolio_value = false ->
      record_snapshot_float history today_str overall_portfolio_value
      = history ++ [(today_str, overall_portfolio_value)])
  /\ (has_snapshot_float history today_str = false ->
      Float.is_nan overall_portfolio_value = true ->
      record_snapshot_float history today_str overall_portfolio_value
      = history)
  /\ record_snapshot_float
       (record_snapshot_float history today_str overall_portfolio_value)
       today_str overall_portfolio_value
     = record_snapshot_float history today_str overall_portfolio_value
  /\ (has_snapshot_float
        (record_snapshot_float history today_str overall_portfolio_value)
        today_str = true ->
      forall later_value,
        record_snapshot_float
          (record_snapshot_float history today_str overall_portfolio_value)
          today_str later_value
        = record_snapshot_float history today_str overall_portfolio_value)
  /\ (has_snapshot_float history today_str = true
      \/ Float.is_nan overall_portfolio_value = false ->
      has_snapshot_float
        (record_snapshot_float history today_str overall_portfolio_value)
        today_str = true).
Proof.
  intro Hone.
  assert (Hlater : forall h,
             has_snapshot_float h today_str = true ->
             forall v2, record_snapshot_float h today_str v2 = h).
  { intros h Hh v2. rewrite record_snapshot_float_cases, Hh. reflexivity. }
  assert (Hnan : forall h,
             Float.is_nan overall_portfolio_value = true ->
             record_snapshot_float h today_str overall_portfolio_value = h).
  { intros h Hn. rewrite record_snapshot_float_cases, Hn.
    destruct (has_snapshot_float h today_str); reflexivity. }
  destruct (has_snapshot_float history today_str) eqn:Eh.
  - rewrite (Hlater history Eh).
    split; [exact Hone|]. split; [reflexivity|].
    split; [discriminate|]. split; [discriminate|].
    split; [apply Hlater; exact Eh|].
    split; [intros _; apply Hlater; exact Eh|]. intros _. exact Eh.
  - destruct (Float.is_nan overall_portfolio_value) eqn:En.
    + rewrite (Hnan history eq_refl).
      split; [exact Hone|]. split; [discriminate|].
      split; [discriminate|]. split; [reflexivity|].
      split; [apply Hnan; reflexivity|].
      split; [intro C; congruence|]. intros [C|C]; discriminate.
    + assert (E : record_snapshot_float history today_str
                    overall_portfolio_value
                  = history ++ [(today_str, overall_portfolio_value)])
        by (rewrite record_snapshot_float_cases, Eh, En; reflexivity).
      rewrite E.
      pose proof (has_snapshot_float_app history
                    (today_str, overall_portfolio_value)) as Ha.
      cbn [fst] in Ha.
      split.
      { unfold one_per_date_float in *. rewrite map_app. cbn [map fst].
        apply NoDup_snoc; [exact Hone|].
        intro C. apply has_snapshot_float_in in C. congruence. }
      split; [discriminate|]. split; [reflexivity|].
      split; [discriminate|].
      split; [apply Hlater; exact Ha|].
      split; [intros _; apply Hlater; exact Ha|]. intros _. exact Ha.
Qed.

Lemma snapshot_once_per_day_unless_nan_witness :
  one_per_date_float example_history_float
  /\ record_snapshot_float example_history_float "2024-01-02"
       (Float.Finite 1550)
     = [("2024-01-01"%string, Float.Finite 7);
        ("2024-01-02"%string, Float.Finite 1550)]
  /\ one_per_date_float
       (record_snapshot_float example_history_float "2024-01-02"
          (Float.Finite 1550)).
Proof.
  assert (H : one_per_date_float example_history_float).
  { unfold one_per_date_float. cbn.
    constructor; [cbn; tauto | constructor]. }
  split; [exact H|].
  destruct (snapshot_once_per_day_unless_nan "2024-01-02"
              (Float.Finite 1550) H) as (H1 & _ & H2 & _).
  split; [apply H2; reflexivity | exact H1].
Defined.

(** ** The buy simulation over floats: properties *)

Lemma float_gt_not_le (a b : Float.t) :
  Float.gt a b = true -> Float.le a b = false.
Proof.
  unfold Float.gt. intro H.
  destruct a as [x|[|]|], b as [y|[|]|]; cbn in *;
    try discriminate; try reflexivity.
  rewrite H. reflexivity.
Qed.

(** A divisor that is [> 0] is not zero: the division returns. *)
Lemma float_div_defined (round : Q -> Float.t) (a b : Float.t) :
  Float.gt b (Float.Finite 0) = true ->
  exists r, Float.div round a b = Ok r.
Proof.
  unfold Float.gt. intro H. destruct b as [y|n|]; cbn in *;
    [|destruct a; eexists; reflexivity | discriminate].
  assert (E : Qeq_bool y 0 = false).
  { destruct (Qeq_bool y 0) eqn:E; [|reflexivity].
    apply Qeq_bool_iff in E. apply negb_true_iff in H.
    assert (C : Qle_bool y 0 = true)
      by (apply Qle_bool_iff; rewrite E; apply Qle_refl).
    congruence. }
  rewrite E. destruct a; eexists; reflexivity.
Qed.

Lemma float_or_one_positive (x : option Float.t) :
  Float.gt (Float.or_zero x) (Float.Finite 0) = true ->
  float_or_one x = Float.or_zero x.
Proof.
  destruct x as [[q|n|]|]; cbn; try reflexivity.
  - destruct (Qeq_bool q 0); [discriminate | reflexivity].
  - discriminate.
Qed.

Lemma float_percent_defined (round : Q -> Float.t) (n d : Float.t) :
  exists p, float_percent_if_positive round n d = Ok p.
Proof.
  unfold float_percent_if_positive.
  destruct (Float.gt d (Float.Finite 0)) eqn:E; [|eexists; reflexivity].
  destruct (float_div_defined round n d E) as [r Hr]. rewrite Hr.
  eexists. reflexivity.
Qed.

(** Once the inputs are read as valid and the shares are [> 0], the
    simulation returns a result with the projection. *)
Lemma simulate_buy_float_run (round : Q -> Float.t)
  (assets : list FloatAsset.row) (asset_id : Z) (a : FloatAsset.row)
  (price shares : Float.t)
  (amount_str shares_str : form_field Float.t) :
  find_asset_float assets asset_id = Some a ->
  FloatAsset.current_price a = Some price ->
  truthy amount_str || truthy shares_str = true ->
  read_buy_inputs_float round price amount_str shares_str
  = Ok (shares, Float.mul round shares price, true, []) ->
  Float.gt shares (Float.Finite 0) = true ->
  exists r,
    simulate_buy_existing_asset_float round assets (Parsed asset_id)
      amount_str shares_str = Ok (Some r, [(BuyCalculated, info)])
    /\ FloatBuy.shares_purchased r = shares
    /\ buy_projection_float round a price r.
Proof.
  intros Hfind Hprice Hgiven Hread Hpos.
  unfold simulate_buy_existing_asset_float.
  cbn [truthy parse bind negb].
  assert (Hg : negb (truthy amount_str) && negb (truthy shares_str) = false).
  { destruct (truthy amount_str), (truthy shares_str);
      cbn in *; congruence. }
  rewrite Hg. unfold simulate_buy_body_float. cbn [parse bind].
  rewrite Hfind. cbn [select_by_id bind]. rewrite Hprice, Hread.
  cbn [bind]. rewrite Hpos. cbn [andb].
  set (ntq := Float.add round (Float.or_zero (FloatAsset.quantity a)) shares).
  set (nti := Float.add round (Float.or_zero (FloatAsset.total_invested a))
                (Float.mul round shares price)).
  assert (Havg : exists avg,
             (if Float.gt ntq (Float.Finite 0)
              then Float.div round nti ntq else Ok (Float.Finite 0))
             = Ok avg
             /\ (Float.gt ntq (Float.Finite 0) = true ->
                 Float.div round nti ntq = Ok avg)
             /\ (Float.gt ntq (Float.Finite 0) = false ->
                 avg = Float.Finite 0)).
  { destruct (Float.gt ntq (Float.Finite 0)) eqn:E.
    - destruct (float_div_defined round nti ntq E) as [avg Havg].
      exists avg. split; [exact Havg|]. split; [intros _; exact Havg|].
      discriminate.
    - eexists. split; [reflexivity|]. split; [discriminate|].
      intros _. reflexivity. }
  destruct Havg as [avg [Eavg [Gavg1 Gavg0]]]. rewrite Eavg. cbn [bind].
  destruct (float_percent_defined round
              (Float.sub round (Float.mul round ntq price) nti) nti)
    as [np Enp].
  rewrite Enp. cbn [bind].
  assert (Hcur : exists cp,
             (if Float.gt (Float.or_zero (FloatAsset.total_invested a))
                   (Float.Finite 0)
              then r <- Float.div round
                          (Float.sub round
                             (Float.mul round
                                (Float.or_zero (FloatAsset.quantity a))
                                (Float.or_zero (Some price)))
                             (Float.or_zero (FloatAsset.total_invested a)))
                          (float_or_one (FloatAsset.total_invested a)) ;;
                   Ok (Float.mul round r (Float.Finite 100))
              else Ok (Float.Finite 0)) = Ok cp).
  { destruct (Float.gt (Float.or_zero (FloatAsset.total_invested a))
                (Float.Finite 0)) eqn:E; [|eexists; reflexivity].
    rewrite (float_or_one_positive _ E).
    destruct (float_div_defined round
                (Float.sub round
                   (Float.mul round
                      (Float.or_zero (FloatAsset.quantity a))
                      (Float.or_zero (Some price)))
                   (Float.or_zero (FloatAsset.total_invested a)))
                (Float.or_zero (FloatAsset.total_invested a)) E)
      as [r Hr].
    rewrite Hr. eexists. reflexivity. }
  destruct Hcur as [cp Ecp]. rewrite Ecp. cbn [bind app].
  eexists. split; [reflexivity|]. split; [reflexivity|].
  unfold buy_projection_float. cbn.
  repeat (split; [first [reflexivity | assumption]|]). exact Enp.
Qed.

Lemma Qred_inject_Z (z : Z) : Qred (inject_Z z) = inject_Z z.
Proof.
  unfold Qred, inject_Z.
  generalize (Z.ggcd_gcd z 1) (Z.ggcd_correct_divisors z 1).
  destruct (Z.ggcd z 1) as [g [r1 r2]]. cbn [fst snd].
  rewrite Z.gcd_1_r. intros -> [H1 H2].
  rewrite Z.mul_1_l in H1, H2. subst. reflexivity.
Qed.

Lemma round_exact_keeps_integers : keeps_integers round_exact.
Proof.
  intros q z E _. unfold round_exact. f_equal.
  rewrite (Qred_complete _ _ E). apply Qred_inject_Z.
Qed.

Lemma read_buy_inputs_float_amount (round : Q -> Float.t)
  (price amount shares : Float.t) (shares_str : form_field Float.t) :
  Float.gt amount (Float.Finite 0) = true ->
  Float.div round amount price = Ok shares ->
  read_buy_inputs_float round price (Parsed amount) shares_str
  = Ok (shares, Float.mul round shares price, true, []).
Proof.
  intros Ha Hd. unfold read_buy_inputs_float. cbn [truthy parse bind].
  rewrite (float_gt_not_le _ _ Ha), Hd. reflexivity.
Qed.

Lemma read_buy_inputs_float_shares (round : Q -> Float.t)
  (price shares : Float.t) :
  Float.gt shares (Float.Finite 0) = true ->
  read_buy_inputs_float round price Blank (Parsed shares)
  = Ok (shares, Float.mul round shares price, true, []).
Proof.
  intros Hs. unfold read_buy_inputs_float. cbn [truthy parse bind].
  rewrite (float_gt_not_le _ _ Hs). reflexivity.
Qed.

(** A positive amount whose quotient by the price is zero (the quotient of
    two positive floats can round to zero) gives no result and no
    message: the input counts as provided, and the shares are not [> 0]. *)
Lemma buy_vanishing_quotient (round : Q -> Float.t)
  (assets : list FloatAsset.row) (asset_id : Z) (a : FloatAsset.row)
  (price amount : Float.t) :
  find_asset_float assets asset_id = Some a ->
  FloatAsset.current_price a = Some price ->
  Float.gt amount (Float.Finite 0) = true ->
  Float.div round amount price = Ok (Float.Finite 0) ->
  simulate_buy_existing_asset_float round assets (Parsed asset_id)
    (Parsed amount) Blank = Ok (None, []).
Proof.
  intros Hfind Hprice Ha Hd. unfold simulate_buy_existing_asset_float.
  cbn [truthy parse bind negb andb]. unfold simulate_buy_body_float.
  cbn [parse bind]. rewrite Hfind. cbn [select_by_id bind].
  rewrite Hprice,
    (@read_buy_inputs_float_amount round price amount _ Blank Ha Hd).
  reflexivity.
Qed.

(** C5: a counterexample.  For an existing asset whose known price is [0] a
    positive investment amount makes the simulation divide by the price;
    the handler catches the [ZeroDivisionError] and reports an error, and
    no result is computed. *)
Lemma buy_by_amount_zero_price_float :
  option_map FloatAsset.current_price
    (find_asset_float example_assets_float 1)
  = Some (Some (Float.Finite 0))
  /\ Float.gt (Float.Finite 600) (Float.Finite 0) = true
  /\ simulate_buy_existing_asset_float round_exact example_assets_float
       (Parsed 1%Z) (Parsed (Float.Finite 600)) Blank
     = Ok (None, [(BuyException ZeroDivisionError, error_)]).
Proof. repeat split; reflexivity. Qed.

(** C5, amended.  For an existing asset whose [current_price] is known, with
    every operation a float operation: when a positive investment amount is
    given and the quotient [investment_amount / current_price] is defined
    (the price is not zero) and comes out [> 0], the shares purchased are
    that quotient; when no investment amount is given and a positive number
    of shares is, the shares purchased are that number.  In both cases the
    cost is [shares * price], the new quantity and invested total add the
    purchase to the stored ones, the new average cost is their quotient
    ([0] unless the new quantity is [> 0]), the new value is
    [new quantity * price], and the new profit/loss amount and percentage
    follow.  With quantity 5, total invested 500, price 120 and an amount of
    600 (all results are integers, which rounding keeps): 5 shares, new
    quantity 10, new total invested 1100, new average cost 110. *)
Theorem simulate_buy_correct_float (round : Q -> Float.t)
  (assets : list FloatAsset.row) (asset_id : Z) (a : FloatAsset.row)
  (price : Float.t) :
  find_asset_float assets asset_id = Some a ->
  FloatAsset.current_price a = Some price ->
  (forall amount shares_str shares,
     Float.gt amount (Float.Finite 0) = true ->
     Float.div round amount price = Ok shares ->
     Float.gt shares (Float.Finite 0) = true ->
     exists r,
       simulate_buy_existing_asset_float round assets (Parsed asset_id)
         (Parsed amount) shares_str = Ok (Some r, [(BuyCalculated, info)])
       /\ FloatBuy.shares_purchased r = shares
       /\ buy_projection_float round a price r)
  /\ (forall shares,
     Float.gt shares (Float.Finite 0) = true ->
     exists r,
       simulate_buy_existing_asset_float round assets (Parsed asset_id)
         Blank (Parsed shares) = Ok (Some r, [(BuyCalculated, info)])
       /\ FloatBuy.shares_purchased r = shares
       /\ buy_projection_float round a price r)
  /\ (keeps_integers round ->
      FloatAsset.quantity a = Some (Float.Finite 5) ->
      FloatAsset.total_invested a = Some (Float.Finite 500) ->
      price = Float.Finite 120 ->
      exists r,
        simulate_buy_existing_asset_float round assets (Parsed asset_id)
          (Parsed (Float.Finite 600)) Blank
        = Ok (Some r, [(BuyCalculated, info)])
        /\ FloatBuy.shares_purchased r = Float.Finite 5
        /\ FloatBuy.new_total_quantity r = Float.Finite 10
        /\ FloatBuy.new_total_invested r = Float.Finite 1100
        /\ FloatBuy.new_average_cost r = Float.Finite 110).
Proof.
  intros Hfind Hprice.
  assert (Hamount : forall amount shares_str shares,
     Float.gt amount (Float.Finite 0) = true ->
     Float.div round amount price = Ok shares ->
     Float.gt shares (Float.Finite 0) = true ->
     exists r,
       simulate_buy_existing_asset_float round assets (Parsed asset_id)
         (Parsed amount) shares_str = Ok (Some r, [(BuyCalculated, info)])
       /\ FloatBuy.shares_purchased r = shares
       /\ buy_projection_float round a price r).
  { intros amount shares_str shares Ha Hd Hs.
    apply (@simulate_buy_float_run round assets asset_id a price shares
             (Parsed amount) shares_str Hfind Hprice eq_refl
             (@read_buy_inputs_float_amount round price amount shares
                shares_str Ha Hd) Hs). }
  split; [exact Hamount|]. split.
  - intros shares Hs.
    apply (@simulate_buy_float_run round assets asset_id a price shares
             Blank (Parsed shares) Hfind Hprice eq_refl
             (@read_buy_inputs_float_shares round price shares Hs) Hs).
  - intros Hround Hq Ht ->.
    assert (R : forall q z, q == inject_Z z -> (Z.abs z <= 2 ^ 53)%Z ->
                            round q = Float.Finite (inject_Z z))
      by exact Hround.
    assert (Hd : Float.div round (Float.Finite 600) (Float.Finite 120)
                 = Ok (Float.Finite 5)).
    { cbn. rewrite (R (600 / 120) 5%Z); [reflexivity | reflexivity|].
      vm_compute. discriminate. }
    destruct (Hamount (Float.Finite 600) Blank (Float.Finite 5) eq_refl Hd
                eq_refl)
      as [r (E & Hs & Hc & Hn & Hi & Ha1 & _)].
    exists r. split; [exact E|]. split; [exact Hs|].
    rewrite Hs in Hc, Hn. rewrite Hq in Hn. rewrite Ht in Hi.
    assert (Ec : FloatBuy.cost_of_purchase r = Float.Finite 600).
    { rewrite Hc. cbn. rewrite (R (5 * 120) 600%Z);
        [reflexivity | reflexivity|]. vm_compute. discriminate. }
    assert (En : FloatBuy.new_total_quantity r = Float.Finite 10).
    { rewrite Hn. cbn. rewrite (R (5 + 5) 10%Z);
        [reflexivity | reflexivity|]. vm_compute. discriminate. }
    assert (Ei : FloatBuy.new_total_invested r = Float.Finite 1100).
    { rewrite Hi, Ec. cbn. rewrite (R (500 + 600) 1100%Z);
        [reflexivity | reflexivity|]. vm_compute. discriminate. }
    split; [exact En|]. split; [exact Ei|].
    rewrite En, Ei in Ha1. specialize (Ha1 eq_refl). cbn in Ha1.
    rewrite (R (1100 / 10) 110%Z) in Ha1;
      [injection Ha1 as <-; reflexivity | reflexivity|].
    vm_compute. discriminate.
Qed.

Lemma simulate_buy_correct_float_witness :
  exists r,
    simulate_buy_existing_asset_float round_exact example_assets_float
      (Parsed 2%Z) (Parsed (Float.Finite 600)) Blank
    = Ok (Some r, [(BuyCalculated, info)])
    /\ FloatBuy.shares_purchased r = Float.Finite 5
    /\ FloatBuy.new_total_quantity r = Float.Finite 10
    /\ FloatBuy.new_total_invested r = Float.Finite 1100
    /\ FloatBuy.new_average_cost r = Float.Finite 110.
Proof.
  destruct (@simulate_buy_correct_float round_exact example_assets_float 2
              _ (Float.Finite 120) eq_refl eq_refl) as (_ & _ & H).
  apply H; [apply round_exact_keeps_integers | reflexivity..].
Defined.

(** X14.  When a positive investment amount buys a number of shares that
    is [> 0] (the quotient [investment_amount / current_price] as the
    handler computes it), investing the amount is the same simulation as
    buying that number of shares: the two requests return the same
    result. *)
Theorem buy_by_amount_is_buy_by_shares (round : Q -> Float.t)
  (assets : list FloatAsset.row) (asset_id : Z) (a : FloatAsset.row)
  (price amount shares : Float.t) :
  find_asset_float assets asset_id = Some a ->
  FloatAsset.current_price a = Some price ->
  Float.gt amount (Float.Finite 0) = true ->
  Float.div round amount price = Ok shares ->
  Float.gt shares (Float.Finite 0) = true ->
  exists r,
    simulate_buy_existing_asset_float round assets (Parsed asset_id)
      (Parsed amount) Blank = Ok (Some r, [(BuyCalculated, info)])
    /\ simulate_buy_existing_asset_float round assets (Parsed asset_id)
         Blank (Parsed shares) = Ok (Some r, [(BuyCalculated, info)]).
Proof.
  intros Hfind Hprice Ha Hd Hs.
  destruct (@simulate_buy_float_run round assets asset_id a price shares
              (Parsed amount) Blank Hfind Hprice eq_refl
              (@read_buy_inputs_float_amount round price amount shares
                 Blank Ha Hd) Hs)
    as [r (E1 & _)].
  exists r. split; [exact E1|].
  revert E1. unfold simulate_buy_existing_asset_float.
  cbn [truthy parse bind negb andb]. unfold simulate_buy_body_float.
  cbn [parse bind]. rewrite Hfind. cbn [select_by_id bind].
  rewrite Hprice,
    (@read_buy_inputs_float_amount round price amount shares Blank Ha Hd),
    (@read_buy_inputs_float_shares round price shares Hs).
  cbn [orb truthy]. intro E1. exact E1.
Qed.

Lemma buy_by_amount_is_buy_by_shares_witness :
  exists r,
    simulate_buy_existing_asset_float round_exact example_assets_float
      (Parsed 2%Z) (Parsed (Float.Finite 600)) Blank
    = Ok (Some r, [(BuyCalculated, info)])
    /\ simulate_buy_existing_asset_float round_exact example_assets_float
         (Parsed 2%Z) Blank (Parsed (Float.Finite 5))
       = Ok (Some r, [(BuyCalculated, info)]).
Proof.
  exact (@buy_by_amount_is_buy_by_shares round_exact example_assets_float 2
           _ (Float.Finite 120) (Float.Finite 600) (Float.Finite 5)
           eq_refl eq_refl eq_refl eq_refl eq_refl).
Defined.
